(** * MPAD command parser: a shallow embedding of [input_parser.py]

    The development follows the layout of the Python sources:

    - [PyStr]: the string methods the parser calls ([strip], [upper],
      [lower], [capwords], [int]);
    - [Re]: the part of Python's [re] module the parser relies on
      ([re.search], [re.findall], [re.sub] over backtracking patterns
      with groups, greedy and lazy repetition, [\b], [^] and [$]);
    - [utility_modules.getdaysuntil];
    - the parser of [input_parser.py], function by function;
    - the functions of [utility_modules.py] that shape the outgoing
      lines, dump a text in hexadecimal and pick a time stamp.

    Message texts are APRS texts: strings over 8-bit characters, with
    the ASCII character classes.  Bytes above 127 are neutral symbols
    (no case, neither word characters nor white space). *)

From Stdlib Require Import Bool Arith ZArith List Lia.
From Stdlib Require Import Strings.Ascii Strings.String Numbers.DecimalString.
From Stdlib Require Import Floats.
Import ListNotations.

(* ================================================================= *)
(** ** Python string methods *)

Module PyStr.

Definition code (c : ascii) : nat := nat_of_ascii c.

Definition between (lo hi : nat) (c : ascii) : bool :=
  (lo <=? code c) && (code c <=? hi).

Definition is_digit : ascii -> bool := between 48 57.
Definition is_upper : ascii -> bool := between 65 90.
Definition is_lower : ascii -> bool := between 97 122.
Definition is_alpha (c : ascii) : bool := is_upper c || is_lower c.
Definition is_alnum (c : ascii) : bool := is_alpha c || is_digit c.

(** [\w]: letters, digits and the underscore. *)
Definition is_word (c : ascii) : bool := is_alnum c || (code c =? 95).

(** [str.isspace] on ASCII: TAB, LF, VT, FF, CR, FS, GS, RS, US, SPACE. *)
Definition is_space (c : ascii) : bool :=
  between 9 13 c || between 28 31 c || (code c =? 32).

Definition to_lower (c : ascii) : ascii :=
  if is_upper c then ascii_of_nat (code c + 32) else c.

Definition to_upper (c : ascii) : ascii :=
  if is_lower c then ascii_of_nat (code c - 32) else c.

Definition chars : string -> list ascii := list_ascii_of_string.
Definition text : list ascii -> string := string_of_list_ascii.

(** [s.lower()], [s.upper()] *)
Definition lower (s : string) : string := text (map to_lower (chars s)).
Definition upper (s : string) : string := text (map to_upper (chars s)).

Fixpoint lstrip_chars (l : list ascii) : list ascii :=
  match l with
  | c :: t => if is_space c then lstrip_chars t else l
  | [] => []
  end.

Definition strip_chars (l : list ascii) : list ascii :=
  rev (lstrip_chars (rev (lstrip_chars l))).

(** [s.strip()] *)
Definition strip (s : string) : string := text (strip_chars (chars s)).

(** [s.split()]: the maximal runs of characters that are not white
    space.  [cur] is the word being read, reversed. *)
Fixpoint split_chars (cur : list ascii) (l : list ascii) : list (list ascii) :=
  match l with
  | [] => match cur with [] => [] | _ => [rev cur] end
  | c :: t =>
      if is_space c
      then match cur with
           | [] => split_chars [] t
           | _ => rev cur :: split_chars [] t
           end
      else split_chars (c :: cur) t
  end.

(** [w.capitalize()] *)
Definition capitalize_chars (w : list ascii) : list ascii :=
  match w with
  | [] => []
  | c :: t => to_upper c :: map to_lower t
  end.

Fixpoint join_chars (sep : list ascii) (ws : list (list ascii)) : list ascii :=
  match ws with
  | [] => []
  | [w] => w
  | w :: rest => w ++ sep ++ join_chars sep rest
  end.

(** [string.capwords(s)]: split on white space, capitalize every
    word, join with single blanks. *)
Definition capwords (s : string) : string :=
  text (join_chars [" "%char] (map capitalize_chars (split_chars [] (chars s)))).

(** [int(s)] for a string of decimal digits (the only strings the
    parser converts); anything else raises [ValueError], here [None]. *)
Fixpoint int_chars (acc : Z) (l : list ascii) : option Z :=
  match l with
  | [] => Some acc
  | c :: t =>
      if is_digit c
      then int_chars (10 * acc + Z.of_nat (code c - 48))%Z t
      else None
  end.

Definition int_of_str (s : string) : option Z :=
  match chars s with
  | [] => None
  | l => int_chars 0%Z l
  end.

(** [str(n)] for an integer. *)
Definition str_of_int (n : Z) : string := NilZero.string_of_int (Z.to_int n).

(** Truth value of an optional string: [None] and [""] are false. *)
Definition truthy (o : option string) : bool :=
  match o with
  | None => false
  | Some s => negb (String.eqb s "")
  end.

(** How an f-string renders a value that may be [None]. *)
Definition fmt (o : option string) : string :=
  match o with
  | None => "None"
  | Some s => s
  end.

Definition contains (c : ascii) (s : string) : bool :=
  existsb (Ascii.eqb c) (chars s).

End PyStr.

Import PyStr.

(* ================================================================= *)
(** ** Python's [re] module, as far as the parser uses it *)

Module Re.

(** Patterns.  [Chr p] is one character of the class [p]; [Star] is
    the greedy and [Lazy] the non-greedy repetition; [Grp i] is the
    capturing group number [i]; [WordB], [Bol] and [Eol] are [\b],
    [^] and [$]. *)
Inductive regex : Type :=
| Eps
| Chr (p : ascii -> bool)
| Seq (a b : regex)
| Alt (a b : regex)
| Star (a : regex)
| Lazy (a : regex)
| Grp (i : nat) (a : regex)
| WordB
| Bol
| Eol.

(** A position in the subject: the character before it, the text
    after it and the groups captured so far. *)
Record cursor : Type := Cursor {
  prev : option ascii;
  rest : list ascii;
  caps : list (nat * list ascii)
}.

Definition advance (c : ascii) (t : list ascii) (s : cursor) : cursor :=
  Cursor (Some c) t (caps s).

Definition shorter (s' s : cursor) : bool :=
  List.length (rest s') <? List.length (rest s).

(** The text between two positions of one subject. *)
Definition consumed (s s' : cursor) : list ascii :=
  firstn (List.length (rest s) - List.length (rest s')) (rest s).

Definition capture (i : nat) (s s' : cursor) : cursor :=
  Cursor (prev s') (rest s') ((i, consumed s s') :: caps s').

Definition word_before (s : cursor) : bool :=
  match prev s with Some c => is_word c | None => false end.

Definition word_after (s : cursor) : bool :=
  match rest s with c :: _ => is_word c | [] => false end.

Definition at_boundary (s : cursor) : bool :=
  xorb (word_before s) (word_after s).

Definition at_start (s : cursor) : bool :=
  match prev s with None => true | Some _ => false end.

(** [$] matches at the end and before a final line feed. *)
Definition at_end (s : cursor) : bool :=
  match rest s with
  | [] => true
  | [c] => code c =? 10
  | _ => false
  end.

(** The iterations of a greedy repetition, the longest first; an
    iteration that consumes nothing is given up.  [n] bounds the
    number of iterations by the length of the text. *)
Fixpoint star_loop (body : cursor -> list cursor) (n : nat) (s : cursor)
  : list cursor :=
  match n with
  | O => [s]
  | S n' =>
      flat_map (fun s' => if shorter s' s then star_loop body n' s' else [])
               (body s) ++ [s]
  end.

(** The iterations of a non-greedy repetition, the shortest first. *)
Fixpoint lazy_loop (body : cursor -> list cursor) (n : nat) (s : cursor)
  : list cursor :=
  match n with
  | O => [s]
  | S n' =>
      s :: flat_map (fun s' => if shorter s' s then lazy_loop body n' s' else [])
                    (body s)
  end.

(** All the ways for [r] to match at [s], in the order in which the
    backtracking matcher tries them: the head is the match Python
    reports. *)
Fixpoint matches (r : regex) (s : cursor) : list cursor :=
  match r with
  | Eps => [s]
  | Chr p =>
      match rest s with
      | c :: t => if p c then [advance c t s] else []
      | [] => []
      end
  | Seq a b => flat_map (matches b) (matches a s)
  | Alt a b => matches a s ++ matches b s
  | Star a => star_loop (matches a) (S (List.length (rest s))) s
  | Lazy a => lazy_loop (matches a) (S (List.length (rest s))) s
  | Grp i a => map (capture i s) (matches a s)
  | WordB => if at_boundary s then [s] else []
  | Bol => if at_start s then [s] else []
  | Eol => if at_end s then [s] else []
  end.

(** The match at one position.  [must_advance] refuses an empty match
    (set by the scanning functions after an empty match). *)
Definition match_here (r : regex) (must_advance : bool) (s : cursor)
  : option cursor :=
  hd_error (filter (fun s' => negb must_advance || shorter s' s) (matches r s)).

(** A match object: the text skipped before the match, the position
    where the match starts and the one where it ends. *)
Record hit : Type := Hit {
  skipped : list ascii;
  h_start : cursor;
  h_end : cursor
}.

Definition skip (c : ascii) (h : hit) : hit :=
  Hit (c :: skipped h) (h_start h) (h_end h).

(** Leftmost match at or after the position [(p, l)]. *)
Fixpoint search_at (r : regex) (must_advance : bool)
         (p : option ascii) (l : list ascii) : option hit :=
  match match_here r must_advance (Cursor p l []) with
  | Some e => Some (Hit [] (Cursor p l []) e)
  | None =>
      match l with
      | [] => None
      | c :: t => option_map (skip c) (search_at r false (Some c) t)
      end
  end.

Definition is_empty_hit (h : hit) : bool :=
  List.length (rest (h_end h)) =? List.length (rest (h_start h)).

(** The successive non-overlapping matches, as [re.finditer] yields
    them. *)
Fixpoint scan (fuel : nat) (r : regex) (must_advance : bool)
         (p : option ascii) (l : list ascii) : list hit :=
  match fuel with
  | O => []
  | S fuel' =>
      match search_at r must_advance p l with
      | None => []
      | Some h =>
          h :: scan fuel' r (is_empty_hit h) (prev (h_end h)) (rest (h_end h))
      end
  end.

(** [re.sub(r, "", s)] on characters: what is left when every match
    is cut out. *)
Fixpoint cut (fuel : nat) (r : regex) (must_advance : bool)
         (p : option ascii) (l : list ascii) : list ascii :=
  match fuel with
  | O => l
  | S fuel' =>
      match search_at r must_advance p l with
      | None => l
      | Some h =>
          skipped h ++
          cut fuel' r (is_empty_hit h) (prev (h_end h)) (rest (h_end h))
      end
  end.

Definition enough (l : list ascii) : nat := 2 * List.length l + 2.

(** [re.search(pattern=r, string=s)] *)
Definition search (r : regex) (s : string) : option hit :=
  search_at r false None (chars s).

(** [re.findall(pattern=r, string=s)], one match object per entry. *)
Definition findall (r : regex) (s : string) : list hit :=
  scan (enough (chars s)) r false None (chars s).

(** [re.sub(pattern=r, repl="", string=s)] *)
Definition sub (r : regex) (s : string) : string :=
  text (cut (enough (chars s)) r false None (chars s)).

Fixpoint lookup (i : nat) (cs : list (nat * list ascii)) : option (list ascii) :=
  match cs with
  | [] => None
  | (j, v) :: t => if i =? j then Some v else lookup i t
  end.

(** [m[i]] for a match object [m]: group 0 is the whole match, a group
    that took no part in the match is [None]. *)
Definition group (i : nat) (h : hit) : option string :=
  match i with
  | O => Some (text (consumed (h_start h) (h_end h)))
  | _ => option_map text (lookup i (caps (h_end h)))
  end.

(** A group that is known to have taken part. *)
Definition grp (i : nat) (h : hit) : string :=
  match group i h with Some s => s | None => "" end.

(** *** Pattern combinators *)

Definition lit_c (c : ascii) : regex := Chr (Ascii.eqb c).

(** A literal character under [re.IGNORECASE]. *)
Definition lit_ci (c : ascii) : regex :=
  Chr (fun x => Ascii.eqb (to_lower x) (to_lower c)).

Fixpoint seqs (l : list regex) : regex :=
  match l with
  | [] => Eps
  | [r] => r
  | r :: t => Seq r (seqs t)
  end.

Fixpoint alts (l : list regex) : regex :=
  match l with
  | [] => Eps
  | [r] => r
  | r :: t => Alt r (alts t)
  end.

(** A literal word, case-sensitive. *)
Definition lit (s : string) : regex := seqs (map lit_c (chars s)).

(** A literal word under [re.IGNORECASE]. *)
Definition word (s : string) : regex := seqs (map lit_ci (chars s)).

(** [(w1|w2|...)] without the group, under [re.IGNORECASE]. *)
Definition words (l : list string) : regex := alts (map word l).

Definition opt (r : regex) : regex := Alt r Eps.
Definition plus (r : regex) : regex := Seq r (Star r).

Fixpoint times (n : nat) (r : regex) : regex :=
  match n with
  | O => Eps
  | S n' => Seq r (times n' r)
  end.

Fixpoint upto (n : nat) (r : regex) : regex :=
  match n with
  | O => Eps
  | S n' => Alt (Seq r (upto n' r)) Eps
  end.

(** [r{lo,hi}], greedy. *)
Definition rep (lo hi : nat) (r : regex) : regex :=
  Seq (times lo r) (upto (hi - lo) r).

(** Character classes. *)
Definition any_of (s : string) (c : ascii) : bool :=
  existsb (Ascii.eqb c) (chars s).

Definition d_ : regex := Chr is_digit.                       (* \d *)
Definition D_ : regex := Chr (fun c => negb (is_digit c)).   (* \D *)
Definition w_ : regex := Chr is_word.                        (* \w *)
Definition s_ : regex := Chr is_space.                       (* \s *)
Definition S_ : regex := Chr (fun c => negb (is_space c)).   (* \S *)
Definition dot : regex := Chr (fun c => negb (code c =? 10)). (* . *)
Definition alnum : regex := Chr is_alnum.                    (* [a-zA-Z0-9] *)
Definition alpha : regex := Chr is_alpha.                    (* [a-zA-Z] *)
Definition digit : regex := Chr is_digit.                    (* [0-9] *)

(** The numbers of the groups of a pattern, and the pattern without
    its groups. *)
Fixpoint groups (r : regex) : list nat :=
  match r with
  | Seq a b | Alt a b => groups a ++ groups b
  | Star a | Lazy a => groups a
  | Grp i a => i :: groups a
  | _ => []
  end.

Fixpoint ungroup (r : regex) : regex :=
  match r with
  | Seq a b => Seq (ungroup a) (ungroup b)
  | Alt a b => Alt (ungroup a) (ungroup b)
  | Star a => Star (ungroup a)
  | Lazy a => Lazy (ungroup a)
  | Grp _ a => ungroup a
  | _ => r
  end.

(** Where a cursor stands, whatever it has captured. *)
Definition place (s : cursor) : option ascii * list ascii := (prev s, rest s).

End Re.

Import Re.

Open Scope string_scope.

(* ================================================================= *)
(** ** [utility_modules.py] *)

(** A [datetime.date] is its proleptic Gregorian ordinal
    ([date.toordinal()]), so that adding a [timedelta] of [n] days is
    adding [n]. *)
Definition date : Type := Z.

(** [d.weekday()]: Monday is 0 and Sunday is 6; ordinal 1 is a Monday. *)
Definition weekday (d : date) : Z := ((d + 6) mod 7)%Z.

(** [calendar.MONDAY] ... [calendar.SUNDAY] *)
Definition MONDAY : Z := 0.
Definition TUESDAY : Z := 1.
Definition WEDNESDAY : Z := 2.
Definition THURSDAY : Z := 3.
Definition FRIDAY : Z := 4.
Definition SATURDAY : Z := 5.
Definition SUNDAY : Z := 6.

(** [getdaysuntil(theweekday)], with [date.today()] as an argument. *)
Definition getdaysuntil (today : date) (theweekday : Z) : Z :=
  let target_date := (today + (theweekday - weekday today) mod 7)%Z in
  if negb (today =? target_date)%Z
  then (target_date - today)%Z
  else 7%Z.

Arguments weekday d%_Z.
Arguments getdaysuntil (today theweekday)%_Z.

(* ================================================================= *)
(** ** The collaborators of the parser *)

(** A [datetime], counted from [datetime.min]. *)
Definition datetime : Type := Z.
Definition datetime_min : datetime := 0%Z.

(** What [get_position_on_aprsfi] returns: [(success, latitude,
    longitude, altitude, lasttime, comment, message_callsign)]. *)
Record aprsfi_reply : Type := AprsfiReply {
  p_success : bool;
  p_latitude : float;
  p_longitude : float;
  p_altitude : float;
  p_lasttime : datetime;
  p_comment : option string;
  p_callsign : option string
}.

(** The [response_data] dictionary of [get_reverse_geopy_data]. *)
Record address_data : Type := AddressData {
  rd_city : option string;
  rd_state : option string;
  rd_country : option string;
  rd_country_code : option string;
  rd_district : option string;
  rd_address : option string;
  rd_zipcode : option string;
  rd_county : option string;
  rd_street : option string;
  rd_street_number : option string
}.

(** The [query_data] dictionary given to [get_geocode_geopy_data];
    a key that is not in the dictionary is [None]. *)
Record query_data : Type := QueryData {
  q_city : option string;
  q_state : option string;
  q_country : option string;
  q_postalcode : option string
}.

(** What [validate_icao] and [validate_iata] return: [(success,
    latitude, longitude, metar_capable, icao)]. *)
Record airport_reply : Type := AirportReply {
  a_success : bool;
  a_latitude : float;
  a_longitude : float;
  a_metar_capable : bool;
  a_icao : option string
}.

(** The modules the parser imports and that are not part of it
    (aprs.fi, geopy, the airport directory, [maidenhead], the clock,
    [mpad_config]) and the built-in conversions between floats and
    text. *)
Class World : Type := {
  get_position_on_aprsfi : string -> option string -> aprsfi_reply;
  get_reverse_geopy_data : float -> float -> string -> bool -> bool * address_data;
  get_geocode_geopy_data : query_data -> string -> bool * float * float;
  validate_country : string -> bool;
  validate_icao : string -> airport_reply;
  validate_iata : string -> airport_reply;
  get_nearest_icao : float -> float -> option string;
  to_location : string -> float * float;
  float_of_str : string -> option float;
  str_of_float : float -> string;
  today : date;
  (** [mpad_config] *)
  mpad_str_morning : string;
  mpad_str_daytime : string;
  mpad_str_evening : string;
  mpad_str_night : string;
  osm_supported_keyword_categories : list string;
  (** the module-level [aprsdotfi_api_key] of [input_parser.py] *)
  module_aprsdotfi_api_key : option string
}.

(* ================================================================= *)
(** ** [input_parser.py]: messages and variables *)

Definition errmsg_cannot_find_coords_for_address : string :=
  "Cannot find coordinates for requested address".
Definition errmsg_cannot_find_coords_for_user : string :=
  "Cannot find coordinates for callsign".
Definition errmsg_invalid_country : string :=
  "Invalid country code (need ISO3166-a2)".
Definition errmsg_invalid_state : string := "Invalid US state".
Definition errmsg_invalid_command : string :=
  "Unknown command. See https://github.com/joergschultzelutter/mpad".
Definition errmsg_no_satellite_specified : string := "No satellite specified".
Definition errmsg_no_cwop_specified : string := "No cwop id specified".

(** The variables of [parse_input_message] and of the keyword
    parsers it calls.  A keyword parser works on its own copy,
    starting from [blank], and returns it as its response
    dictionary. *)
Record Vars : Type := MkVars {
  aprs_message : string;
  users_callsign : string;
  aprsdotfi_api_key : option string;
  units : string;
  language : string;
  err : bool;
  latitude : float;
  longitude : float;
  altitude : float;
  users_latitude : float;
  users_longitude : float;
  date_offset : Z;
  hour_offset : Z;
  number_of_results : Z;
  lasttime : datetime;
  when : option string;
  when_daytime : option string;
  what : option string;
  city : option string;
  state : option string;
  country : option string;
  zipcode : option string;
  cwop_id : option string;
  icao : option string;
  human_readable_message : option string;
  satellite : option string;
  repeater_band : option string;
  repeater_mode : option string;
  street : option string;
  street_number : option string;
  county : option string;
  osm_special_phrase : option string;
  dapnet_message : option string;
  mail_recipient : option string;
  country_code : option string;
  district : option string;
  address : option string;
  comment : option string;
  message_callsign : option string;
  force_outgoing_unicode_messages : bool;
  found_my_duty_roster : bool;
  found_when : bool;
  found_when_daytime : bool;
  found_my_keyword : bool;
  kw_err : bool;
  geopy_query : option query_data;
  regex_string : regex;
  regex_match : option regex
}.

(** The values the variables have before anything is parsed. *)
Definition blank : Vars :=
  {| aprs_message := "";
     users_callsign := "";
     aprsdotfi_api_key := None;
     units := "metric";
     language := "en";
     err := false;
     latitude := 0%float;
     longitude := 0%float;
     altitude := 0%float;
     users_latitude := 0%float;
     users_longitude := 0%float;
     date_offset := (-1)%Z;
     hour_offset := (-1)%Z;
     number_of_results := 1%Z;
     lasttime := datetime_min;
     when := None;
     when_daytime := None;
     what := None;
     city := None;
     state := None;
     country := None;
     zipcode := None;
     cwop_id := None;
     icao := None;
     human_readable_message := None;
     satellite := None;
     repeater_band := None;
     repeater_mode := None;
     street := None;
     street_number := None;
     county := None;
     osm_special_phrase := None;
     dapnet_message := None;
     mail_recipient := None;
     country_code := None;
     district := None;
     address := None;
     comment := None;
     message_callsign := None;
     force_outgoing_unicode_messages := false;
     found_my_duty_roster := false;
     found_when := false;
     found_when_daytime := false;
     found_my_keyword := false;
     kw_err := false;
     geopy_query := None;
     regex_string := Eps;
     regex_match := None |}.

Definition set_aprs_message (x : string) (v : Vars) : Vars :=
  MkVars
    x (users_callsign v) (aprsdotfi_api_key v) (units v) (language v) (err
    v) (latitude v) (longitude v) (altitude v) (users_latitude v)
    (users_longitude v) (date_offset v) (hour_offset v) (number_of_results
    v) (lasttime v) (when v) (when_daytime v) (what v) (city v) (state v)
    (country v) (zipcode v) (cwop_id v) (icao v) (human_readable_message v)
    (satellite v) (repeater_band v) (repeater_mode v) (street v)
    (street_number v) (county v) (osm_special_phrase v) (dapnet_message v)
    (mail_recipient v) (country_code v) (district v) (address v) (comment v)
    (message_callsign v) (force_outgoing_unicode_messages v)
    (found_my_duty_roster v) (found_when v) (found_when_daytime v)
    (found_my_keyword v) (kw_err v) (geopy_query v) (regex_string v)
    (regex_match v).
Definition set_users_callsign (x : string) (v : Vars) : Vars :=
  MkVars
    (aprs_message v) x (aprsdotfi_api_key v) (units v) (language v) (err v)
    (latitude v) (longitude v) (altitude v) (users_latitude v)
    (users_longitude v) (date_offset v) (hour_offset v) (number_of_results
    v) (lasttime v) (when v) (when_daytime v) (what v) (city v) (state v)
    (country v) (zipcode v) (cwop_id v) (icao v) (human_readable_message v)
    (satellite v) (repeater_band v) (repeater_mode v) (street v)
    (street_number v) (county v) (osm_special_phrase v) (dapnet_message v)
    (mail_recipient v) (country_code v) (district v) (address v) (comment v)
    (message_callsign v) (force_outgoing_unicode_messages v)
    (found_my_duty_roster v) (found_when v) (found_when_daytime v)
    (found_my_keyword v) (kw_err v) (geopy_query v) (regex_string v)
    (regex_match v).
Definition set_aprsdotfi_api_key (x : option string) (v : Vars) : Vars :=
  MkVars
    (aprs_message v) (users_callsign v) x (units v) (language v) (err v)
    (latitude v) (longitude v) (altitude v) (users_latitude v)
    (users_longitude v) (date_offset v) (hour_offset v) (number_of_results
    v) (lasttime v) (when v) (when_daytime v) (what v) (city v) (state v)
    (country v) (zipcode v) (cwop_id v) (icao v) (human_readable_message v)
    (satellite v) (repeater_band v) (repeater_mode v) (street v)
    (street_number v) (county v) (osm_special_phrase v) (dapnet_message v)
    (mail_recipient v) (country_code v) (district v) (address v) (comment v)
    (message_callsign v) (force_outgoing_unicode_messages v)
    (found_my_duty_roster v) (found_when v) (found_when_daytime v)
    (found_my_keyword v) (kw_err v) (geopy_query v) (regex_string v)
    (regex_match v).
Definition set_units (x : string) (v : Vars) : Vars :=
  MkVars
    (aprs_message v) (users_callsign v) (aprsdotfi_api_key v) x (language v)
    (err v) (latitude v) (longitude v) (altitude v) (users_latitude v)
    (users_longitude v) (date_offset v) (hour_offset v) (number_of_results
    v) (lasttime v) (when v) (when_daytime v) (what v) (city v) (state v)
    (country v) (zipcode v) (cwop_id v) (icao v) (human_readable_message v)
    (satellite v) (repeater_band v) (repeater_mode v) (street v)
    (street_number v) (county v) (osm_special_phrase v) (dapnet_message v)
    (mail_recipient v) (country_code v) (district v) (address v) (comment v)
    (message_callsign v) (force_outgoing_unicode_messages v)
    (found_my_duty_roster v) (found_when v) (found_when_daytime v)
    (found_my_keyword v) (kw_err v) (geopy_query v) (regex_string v)
    (regex_match v).
Definition set_language (x : string) (v : Vars) : Vars :=
  MkVars
    (aprs_message v) (users_callsign v) (aprsdotfi_api_key v) (units v) x
    (err v) (latitude v) (longitude v) (altitude v) (users_latitude v)
    (users_longitude v) (date_offset v) (hour_offset v) (number_of_results
    v) (lasttime v) (when v) (when_daytime v) (what v) (city v) (state v)
    (country v) (zipcode v) (cwop_id v) (icao v) (human_readable_message v)
    (satellite v) (repeater_band v) (repeater_mode v) (street v)
    (street_number v) (county v) (osm_special_phrase v) (dapnet_message v)
    (mail_recipient v) (country_code v) (district v) (address v) (comment v)
    (message_callsign v) (force_outgoing_unicode_messages v)
    (found_my_duty_roster v) (found_when v) (found_when_daytime v)
    (found_my_keyword v) (kw_err v) (geopy_query v) (regex_string v)
    (regex_match v).
Definition set_err (x : bool) (v : Vars) : Vars :=
  MkVars
    (aprs_message v) (users_callsign v) (aprsdotfi_api_key v) (units v)
    (language v) x (latitude v) (longitude v) (altitude v) (users_latitude
    v) (users_longitude v) (date_offset v) (hour_offset v)
    (number_of_results v) (lasttime v) (when v) (when_daytime v) (what v)
    (city v) (state v) (country v) (zipcode v) (cwop_id v) (icao v)
    (human_readable_message v) (satellite v) (repeater_band v)
    (repeater_mode v) (street v) (street_number v) (county v)
    (osm_special_phrase v) (dapnet_message v) (mail_recipient v)
    (country_code v) (district v) (address v) (comment v) (message_callsign
    v) (force_outgoing_unicode_messages v) (found_my_duty_roster v)
    (found_when v) (found_when_daytime v) (found_my_keyword v) (kw_err v)
    (geopy_query v) (regex_string v) (regex_match v).
Definition set_latitude (x : float) (v : Vars) : Vars :=
  MkVars
    (aprs_message v) (users_callsign v) (aprsdotfi_api_key v) (units v)
    (language v) (err v) x (longitude v) (altitude v) (users_latitude v)
    (users_longitude v) (date_offset v) (hour_offset v) (number_of_results
    v) (lasttime v) (when v) (when_daytime v) (what v) (city v) (state v)
    (country v) (zipcode v) (cwop_id v) (icao v) (human_readable_message v)
    (satellite v) (repeater_band v) (repeater_mode v) (street v)
    (street_number v) (county v) (osm_special_phrase v) (dapnet_message v)
    (mail_recipient v) (country_code v) (district v) (address v) (comment v)
    (message_callsign v) (force_outgoing_unicode_messages v)
    (found_my_duty_roster v) (found_when v) (found_when_daytime v)
    (found_my_keyword v) (kw_err v) (geopy_query v) (regex_string v)
    (regex_match v).
Definition set_longitude (x : float) (v : Vars) : Vars :=
  MkVars
    (aprs_message v) (users_callsign v) (aprsdotfi_api_key v) (units v)
    (language v) (err v) (latitude v) x (altitude v) (users_latitude v)
    (users_longitude v) (date_offset v) (hour_offset v) (number_of_results
    v) (lasttime v) (when v) (when_daytime v) (what v) (city v) (state v)
    (country v) (zipcode v) (cwop_id v) (icao v) (human_readable_message v)
    (satellite v) (repeater_band v) (repeater_mode v) (street v)
    (street_number v) (county v) (osm_special_phrase v) (dapnet_message v)
    (mail_recipient v) (country_code v) (district v) (address v) (comment v)
    (message_callsign v) (force_outgoing_unicode_messages v)
    (found_my_duty_roster v) (found_when v) (found_when_daytime v)
    (found_my_keyword v) (kw_err v) (geopy_query v) (regex_string v)
    (regex_match v).
Definition set_altitude (x : float) (v : Vars) : Vars :=
  MkVars
    (aprs_message v) (users_callsign v) (aprsdotfi_api_key v) (units v)
    (language v) (err v) (latitude v) (longitude v) x (users_latitude v)
    (users_longitude v) (date_offset v) (hour_offset v) (number_of_results
    v) (lasttime v) (when v) (when_daytime v) (what v) (city v) (state v)
    (country v) (zipcode v) (cwop_id v) (icao v) (human_readable_message v)
    (satellite v) (repeater_band v) (repeater_mode v) (street v)
    (street_number v) (county v) (osm_special_phrase v) (dapnet_message v)
    (mail_recipient v) (country_code v) (district v) (address v) (comment v)
    (message_callsign v) (force_outgoing_unicode_messages v)
    (found_my_duty_roster v) (found_when v) (found_when_daytime v)
    (found_my_keyword v) (kw_err v) (geopy_query v) (regex_string v)
    (regex_match v).
Definition set_users_latitude (x : float) (v : Vars) : Vars :=
  MkVars
    (aprs_message v) (users_callsign v) (aprsdotfi_api_key v) (units v)
    (language v) (err v) (latitude v) (longitude v) (altitude v) x
    (users_longitude v) (date_offset v) (hour_offset v) (number_of_results
    v) (lasttime v) (when v) (when_daytime v) (what v) (city v) (state v)
    (country v) (zipcode v) (cwop_id v) (icao v) (human_readable_message v)
    (satellite v) (repeater_band v) (repeater_mode v) (street v)
    (street_number v) (county v) (osm_special_phrase v) (dapnet_message v)
    (mail_recipient v) (country_code v) (district v) (address v) (comment v)
    (message_callsign v) (force_outgoing_unicode_messages v)
    (found_my_duty_roster v) (found_when v) (found_when_daytime v)
    (found_my_keyword v) (kw_err v) (geopy_query v) (regex_string v)
    (regex_match v).
Definition set_users_longitude (x : float) (v : Vars) : Vars :=
  MkVars
    (aprs_message v) (users_callsign v) (aprsdotfi_api_key v) (units v)
    (language v) (err v) (latitude v) (longitude v) (altitude v)
    (users_latitude v) x (date_offset v) (hour_offset v) (number_of_results
    v) (lasttime v) (when v) (when_daytime v) (what v) (city v) (state v)
    (country v) (zipcode v) (cwop_id v) (icao v) (human_readable_message v)
    (satellite v) (repeater_band v) (repeater_mode v) (street v)
    (street_number v) (county v) (osm_special_phrase v) (dapnet_message v)
    (mail_recipient v) (country_code v) (district v) (address v) (comment v)
    (message_callsign v) (force_outgoing_unicode_messages v)
    (found_my_duty_roster v) (found_when v) (found_when_daytime v)
    (found_my_keyword v) (kw_err v) (geopy_query v) (regex_string v)
    (regex_match v).
Definition set_date_offset (x : Z) (v : Vars) : Vars :=
  MkVars
    (aprs_message v) (users_callsign v) (aprsdotfi_api_key v) (units v)
    (language v) (err v) (latitude v) (longitude v) (altitude v)
    (users_latitude v) (users_longitude v) x (hour_offset v)
    (number_of_results v) (lasttime v) (when v) (when_daytime v) (what v)
    (city v) (state v) (country v) (zipcode v) (cwop_id v) (icao v)
    (human_readable_message v) (satellite v) (repeater_band v)
    (repeater_mode v) (street v) (street_number v) (county v)
    (osm_special_phrase v) (dapnet_message v) (mail_recipient v)
    (country_code v) (district v) (address v) (comment v) (message_callsign
    v) (force_outgoing_unicode_messages v) (found_my_duty_roster v)
    (found_when v) (found_when_daytime v) (found_my_keyword v) (kw_err v)
    (geopy_query v) (regex_string v) (regex_match v).
Definition set_hour_offset (x : Z) (v : Vars) : Vars :=
  MkVars
    (aprs_message v) (users_callsign v) (aprsdotfi_api_key v) (units v)
    (language v) (err v) (latitude v) (longitude v) (altitude v)
    (users_latitude v) (users_longitude v) (date_offset v) x
    (number_of_results v) (lasttime v) (when v) (when_daytime v) (what v)
    (city v) (state v) (country v) (zipcode v) (cwop_id v) (icao v)
    (human_readable_message v) (satellite v) (repeater_band v)
    (repeater_mode v) (street v) (street_number v) (county v)
    (osm_special_phrase v) (dapnet_message v) (mail_recipient v)
    (country_code v) (district v) (address v) (comment v) (message_callsign
    v) (force_outgoing_unicode_messages v) (found_my_duty_roster v)
    (found_when v) (found_when_daytime v) (found_my_keyword v) (kw_err v)
    (geopy_query v) (regex_string v) (regex_match v).
Definition set_number_of_results (x : Z) (v : Vars) : Vars :=
  MkVars
    (aprs_message v) (users_callsign v) (aprsdotfi_api_key v) (units v)
    (language v) (err v) (latitude v) (longitude v) (altitude v)
    (users_latitude v) (users_longitude v) (date_offset v) (hour_offset v) x
    (lasttime v) (when v) (when_daytime v) (what v) (city v) (state v)
    (country v) (zipcode v) (cwop_id v) (icao v) (human_readable_message v)
    (satellite v) (repeater_band v) (repeater_mode v) (street v)
    (street_number v) (county v) (osm_special_phrase v) (dapnet_message v)
    (mail_recipient v) (country_code v) (district v) (address v) (comment v)
    (message_callsign v) (force_outgoing_unicode_messages v)
    (found_my_duty_roster v) (found_when v) (found_when_daytime v)
    (found_my_keyword v) (kw_err v) (geopy_query v) (regex_string v)
    (regex_match v).
Definition set_lasttime (x : datetime) (v : Vars) : Vars :=
  MkVars
    (aprs_message v) (users_callsign v) (aprsdotfi_api_key v) (units v)
    (language v) (err v) (latitude v) (longitude v) (altitude v)
    (users_latitude v) (users_longitude v) (date_offset v) (hour_offset v)
    (number_of_results v) x (when v) (when_daytime v) (what v) (city v)
    (state v) (country v) (zipcode v) (cwop_id v) (icao v)
    (human_readable_message v) (satellite v) (repeater_band v)
    (repeater_mode v) (street v) (street_number v) (county v)
    (osm_special_phrase v) (dapnet_message v) (mail_recipient v)
    (country_code v) (district v) (address v) (comment v) (message_callsign
    v) (force_outgoing_unicode_messages v) (found_my_duty_roster v)
    (found_when v) (found_when_daytime v) (found_my_keyword v) (kw_err v)
    (geopy_query v) (regex_string v) (regex_match v).
Definition set_when (x : option string) (v : Vars) : Vars :=
  MkVars
    (aprs_message v) (users_callsign v) (aprsdotfi_api_key v) (units v)
    (language v) (err v) (latitude v) (longitude v) (altitude v)
    (users_latitude v) (users_longitude v) (date_offset v) (hour_offset v)
    (number_of_results v) (lasttime v) x (when_daytime v) (what v) (city v)
    (state v) (country v) (zipcode v) (cwop_id v) (icao v)
    (human_readable_message v) (satellite v) (repeater_band v)
    (repeater_mode v) (street v) (street_number v) (county v)
    (osm_special_phrase v) (dapnet_message v) (mail_recipient v)
    (country_code v) (district v) (address v) (comment v) (message_callsign
    v) (force_outgoing_unicode_messages v) (found_my_duty_roster v)
    (found_when v) (found_when_daytime v) (found_my_keyword v) (kw_err v)
    (geopy_query v) (regex_string v) (regex_match v).
Definition set_when_daytime (x : option string) (v : Vars) : Vars :=
  MkVars
    (aprs_message v) (users_callsign v) (aprsdotfi_api_key v) (units v)
    (language v) (err v) (latitude v) (longitude v) (altitude v)
    (users_latitude v) (users_longitude v) (date_offset v) (hour_offset v)
    (number_of_results v) (lasttime v) (when v) x (what v) (city v) (state
    v) (country v) (zipcode v) (cwop_id v) (icao v) (human_readable_message
    v) (satellite v) (repeater_band v) (repeater_mode v) (street v)
    (street_number v) (county v) (osm_special_phrase v) (dapnet_message v)
    (mail_recipient v) (country_code v) (district v) (address v) (comment v)
    (message_callsign v) (force_outgoing_unicode_messages v)
    (found_my_duty_roster v) (found_when v) (found_when_daytime v)
    (found_my_keyword v) (kw_err v) (geopy_query v) (regex_string v)
    (regex_match v).
Definition set_what (x : option string) (v : Vars) : Vars :=
  MkVars
    (aprs_message v) (users_callsign v) (aprsdotfi_api_key v) (units v)
    (language v) (err v) (latitude v) (longitude v) (altitude v)
    (users_latitude v) (users_longitude v) (date_offset v) (hour_offset v)
    (number_of_results v) (lasttime v) (when v) (when_daytime v) x (city v)
    (state v) (country v) (zipcode v) (cwop_id v) (icao v)
    (human_readable_message v) (satellite v) (repeater_band v)
    (repeater_mode v) (street v) (street_number v) (county v)
    (osm_special_phrase v) (dapnet_message v) (mail_recipient v)
    (country_code v) (district v) (address v) (comment v) (message_callsign
    v) (force_outgoing_unicode_messages v) (found_my_duty_roster v)
    (found_when v) (found_when_daytime v) (found_my_keyword v) (kw_err v)
    (geopy_query v) (regex_string v) (regex_match v).
Definition set_city (x : option string) (v : Vars) : Vars :=
  MkVars
    (aprs_message v) (users_callsign v) (aprsdotfi_api_key v) (units v)
    (language v) (err v) (latitude v) (longitude v) (altitude v)
    (users_latitude v) (users_longitude v) (date_offset v) (hour_offset v)
    (number_of_results v) (lasttime v) (when v) (when_daytime v) (what v) x
    (state v) (country v) (zipcode v) (cwop_id v) (icao v)
    (human_readable_message v) (satellite v) (repeater_band v)
    (repeater_mode v) (street v) (street_number v) (county v)
    (osm_special_phrase v) (dapnet_message v) (mail_recipient v)
    (country_code v) (district v) (address v) (comment v) (message_callsign
    v) (force_outgoing_unicode_messages v) (found_my_duty_roster v)
    (found_when v) (found_when_daytime v) (found_my_keyword v) (kw_err v)
    (geopy_query v) (regex_string v) (regex_match v).
Definition set_state (x : option string) (v : Vars) : Vars :=
  MkVars
    (aprs_message v) (users_callsign v) (aprsdotfi_api_key v) (units v)
    (language v) (err v) (latitude v) (longitude v) (altitude v)
    (users_latitude v) (users_longitude v) (date_offset v) (hour_offset v)
    (number_of_results v) (lasttime v) (when v) (when_daytime v) (what v)
    (city v) x (country v) (zipcode v) (cwop_id v) (icao v)
    (human_readable_message v) (satellite v) (repeater_band v)
    (repeater_mode v) (street v) (street_number v) (county v)
    (osm_special_phrase v) (dapnet_message v) (mail_recipient v)
    (country_code v) (district v) (address v) (comment v) (message_callsign
    v) (force_outgoing_unicode_messages v) (found_my_duty_roster v)
    (found_when v) (found_when_daytime v) (found_my_keyword v) (kw_err v)
    (geopy_query v) (regex_string v) (regex_match v).
Definition set_country (x : option string) (v : Vars) : Vars :=
  MkVars
    (aprs_message v) (users_callsign v) (aprsdotfi_api_key v) (units v)
    (language v) (err v) (latitude v) (longitude v) (altitude v)
    (users_latitude v) (users_longitude v) (date_offset v) (hour_offset v)
    (number_of_results v) (lasttime v) (when v) (when_daytime v) (what v)
    (city v) (state v) x (zipcode v) (cwop_id v) (icao v)
    (human_readable_message v) (satellite v) (repeater_band v)
    (repeater_mode v) (street v) (street_number v) (county v)
    (osm_special_phrase v) (dapnet_message v) (mail_recipient v)
    (country_code v) (district v) (address v) (comment v) (message_callsign
    v) (force_outgoing_unicode_messages v) (found_my_duty_roster v)
    (found_when v) (found_when_daytime v) (found_my_keyword v) (kw_err v)
    (geopy_query v) (regex_string v) (regex_match v).
Definition set_zipcode (x : option string) (v : Vars) : Vars :=
  MkVars
    (aprs_message v) (users_callsign v) (aprsdotfi_api_key v) (units v)
    (language v) (err v) (latitude v) (longitude v) (altitude v)
    (users_latitude v) (users_longitude v) (date_offset v) (hour_offset v)
    (number_of_results v) (lasttime v) (when v) (when_daytime v) (what v)
    (city v) (state v) (country v) x (cwop_id v) (icao v)
    (human_readable_message v) (satellite v) (repeater_band v)
    (repeater_mode v) (street v) (street_number v) (county v)
    (osm_special_phrase v) (dapnet_message v) (mail_recipient v)
    (country_code v) (district v) (address v) (comment v) (message_callsign
    v) (force_outgoing_unicode_messages v) (found_my_duty_roster v)
    (found_when v) (found_when_daytime v) (found_my_keyword v) (kw_err v)
    (geopy_query v) (regex_string v) (regex_match v).
Definition set_cwop_id (x : option string) (v : Vars) : Vars :=
  MkVars
    (aprs_message v) (users_callsign v) (aprsdotfi_api_key v) (units v)
    (language v) (err v) (latitude v) (longitude v) (altitude v)
    (users_latitude v) (users_longitude v) (date_offset v) (hour_offset v)
    (number_of_results v) (lasttime v) (when v) (when_daytime v) (what v)
    (city v) (state v) (country v) (zipcode v) x (icao v)
    (human_readable_message v) (satellite v) (repeater_band v)
    (repeater_mode v) (street v) (street_number v) (county v)
    (osm_special_phrase v) (dapnet_message v) (mail_recipient v)
    (country_code v) (district v) (address v) (comment v) (message_callsign
    v) (force_outgoing_unicode_messages v) (found_my_duty_roster v)
    (found_when v) (found_when_daytime v) (found_my_keyword v) (kw_err v)
    (geopy_query v) (regex_string v) (regex_match v).
Definition set_icao (x : option string) (v : Vars) : Vars :=
  MkVars
    (aprs_message v) (users_callsign v) (aprsdotfi_api_key v) (units v)
    (language v) (err v) (latitude v) (longitude v) (altitude v)
    (users_latitude v) (users_longitude v) (date_offset v) (hour_offset v)
    (number_of_results v) (lasttime v) (when v) (when_daytime v) (what v)
    (city v) (state v) (country v) (zipcode v) (cwop_id v) x
    (human_readable_message v) (satellite v) (repeater_band v)
    (repeater_mode v) (street v) (street_number v) (county v)
    (osm_special_phrase v) (dapnet_message v) (mail_recipient v)
    (country_code v) (district v) (address v) (comment v) (message_callsign
    v) (force_outgoing_unicode_messages v) (found_my_duty_roster v)
    (found_when v) (found_when_daytime v) (found_my_keyword v) (kw_err v)
    (geopy_query v) (regex_string v) (regex_match v).
Definition set_human_readable_message (x : option string) (v : Vars) : Vars :=
  MkVars
    (aprs_message v) (users_callsign v) (aprsdotfi_api_key v) (units v)
    (language v) (err v) (latitude v) (longitude v) (altitude v)
    (users_latitude v) (users_longitude v) (date_offset v) (hour_offset v)
    (number_of_results v) (lasttime v) (when v) (when_daytime v) (what v)
    (city v) (state v) (country v) (zipcode v) (cwop_id v) (icao v) x
    (satellite v) (repeater_band v) (repeater_mode v) (street v)
    (street_number v) (county v) (osm_special_phrase v) (dapnet_message v)
    (mail_recipient v) (country_code v) (district v) (address v) (comment v)
    (message_callsign v) (force_outgoing_unicode_messages v)
    (found_my_duty_roster v) (found_when v) (found_when_daytime v)
    (found_my_keyword v) (kw_err v) (geopy_query v) (regex_string v)
    (regex_match v).
Definition set_satellite (x : option string) (v : Vars) : Vars :=
  MkVars
    (aprs_message v) (users_callsign v) (aprsdotfi_api_key v) (units v)
    (language v) (err v) (latitude v) (longitude v) (altitude v)
    (users_latitude v) (users_longitude v) (date_offset v) (hour_offset v)
    (number_of_results v) (lasttime v) (when v) (when_daytime v) (what v)
    (city v) (state v) (country v) (zipcode v) (cwop_id v) (icao v)
    (human_readable_message v) x (repeater_band v) (repeater_mode v) (street
    v) (street_number v) (county v) (osm_special_phrase v) (dapnet_message
    v) (mail_recipient v) (country_code v) (district v) (address v) (comment
    v) (message_callsign v) (force_outgoing_unicode_messages v)
    (found_my_duty_roster v) (found_when v) (found_when_daytime v)
    (found_my_keyword v) (kw_err v) (geopy_query v) (regex_string v)
    (regex_match v).
Definition set_repeater_band (x : option string) (v : Vars) : Vars :=
  MkVars
    (aprs_message v) (users_callsign v) (aprsdotfi_api_key v) (units v)
    (language v) (err v) (latitude v) (longitude v) (altitude v)
    (users_latitude v) (users_longitude v) (date_offset v) (hour_offset v)
    (number_of_results v) (lasttime v) (when v) (when_daytime v) (what v)
    (city v) (state v) (country v) (zipcode v) (cwop_id v) (icao v)
    (human_readable_message v) (satellite v) x (repeater_mode v) (street v)
    (street_number v) (county v) (osm_special_phrase v) (dapnet_message v)
    (mail_recipient v) (country_code v) (district v) (address v) (comment v)
    (message_callsign v) (force_outgoing_unicode_messages v)
    (found_my_duty_roster v) (found_when v) (found_when_daytime v)
    (found_my_keyword v) (kw_err v) (geopy_query v) (regex_string v)
    (regex_match v).
Definition set_repeater_mode (x : option string) (v : Vars) : Vars :=
  MkVars
    (aprs_message v) (users_callsign v) (aprsdotfi_api_key v) (units v)
    (language v) (err v) (latitude v) (longitude v) (altitude v)
    (users_latitude v) (users_longitude v) (date_offset v) (hour_offset v)
    (number_of_results v) (lasttime v) (when v) (when_daytime v) (what v)
    (city v) (state v) (country v) (zipcode v) (cwop_id v) (icao v)
    (human_readable_message v) (satellite v) (repeater_band v) x (street v)
    (street_number v) (county v) (osm_special_phrase v) (dapnet_message v)
    (mail_recipient v) (country_code v) (district v) (address v) (comment v)
    (message_callsign v) (force_outgoing_unicode_messages v)
    (found_my_duty_roster v) (found_when v) (found_when_daytime v)
    (found_my_keyword v) (kw_err v) (geopy_query v) (regex_string v)
    (regex_match v).
Definition set_street (x : option string) (v : Vars) : Vars :=
  MkVars
    (aprs_message v) (users_callsign v) (aprsdotfi_api_key v) (units v)
    (language v) (err v) (latitude v) (longitude v) (altitude v)
    (users_latitude v) (users_longitude v) (date_offset v) (hour_offset v)
    (number_of_results v) (lasttime v) (when v) (when_daytime v) (what v)
    (city v) (state v) (country v) (zipcode v) (cwop_id v) (icao v)
    (human_readable_message v) (satellite v) (repeater_band v)
    (repeater_mode v) x (street_number v) (county v) (osm_special_phrase v)
    (dapnet_message v) (mail_recipient v) (country_code v) (district v)
    (address v) (comment v) (message_callsign v)
    (force_outgoing_unicode_messages v) (found_my_duty_roster v) (found_when
    v) (found_when_daytime v) (found_my_keyword v) (kw_err v) (geopy_query
    v) (regex_string v) (regex_match v).
Definition set_street_number (x : option string) (v : Vars) : Vars :=
  MkVars
    (aprs_message v) (users_callsign v) (aprsdotfi_api_key v) (units v)
    (language v) (err v) (latitude v) (longitude v) (altitude v)
    (users_latitude v) (users_longitude v) (date_offset v) (hour_offset v)
    (number_of_results v) (lasttime v) (when v) (when_daytime v) (what v)
    (city v) (state v) (country v) (zipcode v) (cwop_id v) (icao v)
    (human_readable_message v) (satellite v) (repeater_band v)
    (repeater_mode v) (street v) x (county v) (osm_special_phrase v)
    (dapnet_message v) (mail_recipient v) (country_code v) (district v)
    (address v) (comment v) (message_callsign v)
    (force_outgoing_unicode_messages v) (found_my_duty_roster v) (found_when
    v) (found_when_daytime v) (found_my_keyword v) (kw_err v) (geopy_query
    v) (regex_string v) (regex_match v).
Definition set_county (x : option string) (v : Vars) : Vars :=
  MkVars
    (aprs_message v) (users_callsign v) (aprsdotfi_api_key v) (units v)
    (language v) (err v) (latitude v) (longitude v) (altitude v)
    (users_latitude v) (users_longitude v) (date_offset v) (hour_offset v)
    (number_of_results v) (lasttime v) (when v) (when_daytime v) (what v)
    (city v) (state v) (country v) (zipcode v) (cwop_id v) (icao v)
    (human_readable_message v) (satellite v) (repeater_band v)
    (repeater_mode v) (street v) (street_number v) x (osm_special_phrase v)
    (dapnet_message v) (mail_recipient v) (country_code v) (district v)
    (address v) (comment v) (message_callsign v)
    (force_outgoing_unicode_messages v) (found_my_duty_roster v) (found_when
    v) (found_when_daytime v) (found_my_keyword v) (kw_err v) (geopy_query
    v) (regex_string v) (regex_match v).
Definition set_osm_special_phrase (x : option string) (v : Vars) : Vars :=
  MkVars
    (aprs_message v) (users_callsign v) (aprsdotfi_api_key v) (units v)
    (language v) (err v) (latitude v) (longitude v) (altitude v)
    (users_latitude v) (users_longitude v) (date_offset v) (hour_offset v)
    (number_of_results v) (lasttime v) (when v) (when_daytime v) (what v)
    (city v) (state v) (country v) (zipcode v) (cwop_id v) (icao v)
    (human_readable_message v) (satellite v) (repeater_band v)
    (repeater_mode v) (street v) (street_number v) (county v) x
    (dapnet_message v) (mail_recipient v) (country_code v) (district v)
    (address v) (comment v) (message_callsign v)
    (force_outgoing_unicode_messages v) (found_my_duty_roster v) (found_when
    v) (found_when_daytime v) (found_my_keyword v) (kw_err v) (geopy_query
    v) (regex_string v) (regex_match v).
Definition set_dapnet_message (x : option string) (v : Vars) : Vars :=
  MkVars
    (aprs_message v) (users_callsign v) (aprsdotfi_api_key v) (units v)
    (language v) (err v) (latitude v) (longitude v) (altitude v)
    (users_latitude v) (users_longitude v) (date_offset v) (hour_offset v)
    (number_of_results v) (lasttime v) (when v) (when_daytime v) (what v)
    (city v) (state v) (country v) (zipcode v) (cwop_id v) (icao v)
    (human_readable_message v) (satellite v) (repeater_band v)
    (repeater_mode v) (street v) (street_number v) (county v)
    (osm_special_phrase v) x (mail_recipient v) (country_code v) (district
    v) (address v) (comment v) (message_callsign v)
    (force_outgoing_unicode_messages v) (found_my_duty_roster v) (found_when
    v) (found_when_daytime v) (found_my_keyword v) (kw_err v) (geopy_query
    v) (regex_string v) (regex_match v).
Definition set_mail_recipient (x : option string) (v : Vars) : Vars :=
  MkVars
    (aprs_message v) (users_callsign v) (aprsdotfi_api_key v) (units v)
    (language v) (err v) (latitude v) (longitude v) (altitude v)
    (users_latitude v) (users_longitude v) (date_offset v) (hour_offset v)
    (number_of_results v) (lasttime v) (when v) (when_daytime v) (what v)
    (city v) (state v) (country v) (zipcode v) (cwop_id v) (icao v)
    (human_readable_message v) (satellite v) (repeater_band v)
    (repeater_mode v) (street v) (street_number v) (county v)
    (osm_special_phrase v) (dapnet_message v) x (country_code v) (district
    v) (address v) (comment v) (message_callsign v)
    (force_outgoing_unicode_messages v) (found_my_duty_roster v) (found_when
    v) (found_when_daytime v) (found_my_keyword v) (kw_err v) (geopy_query
    v) (regex_string v) (regex_match v).
Definition set_country_code (x : option string) (v : Vars) : Vars :=
  MkVars
    (aprs_message v) (users_callsign v) (aprsdotfi_api_key v) (units v)
    (language v) (err v) (latitude v) (longitude v) (altitude v)
    (users_latitude v) (users_longitude v) (date_offset v) (hour_offset v)
    (number_of_results v) (lasttime v) (when v) (when_daytime v) (what v)
    (city v) (state v) (country v) (zipcode v) (cwop_id v) (icao v)
    (human_readable_message v) (satellite v) (repeater_band v)
    (repeater_mode v) (street v) (street_number v) (county v)
    (osm_special_phrase v) (dapnet_message v) (mail_recipient v) x (district
    v) (address v) (comment v) (message_callsign v)
    (force_outgoing_unicode_messages v) (found_my_duty_roster v) (found_when
    v) (found_when_daytime v) (found_my_keyword v) (kw_err v) (geopy_query
    v) (regex_string v) (regex_match v).
Definition set_district (x : option string) (v : Vars) : Vars :=
  MkVars
    (aprs_message v) (users_callsign v) (aprsdotfi_api_key v) (units v)
    (language v) (err v) (latitude v) (longitude v) (altitude v)
    (users_latitude v) (users_longitude v) (date_offset v) (hour_offset v)
    (number_of_results v) (lasttime v) (when v) (when_daytime v) (what v)
    (city v) (state v) (country v) (zipcode v) (cwop_id v) (icao v)
    (human_readable_message v) (satellite v) (repeater_band v)
    (repeater_mode v) (street v) (street_number v) (county v)
    (osm_special_phrase v) (dapnet_message v) (mail_recipient v)
    (country_code v) x (address v) (comment v) (message_callsign v)
    (force_outgoing_unicode_messages v) (found_my_duty_roster v) (found_when
    v) (found_when_daytime v) (found_my_keyword v) (kw_err v) (geopy_query
    v) (regex_string v) (regex_match v).
Definition set_address (x : option string) (v : Vars) : Vars :=
  MkVars
    (aprs_message v) (users_callsign v) (aprsdotfi_api_key v) (units v)
    (language v) (err v) (latitude v) (longitude v) (altitude v)
    (users_latitude v) (users_longitude v) (date_offset v) (hour_offset v)
    (number_of_results v) (lasttime v) (when v) (when_daytime v) (what v)
    (city v) (state v) (country v) (zipcode v) (cwop_id v) (icao v)
    (human_readable_message v) (satellite v) (repeater_band v)
    (repeater_mode v) (street v) (street_number v) (county v)
    (osm_special_phrase v) (dapnet_message v) (mail_recipient v)
    (country_code v) (district v) x (comment v) (message_callsign v)
    (force_outgoing_unicode_messages v) (found_my_duty_roster v) (found_when
    v) (found_when_daytime v) (found_my_keyword v) (kw_err v) (geopy_query
    v) (regex_string v) (regex_match v).
Definition set_comment (x : option string) (v : Vars) : Vars :=
  MkVars
    (aprs_message v) (users_callsign v) (aprsdotfi_api_key v) (units v)
    (language v) (err v) (latitude v) (longitude v) (altitude v)
    (users_latitude v) (users_longitude v) (date_offset v) (hour_offset v)
    (number_of_results v) (lasttime v) (when v) (when_daytime v) (what v)
    (city v) (state v) (country v) (zipcode v) (cwop_id v) (icao v)
    (human_readable_message v) (satellite v) (repeater_band v)
    (repeater_mode v) (street v) (street_number v) (county v)
    (osm_special_phrase v) (dapnet_message v) (mail_recipient v)
    (country_code v) (district v) (address v) x (message_callsign v)
    (force_outgoing_unicode_messages v) (found_my_duty_roster v) (found_when
    v) (found_when_daytime v) (found_my_keyword v) (kw_err v) (geopy_query
    v) (regex_string v) (regex_match v).
Definition set_message_callsign (x : option string) (v : Vars) : Vars :=
  MkVars
    (aprs_message v) (users_callsign v) (aprsdotfi_api_key v) (units v)
    (language v) (err v) (latitude v) (longitude v) (altitude v)
    (users_latitude v) (users_longitude v) (date_offset v) (hour_offset v)
    (number_of_results v) (lasttime v) (when v) (when_daytime v) (what v)
    (city v) (state v) (country v) (zipcode v) (cwop_id v) (icao v)
    (human_readable_message v) (satellite v) (repeater_band v)
    (repeater_mode v) (street v) (street_number v) (county v)
    (osm_special_phrase v) (dapnet_message v) (mail_recipient v)
    (country_code v) (district v) (address v) (comment v) x
    (force_outgoing_unicode_messages v) (found_my_duty_roster v) (found_when
    v) (found_when_daytime v) (found_my_keyword v) (kw_err v) (geopy_query
    v) (regex_string v) (regex_match v).
Definition set_force_outgoing_unicode_messages (x : bool) (v : Vars) : Vars :=
  MkVars
    (aprs_message v) (users_callsign v) (aprsdotfi_api_key v) (units v)
    (language v) (err v) (latitude v) (longitude v) (altitude v)
    (users_latitude v) (users_longitude v) (date_offset v) (hour_offset v)
    (number_of_results v) (lasttime v) (when v) (when_daytime v) (what v)
    (city v) (state v) (country v) (zipcode v) (cwop_id v) (icao v)
    (human_readable_message v) (satellite v) (repeater_band v)
    (repeater_mode v) (street v) (street_number v) (county v)
    (osm_special_phrase v) (dapnet_message v) (mail_recipient v)
    (country_code v) (district v) (address v) (comment v) (message_callsign
    v) x (found_my_duty_roster v) (found_when v) (found_when_daytime v)
    (found_my_keyword v) (kw_err v) (geopy_query v) (regex_string v)
    (regex_match v).
Definition set_found_my_duty_roster (x : bool) (v : Vars) : Vars :=
  MkVars
    (aprs_message v) (users_callsign v) (aprsdotfi_api_key v) (units v)
    (language v) (err v) (latitude v) (longitude v) (altitude v)
    (users_latitude v) (users_longitude v) (date_offset v) (hour_offset v)
    (number_of_results v) (lasttime v) (when v) (when_daytime v) (what v)
    (city v) (state v) (country v) (zipcode v) (cwop_id v) (icao v)
    (human_readable_message v) (satellite v) (repeater_band v)
    (repeater_mode v) (street v) (street_number v) (county v)
    (osm_special_phrase v) (dapnet_message v) (mail_recipient v)
    (country_code v) (district v) (address v) (comment v) (message_callsign
    v) (force_outgoing_unicode_messages v) x (found_when v)
    (found_when_daytime v) (found_my_keyword v) (kw_err v) (geopy_query v)
    (regex_string v) (regex_match v).
Definition set_found_when (x : bool) (v : Vars) : Vars :=
  MkVars
    (aprs_message v) (users_callsign v) (aprsdotfi_api_key v) (units v)
    (language v) (err v) (latitude v) (longitude v) (altitude v)
    (users_latitude v) (users_longitude v) (date_offset v) (hour_offset v)
    (number_of_results v) (lasttime v) (when v) (when_daytime v) (what v)
    (city v) (state v) (country v) (zipcode v) (cwop_id v) (icao v)
    (human_readable_message v) (satellite v) (repeater_band v)
    (repeater_mode v) (street v) (street_number v) (county v)
    (osm_special_phrase v) (dapnet_message v) (mail_recipient v)
    (country_code v) (district v) (address v) (comment v) (message_callsign
    v) (force_outgoing_unicode_messages v) (found_my_duty_roster v) x
    (found_when_daytime v) (found_my_keyword v) (kw_err v) (geopy_query v)
    (regex_string v) (regex_match v).
Definition set_found_when_daytime (x : bool) (v : Vars) : Vars :=
  MkVars
    (aprs_message v) (users_callsign v) (aprsdotfi_api_key v) (units v)
    (language v) (err v) (latitude v) (longitude v) (altitude v)
    (users_latitude v) (users_longitude v) (date_offset v) (hour_offset v)
    (number_of_results v) (lasttime v) (when v) (when_daytime v) (what v)
    (city v) (state v) (country v) (zipcode v) (cwop_id v) (icao v)
    (human_readable_message v) (satellite v) (repeater_band v)
    (repeater_mode v) (street v) (street_number v) (county v)
    (osm_special_phrase v) (dapnet_message v) (mail_recipient v)
    (country_code v) (district v) (address v) (comment v) (message_callsign
    v) (force_outgoing_unicode_messages v) (found_my_duty_roster v)
    (found_when v) x (found_my_keyword v) (kw_err v) (geopy_query v)
    (regex_string v) (regex_match v).
Definition set_found_my_keyword (x : bool) (v : Vars) : Vars :=
  MkVars
    (aprs_message v) (users_callsign v) (aprsdotfi_api_key v) (units v)
    (language v) (err v) (latitude v) (longitude v) (altitude v)
    (users_latitude v) (users_longitude v) (date_offset v) (hour_offset v)
    (number_of_results v) (lasttime v) (when v) (when_daytime v) (what v)
    (city v) (state v) (country v) (zipcode v) (cwop_id v) (icao v)
    (human_readable_message v) (satellite v) (repeater_band v)
    (repeater_mode v) (street v) (street_number v) (county v)
    (osm_special_phrase v) (dapnet_message v) (mail_recipient v)
    (country_code v) (district v) (address v) (comment v) (message_callsign
    v) (force_outgoing_unicode_messages v) (found_my_duty_roster v)
    (found_when v) (found_when_daytime v) x (kw_err v) (geopy_query v)
    (regex_string v) (regex_match v).
Definition set_kw_err (x : bool) (v : Vars) : Vars :=
  MkVars
    (aprs_message v) (users_callsign v) (aprsdotfi_api_key v) (units v)
    (language v) (err v) (latitude v) (longitude v) (altitude v)
    (users_latitude v) (users_longitude v) (date_offset v) (hour_offset v)
    (number_of_results v) (lasttime v) (when v) (when_daytime v) (what v)
    (city v) (state v) (country v) (zipcode v) (cwop_id v) (icao v)
    (human_readable_message v) (satellite v) (repeater_band v)
    (repeater_mode v) (street v) (street_number v) (county v)
    (osm_special_phrase v) (dapnet_message v) (mail_recipient v)
    (country_code v) (district v) (address v) (comment v) (message_callsign
    v) (force_outgoing_unicode_messages v) (found_my_duty_roster v)
    (found_when v) (found_when_daytime v) (found_my_keyword v) x
    (geopy_query v) (regex_string v) (regex_match v).
Definition set_geopy_query (x : option query_data) (v : Vars) : Vars :=
  MkVars
    (aprs_message v) (users_callsign v) (aprsdotfi_api_key v) (units v)
    (language v) (err v) (latitude v) (longitude v) (altitude v)
    (users_latitude v) (users_longitude v) (date_offset v) (hour_offset v)
    (number_of_results v) (lasttime v) (when v) (when_daytime v) (what v)
    (city v) (state v) (country v) (zipcode v) (cwop_id v) (icao v)
    (human_readable_message v) (satellite v) (repeater_band v)
    (repeater_mode v) (street v) (street_number v) (county v)
    (osm_special_phrase v) (dapnet_message v) (mail_recipient v)
    (country_code v) (district v) (address v) (comment v) (message_callsign
    v) (force_outgoing_unicode_messages v) (found_my_duty_roster v)
    (found_when v) (found_when_daytime v) (found_my_keyword v) (kw_err v) x
    (regex_string v) (regex_match v).
Definition set_regex_string (x : regex) (v : Vars) : Vars :=
  MkVars
    (aprs_message v) (users_callsign v) (aprsdotfi_api_key v) (units v)
    (language v) (err v) (latitude v) (longitude v) (altitude v)
    (users_latitude v) (users_longitude v) (date_offset v) (hour_offset v)
    (number_of_results v) (lasttime v) (when v) (when_daytime v) (what v)
    (city v) (state v) (country v) (zipcode v) (cwop_id v) (icao v)
    (human_readable_message v) (satellite v) (repeater_band v)
    (repeater_mode v) (street v) (street_number v) (county v)
    (osm_special_phrase v) (dapnet_message v) (mail_recipient v)
    (country_code v) (district v) (address v) (comment v) (message_callsign
    v) (force_outgoing_unicode_messages v) (found_my_duty_roster v)
    (found_when v) (found_when_daytime v) (found_my_keyword v) (kw_err v)
    (geopy_query v) x (regex_match v).
Definition set_regex_match (x : option regex) (v : Vars) : Vars :=
  MkVars
    (aprs_message v) (users_callsign v) (aprsdotfi_api_key v) (units v)
    (language v) (err v) (latitude v) (longitude v) (altitude v)
    (users_latitude v) (users_longitude v) (date_offset v) (hour_offset v)
    (number_of_results v) (lasttime v) (when v) (when_daytime v) (what v)
    (city v) (state v) (country v) (zipcode v) (cwop_id v) (icao v)
    (human_readable_message v) (satellite v) (repeater_band v)
    (repeater_mode v) (street v) (street_number v) (county v)
    (osm_special_phrase v) (dapnet_message v) (mail_recipient v)
    (country_code v) (district v) (address v) (comment v) (message_callsign
    v) (force_outgoing_unicode_messages v) (found_my_duty_roster v)
    (found_when v) (found_when_daytime v) (found_my_keyword v) (kw_err v)
    (geopy_query v) (regex_string v) x.

Notation "v |> f" := (f v) (at level 45, left associativity, only parsing).

(** A variable that holds a string at this point of the program. *)
Definition str_val (o : option string) : string :=
  match o with Some s => s | None => "" end.

Definition is_str (o : option string) (s : string) : bool :=
  match o with Some t => String.eqb t s | None => false end.

(** [re.sub(pattern=regex_string, repl="", string=aprs_message,
    flags=re.IGNORECASE).strip()] *)
Definition remove (regex_string : regex) (aprs_message : string) : string :=
  strip (sub regex_string aprs_message).

(** [(success, latitude, longitude, altitude, lasttime, comment,
    message_callsign) = get_position_on_aprsfi(...)], but for
    [success]. *)
Definition assign_position (r : aprsfi_reply) (v : Vars) : Vars :=
  v |> set_latitude (p_latitude r) |> set_longitude (p_longitude r)
    |> set_altitude (p_altitude r) |> set_lasttime (p_lasttime r)
    |> set_comment (p_comment r) |> set_message_callsign (p_callsign r).

(** The ten assignments [city = response_data["city"]] ...
    [street_number = response_data["street_number"]]. *)
Definition assign_address (d : address_data) (v : Vars) : Vars :=
  v |> set_city (rd_city d) |> set_state (rd_state d)
    |> set_country (rd_country d) |> set_country_code (rd_country_code d)
    |> set_district (rd_district d) |> set_address (rd_address d)
    |> set_zipcode (rd_zipcode d) |> set_county (rd_county d)
    |> set_street (rd_street d) |> set_street_number (rd_street_number d).

(** [\b(w1|w2|...)\b] under [re.IGNORECASE] *)
Definition keyword (ws : list string) : regex :=
  seqs [WordB; Grp 1 (words ws); WordB].

(** [[a-zA-Z0-9]{1,3}[0-9][a-zA-Z0-9]{0,3}] *)
Definition re_callsign : regex := seqs [rep 1 3 alnum; digit; rep 0 3 alnum].

(* ================================================================= *)
(** ** [input_parser.py]: the modifiers *)

(** [get_units_based_on_users_callsign] *)

(** [^[AKNW][a-zA-Z]{0,2}[0-9][A-Z]{1,3}] under [re.IGNORECASE] *)
Definition re_us_callsign : regex :=
  seqs [Bol; Chr (any_of "AKNWaknw"); rep 0 2 alpha; digit; rep 1 3 alpha].

(** [^(A8|D5|EL|5L|5M|6Z|XY|XZ)] under [re.IGNORECASE] *)
Definition re_imperial_prefix : regex :=
  seqs [Bol; Grp 1 (words ["A8"; "D5"; "EL"; "5L"; "5M"; "6Z"; "XY"; "XZ"])].

Definition get_units_based_on_users_callsign (users_callsign : string) : string :=
  let units := "metric" in
  let units :=
    match search re_us_callsign users_callsign with
    | Some _ => "imperial"
    | None => units
    end in
  let units :=
    match search re_imperial_prefix users_callsign with
    | Some _ => "imperial"
    | None => units
    end in
  units.

(** [parse_keyword_units] *)

Definition re_units_metric : regex := keyword ["mtr"; "metric"].
Definition re_units_imperial : regex := keyword ["imp"; "imperial"].

Definition units_metric (v : Vars) : Vars :=
  match search re_units_metric (aprs_message v) with
  | Some _ =>
      v |> set_units "metric" |> set_found_my_keyword true
        |> set_aprs_message (remove re_units_metric (aprs_message v))
  | None => v
  end.

Definition units_imperial (v : Vars) : Vars :=
  match search re_units_imperial (aprs_message v) with
  | Some _ =>
      v |> set_units "imperial" |> set_found_my_keyword true
        |> set_aprs_message (remove re_units_imperial (aprs_message v))
  | None => v
  end.

Definition parse_keyword_units (aprs_message : string) : bool * Vars :=
  let v := blank |> set_aprs_message aprs_message |> set_units "metric" in
  let v := units_imperial (units_metric v) in
  (found_my_keyword v, v).

(** [parse_keyword_language]: [\b(lang|lng)\s*([a-zA-Z]{2})\b] *)

Definition re_language : regex :=
  seqs [WordB; Grp 1 (words ["lang"; "lng"]); Star s_; Grp 2 (rep 2 2 alpha); WordB].

Definition language_body (v : Vars) : Vars :=
  match search re_language (aprs_message v) with
  | Some m =>
      v |> set_language (strip (lower (grp 2 m)))
        |> set_aprs_message (remove re_language (aprs_message v))
        |> set_found_my_keyword true
  | None => v
  end.

Definition parse_keyword_language (aprs_message : string) : bool * Vars :=
  let v := language_body (blank |> set_aprs_message aprs_message |> set_language "en") in
  (found_my_keyword v, v).

(** [parse_keyword_number_of_results]: [\btop(2|3|4|5)\b] *)

Definition re_number_of_results : regex :=
  seqs [WordB; word "top"; Grp 1 (words ["2"; "3"; "4"; "5"]); WordB].

Definition number_of_results_body (v : Vars) : Vars :=
  match search re_number_of_results (aprs_message v) with
  | Some m =>
      v |> set_number_of_results
             (match int_of_str (grp 1 m) with Some n => n | None => 1%Z end)
        |> set_aprs_message (remove re_number_of_results (aprs_message v))
        |> set_found_my_keyword true
  | None => v
  end.

Definition parse_keyword_number_of_results (aprs_message : string) : bool * Vars :=
  let v := number_of_results_body
             (blank |> set_aprs_message aprs_message |> set_number_of_results 1%Z) in
  (found_my_keyword v, v).

(** [parse_keyword_unicode]: [\bunicode\b] *)

Definition re_unicode : regex := seqs [WordB; word "unicode"; WordB].

Definition unicode_body (v : Vars) : Vars :=
  match search re_unicode (aprs_message v) with
  | Some _ =>
      v |> set_force_outgoing_unicode_messages true
        |> set_aprs_message (remove re_unicode (aprs_message v))
        |> set_found_my_keyword true
  | None => v
  end.

Definition parse_keyword_unicode (aprs_message : string) : bool * Vars :=
  let v := unicode_body
             (blank |> set_aprs_message aprs_message
                    |> set_force_outgoing_unicode_messages false) in
  (found_my_keyword v, v).

(* ================================================================= *)
(** ** [input_parser.py]: keyword parsers that call no collaborator *)

(** [parse_what_keyword_fortuneteller]:
    [\b(fortuneteller|magic8ball|magic8|m8b)\b] *)

Definition re_fortuneteller : regex :=
  keyword ["fortuneteller"; "magic8ball"; "magic8"; "m8b"].

Definition fortuneteller_body (v : Vars) : Vars :=
  match search re_fortuneteller (aprs_message v) with
  | Some _ =>
      v |> set_what (Some "fortuneteller")
        |> set_aprs_message (remove re_fortuneteller (aprs_message v))
        |> set_found_my_keyword true
  | None => v
  end.

Definition parse_what_keyword_fortuneteller (aprs_message : string)
  : bool * bool * Vars :=
  let v := fortuneteller_body (blank |> set_aprs_message aprs_message) in
  (found_my_keyword v, kw_err v, v).

(** [parse_what_keyword_dapnet] *)

(** [\b(dapnet|dapnethp)\s*([a-zA-Z0-9]{1,3}[0-9][a-zA-Z0-9]{0,3}-[a-zA-Z0-9]{1,2})\s*([\D\s]+)] *)
Definition re_dapnet_ssid : regex :=
  seqs [WordB; Grp 1 (words ["dapnet"; "dapnethp"]); Star s_;
        Grp 2 (seqs [re_callsign; lit_c "-"; rep 1 2 alnum]); Star s_;
        Grp 3 (plus (Chr (fun c => negb (is_digit c) || is_space c)))].

(** [\b(dapnet|dapnethp)\s*([a-zA-Z0-9]{1,3}[0-9][a-zA-Z0-9]{0,3})\s*([\D\s]+)] *)
Definition re_dapnet : regex :=
  seqs [WordB; Grp 1 (words ["dapnet"; "dapnethp"]); Star s_;
        Grp 2 re_callsign; Star s_;
        Grp 3 (plus (Chr (fun c => negb (is_digit c) || is_space c)))].

Definition dapnet_with_ssid (v : Vars) : Vars :=
  match search re_dapnet_ssid (aprs_message v) with
  | Some m =>
      v |> set_what (Some (lower (grp 1 m)))
        |> set_message_callsign (Some (strip (upper (grp 2 m))))
        |> set_dapnet_message (Some (strip (grp 3 m)))
        |> set_aprs_message (remove re_dapnet_ssid (aprs_message v))
        |> set_found_my_keyword true
  | None => v
  end.

Definition dapnet_without_ssid (v : Vars) : Vars :=
  if negb (found_my_keyword v) then
    match search re_dapnet (aprs_message v) with
    | Some m =>
        v |> set_what (Some (lower (grp 1 m)))
          |> set_message_callsign (Some (strip (upper (grp 2 m))))
          |> set_dapnet_message (Some (strip (grp 3 m)))
          |> set_found_my_keyword true
          |> set_aprs_message (remove re_dapnet (aprs_message v))
    | None => v
    end
  else v.

Definition parse_what_keyword_dapnet (aprs_message users_callsign : string)
  : bool * bool * Vars :=
  let v := blank |> set_aprs_message aprs_message
                 |> set_users_callsign users_callsign in
  let v := dapnet_without_ssid (dapnet_with_ssid v) in
  (found_my_keyword v, kw_err v, v).

(** [parse_what_keyword_cwop_id]: [\bcwop\s*(\w+)\b] *)

Definition re_cwop_id : regex :=
  seqs [WordB; word "cwop"; Star s_; Grp 1 (plus w_); WordB].

Definition cwop_id_body (v : Vars) : Vars :=
  match search re_cwop_id (aprs_message v) with
  | Some m =>
      let v := v |> set_cwop_id (Some (strip (upper (grp 1 m)))) in
      if Nat.eqb (String.length (str_val (cwop_id v))) 0 then
        v |> set_human_readable_message (Some errmsg_no_cwop_specified)
          |> set_kw_err true
      else
        v |> set_what (Some "cwop_by_cwop_id")
          |> set_human_readable_message
               (Some ("CWOP for " ++ str_val (cwop_id v)))
          |> set_found_my_keyword true
          |> set_aprs_message (remove re_cwop_id (aprs_message v))
  | None => v
  end.

Definition parse_what_keyword_cwop_id (aprs_message users_callsign : string)
  : bool * bool * Vars :=
  let v := blank |> set_aprs_message aprs_message
                 |> set_users_callsign users_callsign in
  let v := cwop_id_body v in
  (* "message_callsign": users_callsign *)
  let v := v |> set_message_callsign (Some users_callsign) in
  (found_my_keyword v, kw_err v, v).

(* ================================================================= *)
(** ** [input_parser.py]: the temporal extractors *)

(** One step of the cascade of [parse_when]: a phrase, the value of
    [when] and the day offset that go with it. *)
Definition when_phrase (r : regex) (w : string) (offset : Z) (v : Vars) : Vars :=
  let v := v |> set_regex_string r in
  match findall r (aprs_message v) with
  | _ :: _ =>
      v |> set_when (Some w) |> set_found_when true
        |> set_date_offset offset |> set_regex_match (Some r)
  | [] => v
  end.

(** [if not found_when: ...] *)
Definition unless_found_when (step : Vars -> Vars) (v : Vars) : Vars :=
  if negb (found_when v) then step v else v.

(** [\b([1-7])d\b] *)
Definition re_days : regex :=
  seqs [WordB; Grp 1 (Chr (between 49 55)); lit_ci "d"; WordB].

(** [\b(4[0-7]|3[0-9]|2[0-9]|1[0-9]|[1-9])h\b] *)
Definition re_hours : regex :=
  seqs [WordB;
        Grp 1 (alts [Seq (lit_c "4") (Chr (between 48 55));
                     Seq (lit_c "3") digit;
                     Seq (lit_c "2") digit;
                     Seq (lit_c "1") digit;
                     Chr (between 49 57)]);
        lit_ci "h"; WordB].

Definition when_days (v : Vars) : Vars :=
  let v := v |> set_regex_string re_days in
  match findall re_days (aprs_message v) with
  | m :: _ =>
      match int_of_str (grp 1 m) with
      | Some n =>
          v |> set_date_offset n |> set_regex_match (Some re_days)
            |> set_when (Some (str_of_int n ++ "d")) |> set_found_when true
      | None =>
          v |> set_when None |> set_found_when false |> set_date_offset (-1)%Z
      end
  | [] => v
  end.

Definition when_hours (v : Vars) : Vars :=
  let v := v |> set_regex_string re_hours in
  match findall re_hours (aprs_message v) with
  | m :: _ =>
      let v := v |> set_when (Some "hour") |> set_found_when true in
      match int_of_str (grp 1 m) with
      | Some n => v |> set_hour_offset n |> set_regex_match (Some re_hours)
      | None =>
          v |> set_when None |> set_found_when false |> set_hour_offset (-1)%Z
      end
  | [] => v
  end.

Definition when_remove (v : Vars) : Vars :=
  match regex_match v with
  | Some _ =>
      if found_when v
      then v |> set_aprs_message (remove (regex_string v) (aprs_message v))
      else v
  | None => v
  end.

Section Temporal.
Context {W : World}.

(** [parse_when]; the result holds [aprs_message], [found_when],
    [when], [date_offset] and [hour_offset]. *)
Definition parse_when (aprs_message : string) : Vars :=
  let v := blank |> set_aprs_message aprs_message in
  let v := when_phrase (keyword ["tonite"; "tonight"]) "today" 0%Z v in
  let v := unless_found_when (when_phrase (keyword ["today"]) "today" 0%Z) v in
  let v := unless_found_when (when_phrase (keyword ["tomorrow"]) "tomorrow" 1%Z) v in
  let v := unless_found_when
             (when_phrase (keyword ["monday"; "mon"]) "monday"
                          (getdaysuntil today MONDAY)) v in
  let v := unless_found_when
             (when_phrase (keyword ["tuesday"; "tue"]) "tuesday"
                          (getdaysuntil today TUESDAY)) v in
  let v := unless_found_when
             (when_phrase (keyword ["wednesday"; "wed"]) "wednesday"
                          (getdaysuntil today WEDNESDAY)) v in
  let v := unless_found_when
             (when_phrase (keyword ["thursday"; "thu"]) "thursday"
                          (getdaysuntil today THURSDAY)) v in
  let v := unless_found_when
             (when_phrase (keyword ["friday"; "fri"]) "friday"
                          (getdaysuntil today FRIDAY)) v in
  let v := unless_found_when
             (when_phrase (keyword ["saturday"; "sat"]) "saturday"
                          (getdaysuntil today SATURDAY)) v in
  let v := unless_found_when
             (when_phrase (keyword ["sunday"; "sun"]) "sunday"
                          (getdaysuntil today SUNDAY)) v in
  let v := unless_found_when (when_phrase (keyword ["current"; "now"]) "now" 0%Z) v in
  let v := unless_found_when when_days v in
  let v := unless_found_when when_hours v in
  when_remove v.

(** One step of the cascade of [parse_when_daytime]. *)
Definition daytime_phrase (r : regex) (w : string) (v : Vars) : Vars :=
  let v := v |> set_regex_string r in
  match findall r (aprs_message v) with
  | _ :: _ =>
      v |> set_when_daytime (Some w) |> set_found_when_daytime true
        |> set_regex_match (Some r)
  | [] => v
  end.

(** [if not when_daytime: ...] *)
Definition unless_when_daytime (step : Vars -> Vars) (v : Vars) : Vars :=
  if negb (truthy (when_daytime v)) then step v else v.

Definition daytime_remove (v : Vars) : Vars :=
  match regex_match v with
  | Some _ =>
      if found_when_daytime v
      then v |> set_aprs_message (remove (regex_string v) (aprs_message v))
      else v
  | None => v
  end.

(** [parse_when_daytime]; the result holds [aprs_message],
    [found_when_daytime] and [when_daytime]. *)
Definition parse_when_daytime (aprs_message : string) : Vars :=
  let v := blank |> set_aprs_message aprs_message in
  let v := daytime_phrase (keyword ["full"]) "full" v in
  let v := unless_when_daytime
             (daytime_phrase (keyword ["morn"; "morning"]) mpad_str_morning) v in
  let v := unless_when_daytime
             (daytime_phrase (keyword ["day"; "daytime"; "noon"]) mpad_str_daytime) v in
  let v := unless_when_daytime
             (daytime_phrase (keyword ["eve"; "evening"]) mpad_str_evening) v in
  let v := unless_when_daytime
             (daytime_phrase (keyword ["tonight"; "tonite"; "nite"; "night"])
                             mpad_str_night) v in
  daytime_remove v.

End Temporal.

(* ================================================================= *)
(** ** [input_parser.py]: the address formatter *)

(** [build_human_readable_address_message] *)
Definition build_human_readable_address_message (response_data : address_data)
  : string :=
  let human_readable_message := "" in
  let city := rd_city response_data in
  let state := rd_state response_data in
  let country_code := rd_country_code response_data in
  let zipcode := rd_zipcode response_data in
  let county := rd_county response_data in
  let human_readable_message :=
    if truthy city then
      let human_readable_message := str_val city in
      let human_readable_message :=
        if truthy country_code then
          if is_str country_code "US" then
            if truthy state
            then human_readable_message ++ "," ++ str_val state
            else human_readable_message
          else human_readable_message
        else human_readable_message in
      if truthy zipcode
      then human_readable_message ++ "," ++ str_val zipcode
      else human_readable_message
    else human_readable_message in
  let human_readable_message :=
    if negb (truthy city) then
      if truthy county then str_val county else human_readable_message
    else human_readable_message in
  if truthy country_code
  then human_readable_message ++ ";" ++ str_val country_code
  else human_readable_message.

(* ================================================================= *)
(** ** [input_parser.py]: keyword parsers that look positions up *)

Section Keywords.
Context {W : World}.

(** *** [parse_what_keyword_callsign_multi] *)

Definition csm_keywords : list string :=
  ["wx"; "forecast"; "whereis"; "riseset"; "cwop"; "metar"; "taf"; "sonde"].

(** [\b(wx|...|sonde)\s*([a-zA-Z0-9]{1,3}[0-9][a-zA-Z0-9]{0,3}-[a-zA-Z0-9]{1,2})\b] *)
Definition re_csm_ssid : regex :=
  seqs [WordB; Grp 1 (words csm_keywords); Star s_;
        Grp 2 (seqs [re_callsign; lit_c "-"; rep 1 2 alnum]); WordB].

(** [\b(wx|...|sonde)\s*([a-zA-Z0-9]{1,3}[0-9][a-zA-Z0-9]{0,3})\b] *)
Definition re_csm_callsign : regex :=
  seqs [WordB; Grp 1 (words csm_keywords); Star s_; Grp 2 re_callsign; WordB].

(** [\b(wx|...|sonde)\s*(\w+)\b] *)
Definition re_csm_token : regex :=
  seqs [WordB; Grp 1 (words csm_keywords); Star s_; Grp 2 (plus w_); WordB].

(** [\b(wx|...|sonde)\b] *)
Definition re_csm_bare : regex := keyword csm_keywords.

Definition csm_with_ssid (v : Vars) : Vars :=
  match search re_csm_ssid (aprs_message v) with
  | Some m =>
      v |> set_what (Some (lower (grp 1 m)))
        |> set_message_callsign (Some (upper (grp 2 m)))
        |> set_aprs_message (remove re_csm_ssid (aprs_message v))
        |> set_found_my_keyword true
  | None => v
  end.

Definition csm_without_ssid (v : Vars) : Vars :=
  if negb (found_my_keyword v) then
    match search re_csm_callsign (aprs_message v) with
    | Some m =>
        v |> set_what (Some (lower (grp 1 m)))
          |> set_message_callsign (Some (upper (grp 2 m)))
          |> set_found_my_keyword true
          |> set_aprs_message (remove re_csm_callsign (aprs_message v))
    | None => v
    end
  else v.

Definition csm_token (v : Vars) : Vars :=
  if negb (found_my_keyword v) then
    match search re_csm_token (aprs_message v) with
    | Some m =>
        v |> set_what (Some (lower (grp 1 m)))
          |> set_message_callsign (Some (strip (upper (grp 2 m))))
          |> set_found_my_keyword true
          |> set_aprs_message (remove re_csm_token (aprs_message v))
    | None => v
    end
  else v.

Definition csm_bare (v : Vars) : Vars :=
  if negb (found_my_keyword v) then
    match search re_csm_bare (aprs_message v) with
    | Some m =>
        v |> set_what (Some (lower (grp 1 m)))
          |> set_message_callsign (Some (users_callsign v))
          |> set_found_my_keyword true
          |> set_aprs_message (remove re_csm_bare (aprs_message v))
    | None => v
    end
  else v.

(** The [metar] and [taf] branch: the airport next to the position. *)
Definition csm_metar_taf (v : Vars) : Vars :=
  let v := v |> set_icao (get_nearest_icao (latitude v) (longitude v)) in
  if truthy (icao v) then
    let a := validate_icao (str_val (icao v)) in
    let v := v |> set_latitude (a_latitude a) |> set_longitude (a_longitude a)
               |> set_icao (a_icao a) in
    if a_success a then
      let v := v |> set_found_my_keyword true
                 |> set_human_readable_message
                      (Some (upper (str_val (what v)) ++ " for '" ++ fmt (icao v) ++ "'")) in
      if negb (a_metar_capable a) then
        let v := v |> set_what (Some "wx") |> set_icao None in
        v |> set_human_readable_message (Some ("Wx for '" ++ fmt (icao v) ++ "'"))
      else v
    else v |> set_icao None
  else v.

(** [users_latitude] and [users_longitude] from the sender's own
    position; the rest of the reply is dropped. *)
Definition csm_users_position (v : Vars) : Vars :=
  let u := get_position_on_aprsfi (users_callsign v) (aprsdotfi_api_key v) in
  v |> set_users_latitude (p_latitude u) |> set_users_longitude (p_longitude u).

Definition csm_lookup (v : Vars) : Vars :=
  if found_my_keyword v then
    let r := get_position_on_aprsfi (str_val (message_callsign v))
                                    (aprsdotfi_api_key v) in
    let v := assign_position r v in
    if p_success r then
      if is_str (what v) "wx" || is_str (what v) "forecast" then
        let v := v |> set_human_readable_message
                        (Some ("Wx " ++ fmt (message_callsign v))) in
        if is_str (what v) "forecast" then v |> set_what (Some "wx") else v
      else if is_str (what v) "riseset" then
        v |> set_human_readable_message
               (Some ("RiseSet " ++ fmt (message_callsign v)))
      else if is_str (what v) "sonde" then
        let v := v |> set_human_readable_message
                        (Some ("Landing Pred. '" ++ fmt (message_callsign v) ++ "'")) in
        csm_users_position v
      else if is_str (what v) "whereis" then
        let v := v |> set_human_readable_message
                        (Some ("Pos " ++ fmt (message_callsign v))) in
        let '(_, response_data) :=
          get_reverse_geopy_data (latitude v) (longitude v) (language v) false in
        csm_users_position (assign_address response_data v)
      else if is_str (what v) "cwop" then
        v |> set_human_readable_message
               (Some ("CWOP for " ++ fmt (message_callsign v)))
          |> set_what (Some "cwop_by_latlon")
      else if is_str (what v) "metar" || is_str (what v) "taf" then
        csm_metar_taf v
      else v
    else
      v |> set_human_readable_message
             (Some (errmsg_cannot_find_coords_for_user ++ " "
                    ++ fmt (message_callsign v)))
        |> set_kw_err true
  else v.

Definition parse_what_keyword_callsign_multi
           (aprs_message users_callsign : string)
           (aprsdotfi_api_key : option string) (language : string)
  : bool * bool * Vars :=
  let v := blank |> set_aprs_message aprs_message
                 |> set_users_callsign users_callsign
                 |> set_aprsdotfi_api_key aprsdotfi_api_key
                 |> set_language language in
  let v := csm_lookup (csm_bare (csm_token (csm_without_ssid (csm_with_ssid v)))) in
  (found_my_keyword v, kw_err v, v).

(** *** [parse_what_keyword_whereami]: [\b(whereami)\b] *)

Definition re_whereami : regex := keyword ["whereami"].

Definition whereami_body (v : Vars) : Vars :=
  match search re_whereami (aprs_message v) with
  | Some _ =>
      let v := v |> set_what (Some "whereis")
                 |> set_message_callsign (Some (users_callsign v))
                 |> set_found_my_keyword true in
      let v := v |> set_human_readable_message
                      (Some ("Pos for " ++ fmt (message_callsign v)))
                 |> set_aprs_message (remove re_whereami (aprs_message v)) in
      let r := get_position_on_aprsfi (users_callsign v) (aprsdotfi_api_key v) in
      let v := assign_position r v in
      if negb (p_success r) then
        v |> set_kw_err true
          |> set_human_readable_message
               (Some (errmsg_cannot_find_coords_for_user ++ " "
                      ++ fmt (message_callsign v)))
      else
        let '(_, response_data) :=
          get_reverse_geopy_data (latitude v) (longitude v) (language v) false in
        let v := assign_address response_data v in
        v |> set_users_latitude (latitude v) |> set_users_longitude (longitude v)
  | None => v
  end.

Definition parse_what_keyword_whereami
           (aprs_message users_callsign : string)
           (aprsdotfi_api_key : option string) (language : string)
  : bool * bool * Vars :=
  let v := blank |> set_aprs_message aprs_message
                 |> set_users_callsign users_callsign
                 |> set_aprsdotfi_api_key aprsdotfi_api_key
                 |> set_language language in
  let v := whereami_body v in
  (found_my_keyword v, kw_err v, v).

(** *** [parse_what_keyword_satpass]: the pattern is
    [\b(vispass|satpass|satfreq)\s*(NAME)\b], where [NAME] is [\w*]
    followed by the group [(\S* )]. *)

Definition re_satpass : regex :=
  seqs [WordB; Grp 1 (words ["vispass"; "satpass"; "satfreq"]); Star s_;
        Grp 2 (Seq (Star w_) (Grp 3 (Star S_))); WordB].

Definition satpass_body (v : Vars) : Vars :=
  match search re_satpass (aprs_message v) with
  | Some m =>
      let _what_tmp := lower (grp 1 m) in
      let v := v |> set_satellite (Some (upper (strip (grp 2 m)))) in
      let v :=
        if Nat.eqb (String.length (str_val (satellite v))) 0 then
          v |> set_human_readable_message (Some errmsg_no_satellite_specified)
            |> set_kw_err true
        else v in
      if negb (kw_err v) then
        let r := get_position_on_aprsfi (users_callsign v) (aprsdotfi_api_key v) in
        let v := assign_position r v in
        if p_success r then
          let v := v |> set_what (Some _what_tmp) in
          let v :=
            if is_str (what v) "satfreq" then
              v |> set_human_readable_message
                     (Some ("SatFreq for " ++ str_val (satellite v)))
            else
              v |> set_human_readable_message
                     (Some ("SatPass for " ++ str_val (satellite v))) in
          v |> set_found_my_keyword true
            |> set_aprs_message (remove re_satpass (aprs_message v))
        else
          v |> set_human_readable_message
                 (Some (errmsg_cannot_find_coords_for_user ++ " "
                        ++ users_callsign v))
            |> set_kw_err true
      else v
  | None => v
  end.

Definition parse_what_keyword_satpass
           (aprs_message users_callsign : string)
           (aprsdotfi_api_key : option string)
  : bool * bool * Vars :=
  let v := blank |> set_aprs_message aprs_message
                 |> set_users_callsign users_callsign
                 |> set_aprsdotfi_api_key aprsdotfi_api_key in
  let v := satpass_body v in
  (found_my_keyword v, kw_err v, v).

(** *** [parse_what_keyword_repeater] *)

(** [(fm|dstar|d-star|dmr|c4fm|ysf|tetra|atv)] without the group *)
Definition re_mode : regex :=
  words ["fm"; "dstar"; "d-star"; "dmr"; "c4fm"; "ysf"; "tetra"; "atv"].

(** [\d.?\d*(?:cm|m)\b] *)
Definition re_band : regex :=
  seqs [d_; opt dot; Star d_; words ["cm"; "m"]; WordB].

Definition re_repeater_mode_band : regex :=
  seqs [WordB; word "repeater"; Star s_; Grp 1 re_mode; Star s_;
        Grp 2 re_band; WordB].
Definition re_repeater_band_mode : regex :=
  seqs [WordB; word "repeater"; Star s_; Grp 1 re_band; Star s_;
        Grp 2 re_mode; WordB].
Definition re_repeater_mode : regex :=
  seqs [WordB; word "repeater"; Star s_; Grp 1 re_mode; WordB].
Definition re_repeater_band : regex :=
  seqs [WordB; word "repeater"; Star s_; Grp 1 re_band; WordB].
Definition re_repeater : regex := seqs [WordB; word "repeater"; WordB].

Definition repeater_mode_band (v : Vars) : Vars :=
  match search re_repeater_mode_band (aprs_message v) with
  | Some m =>
      v |> set_repeater_mode (Some (strip (upper (grp 1 m))))
        |> set_repeater_band (Some (strip (lower (grp 2 m))))
        |> set_found_my_keyword true
        |> set_aprs_message (remove re_repeater_mode_band (aprs_message v))
  | None => v
  end.

Definition repeater_band_mode (v : Vars) : Vars :=
  if negb (found_my_keyword v) then
    match search re_repeater_band_mode (aprs_message v) with
    | Some m =>
        v |> set_repeater_mode (Some (upper (grp 2 m)))
          |> set_repeater_band (Some (lower (grp 1 m)))
          |> set_found_my_keyword true
          |> set_aprs_message (remove re_repeater_band_mode (aprs_message v))
    | None => v
    end
  else v.

Definition repeater_mode_only (v : Vars) : Vars :=
  if negb (found_my_keyword v) then
    match search re_repeater_mode (aprs_message v) with
    | Some m =>
        v |> set_repeater_mode (Some (upper (grp 1 m)))
          |> set_repeater_band None
          |> set_found_my_keyword true
          |> set_aprs_message (remove re_repeater_mode (aprs_message v))
    | None => v
    end
  else v.

Definition repeater_band_only (v : Vars) : Vars :=
  if negb (found_my_keyword v) then
    match search re_repeater_band (aprs_message v) with
    | Some m =>
        v |> set_repeater_band (Some (lower (grp 1 m)))
          |> set_repeater_mode None
          |> set_found_my_keyword true
          |> set_aprs_message (remove re_repeater_band (aprs_message v))
    | None => v
    end
  else v.

Definition repeater_bare (v : Vars) : Vars :=
  if negb (found_my_keyword v) then
    match search re_repeater (aprs_message v) with
    | Some _ =>
        v |> set_repeater_band None
          |> set_repeater_mode None
          |> set_found_my_keyword true
          |> set_aprs_message (remove re_repeater (aprs_message v))
    | None => v
    end
  else v.

Definition repeater_lookup (v : Vars) : Vars :=
  if found_my_keyword v then
    let v := v |> set_what (Some "repeater")
               |> set_human_readable_message (Some "Repeater") in
    let v :=
      if truthy (repeater_band v) then
        v |> set_human_readable_message
               (Some (str_val (human_readable_message v) ++ " "
                      ++ str_val (repeater_band v)))
      else v in
    let v :=
      if truthy (repeater_mode v) then
        v |> set_human_readable_message
               (Some (str_val (human_readable_message v) ++ " "
                      ++ str_val (repeater_mode v)))
      else v in
    let r := get_position_on_aprsfi (users_callsign v) (aprsdotfi_api_key v) in
    let v := assign_position r v in
    if negb (p_success r) then
      v |> set_kw_err true
        |> set_human_readable_message
             (Some (errmsg_cannot_find_coords_for_user ++ " "
                    ++ fmt (message_callsign v)))
    else v
  else v.

Definition parse_what_keyword_repeater
           (aprs_message users_callsign : string)
           (aprsdotfi_api_key : option string)
  : bool * bool * Vars :=
  let v := blank |> set_aprs_message aprs_message
                 |> set_users_callsign users_callsign
                 |> set_aprsdotfi_api_key aprsdotfi_api_key
                 |> set_message_callsign (Some users_callsign) in
  let v := repeater_lookup
             (repeater_bare
                (repeater_band_only
                   (repeater_mode_only
                      (repeater_band_mode (repeater_mode_band v))))) in
  (found_my_keyword v, kw_err v, v).

(** *** [parse_what_keyword_osm_category] *)

(** [\bosm\s*(category)\b] and [\b(category)\b]; a category of
    [mpad_config.osm_supported_keyword_categories] is a plain word. *)
Definition re_osm_qualified (osm_category : string) : regex :=
  seqs [WordB; word "osm"; Star s_; Grp 1 (word osm_category); WordB].
Definition re_osm_bare (osm_category : string) : regex :=
  keyword [osm_category].

Definition osm_qualified (osm_category : string) (v : Vars) : Vars :=
  match search (re_osm_qualified osm_category) (aprs_message v) with
  | Some _ =>
      v |> set_osm_special_phrase (Some osm_category)
        |> set_found_my_keyword true
        |> set_aprs_message (remove (re_osm_qualified osm_category) (aprs_message v))
  | None => v
  end.

Definition osm_bare (osm_category : string) (v : Vars) : Vars :=
  if negb (found_my_keyword v) then
    match search (re_osm_bare osm_category) (aprs_message v) with
    | Some _ =>
        v |> set_osm_special_phrase (Some osm_category)
          |> set_found_my_keyword true
          |> set_aprs_message (remove (re_osm_bare osm_category) (aprs_message v))
    | None => v
    end
  else v.

Definition osm_lookup (v : Vars) : Vars :=
  let v := v |> set_what (Some "osm_special_phrase") in
  let r := get_position_on_aprsfi (users_callsign v) (aprsdotfi_api_key v) in
  let v := assign_position r v in
  if negb (p_success r) then
    v |> set_kw_err true
      |> set_human_readable_message
           (Some (errmsg_cannot_find_coords_for_user ++ " "
                  ++ fmt (message_callsign v)))
  else v.

(** The [for] loop; it is left at the first category found. *)
Fixpoint osm_loop (categories : list string) (v : Vars) : Vars :=
  match categories with
  | [] => v
  | osm_category :: categories' =>
      let v := osm_bare osm_category (osm_qualified osm_category v) in
      if found_my_keyword v then osm_lookup v else osm_loop categories' v
  end.

Definition parse_what_keyword_osm_category
           (aprs_message users_callsign : string)
           (aprsdotfi_api_key : option string)
  : bool * bool * Vars :=
  let v := blank |> set_aprs_message aprs_message
                 |> set_users_callsign users_callsign
                 |> set_aprsdotfi_api_key aprsdotfi_api_key in
  let v := osm_loop osm_supported_keyword_categories v in
  (found_my_keyword v, kw_err v, v).

(** *** [parse_what_keyword_email_position_report]:
    [\b(posmsg|posrpt)\s*([a-zA-Z0-9_.+-]+@[a-zA-Z0-9-]+\.[a-zA-Z0-9-.]+$)\b] *)

Definition re_email_position_report : regex :=
  seqs [WordB; Grp 1 (words ["posmsg"; "posrpt"]); Star s_;
        Grp 2 (seqs [plus (Chr (fun c => is_alnum c || any_of "_.+-" c));
                     lit_c "@";
                     plus (Chr (fun c => is_alnum c || any_of "-" c));
                     lit_c ".";
                     plus (Chr (fun c => is_alnum c || any_of "-." c));
                     Eol]);
        WordB].

Definition email_position_report_body (v : Vars) : Vars :=
  match search re_email_position_report (aprs_message v) with
  | Some m =>
      let v := v |> set_mail_recipient (Some (strip (grp 2 m)))
                 |> set_aprs_message
                      (remove re_email_position_report (aprs_message v))
                 |> set_found_my_keyword true
                 |> set_what (Some "email_position_report")
                 |> set_message_callsign (Some (users_callsign v)) in
      let v := v |> set_human_readable_message
                      (Some ("Email position for " ++ fmt (message_callsign v))) in
      let r := get_position_on_aprsfi (users_callsign v) (aprsdotfi_api_key v) in
      let v := assign_position r v in
      if negb (p_success r) then
        v |> set_kw_err true
          |> set_human_readable_message
               (Some (errmsg_cannot_find_coords_for_user ++ " "
                      ++ fmt (message_callsign v)))
      else
        let '(_, response_data) :=
          get_reverse_geopy_data (latitude v) (longitude v) (language v) true in
        let v := assign_address response_data v in
        v |> set_users_latitude (latitude v) |> set_users_longitude (longitude v)
  | None => v
  end.

Definition parse_what_keyword_email_position_report
           (aprs_message users_callsign : string)
           (aprsdotfi_api_key : option string) (language : string)
  : bool * bool * Vars :=
  let v := blank |> set_aprs_message aprs_message
                 |> set_users_callsign users_callsign
                 |> set_aprsdotfi_api_key aprsdotfi_api_key
                 |> set_language language in
  let v := email_position_report_body v in
  (found_my_keyword v, kw_err v, v).

(** *** [parse_what_keyword_metar] *)

(** [\b(icao)\s*([a-zA-Z0-9]{4})\b] *)
Definition re_icao_qualified : regex :=
  seqs [WordB; Grp 1 (word "icao"); Star s_; Grp 2 (rep 4 4 alnum); WordB].
(** [\b(iata)\s*([a-zA-Z0-9]{3})\b] *)
Definition re_iata_qualified : regex :=
  seqs [WordB; Grp 1 (word "iata"); Star s_; Grp 2 (rep 3 3 alnum); WordB].
(** [\b([a-zA-Z0-9]{4})\b] *)
Definition re_icao : regex := seqs [WordB; Grp 1 (rep 4 4 alnum); WordB].
(** [\b([a-zA-Z0-9]{3})\b] *)
Definition re_iata : regex := seqs [WordB; Grp 1 (rep 3 3 alnum); WordB].
(** [\b(metar)\b] and [\b(taf)\b] *)
Definition re_metar : regex := keyword ["metar"].
Definition re_taf : regex := keyword ["taf"].

(** [(success, latitude, longitude, metar_capable, icao) =
    validate_icao(...)], but for [success] and [metar_capable]. *)
Definition assign_airport (a : airport_reply) (v : Vars) : Vars :=
  v |> set_latitude (a_latitude a) |> set_longitude (a_longitude a)
    |> set_icao (a_icao a).

(** [if not found_my_keyword and not kw_err: ...] *)
Definition unless_settled (step : Vars -> Vars) (v : Vars) : Vars :=
  if negb (found_my_keyword v) && negb (kw_err v) then step v else v.

(** The airport is known: METAR, or a plain weather report where the
    airport has none. *)
Definition metar_or_wx (a : airport_reply) (v : Vars) : Vars :=
  if negb (a_metar_capable a) then
    v |> set_what (Some "wx")
      |> set_human_readable_message (Some ("Wx for '" ++ fmt (icao v) ++ "'"))
  else v.

Definition metar_icao_qualified (v : Vars) : Vars :=
  match findall re_icao_qualified (aprs_message v) with
  | m :: _ =>
      let v := v |> set_icao (Some (grp 2 m))
                 |> set_aprs_message (remove re_icao_qualified (aprs_message v)) in
      let a := validate_icao (str_val (icao v)) in
      let v := assign_airport a v in
      if a_success a then
        let v := v |> set_what (Some "metar") |> set_found_my_keyword true
                   |> set_human_readable_message
                        (Some ("METAR for '" ++ fmt (icao v) ++ "'")) in
        metar_or_wx a v
      else
        v |> set_human_readable_message
               (Some ("Cannot locate airport ICAO code " ++ fmt (icao v)))
          |> set_icao None
          |> set_kw_err true
  | [] => v
  end.

Definition metar_iata_qualified (v : Vars) : Vars :=
  match findall re_iata_qualified (aprs_message v) with
  | m :: _ =>
      let iata := grp 2 m in
      let v := v |> set_aprs_message (remove re_iata_qualified (aprs_message v)) in
      let a := validate_iata iata in
      let v := assign_airport a v in
      if a_success a then
        let v := v |> set_what (Some "metar") |> set_found_my_keyword true
                   |> set_human_readable_message
                        (Some ("METAR for '" ++ fmt (icao v) ++ "'")) in
        metar_or_wx a v
      else
        v |> set_human_readable_message
               (Some ("Cannot locate airport IATA code " ++ iata))
          |> set_icao None
          |> set_kw_err true
  | [] => v
  end.

(** A keyword-less code: an unknown one is no error. *)
Definition metar_guess (regex_string : regex)
           (validate : string -> airport_reply) (v : Vars) : Vars :=
  if negb (contains "," (aprs_message v)) && negb (contains ";" (aprs_message v))
  then
    match findall regex_string (aprs_message v) with
    | m :: _ =>
        let a := validate (strip (grp 1 m)) in
        let v := assign_airport a v in
        if a_success a then
          let v := v |> set_what (Some "metar") |> set_found_my_keyword true
                     |> set_human_readable_message
                          (Some ("METAR for '" ++ fmt (icao v) ++ "'"))
                     |> set_aprs_message (remove regex_string (aprs_message v)) in
          metar_or_wx a v
        else v
    | [] => v
    end
  else v.

(** The bare keywords [metar] and [taf]: the airport next to the
    sender. *)
Definition metar_nearest (regex_string : regex) (keyword_what title : string)
           (v : Vars) : Vars :=
  match findall regex_string (aprs_message v) with
  | _ :: _ =>
      let r := get_position_on_aprsfi (users_callsign v) (aprsdotfi_api_key v) in
      let v := assign_position r v in
      if p_success r then
        let v := v |> set_icao (get_nearest_icao (latitude v) (longitude v)) in
        if truthy (icao v) then
          let a := validate_icao (str_val (icao v)) in
          let v := assign_airport a v in
          if a_success a then
            let v := v |> set_what (Some keyword_what)
                       |> set_human_readable_message
                            (Some (title ++ " for '" ++ fmt (icao v) ++ "'"))
                       |> set_found_my_keyword true
                       |> set_aprs_message (remove regex_string (aprs_message v)) in
            if negb (a_metar_capable a) then
              let v := v |> set_what (Some "wx") |> set_icao None in
              v |> set_human_readable_message
                     (Some ("Wx for '" ++ fmt (icao v) ++ "'"))
            else v
          else v
        else v
      else v
  | [] => v
  end.

Definition parse_what_keyword_metar
           (aprs_message users_callsign : string)
           (aprsdotfi_api_key : option string)
  : bool * bool * Vars :=
  let v := blank |> set_aprs_message aprs_message
                 |> set_users_callsign users_callsign
                 |> set_aprsdotfi_api_key aprsdotfi_api_key in
  let v := metar_icao_qualified v in
  let v := unless_settled metar_iata_qualified v in
  let v := unless_settled (metar_guess re_icao validate_icao) v in
  let v := unless_settled (metar_guess re_iata validate_iata) v in
  let v := unless_settled (metar_nearest re_metar "metar" "METAR") v in
  let v := unless_settled (metar_nearest re_taf "taf" "TAF") v in
  (* "message_callsign": users_callsign *)
  let v := v |> set_message_callsign (Some users_callsign) in
  (found_my_keyword v, kw_err v, v).

(** *** [parse_what_keyword_wx] *)

(** [[\D\s]] *)
Definition no_digit : regex := Chr (fun c => negb (is_digit c) || is_space c).
(** [[a-zA-Z0-9-( )]] *)
Definition zip_char : regex := Chr (fun c => is_alnum c || any_of "-( )" c).
(** [[\d\.,\-]] *)
Definition coordinate_char : regex := Chr (fun c => is_digit c || any_of ".,-" c).

(** [\b([\D\s]+),\s*?(\w+);\s*([a-zA-Z]{2})\b] *)
Definition re_city_state_country : regex :=
  seqs [WordB; Grp 1 (plus no_digit); lit_c ","; Lazy s_; Grp 2 (plus w_);
        lit_c ";"; Star s_; Grp 3 (rep 2 2 alpha); WordB].
(** [\b([\D\s]+),\s*?(\w+)\b] *)
Definition re_city_state : regex :=
  seqs [WordB; Grp 1 (plus no_digit); lit_c ","; Lazy s_; Grp 2 (plus w_); WordB].
(** [\b([\D\s]+);\s*([a-zA-Z]{2})\b] *)
Definition re_city_country : regex :=
  seqs [WordB; Grp 1 (plus no_digit); lit_c ";"; Star s_;
        Grp 2 (rep 2 2 alpha); WordB].
(** [\b(zip)\s*([a-zA-Z0-9-( )]{3,10});\s*([a-zA-Z]{2})\b] *)
Definition re_zip_country : regex :=
  seqs [WordB; Grp 1 (word "zip"); Star s_; Grp 2 (rep 3 10 zip_char);
        lit_c ";"; Star s_; Grp 3 (rep 2 2 alpha); WordB].
(** [\b(zip)\s*([0-9]{5})\b] *)
Definition re_zip_us : regex :=
  seqs [WordB; Grp 1 (word "zip"); Star s_; Grp 2 (rep 5 5 digit); WordB].
(** [\b([a-zA-Z0-9-( )]{3,10});\s*([a-zA-Z]{2})\b] *)
Definition re_code_country : regex :=
  seqs [WordB; Grp 1 (rep 3 10 zip_char); lit_c ";"; Star s_;
        Grp 2 (rep 2 2 alpha); WordB].
(** [\b([0-9]{5})\b] *)
Definition re_five_digits : regex := seqs [WordB; Grp 1 (rep 5 5 digit); WordB].
(** [\b(grid|mh)\s*([a-zA-Z]{2}[0-9]{2}([a-zA-Z]{2})?)\b] *)
Definition re_grid_qualified : regex :=
  seqs [WordB; Grp 1 (words ["grid"; "mh"]); Star s_;
        Grp 2 (seqs [rep 2 2 alpha; rep 2 2 digit; opt (Grp 3 (rep 2 2 alpha))]);
        WordB].
(** [\b[a-zA-Z]{2}[0-9]{2}([a-zA-Z]{2})?\b] *)
Definition re_grid : regex :=
  seqs [WordB; rep 2 2 alpha; rep 2 2 digit; opt (Grp 1 (rep 2 2 alpha)); WordB].
(** [\b([\d\.,\-]+)\/([\d\.,\-]+)\b] *)
Definition re_lat_lon : regex :=
  seqs [WordB; Grp 1 (plus coordinate_char); lit_c "/";
        Grp 2 (plus coordinate_char); WordB].
(** [\b([a-zA-Z0-9]{1,3}[0-9][a-zA-Z0-9]{0,3}-[0-9]{1,2})\b] *)
Definition re_wx_callsign_ssid : regex :=
  seqs [WordB; Grp 1 (seqs [re_callsign; lit_c "-"; rep 1 2 digit]); WordB].
(** [\b([a-zA-Z0-9]{1,3}[0-9][a-zA-Z0-9]{0,3})\b] *)
Definition re_wx_callsign : regex := seqs [WordB; Grp 1 re_callsign; WordB].

(** The address fields of a reverse lookup and the message line made
    of them. *)
Definition address_found (response_data : address_data) (v : Vars) : Vars :=
  assign_address response_data v
    |> set_human_readable_message
         (Some (build_human_readable_address_message response_data)).

(** City, state and country code *)
Definition wx_city_state_country (v : Vars) : Vars :=
  match findall re_city_state_country (aprs_message v) with
  | m :: _ =>
      let v := v |> set_city (Some (strip (capwords (grp 1 m))))
                 |> set_country_code (Some (strip (upper (grp 3 m))))
                 |> set_state (Some (strip (upper (grp 2 m))))
                 |> set_aprs_message (remove re_city_state_country (aprs_message v)) in
      v |> set_geopy_query
             (Some (QueryData (city v) (state v) (country_code v) None))
        |> set_found_my_keyword true
  | [] => v
  end.

(** City and state *)
Definition wx_city_state (v : Vars) : Vars :=
  match findall re_city_state (aprs_message v) with
  | m :: _ =>
      let v := v |> set_country_code (Some "US")
                 |> set_country (Some "United States")
                 |> set_city (Some (strip (capwords (grp 1 m))))
                 |> set_state (Some (strip (upper (grp 2 m))))
                 |> set_aprs_message (remove re_city_state (aprs_message v)) in
      v |> set_geopy_query
             (Some (QueryData (city v) (state v) (country_code v) None))
        |> set_found_my_keyword true
  | [] => v
  end.

(** City and country code *)
Definition wx_city_country (v : Vars) : Vars :=
  match findall re_city_country (aprs_message v) with
  | m :: _ =>
      let v := v |> set_city (Some (strip (capwords (grp 1 m))))
                 |> set_country_code (Some (strip (upper (grp 2 m))))
                 |> set_state None in
      v |> set_geopy_query (Some (QueryData (city v) None (country_code v) None))
        |> set_aprs_message (remove re_city_country (aprs_message v))
        |> set_found_my_keyword true
  | [] => v
  end.

Definition no_query : query_data := QueryData None None None None.

Definition query_of (v : Vars) : query_data :=
  match geopy_query v with Some q => q | None => no_query end.

(** The address is sent to the geocoder. *)
Definition wx_address_lookup (v : Vars) : Vars :=
  if found_my_keyword v && negb (kw_err v) then
    let v :=
      if negb (validate_country (str_val (country_code v))) then
        v |> set_human_readable_message
               (Some (errmsg_invalid_country ++ ": '" ++ fmt (country_code v) ++ "'"))
          |> set_kw_err true
      else v in
    if negb (kw_err v) then
      let '(success, latitude, longitude) :=
        get_geocode_geopy_data (query_of v) (language v) in
      let v := v |> set_latitude latitude |> set_longitude longitude in
      if success then
        let v := v |> set_what (Some "wx")
                   |> set_human_readable_message (city v) in
        let v :=
          if truthy (state v) && is_str (country_code v) "US" then
            v |> set_human_readable_message
                   (Some (str_val (human_readable_message v) ++ ","
                          ++ fmt (state v)))
          else v in
        if truthy (country_code v) && negb (is_str (country_code v) "US") then
          v |> set_human_readable_message
                 (Some (str_val (human_readable_message v) ++ ";"
                        ++ fmt (country_code v)))
        else v
      else
        v |> set_kw_err true
          |> set_human_readable_message (Some errmsg_cannot_find_coords_for_address)
    else v
  else v.

Definition wx_address (v : Vars) : Vars :=
  let v := v |> set_geopy_query None in
  let v := wx_city_state_country v in
  let v := unless_settled wx_city_state v in
  let v := unless_settled wx_city_country v in
  wx_address_lookup v.

(** [zip] code with country code *)
Definition wx_zip_country (v : Vars) : Vars :=
  match findall re_zip_country (aprs_message v) with
  | m :: _ =>
      let v := v |> set_zipcode (Some (strip (grp 2 m)))
                 |> set_state None
                 |> set_country_code (Some (strip (upper (grp 3 m))))
                 |> set_aprs_message (remove re_zip_country (aprs_message v))
                 |> set_found_my_keyword true in
      v |> set_geopy_query
             (Some (QueryData None None (country_code v) (zipcode v)))
  | [] => v
  end.

(** [zip] and five digits: a zip code of the U.S. *)
Definition wx_zip_us (v : Vars) : Vars :=
  if negb (found_my_keyword v) then
    match findall re_zip_us (aprs_message v) with
    | m :: _ =>
        let v := v |> set_state None
                   |> set_country_code (Some "US")
                   |> set_country (Some "United States")
                   |> set_zipcode (Some (strip (grp 2 m)))
                   |> set_aprs_message (remove re_zip_us (aprs_message v))
                   |> set_found_my_keyword true in
        v |> set_geopy_query
               (Some (QueryData None None (country_code v) (zipcode v)))
    | [] => v
    end
  else v.

(** A code with country code and without keyword *)
Definition wx_code_country (v : Vars) : Vars :=
  if negb (found_my_keyword v) then
    let v := v |> set_geopy_query None in
    match findall re_code_country (aprs_message v) with
    | m :: _ =>
        let v := v |> set_zipcode (Some (strip (grp 1 m)))
                   |> set_state None
                   |> set_country_code (Some (strip (upper (grp 2 m))))
                   |> set_aprs_message (remove re_code_country (aprs_message v))
                   |> set_found_my_keyword true in
        v |> set_geopy_query
               (Some (QueryData None None (country_code v) (zipcode v)))
    | [] => v
    end
  else v.

Definition wx_zip_lookup (v : Vars) : Vars :=
  if found_my_keyword v then
    if negb (validate_country (str_val (country_code v))) then
      v |> set_human_readable_message
             (Some (errmsg_invalid_country ++ ": '" ++ fmt (country_code v) ++ "'"))
        |> set_kw_err true
        |> set_what None
    else
      let '(success, lat, lon) :=
        get_geocode_geopy_data (query_of v) (language v) in
      let v := v |> set_latitude lat |> set_longitude lon in
      if success then
        let v := v |> set_what (Some "wx")
                   |> set_human_readable_message
                        (Some ("Zip " ++ fmt (zipcode v) ++ ";"
                               ++ fmt (country_code v))) in
        let '(success, response_data) :=
          get_reverse_geopy_data (latitude v) (longitude v) (language v) false in
        if success then
          v |> set_city (rd_city response_data)
            |> set_state (rd_state response_data)
            |> set_country_code (rd_country_code response_data)
            |> set_country (rd_country response_data)
            |> set_county (rd_county response_data)
            |> set_street (rd_street response_data)
            |> set_street_number (rd_street_number response_data)
            |> set_human_readable_message
                 (Some (build_human_readable_address_message response_data))
        else v
      else
        v |> set_kw_err true
          |> set_human_readable_message (Some errmsg_cannot_find_coords_for_address)
  else v.

Definition wx_zip (v : Vars) : Vars :=
  let v := v |> set_geopy_query None in
  let v := wx_zip_country v in
  let v := wx_zip_us v in
  let v := wx_code_country v in
  wx_zip_lookup v.

(** Five digits and nothing else: a zip code of the U.S. *)
Definition wx_five_digits (v : Vars) : Vars :=
  match findall re_five_digits (aprs_message v) with
  | m :: _ =>
      let v := v |> set_zipcode (Some (grp 1 m))
                 |> set_state None
                 |> set_country_code (Some "US")
                 |> set_country (Some "United States")
                 |> set_aprs_message (remove re_five_digits (aprs_message v))
                 |> set_found_my_keyword true
                 |> set_what (Some "wx") in
      let v := v |> set_human_readable_message
                      (Some ("Zip " ++ fmt (zipcode v) ++ ";"
                             ++ fmt (country_code v))) in
      let '(success, lat, lon) :=
        get_geocode_geopy_data
          (QueryData None None (country_code v) (zipcode v)) (language v) in
      let v := v |> set_latitude lat |> set_longitude lon in
      if negb success then
        v |> set_kw_err true
          |> set_human_readable_message (Some errmsg_cannot_find_coords_for_address)
      else
        let '(success, response_data) :=
          get_reverse_geopy_data (latitude v) (longitude v) (language v) false in
        if success then address_found response_data v else v
  | [] => v
  end.

(** A Maidenhead locator after [grid] or [mh] *)
Definition wx_grid_qualified (v : Vars) : Vars :=
  match search re_grid_qualified (aprs_message v) with
  | Some m =>
      let '(latitude, longitude) := to_location (strip (grp 2 m)) in
      v |> set_latitude latitude |> set_longitude longitude
        |> set_found_my_keyword true
        |> set_human_readable_message (Some (grp 2 m))
        |> set_what (Some "wx")
        |> set_aprs_message (remove re_grid_qualified (aprs_message v))
  | None => v
  end.

(** A Maidenhead locator without keyword *)
Definition wx_grid (v : Vars) : Vars :=
  match search re_grid (aprs_message v) with
  | Some m =>
      let '(latitude, longitude) := to_location (strip (grp 0 m)) in
      v |> set_latitude latitude |> set_longitude longitude
        |> set_found_my_keyword true
        |> set_human_readable_message (Some (grp 0 m))
        |> set_what (Some "wx")
        |> set_aprs_message (remove re_grid (aprs_message v))
  | None => v
  end.

(** Latitude and longitude *)
Definition wx_lat_lon (v : Vars) : Vars :=
  match search re_lat_lon (aprs_message v) with
  | Some m =>
      match float_of_str (grp 1 m), float_of_str (grp 2 m) with
      | Some latitude, Some longitude =>
          let v := v |> set_latitude latitude |> set_longitude longitude in
          let '(success, response_data) :=
            get_reverse_geopy_data latitude longitude
                                   (language v) false in
          let v :=
            if success then address_found response_data v
            else
              v |> set_human_readable_message
                     (Some ("lat " ++ str_of_float latitude ++ "/lon "
                            ++ str_of_float longitude)) in
          v |> set_aprs_message (remove re_lat_lon (aprs_message v))
            |> set_found_my_keyword true
            |> set_what (Some "wx")
      | _, _ =>
          v |> set_latitude 0%float |> set_longitude 0%float
            |> set_human_readable_message (Some "Error while parsing coordinates")
            |> set_kw_err true
      end
  | None => v
  end.

(** A call sign, with or without SSID *)
Definition wx_callsign (v : Vars) : Vars :=
  let v :=
    match search re_wx_callsign_ssid (aprs_message v) with
    | Some m =>
        v |> set_message_callsign (Some (upper (grp 0 m)))
          |> set_found_my_keyword true
          |> set_aprs_message (remove re_wx_callsign_ssid (aprs_message v))
    | None =>
        match search re_wx_callsign (aprs_message v) with
        | Some m =>
            v |> set_message_callsign (Some (upper (grp 0 m)))
              |> set_aprs_message (remove re_wx_callsign (aprs_message v))
              |> set_found_my_keyword true
        | None => v
        end
    end in
  if found_my_keyword v && truthy (message_callsign v) then
    let r := get_position_on_aprsfi (str_val (message_callsign v))
                                    module_aprsdotfi_api_key in
    let v := assign_position r v in
    if negb (p_success r) then
      v |> set_human_readable_message
             (Some (errmsg_cannot_find_coords_for_user ++ " "
                    ++ fmt (message_callsign v)))
        |> set_kw_err true
    else
      let v := v |> set_human_readable_message (message_callsign v)
                 |> set_what (Some "wx") in
      let '(success, response_data) :=
        get_reverse_geopy_data (latitude v) (longitude v) (language v) false in
      if success then address_found response_data v else v
  else v.

Definition parse_what_keyword_wx (aprs_message users_callsign language : string)
  : bool * bool * Vars :=
  let v := blank |> set_aprs_message aprs_message
                 |> set_users_callsign users_callsign
                 |> set_language language
                 |> set_message_callsign (Some users_callsign) in
  let v := wx_address v in
  let v := unless_settled wx_zip v in
  let v := unless_settled wx_five_digits v in
  let v := unless_settled wx_grid_qualified v in
  let v := unless_settled wx_grid v in
  let v := unless_settled wx_lat_lon v in
  let v := unless_settled wx_callsign v in
  (found_my_keyword v, kw_err v, v).

End Keywords.

(* ================================================================= *)
(** ** [input_parser.py]: [parse_input_message] *)

Section Main.
Context {W : World}.

(** [if not found_my_duty_roster and not err: ...] *)
Definition unclaimed (v : Vars) : bool :=
  negb (found_my_duty_roster v) && negb (err v).

(** *** The modifiers: units, unicode, language, number of results *)

Definition stage_units (v : Vars) : Vars :=
  let '(found_my_keyword, parser_rd_units) :=
    parse_keyword_units (aprs_message v) in
  if found_my_keyword then
    v |> set_aprs_message (aprs_message parser_rd_units)
      |> set_units (units parser_rd_units)
  else v.

Definition stage_unicode (v : Vars) : Vars :=
  let '(found_my_keyword, parser_rd_unicode) :=
    parse_keyword_unicode (aprs_message v) in
  if found_my_keyword then
    v |> set_aprs_message (aprs_message parser_rd_unicode)
      |> set_force_outgoing_unicode_messages
           (force_outgoing_unicode_messages parser_rd_unicode)
  else v.

Definition stage_language (v : Vars) : Vars :=
  let '(found_my_keyword, parser_rd_language) :=
    parse_keyword_language (aprs_message v) in
  if found_my_keyword then
    v |> set_aprs_message (aprs_message parser_rd_language)
      |> set_language (language parser_rd_language)
  else v.

Definition stage_number_of_results (v : Vars) : Vars :=
  let '(found_my_keyword, parser_rd_number_of_results) :=
    parse_keyword_number_of_results (aprs_message v) in
  if found_my_keyword then
    v |> set_aprs_message (aprs_message parser_rd_number_of_results)
      |> set_number_of_results (number_of_results parser_rd_number_of_results)
  else v.

(** *** The help pages: [^(info|help)$] *)

Definition re_help : regex := seqs [Bol; Grp 1 (words ["info"; "help"]); Eol].

Definition stage_help (v : Vars) : Vars :=
  if unclaimed v then
    match search re_help (aprs_message v) with
    | Some _ =>
        if negb (truthy (what v))
        then v |> set_what (Some "help") |> set_found_my_duty_roster true
        else v
    | None => v
    end
  else v.

(** *** When and which part of the day *)

Definition stage_when (v : Vars) : Vars :=
  if negb (found_when v) && negb (err v) && negb (found_my_duty_roster v) then
    let r := parse_when (aprs_message v) in
    let v := v |> set_found_when (found_when r) |> set_when (when r)
               |> set_date_offset (date_offset r)
               |> set_hour_offset (hour_offset r) in
    if found_when v then v |> set_aprs_message (aprs_message r) else v
  else v.

Definition stage_when_daytime (v : Vars) : Vars :=
  if negb (found_when_daytime v) && negb (err v) && negb (found_my_duty_roster v)
  then
    let r := parse_when_daytime (aprs_message v) in
    let v := v |> set_found_when_daytime (found_when_daytime r)
               |> set_when_daytime (when_daytime r) in
    if found_when_daytime v then v |> set_aprs_message (aprs_message r) else v
  else v.

(** *** The keyword parsers, in the order of the program *)

(** [found_my_duty_roster = found_my_keyword; err = kw_err] *)
Definition claim (found_my_keyword kw_err : bool) (v : Vars) : Vars :=
  v |> set_found_my_duty_roster found_my_keyword |> set_err kw_err.

Definition stage_callsign_multi (v : Vars) : Vars :=
  if unclaimed v then
    let '(found_my_keyword, kw_err, parser_rd_csm) :=
      parse_what_keyword_callsign_multi
        (aprs_message v) (users_callsign v) (aprsdotfi_api_key v) (language v) in
    if found_my_keyword || kw_err then
      claim found_my_keyword kw_err v
        |> set_latitude (latitude parser_rd_csm)
        |> set_longitude (longitude parser_rd_csm)
        |> set_users_latitude (users_latitude parser_rd_csm)
        |> set_users_longitude (users_longitude parser_rd_csm)
        |> set_lasttime (lasttime parser_rd_csm)
        |> set_comment (comment parser_rd_csm)
        |> set_altitude (altitude parser_rd_csm)
        |> set_what (what parser_rd_csm)
        |> set_human_readable_message (human_readable_message parser_rd_csm)
        |> set_aprs_message (aprs_message parser_rd_csm)
        |> set_message_callsign (message_callsign parser_rd_csm)
        |> set_city (city parser_rd_csm)
        |> set_state (state parser_rd_csm)
        |> set_county (county parser_rd_csm)
        |> set_country (country parser_rd_csm)
        |> set_country_code (country_code parser_rd_csm)
        |> set_district (district parser_rd_csm)
        |> set_address (address parser_rd_csm)
        |> set_zipcode (zipcode parser_rd_csm)
        |> set_street (street parser_rd_csm)
        |> set_street_number (street_number parser_rd_csm)
        |> set_icao (icao parser_rd_csm)
    else v
  else v.

Definition stage_whereami (v : Vars) : Vars :=
  if unclaimed v then
    let '(found_my_keyword, kw_err, parser_rd_whereami) :=
      parse_what_keyword_whereami
        (aprs_message v) (users_callsign v) (aprsdotfi_api_key v) (language v) in
    if found_my_keyword || kw_err then
      claim found_my_keyword kw_err v
        |> set_latitude (latitude parser_rd_whereami)
        |> set_longitude (longitude parser_rd_whereami)
        |> set_users_latitude (users_latitude parser_rd_whereami)
        |> set_users_longitude (users_longitude parser_rd_whereami)
        |> set_lasttime (lasttime parser_rd_whereami)
        |> set_comment (comment parser_rd_whereami)
        |> set_altitude (altitude parser_rd_whereami)
        |> set_what (what parser_rd_whereami)
        |> set_human_readable_message (human_readable_message parser_rd_whereami)
        |> set_aprs_message (aprs_message parser_rd_whereami)
        |> set_message_callsign (message_callsign parser_rd_whereami)
        |> set_city (city parser_rd_whereami)
        |> set_state (state parser_rd_whereami)
        |> set_county (county parser_rd_whereami)
        |> set_country (country parser_rd_whereami)
        |> set_country_code (country_code parser_rd_whereami)
        |> set_district (district parser_rd_whereami)
        |> set_address (address parser_rd_whereami)
        |> set_zipcode (zipcode parser_rd_whereami)
        |> set_street (street parser_rd_whereami)
        |> set_street_number (street_number parser_rd_whereami)
    else v
  else v.

Definition stage_cwop_id (v : Vars) : Vars :=
  if unclaimed v then
    let '(found_my_keyword, kw_err, parser_rd_cwop_id) :=
      parse_what_keyword_cwop_id (aprs_message v) (users_callsign v) in
    if found_my_keyword || kw_err then
      claim found_my_keyword kw_err v
        |> set_what (what parser_rd_cwop_id)
        |> set_message_callsign (message_callsign parser_rd_cwop_id)
        |> set_cwop_id (cwop_id parser_rd_cwop_id)
        |> set_human_readable_message (human_readable_message parser_rd_cwop_id)
        |> set_aprs_message (aprs_message parser_rd_cwop_id)
    else v
  else v.

Definition stage_satpass (v : Vars) : Vars :=
  if unclaimed v then
    let '(found_my_keyword, kw_err, parser_rd_satpass) :=
      parse_what_keyword_satpass
        (aprs_message v) (users_callsign v) (aprsdotfi_api_key v) in
    if found_my_keyword || kw_err then
      claim found_my_keyword kw_err v
        |> set_what (what parser_rd_satpass)
        |> set_latitude (latitude parser_rd_satpass)
        |> set_longitude (longitude parser_rd_satpass)
        |> set_altitude (altitude parser_rd_satpass)
        |> set_lasttime (lasttime parser_rd_satpass)
        |> set_comment (comment parser_rd_satpass)
        |> set_message_callsign (message_callsign parser_rd_satpass)
        |> set_satellite (satellite parser_rd_satpass)
        |> set_human_readable_message (human_readable_message parser_rd_satpass)
        |> set_aprs_message (aprs_message parser_rd_satpass)
    else v
  else v.

Definition stage_repeater (v : Vars) : Vars :=
  if unclaimed v then
    let '(found_my_keyword, kw_err, parser_rd_repeater) :=
      parse_what_keyword_repeater
        (aprs_message v) (users_callsign v) (aprsdotfi_api_key v) in
    if found_my_keyword || kw_err then
      claim found_my_keyword kw_err v
        |> set_what (what parser_rd_repeater)
        |> set_latitude (latitude parser_rd_repeater)
        |> set_longitude (longitude parser_rd_repeater)
        |> set_altitude (altitude parser_rd_repeater)
        |> set_lasttime (lasttime parser_rd_repeater)
        |> set_comment (comment parser_rd_repeater)
        |> set_message_callsign (message_callsign parser_rd_repeater)
        |> set_repeater_band (repeater_band parser_rd_repeater)
        |> set_repeater_mode (repeater_mode parser_rd_repeater)
        |> set_human_readable_message (human_readable_message parser_rd_repeater)
        |> set_aprs_message (aprs_message parser_rd_repeater)
    else v
  else v.

Definition stage_osm_category (v : Vars) : Vars :=
  if unclaimed v then
    let '(found_my_keyword, kw_err, parser_rd_osm) :=
      parse_what_keyword_osm_category
        (aprs_message v) (users_callsign v) (aprsdotfi_api_key v) in
    if found_my_keyword || kw_err then
      claim found_my_keyword kw_err v
        |> set_what (what parser_rd_osm)
        |> set_latitude (latitude parser_rd_osm)
        |> set_longitude (longitude parser_rd_osm)
        |> set_lasttime (lasttime parser_rd_osm)
        |> set_comment (comment parser_rd_osm)
        |> set_altitude (altitude parser_rd_osm)
        |> set_human_readable_message (human_readable_message parser_rd_osm)
        |> set_aprs_message (aprs_message parser_rd_osm)
        |> set_message_callsign (message_callsign parser_rd_osm)
        |> set_osm_special_phrase (osm_special_phrase parser_rd_osm)
    else v
  else v.

Definition stage_dapnet (v : Vars) : Vars :=
  if unclaimed v then
    let '(found_my_keyword, kw_err, parser_rd_dapnet) :=
      parse_what_keyword_dapnet (aprs_message v) (users_callsign v) in
    if found_my_keyword || kw_err then
      claim found_my_keyword kw_err v
        |> set_what (what parser_rd_dapnet)
        |> set_message_callsign (message_callsign parser_rd_dapnet)
        |> set_human_readable_message (human_readable_message parser_rd_dapnet)
        |> set_aprs_message (aprs_message parser_rd_dapnet)
        |> set_dapnet_message (dapnet_message parser_rd_dapnet)
    else v
  else v.

Definition stage_fortuneteller (v : Vars) : Vars :=
  if unclaimed v then
    let '(found_my_keyword, kw_err, parser_rd_fortuneteller) :=
      parse_what_keyword_fortuneteller (aprs_message v) in
    if found_my_keyword || kw_err then
      claim found_my_keyword kw_err v
        |> set_what (what parser_rd_fortuneteller)
        |> set_aprs_message (aprs_message parser_rd_fortuneteller)
    else v
  else v.

Definition stage_email_position_report (v : Vars) : Vars :=
  if unclaimed v then
    let '(found_my_keyword, kw_err, parser_rd_email_posrpt) :=
      parse_what_keyword_email_position_report
        (aprs_message v) (users_callsign v) (aprsdotfi_api_key v) (language v) in
    if found_my_keyword || kw_err then
      claim found_my_keyword kw_err v
        |> set_latitude (latitude parser_rd_email_posrpt)
        |> set_longitude (longitude parser_rd_email_posrpt)
        |> set_users_latitude (users_latitude parser_rd_email_posrpt)
        |> set_users_longitude (users_longitude parser_rd_email_posrpt)
        |> set_lasttime (lasttime parser_rd_email_posrpt)
        |> set_comment (comment parser_rd_email_posrpt)
        |> set_altitude (altitude parser_rd_email_posrpt)
        |> set_what (what parser_rd_email_posrpt)
        |> set_human_readable_message
             (human_readable_message parser_rd_email_posrpt)
        |> set_aprs_message (aprs_message parser_rd_email_posrpt)
        |> set_message_callsign (message_callsign parser_rd_email_posrpt)
        |> set_city (city parser_rd_email_posrpt)
        |> set_state (state parser_rd_email_posrpt)
        |> set_county (county parser_rd_email_posrpt)
        |> set_country (country parser_rd_email_posrpt)
        |> set_country_code (country_code parser_rd_email_posrpt)
        |> set_district (district parser_rd_email_posrpt)
        |> set_address (address parser_rd_email_posrpt)
        |> set_zipcode (zipcode parser_rd_email_posrpt)
        |> set_street (street parser_rd_email_posrpt)
        |> set_street_number (street_number parser_rd_email_posrpt)
        |> set_mail_recipient (mail_recipient parser_rd_email_posrpt)
    else v
  else v.

Definition stage_metar (v : Vars) : Vars :=
  if unclaimed v then
    let '(found_my_keyword, kw_err, parser_rd_metar) :=
      parse_what_keyword_metar
        (aprs_message v) (users_callsign v) (aprsdotfi_api_key v) in
    if found_my_keyword || kw_err then
      claim found_my_keyword kw_err v
        |> set_what (what parser_rd_metar)
        |> set_message_callsign (message_callsign parser_rd_metar)
        |> set_icao (icao parser_rd_metar)
        |> set_human_readable_message (human_readable_message parser_rd_metar)
        |> set_aprs_message (aprs_message parser_rd_metar)
    else v
  else v.

Definition stage_wx (v : Vars) : Vars :=
  if unclaimed v then
    let '(found_my_keyword, kw_err, parser_rd_wx) :=
      parse_what_keyword_wx (aprs_message v) (users_callsign v) (language v) in
    if found_my_keyword || kw_err then
      claim found_my_keyword kw_err v
        |> set_latitude (latitude parser_rd_wx)
        |> set_longitude (longitude parser_rd_wx)
        |> set_what (what parser_rd_wx)
        |> set_message_callsign (message_callsign parser_rd_wx)
        |> set_human_readable_message (human_readable_message parser_rd_wx)
        |> set_aprs_message (aprs_message parser_rd_wx)
        |> set_city (city parser_rd_wx)
        |> set_state (state parser_rd_wx)
        |> set_country (country parser_rd_wx)
        |> set_country_code (country_code parser_rd_wx)
        |> set_district (district parser_rd_wx)
        |> set_address (address parser_rd_wx)
        |> set_zipcode (zipcode parser_rd_wx)
        |> set_county (county parser_rd_wx)
        |> set_street (street parser_rd_wx)
        |> set_street_number (street_number parser_rd_wx)
    else v
  else v.

(** *** The end of the parser: checks, defaults, the sender's position *)

(** [if not what and not when and not when_daytime: ...] *)
Definition check_anything (v : Vars) : Vars :=
  if negb (truthy (what v)) && negb (truthy (when v))
     && negb (truthy (when_daytime v))
  then
    let v :=
      if negb (truthy (human_readable_message v))
      then v |> set_human_readable_message (Some errmsg_invalid_command)
      else v in
    v |> set_err true
  else v.

(** The garbage handler *)
Definition check_garbage (v : Vars) : Vars :=
  if negb (truthy (what v)) then
    if truthy (when v) || truthy (when_daytime v) then
      if Nat.ltb 0 (String.length (aprs_message v)) then
        v |> set_err true
          |> set_human_readable_message (Some errmsg_invalid_command)
      else v
    else v
  else v.

Definition default_when (v : Vars) : Vars :=
  if negb (found_when v) && negb (err v) then
    v |> set_when (Some "today") |> set_found_when true |> set_date_offset 0%Z
  else v.

Definition default_when_daytime (v : Vars) : Vars :=
  if negb (found_when_daytime v) && negb (err v) then
    let v :=
      if is_str (what v) "metar" || is_str (what v) "taf"
      then v |> set_when_daytime (Some "day")
      else v |> set_when_daytime (Some "full") in
    v |> set_found_when_daytime true
  else v.

Definition default_what (v : Vars) : Vars :=
  if negb (truthy (what v)) && negb (err v)
  then v |> set_what (Some "wx")
  else v.

(** [^(([A-Z0-9]{1,3}[0123456789][A-Z0-9]{0,3})-([A-Z0-9]{1,2}))$],
    matched with case *)
Definition upper_or_digit : regex := Chr (fun c => is_upper c || is_digit c).
Definition re_users_callsign_ssid : regex :=
  seqs [Bol;
        Grp 1 (seqs [Grp 2 (seqs [rep 1 3 upper_or_digit; digit;
                                  rep 0 3 upper_or_digit]);
                     lit_c "-";
                     Grp 3 (rep 1 2 upper_or_digit)]);
        Eol].

(** The position is found: the message line is the call sign, or the
    address where the reverse lookup gives one. *)
Definition position_found (v : Vars) : Vars :=
  let '(success, response_data) :=
    get_reverse_geopy_data (latitude v) (longitude v) (language v) false in
  if success then address_found response_data v else v.

(** No keyword parser has taken the message: the weather at the
    sender's position, if the message names a day. *)
Definition sender_position (v : Vars) : Vars :=
  if unclaimed v then
    if truthy (when v) then
      let r := get_position_on_aprsfi (users_callsign v)
                                      (aprsdotfi_api_key v) in
      let v := assign_position r v in
      if p_success r then
        let v := v |> set_human_readable_message
                        (Some (fmt (message_callsign v)))
                   |> set_found_my_duty_roster true in
        position_found v
      else
        match search re_users_callsign_ssid (users_callsign v) with
        | Some m =>
            let r := get_position_on_aprsfi (upper (grp 2 m))
                                            (aprsdotfi_api_key v) in
            let v := assign_position r v in
            if p_success r then
              let v := v |> set_found_my_duty_roster true
                         |> set_human_readable_message
                              (Some (fmt (message_callsign v))) in
              position_found v
            else
              v |> set_human_readable_message
                     (Some errmsg_cannot_find_coords_for_user)
                |> set_err true
        | None => v
        end
    else
      let v :=
        if negb (truthy (human_readable_message v))
        then v |> set_human_readable_message (Some errmsg_invalid_command)
        else v in
      v |> set_err true
  else v.

(** *** The program *)

Definition modifiers : list (Vars -> Vars) :=
  [stage_units; stage_unicode; stage_language; stage_number_of_results].

Definition temporal_extractors : list (Vars -> Vars) :=
  [stage_when; stage_when_daytime].

Definition keyword_parsers : list (Vars -> Vars) :=
  [stage_callsign_multi; stage_whereami; stage_cwop_id; stage_satpass;
   stage_repeater; stage_osm_category; stage_dapnet; stage_fortuneteller;
   stage_email_position_report; stage_metar; stage_wx].

(** The rule chain, help first. *)
Definition rule_chain : list (Vars -> Vars) :=
  [stage_help] ++ temporal_extractors ++ keyword_parsers.

Definition backfill : list (Vars -> Vars) :=
  [check_anything; check_garbage; default_when; default_when_daytime;
   default_what; sender_position].

Definition program : list (Vars -> Vars) :=
  modifiers ++ rule_chain ++ backfill.

(** The statements of a straight-line program, one after the other. *)
Definition run (stages : list (Vars -> Vars)) (v : Vars) : Vars :=
  fold_left (fun v stage => stage v) stages v.

(** The states the program goes through, the first one included. *)
Fixpoint trace (stages : list (Vars -> Vars)) (v : Vars) : list Vars :=
  match stages with
  | [] => [v]
  | stage :: stages' => v :: trace stages' (stage v)
  end.

(** The variables before the first statement that reads the message. *)
Definition start (aprs_message users_callsign aprsdotfi_api_key : string) : Vars :=
  let users_callsign := upper users_callsign in
  blank |> set_aprs_message aprs_message
        |> set_users_callsign users_callsign
        |> set_aprsdotfi_api_key (Some aprsdotfi_api_key)
        |> set_units (get_units_based_on_users_callsign users_callsign).

(** [parse_input_message]: [success] and the response parameters. *)
Definition parse_input_message
           (aprs_message users_callsign aprsdotfi_api_key : string)
  : bool * Vars :=
  let v := run program (start aprs_message users_callsign aprsdotfi_api_key) in
  let success := if err v then false else true in
  (success, v).

End Main.

(* ================================================================= *)
(** ** Specification-side definitions *)

(** The address line as the specification describes it: the city
    name with [,STATE] (country code [US] and a state) and [,ZIP]
    after it, the county name where there is no city, and
    [;COUNTRY_CODE] at the end.  A field is present when it is
    neither [None] nor the empty string. *)
Definition address_line (d : address_data) : string :=
  let place :=
    if truthy (rd_city d) then
      str_val (rd_city d)
      ++ (if is_str (rd_country_code d) "US" && truthy (rd_state d)
          then "," ++ str_val (rd_state d) else "")
      ++ (if truthy (rd_zipcode d) then "," ++ str_val (rd_zipcode d) else "")
    else if truthy (rd_county d) then str_val (rd_county d)
    else "" in
  place ++ (if truthy (rd_country_code d)
            then ";" ++ str_val (rd_country_code d) else "").

(** The record of a reverse lookup that found nothing. *)
Definition no_address : address_data :=
  AddressData None None None None None None None None None None.

(** How often the duty roster flag goes from false to true, and
    whether it ever goes back, along a sequence of states. *)
Fixpoint rises (l : list Vars) : nat :=
  match l with
  | v :: ((v' :: _) as t) =>
      (if negb (found_my_duty_roster v) && found_my_duty_roster v' then 1 else 0)
      + rises t
  | _ => 0
  end.

Fixpoint drops (l : list Vars) : nat :=
  match l with
  | v :: ((v' :: _) as t) =>
      (if found_my_duty_roster v && negb (found_my_duty_roster v') then 1 else 0)
      + drops t
  | _ => 0
  end.

(** The length of the remaining text never grows along a sequence of
    states. *)
Fixpoint shrinking (l : list Vars) : Prop :=
  match l with
  | v :: ((v' :: _) as t) =>
      String.length (aprs_message v') <= String.length (aprs_message v)
      /\ shrinking t
  | _ => True
  end.

(** *** Worlds to run the parser in *)

(** No station is heard, no address and no airport is known. *)
Definition offline : World := {|
  get_position_on_aprsfi := fun aprsfi_callsign _ =>
    AprsfiReply false 0%float 0%float 0%float datetime_min None
                (Some aprsfi_callsign);
  get_reverse_geopy_data := fun _ _ _ _ => (false, no_address);
  get_geocode_geopy_data := fun _ _ => (false, 0%float, 0%float);
  validate_country := fun _ => false;
  validate_icao := fun _ => AirportReply false 0%float 0%float false None;
  validate_iata := fun _ => AirportReply false 0%float 0%float false None;
  get_nearest_icao := fun _ _ => None;
  to_location := fun _ => (0%float, 0%float);
  float_of_str := fun _ => None;
  str_of_float := fun _ => "0.0";
  today := 739000%Z;
  mpad_str_morning := "morning";
  mpad_str_daytime := "daytime";
  mpad_str_evening := "evening";
  mpad_str_night := "night";
  osm_supported_keyword_categories := ["police"; "supermarket"];
  module_aprsdotfi_api_key := None
|}.

(** Every station is heard; the airport directory knows every code
    as a METAR-capable airport, and the airport next to any place is
    [KJFK]. *)
Definition online : World := {|
  get_position_on_aprsfi := fun aprsfi_callsign _ =>
    AprsfiReply true 51.5%float 9.5%float 100%float 1%Z None
                (Some aprsfi_callsign);
  get_reverse_geopy_data := fun _ _ _ _ => (false, no_address);
  get_geocode_geopy_data := fun _ _ => (false, 0%float, 0%float);
  validate_country := fun _ => true;
  validate_icao := fun icao_code =>
    AirportReply true 50%float 8.5%float true (Some (upper icao_code));
  validate_iata := fun _ => AirportReply false 0%float 0%float false None;
  get_nearest_icao := fun _ _ => Some "KJFK";
  to_location := fun _ => (0%float, 0%float);
  float_of_str := fun _ => None;
  str_of_float := fun _ => "0.0";
  today := 739000%Z;
  mpad_str_morning := "morning";
  mpad_str_daytime := "daytime";
  mpad_str_evening := "evening";
  mpad_str_night := "night";
  osm_supported_keyword_categories := ["police"; "supermarket"];
  module_aprsdotfi_api_key := None
|}.

(** The airport directory of [online], but no station is heard. *)
Definition airports_only : World := {|
  get_position_on_aprsfi := @get_position_on_aprsfi offline;
  get_reverse_geopy_data := @get_reverse_geopy_data offline;
  get_geocode_geopy_data := @get_geocode_geopy_data offline;
  validate_country := @validate_country offline;
  validate_icao := @validate_icao online;
  validate_iata := @validate_iata online;
  get_nearest_icao := @get_nearest_icao online;
  to_location := @to_location offline;
  float_of_str := @float_of_str offline;
  str_of_float := @str_of_float offline;
  today := @today offline;
  mpad_str_morning := "morning";
  mpad_str_daytime := "daytime";
  mpad_str_evening := "evening";
  mpad_str_night := "night";
  osm_supported_keyword_categories := ["police"; "supermarket"];
  module_aprsdotfi_api_key := None
|}.

(* ================================================================= *)
(** ** Predicates on the stages of the parser *)

Definition shrinks (f : Vars -> Vars) : Prop :=
  forall v, String.length (aprs_message (f v)) <= String.length (aprs_message v).

(** A keyword parser has taken the message, or an error is there. *)
Definition settled (v : Vars) : bool := found_my_duty_roster v || err v.

(** A stage that does nothing once the message is settled. *)
Definition inert (stage : Vars -> Vars) : Prop :=
  forall v, settled v = true -> stage v = v.

(** A stage that never takes the duty roster flag back. *)
Definition keeps_claim (stage : Vars -> Vars) : Prop :=
  forall v, found_my_duty_roster v = true ->
            found_my_duty_roster (stage v) = true.

(** The value of [what] that stands for a CWOP station id. *)
Definition cwop_by_cwop_id : option string := Some "cwop_by_cwop_id".

(** A step that does not make [what] a CWOP station id. *)
Definition no_cwop_id (f : Vars -> Vars) : Prop :=
  forall v, what v <> cwop_by_cwop_id -> what (f v) <> cwop_by_cwop_id.

(** A step that leaves the variable [cwop_id] alone. *)
Definition keeps_cwop_id (f : Vars -> Vars) : Prop :=
  forall v, cwop_id (f v) = cwop_id v.

(* ================================================================= *)
(** ** Parts of the program *)

(** The variables at the start, for a sender in upper case. *)
Definition start_with (message sender key units : string) : Vars :=
  blank |> set_aprs_message message
        |> set_users_callsign sender
        |> set_aprsdotfi_api_key (Some key)
        |> set_units units.

Section Parts.
Context {W : World}.

(** The variables when the rule chain has ended, before the checks
    and defaults. *)
Definition after_chain
           (aprs_message users_callsign aprsdotfi_api_key : string) : Vars :=
  run (modifiers ++ rule_chain)%list
      (start aprs_message users_callsign aprsdotfi_api_key).

(** The text that is left has no keyword of the call sign parser
    that is followed by a token, unless the message is settled. *)
Definition no_keyword_token (v : Vars) : Prop :=
  unclaimed v = true -> search re_csm_token (aprs_message v) = None.

(** The stages before and after the one of the call sign parser. *)
Definition before_callsign_multi : list (Vars -> Vars) :=
  (modifiers ++ [stage_help] ++ temporal_extractors)%list.

Definition after_callsign_multi : list (Vars -> Vars) :=
  ([stage_whereami; stage_cwop_id; stage_satpass; stage_repeater;
    stage_osm_category; stage_dapnet; stage_fortuneteller;
    stage_email_position_report; stage_metar; stage_wx] ++ backfill)%list.

(** The stages before the one of the CWOP id parser, and after it. *)
Definition before_cwop_id : list (Vars -> Vars) :=
  (modifiers ++ [stage_help] ++ temporal_extractors
   ++ [stage_callsign_multi; stage_whereami])%list.

Definition after_cwop_id : list (Vars -> Vars) :=
  ([stage_satpass; stage_repeater; stage_osm_category; stage_dapnet;
    stage_fortuneteller; stage_email_position_report; stage_metar; stage_wx]
   ++ backfill)%list.

(** The stages before and after the one of the OSM categories. *)
Definition before_osm : list (Vars -> Vars) :=
  (modifiers ++ [stage_help] ++ temporal_extractors
   ++ [stage_callsign_multi; stage_whereami; stage_cwop_id; stage_satpass;
       stage_repeater])%list.

Definition after_osm : list (Vars -> Vars) :=
  ([stage_dapnet; stage_fortuneteller; stage_email_position_report;
    stage_metar; stage_wx] ++ backfill)%list.

End Parts.

(* ================================================================= *)
(** ** The settings of a request *)

(** The settings of a request: what the modifiers and the temporal
    extractors assign, and who sent it. *)
Definition settings (v : Vars) :=
  (users_callsign v, aprsdotfi_api_key v, units v, language v,
   number_of_results v, force_outgoing_unicode_messages v,
   (found_when v, when v, date_offset v, hour_offset v),
   (found_when_daytime v, when_daytime v)).

(** A stage that leaves the settings alone. *)
Definition keeps_settings (stage : Vars -> Vars) : Prop :=
  forall v, settings (stage v) = settings v.

(** A stage that keeps a property of the variables. *)
Definition preserves (P : Vars -> Prop) (stage : Vars -> Vars) : Prop :=
  forall v, P v -> P (stage v).

Definition units_ok (v : Vars) : Prop :=
  units v = "metric" \/ units v = "imperial".

Definition number_of_results_ok (v : Vars) : Prop :=
  (1 <= number_of_results v <= 5)%Z.

(** What the temporal extractors keep: the ranges of the offsets, a
    value of [when] exactly when one was found, and an hour offset
    only with [when = hour] and no day offset. *)
Definition when_ok (v : Vars) : Prop :=
  (-1 <= date_offset v <= 7)%Z
  /\ (-1 <= hour_offset v <= 47)%Z
  /\ (found_when v = true -> truthy (when v) = true)
  /\ (found_when v = false ->
      when v = None /\ date_offset v = (-1)%Z /\ hour_offset v = (-1)%Z)
  /\ (hour_offset v <> (-1)%Z ->
      when v = Some "hour" /\ date_offset v = (-1)%Z /\ (1 <= hour_offset v)%Z)
  /\ (found_when v = true -> hour_offset v = (-1)%Z -> (0 <= date_offset v)%Z).

Section Settings.
Context {W : World}.

(** The stages that are no modifier, no temporal extractor and no
    default of the two. *)
Definition settings_readers : list (Vars -> Vars) :=
  ([stage_help] ++ keyword_parsers
   ++ [check_anything; check_garbage; default_what; sender_position])%list.

(** The values of [when_daytime]. *)
Definition daytimes : list string :=
  ["full"; "day"; mpad_str_morning; mpad_str_daytime; mpad_str_evening;
   mpad_str_night].

Definition when_daytime_ok (v : Vars) : Prop :=
  (found_when_daytime v = true ->
   exists s, when_daytime v = Some s /\ In s daytimes)
  /\ (found_when_daytime v = false -> when_daytime v = None).

(** A parse that has succeeded is complete. *)
Definition complete (v : Vars) : Prop :=
  truthy (what v) = true
  /\ found_when v = true /\ truthy (when v) = true
  /\ found_when_daytime v = true
  /\ (exists s, when_daytime v = Some s /\ In s daytimes).

End Settings.

(* ================================================================= *)
(** ** Errors and their messages *)

(** A keyword parser that has raised its error has a message for the
    user. *)
Definition reported (v : Vars) : Prop :=
  kw_err v = true -> truthy (human_readable_message v) = true.

(** A step that, run without an error, ends with a message for the
    error it raises. *)
Definition reports (step : Vars -> Vars) : Prop :=
  forall v, kw_err v = false -> reported (step v).

(** A step that raises no error. *)
Definition quiet (step : Vars -> Vars) : Prop :=
  forall v, kw_err v = false -> kw_err (step v) = false.

(** The same for the variables of [parse_input_message]. *)
Definition err_reported (v : Vars) : Prop :=
  err v = true -> truthy (human_readable_message v) = true.

(** The keyword parsers: an error comes with its message. *)
Definition with_message (p : bool * bool * Vars) : Prop :=
  snd (fst p) = true -> truthy (human_readable_message (snd p)) = true.

(* ================================================================= *)
(** ** The language and the command of a request *)

(** A language code: two lower-case letters. *)
Definition language_ok (v : Vars) : Prop :=
  exists a b, language v = text [a; b]
              /\ is_lower a = true /\ is_lower b = true.

(** The commands of a parse that succeeds. *)
Definition commands : list string :=
  ["help"; "wx"; "whereis"; "riseset"; "metar"; "taf"; "sonde";
   "cwop_by_latlon"; "vispass"; "satpass"; "satfreq"; "repeater";
   "osm_special_phrase"; "dapnet"; "dapnethp"; "fortuneteller";
   "email_position_report"].

(** What the keyword parsers assign when they end without an error. *)
Definition assigned : list string := "cwop_by_cwop_id" :: commands.

(** The values the keyword parsers give [what]: the two keywords
    that become another command once the position is known come
    first. *)
Definition named : list string := "forecast" :: "cwop" :: assigned.

(** No value, or one of the names. *)
Definition one_of (names : list string) (o : option string) : bool :=
  match o with
  | Some w => existsb (String.eqb w) names
  | None => true
  end.

(** A step of a keyword parser that keeps [what] a command. *)
Definition names_what (step : Vars -> Vars) : Prop :=
  forall v, one_of assigned (what v) = true ->
            one_of assigned (what (step v)) = true.

(** [what] is a value of the vocabulary, and a command unless the
    parse has failed. *)
Definition vocabulary (v : Vars) : Prop :=
  one_of named (what v) = true
  /\ (err v = false -> one_of assigned (what v) = true).

(** The same for the result of a keyword parser. *)
Definition parser_vocabulary (p : bool * bool * Vars) : Prop :=
  one_of named (what (snd p)) = true
  /\ (snd (fst p) = false -> one_of assigned (what (snd p)) = true).

(** The call sign parser before its look-up: nothing found and no
    value of [what], or a keyword found. *)
Definition csm_pending (v : Vars) : Prop :=
  kw_err v = false
  /\ ((what v = None /\ found_my_keyword v = false)
      \/ (found_my_keyword v = true
          /\ exists w, what v = Some w /\ In w csm_keywords)).

(* ================================================================= *)
(** ** [utility_modules.py]: lists of lines and time stamps *)

(** *** Built-ins of Python the functions below use *)

(** [range(start, stop, step)] as a list; a step of 0 raises
    [ValueError], here [None]. *)
Definition py_range (start stop step : Z) : option (list Z) :=
  if (step =? 0)%Z then None
  else
    let count :=
      if (0 <? step)%Z
      then (if (start <? stop)%Z then (stop - start + step - 1) / step else 0)%Z
      else (if (stop <? start)%Z then (start - stop - step - 1) / (- step) else 0)%Z in
    Some (map (fun k => (start + Z.of_nat k * step)%Z) (seq 0 (Z.to_nat count))).

(** [l[i:j]]: a negative index counts from the end, and both indices
    are clipped to the list. *)
Definition py_slice {A : Type} (i j : Z) (l : list A) : list A :=
  let len := Z.of_nat (List.length l) in
  let clip x := (if x <? 0 then Z.max (x + len) 0 else Z.min x len)%Z in
  firstn (Z.to_nat (clip j - clip i)) (skipn (Z.to_nat (clip i)) l).

(** [len(s)] *)
Definition len (s : string) : Z := Z.of_nat (String.length s).

(** [s[i:j]] on strings *)
Definition str_slice (i j : Z) (s : string) : string :=
  text (py_slice i j (chars s)).

(** [s.split()] *)
Definition str_split (s : string) : list string :=
  map text (split_chars [] (chars s)).

(** [l] starts with [p]. *)
Fixpoint starts_with (p l : list ascii) : bool :=
  match p, l with
  | [], _ => true
  | a :: p', b :: l' => Ascii.eqb a b && starts_with p' l'
  | _ :: _, [] => false
  end.

(** [s.replace(old, new)] for an [old] that is not empty: the
    occurrences are taken from the left and do not overlap.  [skip]
    counts the characters of an occurrence still to be dropped. *)
Fixpoint replace_chars (old new : list ascii) (skip : nat) (l : list ascii)
  : list ascii :=
  match l with
  | [] => []
  | c :: t =>
      match skip with
      | S k => replace_chars old new k t
      | O =>
          if starts_with old l
          then (new ++ replace_chars old new (List.length old - 1) t)%list
          else c :: replace_chars old new 0 t
      end
  end.

(** With an empty [old], [new] goes before every character and at
    the end. *)
Definition str_replace (old new s : string) : string :=
  match chars old with
  | [] => text (flat_map (fun c => chars new ++ [c])%list (chars s) ++ chars new)
  | o => text (replace_chars o (chars new) 0 (chars s))
  end.

(** *** [split_string_to_string_list] *)

(** [None] stands for the [ValueError] of [range] with a step of 0. *)
Definition split_string_to_string_list (message_string : string) (max_len : Z)
  : option (list string) :=
  match py_range 0 (len message_string) max_len with
  | Some indices =>
      Some (map (fun index => str_slice index (index + max_len) message_string)
                indices)
  | None => None
  end.

(** *** [convert_text_to_plain_ascii] and [make_pretty_aprs_messages] *)

(** The library [unidecode] and the setting
    [mpad_config.mpad_enforce_unicode_messages]. *)
Class Outgoing : Type := {
  unidecode : string -> string;
  mpad_enforce_unicode_messages : bool
}.

(** The German letters, as characters of Latin-1. *)
Definition latin1 (n : nat) : string := text [ascii_of_nat n].

Section Pretty.
Context {Out : Outgoing}.

Definition convert_text_to_plain_ascii (message_string : string) : string :=
  let message_string :=
    message_string
      |> str_replace (latin1 196) "Ae"
      |> str_replace (latin1 214) "Oe"
      |> str_replace (latin1 220) "Ue"
      |> str_replace (latin1 228) "ae"
      |> str_replace (latin1 246) "oe"
      |> str_replace (latin1 252) "ue"
      |> str_replace (latin1 223) "ss" in
  unidecode message_string.

(** [[{}|~]+] *)
Definition re_not_permitted : regex := plus (Chr (any_of "{}|~")).

(** The branch [else:  # try to insert]. *)
Definition insert_message (message_to_add : string) (destination_list : list string)
           (max_len : Z) (separator_char : string) (add_sep : bool)
  : list string :=
  match rev destination_list with
  | string_from_list :: before =>
      if (len string_from_list + len message_to_add + 1 <=? max_len)%Z then
        let delimiter :=
          if (0 <? len string_from_list)%Z && add_sep
          then separator_char else "" in
        (rev before
         ++ [(string_from_list ++ delimiter ++ message_to_add)%string])%list
      else (destination_list ++ [message_to_add])%list
  | [] => (destination_list ++ [message_to_add])%list
  end.

(** [make_pretty_aprs_messages]; a [destination_list] of [None] is
    the empty list.  [depth] bounds the depth of the recursion;
    [None] stands for an exception ([RecursionError], or the
    [ValueError] of [split_string_to_string_list]). *)
Fixpoint make_pretty_aprs_messages (depth : nat) (message_to_add : string)
         (destination_list : list string) (max_len : Z)
         (separator_char : string) (add_sep : bool)
         (force_outgoing_unicode_messages : bool) : option (list string) :=
  match depth with
  | O => None
  | S depth' =>
      let message_to_add := sub re_not_permitted message_to_add in
      let message_to_add :=
        if negb mpad_enforce_unicode_messages
           && negb force_outgoing_unicode_messages
        then convert_text_to_plain_ascii message_to_add
        else message_to_add in
      if (max_len <? len message_to_add)%Z then
        fold_left
          (fun destination_list split =>
             match destination_list with
             | Some destination_list =>
                 if (len split <? max_len)%Z then
                   make_pretty_aprs_messages
                     depth' split destination_list max_len separator_char
                     add_sep force_outgoing_unicode_messages
                 else
                   match split_string_to_string_list split max_len with
                   | Some string_list =>
                       Some (destination_list ++ string_list)%list
                   | None => None
                   end
             | None => None
             end)
          (str_split message_to_add) (Some destination_list)
      else
        Some (insert_message message_to_add destination_list max_len
                             separator_char add_sep)
  end.

End Pretty.

(** *** [dump_string_to_hex] *)

Definition hex_digit (n : nat) : ascii :=
  if Nat.ltb n 10 then ascii_of_nat (48 + n) else ascii_of_nat (87 + n).

(** [hex(ord(c))[2:]]: one digit below 16, two digits from there on. *)
Definition hex_of_char (c : ascii) : list ascii :=
  if Nat.ltb (code c) 16 then [hex_digit (code c)]
  else [hex_digit (code c / 16); hex_digit (code c mod 16)].

Definition dump_string_to_hex (message_text_string : string) : string :=
  text (flat_map hex_of_char (chars message_text_string)).

(** *** [find_best_matching_time] *)

(** A [timedelta] in microseconds, like the [datetime]s; the largest
    one is [timedelta.max], and the last [datetime] is
    [datetime.max]. *)
Definition timedelta : Type := Z.
Definition timedelta_max : timedelta := 86399999999999999999%Z.
Definition datetime_max : datetime := 315537897599999999%Z.

(** [timedelta(hours=n)]; [None] stands for [OverflowError]. *)
Definition timedelta_hours (n : Z) : option timedelta :=
  let d := (n * 3600000000)%Z in
  if (Z.abs d <=? timedelta_max)%Z then Some d else None.

(** An entry of [timestamp_data]: a dictionary, of which the function
    reads time stamps only. *)
Definition entry : Type := list (string * datetime).

(** [entry[key]]; [None] stands for [KeyError]. *)
Fixpoint get (key : string) (e : entry) : option datetime :=
  match e with
  | [] => None
  | (k, t) :: e' => if String.eqb k key then Some t else get key e'
  end.

(** The first loop: the entry next to the target, the first one of
    several. *)
Fixpoint closest_entry (target_utc_time : datetime) (timestamp_data : list entry)
         (best_entry : option entry) (min_diff : timedelta)
  : option (option entry * timedelta) :=
  match timestamp_data with
  | [] => Some (best_entry, min_diff)
  | e :: rest =>
      match get "timestamp" e with
      | Some t =>
          let current_diff := (t - target_utc_time)%Z in
          if (Z.abs current_diff <? min_diff)%Z
          then closest_entry target_utc_time rest (Some e) (Z.abs current_diff)
          else closest_entry target_utc_time rest best_entry min_diff
      | None => None
      end
  end.

(** The second loop: the first entry at or after the target, and the
    one before it. *)
Fixpoint neighbours (target_utc_time : datetime) (timestamp_data : list entry)
         (timestamp_data_element : string) (next_smaller_entry : option entry)
  : option (option entry * option entry) :=
  match timestamp_data with
  | [] => Some (None, next_smaller_entry)
  | e :: rest =>
      match get timestamp_data_element e with
      | Some t =>
          if (target_utc_time <=? t)%Z
          then Some (Some e, next_smaller_entry)
          else neighbours target_utc_time rest timestamp_data_element (Some e)
      | None => None
      end
  end.

(** The truth value of an entry or [None]. *)
Definition is_entry (e : option entry) : bool :=
  match e with
  | Some (_ :: _) => true
  | _ => false
  end.

(** The outer [None] stands for an exception, the inner one is the
    [None] the function returns. *)
Definition find_best_matching_time (target_utc_time : datetime)
           (timestamp_data : list entry) (timestamp_data_element : string)
           (gap_half : Z) : option (option entry) :=
  match timedelta_hours gap_half with
  | None => None
  | Some half_max_gap =>
      match closest_entry target_utc_time timestamp_data None timedelta_max with
      | None => None
      | Some (best_entry, min_diff) =>
          if (min_diff <=? half_max_gap)%Z then Some best_entry
          else
            match neighbours target_utc_time timestamp_data
                             timestamp_data_element None with
            | None => None
            | Some (next_greater_entry, next_smaller_entry) =>
                if is_entry next_greater_entry && is_entry next_smaller_entry
                then
                  match next_greater_entry, next_smaller_entry with
                  | Some g, Some s =>
                      match get timestamp_data_element g,
                            get timestamp_data_element s with
                      | Some tg, Some ts =>
                          if (tg - target_utc_time <? target_utc_time - ts)%Z
                          then Some next_greater_entry
                          else Some next_smaller_entry
                      | _, _ => None
                      end
                  | _, _ => None
                  end
                else if is_entry next_greater_entry then Some next_greater_entry
                else if is_entry next_smaller_entry then Some next_smaller_entry
                else Some None
            end
      end
  end.

(* ================================================================= *)
(** ** Predicates on lines, texts and time stamps *)

(** [""].join(l)] *)
Definition join (l : list string) : string := fold_right append "" l.

(** [ceil(a / b)] for a positive [b]. *)
Definition ceil_div (a b : Z) : Z := ((a + b - 1) / b)%Z.

(** The [k]-th piece of [n] characters of a text. *)
Definition chunk (n : nat) (l : list ascii) (k : nat) : list ascii :=
  firstn n (skipn (k * n) l).

(** The characters an APRS message may hold: all but [{}|~]. *)
Definition permitted (c : ascii) : bool := negb (any_of "{}|~" c).
Definition permitted_text (s : string) : bool := forallb permitted (chars s).

(** A text of ASCII characters. *)
Definition plain (s : string) : bool :=
  forallb (fun c => Nat.ltb (code c) 128) (chars s).

(** The message goes out as it is: unicode is asked for, or the
    message is plain ASCII. *)
Definition sent_as_is {Out : Outgoing} (force_outgoing_unicode_messages : bool)
           (message_to_add : string) : Prop :=
  mpad_enforce_unicode_messages || force_outgoing_unicode_messages = true
  \/ plain message_to_add = true.

(** [b] starts with [a]. *)
Definition prefix_of (a b : string) : Prop := exists suffix, b = a ++ suffix.

(** The lines of [old] are in [new] at their places: the last one
    as it was or with more text after it, the others as they were. *)
Definition in_place (old new : list string) : Prop :=
  List.length old <= List.length new
  /\ forall i line, nth_error old i = Some line ->
       exists line', nth_error new i = Some line'
                     /\ prefix_of line line'
                     /\ (i + 1 < List.length old -> line' = line).

(** A library [unidecode] that leaves ASCII alone. *)
Definition keeps_ascii (Out : Outgoing) : Prop :=
  forall s, plain s = true -> unidecode s = s.

(** Nothing is converted and every text passes. *)
Definition verbatim : Outgoing :=
  {| unidecode := fun s => s; mpad_enforce_unicode_messages := false |}.

(** A [datetime] of Python: between [datetime.min] and
    [datetime.max]. *)
Definition valid_datetime (t : datetime) : Prop :=
  (datetime_min <= t <= datetime_max)%Z.

(** An entry that has a valid time stamp and the element asked for. *)
Definition stamped (timestamp_data_element : string) (e : entry) : Prop :=
  (exists t, get "timestamp" e = Some t /\ valid_datetime t)
  /\ (exists u, get timestamp_data_element e = Some u).

(** How far the time stamp of an entry is from the target. *)
Definition distance (target_utc_time : datetime) (e : entry) : Z :=
  match get "timestamp" e with
  | Some t => Z.abs (t - target_utc_time)
  | None => 0%Z
  end.

(** [b] is the first entry of [l] that is next to the target. *)
Definition first_closest (target_utc_time : datetime) (l : list entry)
           (b : entry) : Prop :=
  exists pre post,
    l = (pre ++ b :: post)%list
    /\ Forall (fun e => (distance target_utc_time b
                         < distance target_utc_time e)%Z) pre
    /\ Forall (fun e => (distance target_utc_time b
                         <= distance target_utc_time e)%Z) post.

(* ================================================================= *)
(** * Properties *)

(** ** The weekday offset *)

Lemma weekday_range (d : date) : (0 <= weekday d <= 6)%Z.
Proof.
  unfold weekday. pose proof (Z.mod_pos_bound (d + 6) 7). lia.
Qed.

(** C8: for every weekday [w] in 0..6, [getdaysuntil] returns 7 when
    today's weekday is [w] and [(w - today's weekday) mod 7] otherwise;
    the result lies in 1..7 and is never 0. *)
Theorem getdaysuntil_spec (today : date) (w : Z) :
  (0 <= w <= 6)%Z ->
  getdaysuntil today w
  = (if (w =? weekday today)%Z then 7 else (w - weekday today) mod 7)%Z
  /\ (1 <= getdaysuntil today w <= 7)%Z
  /\ getdaysuntil today w <> 0%Z.
Proof.
  intros Hw.
  pose proof (weekday_range today) as Hd.
  pose proof (Z.mod_pos_bound (w - weekday today) 7 ltac:(lia)) as Hm.
  unfold getdaysuntil.
  destruct (Z.eqb_spec w (weekday today)) as [E | E].
  - rewrite E, Z.sub_diag, Z.mod_0_l by lia.
    rewrite Z.add_0_r, Z.eqb_refl. cbn. lia.
  - assert ((w - weekday today) mod 7 <> 0)%Z as Hnz.
    { intro H0. apply Z.mod_divide in H0; [| lia].
      destruct H0 as [k Hk]. lia. }
    destruct (Z.eqb_spec today (today + (w - weekday today) mod 7)) as [E' | E'].
    + lia.
    + cbn. lia.
Qed.

Lemma getdaysuntil_spec_witness :
  (0 <= 3 <= 6)%Z
  /\ getdaysuntil 739000 3
     = (if (3 =? weekday 739000)%Z then 7 else (3 - weekday 739000) mod 7)%Z
  /\ (1 <= getdaysuntil 739000 3 <= 7)%Z
  /\ getdaysuntil 739000 3 <> 0%Z.
Proof.
  split; [lia | apply (getdaysuntil_spec 739000%Z 3%Z); lia].
Defined.

(** The day of the week itself gives 7. *)
Example getdaysuntil_same_day : getdaysuntil 739000 (weekday 739000) = 7%Z.
Proof. reflexivity. Qed.

(** ** Strings *)

Lemma append_assoc (a b c : string) : (a ++ b) ++ c = a ++ (b ++ c).
Proof.
  induction a as [| x a IH]; cbn; [reflexivity | now rewrite IH].
Qed.

Lemma append_empty_r (a : string) : a ++ "" = a.
Proof.
  induction a as [| x a IH]; cbn; [reflexivity | now rewrite IH].
Qed.

Lemma length_text (l : list ascii) : String.length (text l) = List.length l.
Proof.
  induction l as [| c l IH]; cbn; [reflexivity | now rewrite IH].
Qed.

Lemma length_chars (s : string) : List.length (chars s) = String.length s.
Proof.
  induction s as [| c s IH]; cbn; [reflexivity | now rewrite IH].
Qed.

Lemma text_chars (s : string) : text (chars s) = s.
Proof. apply string_of_list_ascii_of_string. Qed.

Lemma chars_text (l : list ascii) : chars (text l) = l.
Proof. apply list_ascii_of_string_of_list_ascii. Qed.

Lemma is_str_truthy (o : option string) (s : string) :
  s <> "" -> is_str o s = true -> truthy o = true.
Proof.
  destruct o as [t |]; cbn; [| discriminate].
  intros Hs Ht. apply String.eqb_eq in Ht. subst t.
  destruct (String.eqb_spec s ""); [contradiction | reflexivity].
Qed.

(** ** The address formatter *)

(** C9: the address formatter is a function of the geocode record
    alone and gives a string for every record: the city name,
    followed by [,STATE] when the country code is [US] and a state is
    present and by [,ZIP] when a zip code is present; the county name
    in place of all that when the city is absent; and [;COUNTRY_CODE]
    at the end when a country code is present.  With every field
    absent the line is empty. *)
Theorem build_human_readable_address_message_spec (d : address_data) :
  build_human_readable_address_message d = address_line d
  /\ build_human_readable_address_message no_address = "".
Proof.
  split; [| reflexivity].
  unfold build_human_readable_address_message, address_line.
  destruct (truthy (rd_city d)); cbn [negb].
  - destruct (is_str (rd_country_code d) "US") eqn:Hus.
    + rewrite (is_str_truthy (rd_country_code d) "US") by (assumption || discriminate).
      cbn [andb].
      destruct (truthy (rd_state d)), (truthy (rd_zipcode d));
        rewrite ?append_assoc; reflexivity.
    + cbn [andb].
      destruct (truthy (rd_country_code d)), (truthy (rd_zipcode d));
        cbn [append]; rewrite ?append_assoc, ?append_empty_r; reflexivity.
  - destruct (truthy (rd_county d)), (truthy (rd_country_code d));
      rewrite ?append_empty_r; reflexivity.
Qed.

(** The four shapes of the line. *)
Example address_line_us :
  build_human_readable_address_message
    (AddressData (Some "Mountain View") (Some "CA") (Some "United States")
                 (Some "US") None None (Some "94043") (Some "Santa Clara")
                 None None)
  = "Mountain View,CA,94043;US".
Proof. reflexivity. Qed.

Example address_line_not_us :
  build_human_readable_address_message
    (AddressData (Some "Holzminden") (Some "Niedersachsen") (Some "Germany")
                 (Some "DE") None None (Some "37603") None None None)
  = "Holzminden,37603;DE".
Proof. reflexivity. Qed.

Example address_line_county :
  build_human_readable_address_message
    (AddressData None (Some "CA") None (Some "US") None None (Some "94043")
                 (Some "Santa Clara") None None)
  = "Santa Clara;US".
Proof. reflexivity. Qed.

(** ** The matcher *)

Section Closure.
Variable P : cursor -> cursor -> Prop.
Hypothesis P_refl : forall s, P s s.
Hypothesis P_trans : forall a b c, P a b -> P b c -> P a c.

Lemma star_loop_closed (body : cursor -> list cursor) :
  (forall s e, In e (body s) -> P s e) ->
  forall n s e, In e (star_loop body n s) -> P s e.
Proof.
  intros Hbody n. induction n as [| n IH]; intros s e He; simpl in He.
  - destruct He as [<- | []]. apply P_refl.
  - apply in_app_or in He. destruct He as [He | [<- | []]]; [| apply P_refl].
    apply in_flat_map in He. destruct He as [s' [Hs' He]].
    destruct (shorter s' s); [| destruct He].
    eapply P_trans; eauto.
Qed.

Lemma lazy_loop_closed (body : cursor -> list cursor) :
  (forall s e, In e (body s) -> P s e) ->
  forall n s e, In e (lazy_loop body n s) -> P s e.
Proof.
  intros Hbody n. induction n as [| n IH]; intros s e He; simpl in He.
  - destruct He as [<- | []]. apply P_refl.
  - destruct He as [<- | He]; [apply P_refl |].
    apply in_flat_map in He. destruct He as [s' [Hs' He]].
    destruct (shorter s' s); [| destruct He].
    eapply P_trans; eauto.
Qed.

Hypothesis P_advance : forall c t s, rest s = c :: t -> P s (advance c t s).
Hypothesis P_capture : forall i s e, P s e -> P s (capture i s e).

(** A relation between positions that holds along every step of the
    matcher holds between the start and the end of every match. *)
Lemma matches_closed (r : regex) :
  forall s e, In e (matches r s) -> P s e.
Proof.
  induction r as [| p | a IHa b IHb | a IHa b IHb | a IHa | a IHa | i a IHa | | |];
    intros s e; cbn [matches].
  - intros [<- | []]. apply P_refl.
  - destruct (rest s) as [| c t] eqn:Hr; [intros [] |].
    destruct (p c); [| intros []].
    intros [<- | []]. now apply P_advance.
  - intros He. apply in_flat_map in He. destruct He as [m [Hm He]]. eauto.
  - intros He. apply in_app_or in He. destruct He; eauto.
  - apply star_loop_closed. exact IHa.
  - apply lazy_loop_closed. exact IHa.
  - intros He. apply in_map_iff in He. destruct He as [x [<- Hx]]. eauto.
  - destruct (at_boundary s); [| intros []]. intros [<- | []]. apply P_refl.
  - destruct (at_start s); [| intros []]. intros [<- | []]. apply P_refl.
  - destruct (at_end s); [| intros []]. intros [<- | []]. apply P_refl.
Qed.

End Closure.

(** A match ends in the text it started in. *)
Lemma matches_suffix (r : regex) (s e : cursor) :
  In e (matches r s) -> exists pre, rest s = (pre ++ rest e)%list.
Proof.
  revert s e. apply matches_closed.
  - intros s. now exists [].
  - intros a b c [p Hp] [q Hq]. exists (p ++ q)%list. now rewrite Hp, Hq, app_assoc.
  - intros c t s Hs. exists [c]. now rewrite Hs.
  - intros i s e H. exact H.
Qed.

Lemma matches_length (r : regex) (s e : cursor) :
  In e (matches r s) -> List.length (rest e) <= List.length (rest s).
Proof.
  intros H. apply matches_suffix in H. destruct H as [pre ->].
  rewrite length_app. lia.
Qed.

Lemma hd_error_In {A} (l : list A) (x : A) : hd_error l = Some x -> In x l.
Proof. destruct l; cbn; [discriminate | intros [= ->]; now left]. Qed.

Lemma match_here_In (r : regex) (adv : bool) (s e : cursor) :
  match_here r adv s = Some e -> In e (matches r s).
Proof.
  unfold match_here. intros H. apply hd_error_In in H.
  apply filter_In in H. tauto.
Qed.

Lemma filter_all {A} (f : A -> bool) (l : list A) :
  (forall x, f x = true) -> filter f l = l.
Proof.
  intros Hf. induction l as [| x l IH]; cbn; [reflexivity |].
  now rewrite Hf, IH.
Qed.

Lemma match_here_head (r : regex) (s : cursor) :
  match_here r false s = hd_error (matches r s).
Proof.
  unfold match_here. now rewrite filter_all.
Qed.

(** *** Scanning *)

Lemma search_at_length (r : regex) (l : list ascii) :
  forall adv p h,
    search_at r adv p l = Some h ->
    List.length (skipped h) + List.length (rest (h_end h)) <= List.length l.
Proof.
  induction l as [| c t IH]; intros adv p h; cbn.
  - destruct (match_here r adv (Cursor p [] [])) as [e |] eqn:He; [| discriminate].
    intros [= <-]. apply match_here_In, matches_length in He. cbn in *. lia.
  - destruct (match_here r adv (Cursor p (c :: t) [])) as [e |] eqn:He.
    + intros [= <-]. apply match_here_In, matches_length in He. cbn in *. lia.
    + destruct (search_at r false (Some c) t) as [h' |] eqn:Hh; [| discriminate].
      intros [= <-]. apply IH in Hh. cbn. lia.
Qed.

Lemma cut_length (r : regex) (fuel : nat) :
  forall adv p l, List.length (cut fuel r adv p l) <= List.length l.
Proof.
  induction fuel as [| fuel IH]; intros adv p l; cbn; [lia |].
  destruct (search_at r adv p l) as [h |] eqn:Hh; [| lia].
  apply search_at_length in Hh. rewrite length_app.
  specialize (IH (is_empty_hit h) (prev (h_end h)) (rest (h_end h))). lia.
Qed.

Lemma lstrip_chars_length (l : list ascii) :
  List.length (lstrip_chars l) <= List.length l.
Proof.
  induction l as [| c t IH]; cbn; [lia |].
  destruct (is_space c); cbn; lia.
Qed.

Lemma strip_chars_length (l : list ascii) :
  List.length (strip_chars l) <= List.length l.
Proof.
  unfold strip_chars. rewrite length_rev.
  etransitivity; [apply lstrip_chars_length |].
  rewrite length_rev. apply lstrip_chars_length.
Qed.

(** What [re.sub] with an empty replacement and [strip] leave is not
    longer than the text. *)
Lemma sub_length (r : regex) (s : string) :
  String.length (sub r s) <= String.length s.
Proof.
  unfold sub. rewrite length_text, <- length_chars. apply cut_length.
Qed.

Lemma strip_length (s : string) : String.length (strip s) <= String.length s.
Proof.
  unfold strip. rewrite length_text, <- length_chars. apply strip_chars_length.
Qed.

Lemma remove_length (r : regex) (s : string) :
  String.length (remove r s) <= String.length s.
Proof.
  unfold remove. etransitivity; [apply strip_length | apply sub_length].
Qed.

(** *** Groups do not change where a pattern matches *)

Lemma place_flat_map (f g : cursor -> list cursor) (l l' : list cursor) :
  map place l = map place l' ->
  (forall x y, place x = place y -> map place (f x) = map place (g y)) ->
  map place (flat_map f l) = map place (flat_map g l').
Proof.
  intros Hl Hf. revert l' Hl.
  induction l as [| x l IH]; intros [| y l'] Hl; cbn [map flat_map] in *;
    try discriminate; [reflexivity |].
  injection Hl as Hp Hr Hl.
  rewrite !map_app. f_equal; [| now apply IH].
  apply Hf. unfold place. now rewrite Hp, Hr.
Qed.

Lemma place_shorter (a a' b b' : cursor) :
  place a = place a' -> place b = place b' -> shorter a b = shorter a' b'.
Proof.
  unfold place, shorter. intros [= _ ->] [= _ ->]. reflexivity.
Qed.

Lemma place_star_loop (f g : cursor -> list cursor) :
  (forall x y, place x = place y -> map place (f x) = map place (g y)) ->
  forall n x y, place x = place y ->
    map place (star_loop f n x) = map place (star_loop g n y).
Proof.
  intros Hf n. induction n as [| n IH]; intros x y Hxy; cbn [star_loop map].
  - now rewrite Hxy.
  - rewrite !map_app. cbn [map]. rewrite Hxy. f_equal.
    apply place_flat_map; [auto |].
    intros a b Hab. rewrite (place_shorter a b x y Hab Hxy).
    destruct (shorter b y); [auto | reflexivity].
Qed.

Lemma place_lazy_loop (f g : cursor -> list cursor) :
  (forall x y, place x = place y -> map place (f x) = map place (g y)) ->
  forall n x y, place x = place y ->
    map place (lazy_loop f n x) = map place (lazy_loop g n y).
Proof.
  intros Hf n. induction n as [| n IH]; intros x y Hxy; cbn [lazy_loop map].
  - now rewrite Hxy.
  - rewrite Hxy. f_equal.
    apply place_flat_map; [auto |].
    intros a b Hab. rewrite (place_shorter a b x y Hab Hxy).
    destruct (shorter b y); [auto | reflexivity].
Qed.

(** The places where the matches of a pattern end depend on the
    place it starts at and on the pattern without its groups. *)
Lemma matches_place (r : regex) :
  forall x y, place x = place y ->
    map place (matches r x) = map place (matches (ungroup r) y).
Proof.
  induction r as [| p | a IHa b IHb | a IHa b IHb | a IHa | a IHa | i a IHa | | |];
    intros x y Hxy; cbn [matches ungroup].
  - cbn. now rewrite Hxy.
  - injection Hxy as Hp Hr. rewrite Hr.
    destruct (rest y) as [| c t]; [reflexivity |].
    destruct (p c); reflexivity.
  - apply place_flat_map; auto.
  - rewrite !map_app. f_equal; auto.
  - pose proof Hxy as Hxy'. injection Hxy as Hp Hr. rewrite Hr.
    apply place_star_loop; [exact IHa | exact Hxy'].
  - pose proof Hxy as Hxy'. injection Hxy as Hp Hr. rewrite Hr.
    apply place_lazy_loop; [exact IHa | exact Hxy'].
  - rewrite map_map. rewrite <- (IHa x y Hxy).
    apply map_ext. reflexivity.
  - pose proof Hxy as Hxy'. injection Hxy as Hp Hr.
    unfold at_boundary, word_before, word_after. rewrite Hp, Hr.
    destruct (xorb _ _); cbn [map]; [| reflexivity]. now rewrite Hxy'.
  - pose proof Hxy as Hxy'. injection Hxy as Hp Hr. unfold at_start. rewrite Hp.
    destruct (prev y); cbn [map]; [reflexivity |]. now rewrite Hxy'.
  - pose proof Hxy as Hxy'. injection Hxy as Hp Hr. unfold at_end. rewrite Hr.
    destruct (match rest y with [] => true | [c] => code c =? 10 | _ => false end)%nat;
      cbn [map]; [| reflexivity]. now rewrite Hxy'.
Qed.

Lemma map_nil_iff {A B} (f : A -> B) (l : list A) : map f l = [] <-> l = [].
Proof. destruct l; cbn; split; congruence. Qed.

(** Two patterns that are equal but for their groups match at the
    same places. *)
Lemma matches_none_ungroup (r r' : regex) (x : cursor) :
  ungroup r = ungroup r' -> matches r x = [] -> matches r' x = [].
Proof.
  intros Hr H.
  apply (map_nil_iff place). rewrite (matches_place r' x x eq_refl), <- Hr.
  rewrite <- (matches_place r x x eq_refl). now rewrite H.
Qed.

(** *** Searching *)

Lemma match_here_none (r : regex) (s : cursor) :
  match_here r false s = None <-> matches r s = [].
Proof.
  rewrite match_here_head. destruct (matches r s); cbn; split; congruence.
Qed.

(** A pattern that matches wherever another one does is found
    whenever the other one is. *)
Lemma search_at_none_mono (r r' : regex) :
  (forall s, matches r s = [] -> matches r' s = []) ->
  forall l p, search_at r false p l = None -> search_at r' false p l = None.
Proof.
  intros Hrr l. induction l as [| c t IH]; intros p; cbn.
  - destruct (match_here r false (Cursor p [] [])) eqn:E; [discriminate |].
    intros _. apply match_here_none in E. apply Hrr in E.
    apply match_here_none in E. now rewrite E.
  - destruct (match_here r false (Cursor p (c :: t) [])) eqn:E; [discriminate |].
    apply match_here_none in E. apply Hrr in E.
    apply match_here_none in E. rewrite E.
    destruct (search_at r false (Some c) t) eqn:Es; [discriminate |].
    intros _. now rewrite (IH _ Es).
Qed.

Lemma search_none_mono (r r' : regex) (s : string) :
  (forall x, matches r x = [] -> matches r' x = []) ->
  search r s = None -> search r' s = None.
Proof. intros H. apply search_at_none_mono, H. Qed.

(** The match object of a search ends a match of the pattern that
    starts with nothing captured. *)
Lemma search_at_In (r : regex) (l : list ascii) :
  forall adv p h, search_at r adv p l = Some h ->
    caps (h_start h) = [] /\ In (h_end h) (matches r (h_start h)).
Proof.
  induction l as [| c t IH]; intros adv p h; cbn.
  - destruct (match_here r adv (Cursor p [] [])) eqn:E; [| discriminate].
    intros [= <-]. cbn. split; [reflexivity |]. eapply match_here_In, E.
  - destruct (match_here r adv (Cursor p (c :: t) [])) eqn:E.
    + intros [= <-]. cbn. split; [reflexivity |]. eapply match_here_In, E.
    + destruct (search_at r false (Some c) t) eqn:Es; [| discriminate].
      intros [= <-]. cbn. eapply IH, Es.
Qed.

Lemma search_In (r : regex) (s : string) (h : hit) :
  search r s = Some h -> In (h_end h) (matches r (h_start h)).
Proof. intros H. eapply search_at_In, H. Qed.

Lemma findall_In (r : regex) (s : string) (h : hit) (t : list hit) :
  findall r s = h :: t -> In (h_end h) (matches r (h_start h)).
Proof.
  unfold findall, enough. rewrite Nat.add_comm. cbn [Nat.add scan].
  destruct (search_at r false None (chars s)) eqn:E; [| discriminate].
  intros [= <- _]. eapply search_at_In, E.
Qed.

(** *** What a group holds *)

Lemma lookup_capture_other (i j : nat) (s e : cursor) :
  i <> j -> lookup i (caps (capture j s e)) = lookup i (caps e).
Proof.
  intros H. cbn. destruct (Nat.eqb_spec i j); [contradiction | reflexivity].
Qed.

(** A pattern leaves the groups alone that are not its own. *)
Lemma matches_caps_other (i : nat) (r : regex) :
  ~ In i (groups r) ->
  forall s e, In e (matches r s) -> lookup i (caps e) = lookup i (caps s).
Proof.
  induction r as [| p | a IHa b IHb | a IHa b IHb | a IHa | a IHa | j a IHa | | |];
    cbn [groups]; intros Hi s e; cbn [matches].
  - intros [<- | []]. reflexivity.
  - destruct (rest s) as [| c t]; [intros [] |].
    destruct (p c); [| intros []]. intros [<- | []]. reflexivity.
  - intros He. apply in_flat_map in He. destruct He as [m [Hm He]].
    rewrite in_app_iff in Hi.
    rewrite (IHb ltac:(tauto) _ _ He). apply IHa; [tauto | exact Hm].
  - intros He. apply in_app_or in He. rewrite in_app_iff in Hi.
    destruct He; [apply IHa | apply IHb]; tauto.
  - apply (star_loop_closed (fun s e => lookup i (caps e) = lookup i (caps s)));
      [reflexivity | intros; congruence | now apply IHa].
  - apply (lazy_loop_closed (fun s e => lookup i (caps e) = lookup i (caps s)));
      [reflexivity | intros; congruence | now apply IHa].
  - intros He. apply in_map_iff in He. destruct He as [x [<- Hx]].
    rewrite lookup_capture_other by (intros ->; apply Hi; now left).
    apply IHa; [| exact Hx]. intros Hin. apply Hi. now right.
  - destruct (at_boundary s); [| intros []]. intros [<- | []]. reflexivity.
  - destruct (at_start s); [| intros []]. intros [<- | []]. reflexivity.
  - destruct (at_end s); [| intros []]. intros [<- | []]. reflexivity.
Qed.

Lemma consumed_app (s e : cursor) (t : list ascii) :
  rest s = (t ++ rest e)%list -> consumed s e = t.
Proof.
  intros H. unfold consumed. rewrite H, length_app.
  replace (List.length t + List.length (rest e) - List.length (rest e))
    with (List.length t) by lia.
  rewrite firstn_app, firstn_all, Nat.sub_diag. cbn. apply app_nil_r.
Qed.

Lemma matches_seqs_cons (r : regex) (l : list regex) (s e : cursor) :
  In e (matches (seqs (r :: l)) s) <->
  exists m, In m (matches r s) /\ In e (matches (seqs l) m).
Proof.
  destruct l as [| r' l].
  - cbn [seqs matches]. split.
    + intros H. exists e. split; [exact H | now left].
    + intros [m [Hm [<- | []]]]. exact Hm.
  - change (seqs (r :: r' :: l)) with (Seq r (seqs (r' :: l))).
    cbn [matches]. apply in_flat_map.
Qed.

Lemma matches_lit_ci (c : ascii) (s e : cursor) :
  In e (matches (lit_ci c) s) ->
  exists x, rest s = x :: rest e /\ to_lower x = to_lower c.
Proof.
  unfold lit_ci. cbn [matches].
  destruct (rest s) as [| x t]; [intros [] |].
  destruct (Ascii.eqb_spec (to_lower x) (to_lower c)) as [E | E]; [| intros []].
  intros [<- | []]. exists x. split; [reflexivity | exact E].
Qed.

(** A literal word consumes a text that is the word but for case. *)
Lemma matches_word (w : string) (s e : cursor) :
  In e (matches (word w) s) ->
  exists t, rest s = (t ++ rest e)%list
            /\ map to_lower t = map to_lower (chars w).
Proof.
  unfold word. generalize (chars w) as l. intros l. revert s.
  induction l as [| c l IH]; intros s H.
  - cbn in H. destruct H as [<- | []]. now exists [].
  - cbn [map] in H. apply matches_seqs_cons in H.
    destruct H as [m [Hm He]].
    apply matches_lit_ci in Hm. destruct Hm as [x [Hx Hc]].
    apply IH in He. destruct He as [t [Ht Hl]].
    exists (x :: t). split.
    + rewrite Hx, Ht. reflexivity.
    + cbn [map]. now rewrite Hc, Hl.
Qed.

Lemma matches_alts (l : list regex) (s e : cursor) :
  l <> [] -> In e (matches (alts l) s) ->
  exists r, In r l /\ In e (matches r s).
Proof.
  induction l as [| r l IH]; [congruence |]. intros _.
  destruct l as [| r' l].
  - cbn [alts]. intros H. exists r. split; [now left | exact H].
  - change (alts (r :: r' :: l)) with (Alt r (alts (r' :: l))).
    cbn [matches]. intros H. apply in_app_or in H. destruct H as [H | H].
    + exists r. split; [now left | exact H].
    + destruct (IH ltac:(discriminate) H) as [q [Hq He]].
      exists q. split; [now right | exact He].
Qed.

Lemma matches_alts_intro (l : list regex) (r : regex) (s e : cursor) :
  In r l -> In e (matches r s) -> In e (matches (alts l) s).
Proof.
  induction l as [| q l IH]; [intros [] |].
  destruct l as [| q' l].
  - intros [<- | []]. trivial.
  - change (alts (q :: q' :: l)) with (Alt q (alts (q' :: l))).
    cbn [matches]. intros [<- | H] He; apply in_or_app; [now left |].
    right. now apply IH.
Qed.

Lemma matches_words (ws : list string) (s e : cursor) :
  ws <> [] -> In e (matches (words ws) s) ->
  exists w, In w ws /\ In e (matches (word w) s).
Proof.
  intros Hne H. unfold words in H.
  apply matches_alts in H; [| destruct ws; [congruence | discriminate]].
  destruct H as [r [Hr He]]. apply in_map_iff in Hr.
  destruct Hr as [w [<- Hw]]. now exists w.
Qed.

Lemma matches_words_intro (ws : list string) (w : string) (s e : cursor) :
  In w ws -> In e (matches (word w) s) -> In e (matches (words ws) s).
Proof.
  intros Hw. apply matches_alts_intro. now apply in_map.
Qed.

Lemma lower_text (t : list ascii) : lower (text t) = text (map to_lower t).
Proof. unfold lower. now rewrite chars_text. Qed.

(** The first group of a pattern [\b(w1|w2|...)R] holds one of the
    words, but for case. *)
Lemma keyword_group (ws : list string) (R : regex) (h : hit) :
  ws <> [] -> ~ In 1 (groups R) ->
  In (h_end h) (matches (Seq WordB (Seq (Grp 1 (words ws)) R)) (h_start h)) ->
  exists w, In w ws /\ lower (grp 1 h) = lower w.
Proof.
  intros Hne HR H. cbn [matches] in H.
  apply in_flat_map in H. destruct H as [s0 [Hs0 H]].
  destruct (at_boundary (h_start h)); [| destruct Hs0].
  destruct Hs0 as [<- | []].
  apply in_flat_map in H. destruct H as [s1 [Hs1 H]].
  apply in_map_iff in Hs1. destruct Hs1 as [k [<- Hk]].
  apply matches_words in Hk; [| exact Hne]. destruct Hk as [w [Hw Hk]].
  apply matches_word in Hk. destruct Hk as [t [Ht Hl]].
  exists w. split; [exact Hw |].
  unfold grp, group.
  rewrite (matches_caps_other 1 R HR _ _ H).
  cbn [caps capture lookup Nat.eqb option_map].
  rewrite (consumed_app _ _ _ Ht), lower_text, Hl. reflexivity.
Qed.

(* ================================================================= *)
(** ** Text consumption *)

(** Projections of updated variables. *)
Ltac vars_simpl :=
  cbn [aprs_message users_callsign aprsdotfi_api_key units language err
       latitude longitude altitude users_latitude users_longitude
       date_offset hour_offset number_of_results lasttime when
       when_daytime what city state country zipcode cwop_id icao
       human_readable_message satellite repeater_band repeater_mode
       street street_number county osm_special_phrase dapnet_message
       mail_recipient country_code district address comment
       message_callsign force_outgoing_unicode_messages
       found_my_duty_roster found_when found_when_daytime
       found_my_keyword kw_err geopy_query regex_string regex_match
       set_aprs_message set_users_callsign set_aprsdotfi_api_key
       set_units set_language set_err set_latitude set_longitude
       set_altitude set_users_latitude set_users_longitude
       set_date_offset set_hour_offset set_number_of_results
       set_lasttime set_when set_when_daytime set_what set_city
       set_state set_country set_zipcode set_cwop_id set_icao
       set_human_readable_message set_satellite set_repeater_band
       set_repeater_mode set_street set_street_number set_county
       set_osm_special_phrase set_dapnet_message set_mail_recipient
       set_country_code set_district set_address set_comment
       set_message_callsign set_force_outgoing_unicode_messages
       set_found_my_duty_roster set_found_when set_found_when_daytime
       set_found_my_keyword set_kw_err set_geopy_query
       set_regex_string set_regex_match].
Ltac vars_simpl_in H :=
  cbn [aprs_message users_callsign aprsdotfi_api_key units language err
       latitude longitude altitude users_latitude users_longitude
       date_offset hour_offset number_of_results lasttime when
       when_daytime what city state country zipcode cwop_id icao
       human_readable_message satellite repeater_band repeater_mode
       street street_number county osm_special_phrase dapnet_message
       mail_recipient country_code district address comment
       message_callsign force_outgoing_unicode_messages
       found_my_duty_roster found_when found_when_daytime
       found_my_keyword kw_err geopy_query regex_string regex_match
       set_aprs_message set_users_callsign set_aprsdotfi_api_key
       set_units set_language set_err set_latitude set_longitude
       set_altitude set_users_latitude set_users_longitude
       set_date_offset set_hour_offset set_number_of_results
       set_lasttime set_when set_when_daytime set_what set_city
       set_state set_country set_zipcode set_cwop_id set_icao
       set_human_readable_message set_satellite set_repeater_band
       set_repeater_mode set_street set_street_number set_county
       set_osm_special_phrase set_dapnet_message set_mail_recipient
       set_country_code set_district set_address set_comment
       set_message_callsign set_force_outgoing_unicode_messages
       set_found_my_duty_roster set_found_when set_found_when_daytime
       set_found_my_keyword set_kw_err set_geopy_query
       set_regex_string set_regex_match] in H.

Lemma shrinks_compose (f g : Vars -> Vars) :
  shrinks f -> shrinks g -> shrinks (fun v => g (f v)).
Proof. intros Hf Hg v. etransitivity; [apply Hg | apply Hf]. Qed.

Lemma shrinks_then (f : Vars -> Vars) (v : Vars) (n : nat) :
  shrinks f -> String.length (aprs_message v) <= n ->
  String.length (aprs_message (f v)) <= n.
Proof. intros Hf Hv. etransitivity; [apply Hf | exact Hv]. Qed.

(** One case analysis on the scrutinee of a [match] or an [if]. *)
Ltac split_case :=
  match goal with
  | |- context [match ?x with _ => _ end] => destruct x
  end.

(** A step that leaves the text alone or removes a match from it. *)
Ltac shrinks_by_cases :=
  intros v; repeat split_case; vars_simpl;
  first [apply le_n | apply remove_length ].

Lemma units_metric_shrinks : shrinks units_metric.
Proof. unfold units_metric. shrinks_by_cases. Qed.
Lemma units_imperial_shrinks : shrinks units_imperial.
Proof. unfold units_imperial. shrinks_by_cases. Qed.
Lemma language_body_shrinks : shrinks language_body.
Proof. unfold language_body. shrinks_by_cases. Qed.
Lemma number_of_results_body_shrinks : shrinks number_of_results_body.
Proof. unfold number_of_results_body. shrinks_by_cases. Qed.
Lemma unicode_body_shrinks : shrinks unicode_body.
Proof. unfold unicode_body. shrinks_by_cases. Qed.
Lemma fortuneteller_body_shrinks : shrinks fortuneteller_body.
Proof. unfold fortuneteller_body. shrinks_by_cases. Qed.
Lemma dapnet_with_ssid_shrinks : shrinks dapnet_with_ssid.
Proof. unfold dapnet_with_ssid. shrinks_by_cases. Qed.
Lemma dapnet_without_ssid_shrinks : shrinks dapnet_without_ssid.
Proof. unfold dapnet_without_ssid. shrinks_by_cases. Qed.
Lemma cwop_id_body_shrinks : shrinks cwop_id_body.
Proof. unfold cwop_id_body. shrinks_by_cases. Qed.

Lemma when_phrase_shrinks r w o : shrinks (when_phrase r w o).
Proof. unfold when_phrase. shrinks_by_cases. Qed.
Lemma when_days_shrinks : shrinks when_days.
Proof. unfold when_days. shrinks_by_cases. Qed.
Lemma when_hours_shrinks : shrinks when_hours.
Proof. unfold when_hours. shrinks_by_cases. Qed.
Lemma when_remove_shrinks : shrinks when_remove.
Proof. unfold when_remove. shrinks_by_cases. Qed.
Lemma unless_found_when_shrinks step :
  shrinks step -> shrinks (unless_found_when step).
Proof.
  intros H v. unfold unless_found_when.
  destruct (negb (found_when v)); [apply H | apply le_n].
Qed.
Lemma daytime_phrase_shrinks r w : shrinks (daytime_phrase r w).
Proof. unfold daytime_phrase. shrinks_by_cases. Qed.
Lemma daytime_remove_shrinks : shrinks daytime_remove.
Proof. unfold daytime_remove. shrinks_by_cases. Qed.
Lemma unless_when_daytime_shrinks step :
  shrinks step -> shrinks (unless_when_daytime step).
Proof.
  intros H v. unfold unless_when_daytime.
  destruct (negb (truthy (when_daytime v))); [apply H | apply le_n].
Qed.
Lemma unless_settled_shrinks step :
  shrinks step -> shrinks (unless_settled step).
Proof.
  intros H v. unfold unless_settled.
  destruct (negb (found_my_keyword v) && negb (kw_err v)); [apply H | apply le_n].
Qed.

Create HintDb shrinks.

#[local] Hint Resolve units_metric_shrinks units_imperial_shrinks
  language_body_shrinks number_of_results_body_shrinks unicode_body_shrinks
  fortuneteller_body_shrinks dapnet_with_ssid_shrinks
  dapnet_without_ssid_shrinks cwop_id_body_shrinks when_phrase_shrinks
  when_days_shrinks when_hours_shrinks when_remove_shrinks
  unless_found_when_shrinks daytime_phrase_shrinks daytime_remove_shrinks
  unless_when_daytime_shrinks unless_settled_shrinks : shrinks.

(** A keyword parser: its steps, one after the other, from the text
    it is given. *)
Ltac shrinks_chain :=
  repeat (apply shrinks_then; [solve [auto 6 with shrinks] |]);
  vars_simpl; apply le_n.

Section Steps.
Context {W : World}.

Lemma parse_when_shrinks m :
  String.length (aprs_message (parse_when m)) <= String.length m.
Proof. unfold parse_when. cbn zeta. shrinks_chain. Qed.

Lemma parse_when_daytime_shrinks m :
  String.length (aprs_message (parse_when_daytime m)) <= String.length m.
Proof. unfold parse_when_daytime. cbn zeta. shrinks_chain. Qed.

Ltac helpers :=
  unfold address_found, position_found, metar_or_wx, csm_metar_taf,
    csm_users_position, assign_airport, assign_address, assign_position, claim.

Ltac shrinks_by_cases' := helpers; shrinks_by_cases.

Lemma csm_with_ssid_shrinks : shrinks csm_with_ssid.
Proof. unfold csm_with_ssid. shrinks_by_cases. Qed.
Lemma csm_without_ssid_shrinks : shrinks csm_without_ssid.
Proof. unfold csm_without_ssid. shrinks_by_cases. Qed.
Lemma csm_token_shrinks : shrinks csm_token.
Proof. unfold csm_token. shrinks_by_cases. Qed.
Lemma csm_bare_shrinks : shrinks csm_bare.
Proof. unfold csm_bare. shrinks_by_cases. Qed.
Lemma csm_lookup_shrinks : shrinks csm_lookup.
Proof. unfold csm_lookup. shrinks_by_cases'. Qed.
Lemma whereami_body_shrinks : shrinks whereami_body.
Proof. unfold whereami_body. shrinks_by_cases'. Qed.
Lemma satpass_body_shrinks : shrinks satpass_body.
Proof. unfold satpass_body. shrinks_by_cases'. Qed.
Lemma repeater_mode_band_shrinks : shrinks repeater_mode_band.
Proof. unfold repeater_mode_band. shrinks_by_cases. Qed.
Lemma repeater_band_mode_shrinks : shrinks repeater_band_mode.
Proof. unfold repeater_band_mode. shrinks_by_cases. Qed.
Lemma repeater_mode_only_shrinks : shrinks repeater_mode_only.
Proof. unfold repeater_mode_only. shrinks_by_cases. Qed.
Lemma repeater_band_only_shrinks : shrinks repeater_band_only.
Proof. unfold repeater_band_only. shrinks_by_cases. Qed.
Lemma repeater_bare_shrinks : shrinks repeater_bare.
Proof. unfold repeater_bare. shrinks_by_cases. Qed.
Lemma repeater_lookup_shrinks : shrinks repeater_lookup.
Proof. unfold repeater_lookup. shrinks_by_cases'. Qed.
Lemma osm_qualified_shrinks c : shrinks (osm_qualified c).
Proof. unfold osm_qualified. shrinks_by_cases. Qed.
Lemma osm_bare_shrinks c : shrinks (osm_bare c).
Proof. unfold osm_bare. shrinks_by_cases. Qed.
Lemma osm_lookup_shrinks : shrinks osm_lookup.
Proof. unfold osm_lookup. shrinks_by_cases'. Qed.
Lemma osm_loop_shrinks cats : shrinks (osm_loop cats).
Proof.
  induction cats as [| c cats IH]; intros v; cbn [osm_loop]; [apply le_n |].
  cbn zeta.
  assert (String.length (aprs_message (osm_bare c (osm_qualified c v)))
          <= String.length (aprs_message v)) as H.
  { etransitivity; [apply osm_bare_shrinks | apply osm_qualified_shrinks]. }
  destruct (found_my_keyword (osm_bare c (osm_qualified c v))).
  - etransitivity; [apply osm_lookup_shrinks | exact H].
  - etransitivity; [apply IH | exact H].
Qed.
Lemma email_position_report_body_shrinks : shrinks email_position_report_body.
Proof. unfold email_position_report_body. shrinks_by_cases'. Qed.
Lemma metar_icao_qualified_shrinks : shrinks metar_icao_qualified.
Proof. unfold metar_icao_qualified. shrinks_by_cases'. Qed.
Lemma metar_iata_qualified_shrinks : shrinks metar_iata_qualified.
Proof. unfold metar_iata_qualified. shrinks_by_cases'. Qed.
Lemma metar_guess_shrinks r f : shrinks (metar_guess r f).
Proof. unfold metar_guess. shrinks_by_cases'. Qed.
Lemma metar_nearest_shrinks r k t : shrinks (metar_nearest r k t).
Proof. unfold metar_nearest. shrinks_by_cases'. Qed.
Lemma wx_city_state_country_shrinks : shrinks wx_city_state_country.
Proof. unfold wx_city_state_country. shrinks_by_cases. Qed.
Lemma wx_city_state_shrinks : shrinks wx_city_state.
Proof. unfold wx_city_state. shrinks_by_cases. Qed.
Lemma wx_city_country_shrinks : shrinks wx_city_country.
Proof. unfold wx_city_country. shrinks_by_cases. Qed.
Lemma wx_address_lookup_shrinks : shrinks wx_address_lookup.
Proof. unfold wx_address_lookup. shrinks_by_cases'. Qed.
Lemma wx_zip_country_shrinks : shrinks wx_zip_country.
Proof. unfold wx_zip_country. shrinks_by_cases. Qed.
Lemma wx_zip_us_shrinks : shrinks wx_zip_us.
Proof. unfold wx_zip_us. shrinks_by_cases. Qed.
Lemma wx_code_country_shrinks : shrinks wx_code_country.
Proof. unfold wx_code_country. shrinks_by_cases. Qed.
Lemma wx_zip_lookup_shrinks : shrinks wx_zip_lookup.
Proof. unfold wx_zip_lookup. shrinks_by_cases'. Qed.
Lemma wx_five_digits_shrinks : shrinks wx_five_digits.
Proof. unfold wx_five_digits. shrinks_by_cases'. Qed.
Lemma wx_grid_qualified_shrinks : shrinks wx_grid_qualified.
Proof. unfold wx_grid_qualified. shrinks_by_cases'. Qed.
Lemma wx_grid_shrinks : shrinks wx_grid.
Proof. unfold wx_grid. shrinks_by_cases'. Qed.
Lemma wx_lat_lon_shrinks : shrinks wx_lat_lon.
Proof. unfold wx_lat_lon. shrinks_by_cases'. Qed.
Lemma wx_callsign_shrinks : shrinks wx_callsign.
Proof. unfold wx_callsign. shrinks_by_cases'. Qed.

#[local] Hint Resolve csm_with_ssid_shrinks csm_without_ssid_shrinks
  csm_token_shrinks csm_bare_shrinks csm_lookup_shrinks whereami_body_shrinks
  satpass_body_shrinks repeater_mode_band_shrinks repeater_band_mode_shrinks
  repeater_mode_only_shrinks repeater_band_only_shrinks repeater_bare_shrinks
  repeater_lookup_shrinks osm_loop_shrinks email_position_report_body_shrinks
  metar_icao_qualified_shrinks metar_iata_qualified_shrinks metar_guess_shrinks
  metar_nearest_shrinks wx_city_state_country_shrinks wx_city_state_shrinks
  wx_city_country_shrinks wx_address_lookup_shrinks wx_zip_country_shrinks
  wx_zip_us_shrinks wx_code_country_shrinks wx_zip_lookup_shrinks
  wx_five_digits_shrinks wx_grid_qualified_shrinks wx_grid_shrinks
  wx_lat_lon_shrinks wx_callsign_shrinks : shrinks.

Lemma wx_address_shrinks : shrinks wx_address.
Proof. intros v. unfold wx_address. cbn zeta. shrinks_chain. Qed.

Lemma wx_zip_shrinks : shrinks wx_zip.
Proof. intros v. unfold wx_zip. cbn zeta. shrinks_chain. Qed.

#[local] Hint Resolve wx_address_shrinks wx_zip_shrinks : shrinks.

(** The text a keyword parser returns is not longer than the text it
    was given. *)
Lemma aprs_message_set_message_callsign (x : option string) (v : Vars) :
  aprs_message (set_message_callsign x v) = aprs_message v.
Proof. reflexivity. Qed.

Tactic Notation "parser_shrinks" reference(f) :=
  intros; unfold f; cbn zeta; cbn [snd fst];
  rewrite ?aprs_message_set_message_callsign; shrinks_chain.

Lemma parse_keyword_units_shrinks m :
  String.length (aprs_message (snd (parse_keyword_units m))) <= String.length m.
Proof. parser_shrinks parse_keyword_units. Qed.
Lemma parse_keyword_unicode_shrinks m :
  String.length (aprs_message (snd (parse_keyword_unicode m))) <= String.length m.
Proof. parser_shrinks parse_keyword_unicode. Qed.
Lemma parse_keyword_language_shrinks m :
  String.length (aprs_message (snd (parse_keyword_language m))) <= String.length m.
Proof. parser_shrinks parse_keyword_language. Qed.
Lemma parse_keyword_number_of_results_shrinks m :
  String.length (aprs_message (snd (parse_keyword_number_of_results m)))
  <= String.length m.
Proof. parser_shrinks parse_keyword_number_of_results. Qed.
Lemma parse_callsign_multi_shrinks m cs key lang :
  String.length
    (aprs_message (snd (parse_what_keyword_callsign_multi m cs key lang)))
  <= String.length m.
Proof. parser_shrinks parse_what_keyword_callsign_multi. Qed.
Lemma parse_whereami_shrinks m cs key lang :
  String.length (aprs_message (snd (parse_what_keyword_whereami m cs key lang)))
  <= String.length m.
Proof. parser_shrinks parse_what_keyword_whereami. Qed.
Lemma parse_cwop_id_shrinks m cs :
  String.length (aprs_message (snd (parse_what_keyword_cwop_id m cs)))
  <= String.length m.
Proof. parser_shrinks parse_what_keyword_cwop_id. Qed.
Lemma parse_satpass_shrinks m cs key :
  String.length (aprs_message (snd (parse_what_keyword_satpass m cs key)))
  <= String.length m.
Proof. parser_shrinks parse_what_keyword_satpass. Qed.
Lemma parse_repeater_shrinks m cs key :
  String.length (aprs_message (snd (parse_what_keyword_repeater m cs key)))
  <= String.length m.
Proof. parser_shrinks parse_what_keyword_repeater. Qed.
Lemma parse_osm_category_shrinks m cs key :
  String.length (aprs_message (snd (parse_what_keyword_osm_category m cs key)))
  <= String.length m.
Proof. parser_shrinks parse_what_keyword_osm_category. Qed.
Lemma parse_dapnet_shrinks m cs :
  String.length (aprs_message (snd (parse_what_keyword_dapnet m cs)))
  <= String.length m.
Proof. parser_shrinks parse_what_keyword_dapnet. Qed.
Lemma parse_fortuneteller_shrinks m :
  String.length (aprs_message (snd (parse_what_keyword_fortuneteller m)))
  <= String.length m.
Proof. parser_shrinks parse_what_keyword_fortuneteller. Qed.
Lemma parse_email_position_report_shrinks m cs key lang :
  String.length
    (aprs_message (snd (parse_what_keyword_email_position_report m cs key lang)))
  <= String.length m.
Proof. parser_shrinks parse_what_keyword_email_position_report. Qed.
Lemma parse_metar_shrinks m cs key :
  String.length (aprs_message (snd (parse_what_keyword_metar m cs key)))
  <= String.length m.
Proof. parser_shrinks parse_what_keyword_metar. Qed.
Lemma parse_wx_shrinks m cs lang :
  String.length (aprs_message (snd (parse_what_keyword_wx m cs lang)))
  <= String.length m.
Proof. parser_shrinks parse_what_keyword_wx. Qed.

(** A stage of [parse_input_message] takes the text of the keyword
    parser it calls, or leaves the text alone. *)
Tactic Notation "stage_shrinks" reference(f) uconstr(H) :=
  intros v; unfold f;
  try (destruct (unclaimed v); [| apply le_n]);
  let B := fresh "B" in
  pose proof H as B; cbn zeta;
  match goal with
  | |- context [let '(_, _) := ?p in _] =>
      match type of B with
      | context [p] => destruct p as [[? ?] ?] || destruct p as [? ?]
      end
  end;
  cbn [snd] in B;
  repeat split_case; unfold claim; vars_simpl; first [apply le_n | exact B].

Lemma stage_units_shrinks : shrinks stage_units.
Proof. stage_shrinks stage_units (parse_keyword_units_shrinks (aprs_message v)). Qed.
Lemma stage_unicode_shrinks : shrinks stage_unicode.
Proof. stage_shrinks stage_unicode (parse_keyword_unicode_shrinks (aprs_message v)). Qed.
Lemma stage_language_shrinks : shrinks stage_language.
Proof. stage_shrinks stage_language (parse_keyword_language_shrinks (aprs_message v)). Qed.
Lemma stage_number_of_results_shrinks : shrinks stage_number_of_results.
Proof.
  stage_shrinks stage_number_of_results
                (parse_keyword_number_of_results_shrinks (aprs_message v)).
Qed.
Lemma stage_help_shrinks : shrinks stage_help.
Proof. unfold stage_help. shrinks_by_cases. Qed.
Lemma stage_when_shrinks : shrinks stage_when.
Proof.
  intros v. unfold stage_when.
  generalize (parse_when_shrinks (aprs_message v)).
  generalize (parse_when (aprs_message v)). intros r Hr. cbn zeta.
  repeat split_case; vars_simpl; first [apply le_n | assumption].
Qed.
Lemma stage_when_daytime_shrinks : shrinks stage_when_daytime.
Proof.
  intros v. unfold stage_when_daytime.
  generalize (parse_when_daytime_shrinks (aprs_message v)).
  generalize (parse_when_daytime (aprs_message v)). intros r Hr. cbn zeta.
  repeat split_case; vars_simpl; first [apply le_n | assumption].
Qed.
Lemma stage_callsign_multi_shrinks : shrinks stage_callsign_multi.
Proof.
  stage_shrinks stage_callsign_multi
    (parse_callsign_multi_shrinks (aprs_message v) (users_callsign v)
                                  (aprsdotfi_api_key v) (language v)).
Qed.
Lemma stage_whereami_shrinks : shrinks stage_whereami.
Proof.
  stage_shrinks stage_whereami
    (parse_whereami_shrinks (aprs_message v) (users_callsign v)
                            (aprsdotfi_api_key v) (language v)).
Qed.
Lemma stage_cwop_id_shrinks : shrinks stage_cwop_id.
Proof.
  stage_shrinks stage_cwop_id
    (parse_cwop_id_shrinks (aprs_message v) (users_callsign v)).
Qed.
Lemma stage_satpass_shrinks : shrinks stage_satpass.
Proof.
  stage_shrinks stage_satpass
    (parse_satpass_shrinks (aprs_message v) (users_callsign v)
                           (aprsdotfi_api_key v)).
Qed.
Lemma stage_repeater_shrinks : shrinks stage_repeater.
Proof.
  stage_shrinks stage_repeater
    (parse_repeater_shrinks (aprs_message v) (users_callsign v)
                            (aprsdotfi_api_key v)).
Qed.
Lemma stage_osm_category_shrinks : shrinks stage_osm_category.
Proof.
  stage_shrinks stage_osm_category
    (parse_osm_category_shrinks (aprs_message v) (users_callsign v)
                                (aprsdotfi_api_key v)).
Qed.
Lemma stage_dapnet_shrinks : shrinks stage_dapnet.
Proof.
  stage_shrinks stage_dapnet
    (parse_dapnet_shrinks (aprs_message v) (users_callsign v)).
Qed.
Lemma stage_fortuneteller_shrinks : shrinks stage_fortuneteller.
Proof.
  stage_shrinks stage_fortuneteller
    (parse_fortuneteller_shrinks (aprs_message v)).
Qed.
Lemma stage_email_position_report_shrinks : shrinks stage_email_position_report.
Proof.
  stage_shrinks stage_email_position_report
    (parse_email_position_report_shrinks (aprs_message v) (users_callsign v)
                                         (aprsdotfi_api_key v) (language v)).
Qed.
Lemma stage_metar_shrinks : shrinks stage_metar.
Proof.
  stage_shrinks stage_metar
    (parse_metar_shrinks (aprs_message v) (users_callsign v)
                         (aprsdotfi_api_key v)).
Qed.
Lemma stage_wx_shrinks : shrinks stage_wx.
Proof.
  stage_shrinks stage_wx
    (parse_wx_shrinks (aprs_message v) (users_callsign v) (language v)).
Qed.

(** The checks and defaults at the end do not touch the text. *)
Lemma check_anything_shrinks : shrinks check_anything.
Proof. unfold check_anything. shrinks_by_cases. Qed.
Lemma check_garbage_shrinks : shrinks check_garbage.
Proof. unfold check_garbage. shrinks_by_cases. Qed.
Lemma default_when_shrinks : shrinks default_when.
Proof. unfold default_when. shrinks_by_cases. Qed.
Lemma default_when_daytime_shrinks : shrinks default_when_daytime.
Proof. unfold default_when_daytime. shrinks_by_cases. Qed.
Lemma default_what_shrinks : shrinks default_what.
Proof. unfold default_what. shrinks_by_cases. Qed.
Lemma sender_position_shrinks : shrinks sender_position.
Proof. unfold sender_position. shrinks_by_cases'. Qed.

Lemma extractors_and_rules_shrink :
  Forall shrinks (modifiers ++ rule_chain).
Proof.
  exact
    (Forall_cons _ stage_units_shrinks
     (Forall_cons _ stage_unicode_shrinks
     (Forall_cons _ stage_language_shrinks
     (Forall_cons _ stage_number_of_results_shrinks
     (Forall_cons _ stage_help_shrinks
     (Forall_cons _ stage_when_shrinks
     (Forall_cons _ stage_when_daytime_shrinks
     (Forall_cons _ stage_callsign_multi_shrinks
     (Forall_cons _ stage_whereami_shrinks
     (Forall_cons _ stage_cwop_id_shrinks
     (Forall_cons _ stage_satpass_shrinks
     (Forall_cons _ stage_repeater_shrinks
     (Forall_cons _ stage_osm_category_shrinks
     (Forall_cons _ stage_dapnet_shrinks
     (Forall_cons _ stage_fortuneteller_shrinks
     (Forall_cons _ stage_email_position_report_shrinks
     (Forall_cons _ stage_metar_shrinks
     (Forall_cons _ stage_wx_shrinks
     (Forall_nil _))))))))))))))))))).
Qed.

Lemma backfill_shrinks : Forall shrinks backfill.
Proof.
  exact
    (Forall_cons _ check_anything_shrinks
     (Forall_cons _ check_garbage_shrinks
     (Forall_cons _ default_when_shrinks
     (Forall_cons _ default_when_daytime_shrinks
     (Forall_cons _ default_what_shrinks
     (Forall_cons _ sender_position_shrinks
     (Forall_nil _))))))).
Qed.

Lemma trace_shrinking (stages : list (Vars -> Vars)) :
  Forall shrinks stages -> forall v, shrinking (trace stages v).
Proof.
  induction 1 as [| stage stages Hs _ IH]; intros v; [exact I |].
  cbn [trace]. specialize (IH (stage v)).
  destruct stages; cbn [trace shrinking] in *; (split; [apply Hs | exact IH]).
Qed.

(** C7: text consumption is monotonic.  Every modifier extractor,
    temporal extractor and keyword rule handler leaves a remaining
    text that is not longer than the one it found, and the remaining
    text never regrows along the states of one parse. *)
Theorem text_consumption_monotonic
        (aprs_message users_callsign aprsdotfi_api_key : string) :
  Forall shrinks (modifiers ++ rule_chain)
  /\ shrinking (trace program
                      (start aprs_message users_callsign aprsdotfi_api_key)).
Proof.
  split; [apply extractors_and_rules_shrink |].
  apply trace_shrinking. unfold program. rewrite app_assoc.
  apply Forall_app. split;
    [apply extractors_and_rules_shrink | apply backfill_shrinks].
Qed.

End Steps.

(* ================================================================= *)
(** ** The duty roster flag *)

Section Claim.
Context {W : World}.

Lemma settled_unclaimed (v : Vars) : settled v = true -> unclaimed v = false.
Proof.
  unfold settled, unclaimed.
  destruct (found_my_duty_roster v), (err v); cbn; congruence.
Qed.

Ltac head_of t := match t with ?f _ => head_of f | _ => t end.

Ltac inert_stage :=
  intros v Hv; apply settled_unclaimed in Hv;
  match goal with |- ?f v = v => let h := head_of f in unfold h end;
  rewrite Hv; reflexivity.

Lemma stage_help_inert : inert stage_help.
Proof. inert_stage. Qed.
Lemma stage_when_inert : inert stage_when.
Proof.
  intros v Hv. unfold stage_when, settled in *.
  destruct (found_my_duty_roster v), (err v), (found_when v);
    cbn in Hv; try discriminate; reflexivity.
Qed.
Lemma stage_when_daytime_inert : inert stage_when_daytime.
Proof.
  intros v Hv. unfold stage_when_daytime, settled in *.
  destruct (found_my_duty_roster v), (err v), (found_when_daytime v);
    cbn in Hv; try discriminate; reflexivity.
Qed.
Lemma stage_callsign_multi_inert : inert stage_callsign_multi.
Proof. inert_stage. Qed.
Lemma stage_whereami_inert : inert stage_whereami.
Proof. inert_stage. Qed.
Lemma stage_cwop_id_inert : inert stage_cwop_id.
Proof. inert_stage. Qed.
Lemma stage_satpass_inert : inert stage_satpass.
Proof. inert_stage. Qed.
Lemma stage_repeater_inert : inert stage_repeater.
Proof. inert_stage. Qed.
Lemma stage_osm_category_inert : inert stage_osm_category.
Proof. inert_stage. Qed.
Lemma stage_dapnet_inert : inert stage_dapnet.
Proof. inert_stage. Qed.
Lemma stage_fortuneteller_inert : inert stage_fortuneteller.
Proof. inert_stage. Qed.
Lemma stage_email_position_report_inert : inert stage_email_position_report.
Proof. inert_stage. Qed.
Lemma stage_metar_inert : inert stage_metar.
Proof. inert_stage. Qed.
Lemma stage_wx_inert : inert stage_wx.
Proof. inert_stage. Qed.
Lemma sender_position_inert : inert sender_position.
Proof. inert_stage. Qed.

Lemma rule_chain_inert : Forall inert rule_chain.
Proof.
  exact
    (Forall_cons _ stage_help_inert
    (Forall_cons _ stage_when_inert
    (Forall_cons _ stage_when_daytime_inert
    (Forall_cons _ stage_callsign_multi_inert
    (Forall_cons _ stage_whereami_inert
    (Forall_cons _ stage_cwop_id_inert
    (Forall_cons _ stage_satpass_inert
    (Forall_cons _ stage_repeater_inert
    (Forall_cons _ stage_osm_category_inert
    (Forall_cons _ stage_dapnet_inert
    (Forall_cons _ stage_fortuneteller_inert
    (Forall_cons _ stage_email_position_report_inert
    (Forall_cons _ stage_metar_inert
    (Forall_cons _ stage_wx_inert (Forall_nil _))))))))))))))).
Qed.

Lemma inert_keeps_claim (stage : Vars -> Vars) :
  inert stage -> keeps_claim stage.
Proof.
  intros H v Hv. rewrite H; [exact Hv |]. unfold settled. now rewrite Hv.
Qed.

(** A modifier: the flag is not among the variables it assigns. *)
Ltac modifier_keeps_claim :=
  intros v Hv;
  match goal with
  | |- found_my_duty_roster (?f v) = true => let h := head_of f in unfold h
  end;
  match goal with
  | |- context [let '(_, _) := ?p in _] => destruct p as [? ?]
  end;
  repeat split_case; vars_simpl; exact Hv.

Lemma stage_units_keeps_claim : keeps_claim stage_units.
Proof. modifier_keeps_claim. Qed.
Lemma stage_unicode_keeps_claim : keeps_claim stage_unicode.
Proof. modifier_keeps_claim. Qed.
Lemma stage_language_keeps_claim : keeps_claim stage_language.
Proof. modifier_keeps_claim. Qed.
Lemma stage_number_of_results_keeps_claim : keeps_claim stage_number_of_results.
Proof. modifier_keeps_claim. Qed.

Ltac check_keeps_claim :=
  intros v Hv;
  match goal with
  | |- found_my_duty_roster (?f v) = true => let h := head_of f in unfold h
  end;
  repeat split_case; vars_simpl; exact Hv.

Lemma check_anything_keeps_claim : keeps_claim check_anything.
Proof. check_keeps_claim. Qed.
Lemma check_garbage_keeps_claim : keeps_claim check_garbage.
Proof. check_keeps_claim. Qed.
Lemma default_when_keeps_claim : keeps_claim default_when.
Proof. check_keeps_claim. Qed.
Lemma default_when_daytime_keeps_claim : keeps_claim default_when_daytime.
Proof. check_keeps_claim. Qed.
Lemma default_what_keeps_claim : keeps_claim default_what.
Proof. check_keeps_claim. Qed.

Lemma program_keeps_claim : Forall keeps_claim program.
Proof.
  unfold program. apply Forall_app. split; [| apply Forall_app; split].
  - exact
      (Forall_cons _ stage_units_keeps_claim
      (Forall_cons _ stage_unicode_keeps_claim
      (Forall_cons _ stage_language_keeps_claim
      (Forall_cons _ stage_number_of_results_keeps_claim (Forall_nil _))))).
  - eapply Forall_impl; [| apply rule_chain_inert]. apply inert_keeps_claim.
  - exact
      (Forall_cons _ check_anything_keeps_claim
      (Forall_cons _ check_garbage_keeps_claim
      (Forall_cons _ default_when_keeps_claim
      (Forall_cons _ default_when_daytime_keeps_claim
      (Forall_cons _ default_what_keeps_claim
      (Forall_cons _ (inert_keeps_claim _ sender_position_inert)
                   (Forall_nil _))))))).
Qed.

Lemma rises_cons (v v' : Vars) (t : list Vars) :
  rises (v :: v' :: t)
  = (if negb (found_my_duty_roster v) && found_my_duty_roster v' then 1 else 0)
    + rises (v' :: t).
Proof. reflexivity. Qed.

Lemma drops_cons (v v' : Vars) (t : list Vars) :
  drops (v :: v' :: t)
  = (if found_my_duty_roster v && negb (found_my_duty_roster v') then 1 else 0)
    + drops (v' :: t).
Proof. reflexivity. Qed.

Lemma trace_head (stages : list (Vars -> Vars)) (v : Vars) :
  exists t, trace stages v = v :: t.
Proof. destruct stages; cbn; eauto. Qed.

(** Once the flag is up it stays up: no rise and no drop is left. *)
Lemma trace_claimed (stages : list (Vars -> Vars)) :
  Forall keeps_claim stages ->
  forall v, found_my_duty_roster v = true ->
            rises (trace stages v) = 0 /\ drops (trace stages v) = 0.
Proof.
  induction 1 as [| stage stages Hs _ IH]; intros v Hv; [now cbn |].
  cbn [trace]. specialize (IH (stage v) (Hs v Hv)).
  destruct (trace_head stages (stage v)) as [t Ht]. rewrite Ht in *.
  rewrite rises_cons, drops_cons, Hv, (Hs v Hv). exact IH.
Qed.

Lemma trace_rises_once (stages : list (Vars -> Vars)) :
  Forall keeps_claim stages ->
  forall v, rises (trace stages v) <= 1 /\ drops (trace stages v) = 0.
Proof.
  induction 1 as [| stage stages Hs Hss IH]; intros v; [cbn; lia |].
  cbn [trace].
  destruct (found_my_duty_roster v) eqn:Hv.
  - destruct (trace_claimed (stage :: stages)
                (Forall_cons _ Hs Hss) v Hv) as [Hr Hd].
    cbn [trace] in Hr, Hd. rewrite Hr, Hd. lia.
  - destruct (trace_head stages (stage v)) as [t Ht].
    pose proof (IH (stage v)) as [IHr IHd].
    destruct (found_my_duty_roster (stage v)) eqn:Hv'.
    + destruct (trace_claimed stages Hss (stage v) Hv') as [Hr Hd].
      rewrite Ht in *. rewrite rises_cons, drops_cons, Hv, Hv', Hr, Hd.
      cbn [negb andb Nat.add]. lia.
    + rewrite Ht in *. rewrite rises_cons, drops_cons, Hv, Hv'.
      cbn [negb andb Nat.add]. lia.
Qed.

(** C5: the duty roster flag is set by at most one rule handler.  A
    rule handler of the chain (help, the temporal extractors and the
    keyword parsers) that finds the flag or the error flag set
    returns the variables as they are: it does not run and alters no
    field.  Along the states of a parse the flag goes from false to
    true at most once and never back. *)
Theorem duty_roster_claimed_once
        (aprs_message users_callsign aprsdotfi_api_key : string) :
  Forall inert rule_chain
  /\ rises (trace program (start aprs_message users_callsign aprsdotfi_api_key))
     <= 1
  /\ drops (trace program (start aprs_message users_callsign aprsdotfi_api_key))
     = 0.
Proof.
  split; [apply rule_chain_inert |].
  apply trace_rises_once, program_keeps_claim.
Qed.

End Claim.

(* ================================================================= *)
(** ** The CWOP station id *)

Ltac head_of t := match t with ?f _ => head_of f | _ => t end.

(** *** The pattern of the CWOP station id and the call sign parser *)

Lemma nonempty_matches (r : regex) (s e : cursor) :
  In e (matches r s) -> matches r s <> [].
Proof. destruct (matches r s); [intros [] | discriminate]. Qed.

(** Where [\bcwop\s*(\w+)\b] matches,
    [\b(wx|forecast|whereis|riseset|cwop|metar|taf|sonde)\s*(\w+)\b]
    matches as well. *)
Lemma cwop_id_needs_token (s : cursor) :
  matches re_csm_token s = [] -> matches re_cwop_id s = [].
Proof.
  intros Hnone.
  destruct (matches re_cwop_id s) as [| e l] eqn:He; [reflexivity | exfalso].
  assert (In e (matches re_cwop_id s)) as Hin by (rewrite He; now left).
  clear He l.
  set (tail1 := Seq (Star s_) (Seq (Grp 1 (plus w_)) WordB)).
  set (tail2 := Seq (Star s_) (Seq (Grp 2 (plus w_)) WordB)).
  change re_cwop_id with (Seq WordB (Seq (word "cwop") tail1)) in Hin.
  change re_csm_token
    with (Seq WordB (Seq (Grp 1 (words csm_keywords)) tail2)) in Hnone.
  cbn [matches] in Hin, Hnone.
  destruct (at_boundary s); [| destruct Hin].
  cbn [flat_map] in Hin, Hnone. rewrite app_nil_r in Hin, Hnone.
  apply in_flat_map in Hin. destruct Hin as [k [Hk Hin]].
  assert (In (capture 1 s k) (map (capture 1 s) (matches (words csm_keywords) s)))
    as Hk'.
  { apply in_map. apply (matches_words_intro csm_keywords "cwop"); [| exact Hk].
    cbn. tauto. }
  assert (matches tail2 (capture 1 s k) <> []) as Hne.
  { intros Hnil. apply nonempty_matches in Hin. apply Hin.
    apply (map_nil_iff place).
    rewrite (matches_place tail1 k (capture 1 s k) eq_refl).
    change (ungroup tail1) with (ungroup tail2).
    rewrite <- (matches_place tail2 (capture 1 s k) (capture 1 s k) eq_refl).
    now rewrite Hnil. }
  destruct (matches tail2 (capture 1 s k)) as [| e' l'] eqn:He'; [congruence |].
  assert (In e' (flat_map (matches tail2)
                          (map (capture 1 s) (matches (words csm_keywords) s))))
    as Habs.
  { apply in_flat_map. exists (capture 1 s k). split; [exact Hk' |].
    rewrite He'. now left. }
  rewrite Hnone in Habs. destruct Habs.
Qed.

Lemma search_cwop_id_none (s : string) :
  search re_csm_token s = None -> search re_cwop_id s = None.
Proof. apply search_none_mono. exact cwop_id_needs_token. Qed.

(** *** The keyword a pattern has captured *)

Lemma is_str_true (o : option string) (s : string) :
  is_str o s = true -> o = Some s.
Proof.
  destruct o as [t |]; cbn; [| discriminate].
  intros H. apply String.eqb_eq in H. now subst.
Qed.

Lemma is_str_false (o : option string) (s : string) :
  is_str o s = false -> o <> Some s.
Proof.
  destruct o as [t |]; cbn; [| discriminate].
  intros H [= ->]. now rewrite String.eqb_refl in H.
Qed.

(** The first group of a search for [\b(w1|w2|...)R]. *)
Lemma search_keyword (ws : list string) (R r : regex) (s : string) (m : hit) :
  r = Seq WordB (Seq (Grp 1 (words ws)) R) ->
  ws <> [] -> ~ In 1 (groups R) ->
  search r s = Some m ->
  In (lower (grp 1 m)) (map lower ws).
Proof.
  intros -> Hne HR H. apply search_In in H.
  destruct (keyword_group ws R m Hne HR H) as [w [Hw ->]].
  now apply in_map.
Qed.

Ltac no_group_1 := cbn; intuition discriminate.

Lemma csm_keyword (r R : regex) (s : string) (m : hit) :
  r = Seq WordB (Seq (Grp 1 (words csm_keywords)) R) ->
  ~ In 1 (groups R) ->
  search r s = Some m ->
  In (lower (grp 1 m)) csm_keywords.
Proof.
  intros Hr HR H.
  apply (search_keyword csm_keywords R r s m Hr) in H;
    [exact H | discriminate | exact HR].
Qed.

Lemma csm_ssid_keyword s m :
  search re_csm_ssid s = Some m -> In (lower (grp 1 m)) csm_keywords.
Proof. eapply csm_keyword; [reflexivity | no_group_1]. Qed.
Lemma csm_callsign_keyword s m :
  search re_csm_callsign s = Some m -> In (lower (grp 1 m)) csm_keywords.
Proof. eapply csm_keyword; [reflexivity | no_group_1]. Qed.
Lemma csm_token_keyword s m :
  search re_csm_token s = Some m -> In (lower (grp 1 m)) csm_keywords.
Proof. eapply csm_keyword; [reflexivity | no_group_1]. Qed.
Lemma csm_bare_keyword s m :
  search re_csm_bare s = Some m -> In (lower (grp 1 m)) csm_keywords.
Proof. eapply csm_keyword; [reflexivity | no_group_1]. Qed.

Lemma satpass_keyword s m :
  search re_satpass s = Some m ->
  In (lower (grp 1 m)) ["vispass"; "satpass"; "satfreq"].
Proof.
  intros H.
  eapply (search_keyword ["vispass"; "satpass"; "satfreq"]) in H;
    [exact H | reflexivity | discriminate | no_group_1].
Qed.

Lemma dapnet_ssid_keyword s m :
  search re_dapnet_ssid s = Some m -> In (lower (grp 1 m)) ["dapnet"; "dapnethp"].
Proof.
  intros H.
  eapply (search_keyword ["dapnet"; "dapnethp"]) in H;
    [exact H | reflexivity | discriminate | no_group_1].
Qed.

Lemma dapnet_keyword s m :
  search re_dapnet s = Some m -> In (lower (grp 1 m)) ["dapnet"; "dapnethp"].
Proof.
  intros H.
  eapply (search_keyword ["dapnet"; "dapnethp"]) in H;
    [exact H | reflexivity | discriminate | no_group_1].
Qed.

(** None of the keywords is the value that stands for a CWOP id. *)
Ltac not_cwop_id H :=
  cbn in H; unfold cwop_by_cwop_id;
  repeat (destruct H as [<- | H]; [discriminate |]); destruct H.

(** *** No step but the CWOP id parser makes [what] a CWOP id *)

Lemma no_cwop_id_then (f : Vars -> Vars) (v : Vars) :
  no_cwop_id f -> what v <> cwop_by_cwop_id -> what (f v) <> cwop_by_cwop_id.
Proof. intros Hf Hv. now apply Hf. Qed.

Lemma keyword_not_cwop_id (ws : list string) (w : string) :
  In w ws -> forallb (fun k => negb (String.eqb k "cwop_by_cwop_id")) ws = true ->
  Some w <> cwop_by_cwop_id.
Proof.
  intros Hw Hall [= ->]. rewrite forallb_forall in Hall.
  specialize (Hall _ Hw). now rewrite String.eqb_refl in Hall.
Qed.

Section What.
Context {W : World}.

Ltac helpers :=
  unfold address_found, position_found, metar_or_wx, csm_metar_taf,
    csm_users_position, assign_airport, assign_address, assign_position, claim.

(** A step that assigns constants to [what], or nothing. *)
Ltac plain_no_cwop_id :=
  intros v Hv;
  match goal with |- what (?f v) <> _ => let h := head_of f in unfold h end;
  helpers; repeat split_case; vars_simpl;
  first [exact Hv | unfold cwop_by_cwop_id; discriminate].

(** A step that assigns the keyword it has found to [what]. *)
Ltac keyword_no_cwop_id lemma :=
  intros v Hv;
  match goal with |- what (?f v) <> _ => let h := head_of f in unfold h end;
  helpers;
  match goal with
  | |- context [search ?r ?s] =>
      let E := fresh "E" in
      destruct (search r s) as [m |] eqn:E; [apply lemma in E |]
  end;
  repeat split_case; vars_simpl;
  first [ exact Hv
        | unfold cwop_by_cwop_id; discriminate
        | eapply keyword_not_cwop_id; [eassumption | reflexivity] ].

Lemma csm_with_ssid_no_cwop_id : no_cwop_id csm_with_ssid.
Proof. keyword_no_cwop_id csm_ssid_keyword. Qed.
Lemma csm_without_ssid_no_cwop_id : no_cwop_id csm_without_ssid.
Proof. keyword_no_cwop_id csm_callsign_keyword. Qed.
Lemma csm_token_no_cwop_id : no_cwop_id csm_token.
Proof. keyword_no_cwop_id csm_token_keyword. Qed.
Lemma csm_bare_no_cwop_id : no_cwop_id csm_bare.
Proof. keyword_no_cwop_id csm_bare_keyword. Qed.
Lemma csm_lookup_no_cwop_id : no_cwop_id csm_lookup.
Proof. plain_no_cwop_id. Qed.
Lemma whereami_body_no_cwop_id : no_cwop_id whereami_body.
Proof. plain_no_cwop_id. Qed.
Lemma satpass_body_no_cwop_id : no_cwop_id satpass_body.
Proof. keyword_no_cwop_id satpass_keyword. Qed.
Lemma repeater_mode_band_no_cwop_id : no_cwop_id repeater_mode_band.
Proof. plain_no_cwop_id. Qed.
Lemma repeater_band_mode_no_cwop_id : no_cwop_id repeater_band_mode.
Proof. plain_no_cwop_id. Qed.
Lemma repeater_mode_only_no_cwop_id : no_cwop_id repeater_mode_only.
Proof. plain_no_cwop_id. Qed.
Lemma repeater_band_only_no_cwop_id : no_cwop_id repeater_band_only.
Proof. plain_no_cwop_id. Qed.
Lemma repeater_bare_no_cwop_id : no_cwop_id repeater_bare.
Proof. plain_no_cwop_id. Qed.
Lemma repeater_lookup_no_cwop_id : no_cwop_id repeater_lookup.
Proof. plain_no_cwop_id. Qed.
Lemma osm_qualified_no_cwop_id c : no_cwop_id (osm_qualified c).
Proof. plain_no_cwop_id. Qed.
Lemma osm_bare_no_cwop_id c : no_cwop_id (osm_bare c).
Proof. plain_no_cwop_id. Qed.
Lemma osm_lookup_no_cwop_id : no_cwop_id osm_lookup.
Proof. plain_no_cwop_id. Qed.
Lemma osm_loop_no_cwop_id cats : no_cwop_id (osm_loop cats).
Proof.
  induction cats as [| c cats IH]; intros v Hv; cbn [osm_loop]; [exact Hv |].
  cbn zeta.
  assert (what (osm_bare c (osm_qualified c v)) <> cwop_by_cwop_id) as H.
  { now apply osm_bare_no_cwop_id, osm_qualified_no_cwop_id. }
  destruct (found_my_keyword (osm_bare c (osm_qualified c v))).
  - now apply osm_lookup_no_cwop_id.
  - now apply IH.
Qed.
Lemma dapnet_with_ssid_no_cwop_id : no_cwop_id dapnet_with_ssid.
Proof. keyword_no_cwop_id dapnet_ssid_keyword. Qed.
Lemma dapnet_without_ssid_no_cwop_id : no_cwop_id dapnet_without_ssid.
Proof. keyword_no_cwop_id dapnet_keyword. Qed.
Lemma fortuneteller_body_no_cwop_id : no_cwop_id fortuneteller_body.
Proof. plain_no_cwop_id. Qed.
Lemma email_position_report_body_no_cwop_id :
  no_cwop_id email_position_report_body.
Proof. plain_no_cwop_id. Qed.
Lemma metar_icao_qualified_no_cwop_id : no_cwop_id metar_icao_qualified.
Proof. plain_no_cwop_id. Qed.
Lemma metar_iata_qualified_no_cwop_id : no_cwop_id metar_iata_qualified.
Proof. plain_no_cwop_id. Qed.
Lemma metar_guess_no_cwop_id r f : no_cwop_id (metar_guess r f).
Proof. plain_no_cwop_id. Qed.
Lemma metar_nearest_no_cwop_id r k t :
  Some k <> cwop_by_cwop_id -> no_cwop_id (metar_nearest r k t).
Proof.
  intros Hk v Hv. unfold metar_nearest. helpers.
  repeat split_case; vars_simpl;
    first [exact Hv | exact Hk | unfold cwop_by_cwop_id; discriminate].
Qed.
Lemma unless_settled_no_cwop_id step :
  no_cwop_id step -> no_cwop_id (unless_settled step).
Proof.
  intros H v Hv. unfold unless_settled.
  destruct (negb (found_my_keyword v) && negb (kw_err v)); [now apply H | exact Hv].
Qed.
Lemma wx_city_state_country_no_cwop_id : no_cwop_id wx_city_state_country.
Proof. plain_no_cwop_id. Qed.
Lemma wx_city_state_no_cwop_id : no_cwop_id wx_city_state.
Proof. plain_no_cwop_id. Qed.
Lemma wx_city_country_no_cwop_id : no_cwop_id wx_city_country.
Proof. plain_no_cwop_id. Qed.
Lemma wx_address_lookup_no_cwop_id : no_cwop_id wx_address_lookup.
Proof. plain_no_cwop_id. Qed.
Lemma wx_zip_country_no_cwop_id : no_cwop_id wx_zip_country.
Proof. plain_no_cwop_id. Qed.
Lemma wx_zip_us_no_cwop_id : no_cwop_id wx_zip_us.
Proof. plain_no_cwop_id. Qed.
Lemma wx_code_country_no_cwop_id : no_cwop_id wx_code_country.
Proof. plain_no_cwop_id. Qed.
Lemma wx_zip_lookup_no_cwop_id : no_cwop_id wx_zip_lookup.
Proof. plain_no_cwop_id. Qed.
Lemma wx_five_digits_no_cwop_id : no_cwop_id wx_five_digits.
Proof. plain_no_cwop_id. Qed.
Lemma wx_grid_qualified_no_cwop_id : no_cwop_id wx_grid_qualified.
Proof. plain_no_cwop_id. Qed.
Lemma wx_grid_no_cwop_id : no_cwop_id wx_grid.
Proof. plain_no_cwop_id. Qed.
Lemma wx_lat_lon_no_cwop_id : no_cwop_id wx_lat_lon.
Proof. plain_no_cwop_id. Qed.
Lemma wx_callsign_no_cwop_id : no_cwop_id wx_callsign.
Proof. plain_no_cwop_id. Qed.

Create HintDb no_cwop_id.

#[local] Hint Resolve csm_with_ssid_no_cwop_id csm_without_ssid_no_cwop_id
  csm_token_no_cwop_id csm_bare_no_cwop_id csm_lookup_no_cwop_id
  whereami_body_no_cwop_id satpass_body_no_cwop_id
  repeater_mode_band_no_cwop_id repeater_band_mode_no_cwop_id
  repeater_mode_only_no_cwop_id repeater_band_only_no_cwop_id
  repeater_bare_no_cwop_id repeater_lookup_no_cwop_id osm_loop_no_cwop_id
  dapnet_with_ssid_no_cwop_id dapnet_without_ssid_no_cwop_id
  fortuneteller_body_no_cwop_id email_position_report_body_no_cwop_id
  metar_icao_qualified_no_cwop_id metar_iata_qualified_no_cwop_id
  metar_guess_no_cwop_id unless_settled_no_cwop_id
  wx_city_state_country_no_cwop_id wx_city_state_no_cwop_id
  wx_city_country_no_cwop_id wx_address_lookup_no_cwop_id
  wx_zip_country_no_cwop_id wx_zip_us_no_cwop_id wx_code_country_no_cwop_id
  wx_zip_lookup_no_cwop_id wx_five_digits_no_cwop_id
  wx_grid_qualified_no_cwop_id wx_grid_no_cwop_id wx_lat_lon_no_cwop_id
  wx_callsign_no_cwop_id : no_cwop_id.

Lemma what_set_message_callsign (x : option string) (v : Vars) :
  what (set_message_callsign x v) = what v.
Proof. reflexivity. Qed.

Lemma what_set_geopy_query (x : option query_data) (v : Vars) :
  what (set_geopy_query x v) = what v.
Proof. reflexivity. Qed.

Ltac no_cwop_id_chain :=
  rewrite ?what_set_message_callsign;
  repeat (apply no_cwop_id_then; [solve [auto 6 with no_cwop_id] |]);
  rewrite ?what_set_geopy_query;
  first [assumption | vars_simpl; unfold cwop_by_cwop_id; discriminate].

Lemma wx_address_no_cwop_id : no_cwop_id wx_address.
Proof. intros v Hv. unfold wx_address. cbn zeta. no_cwop_id_chain. Qed.
Lemma wx_zip_no_cwop_id : no_cwop_id wx_zip.
Proof. intros v Hv. unfold wx_zip. cbn zeta. no_cwop_id_chain. Qed.

#[local] Hint Resolve wx_address_no_cwop_id wx_zip_no_cwop_id : no_cwop_id.

Tactic Notation "parser_no_cwop_id" reference(f) :=
  intros; unfold f; cbn zeta; cbn [snd fst]; no_cwop_id_chain.

Lemma parse_callsign_multi_what m cs key lang :
  what (snd (parse_what_keyword_callsign_multi m cs key lang)) <> cwop_by_cwop_id.
Proof. parser_no_cwop_id parse_what_keyword_callsign_multi. Qed.
Lemma parse_whereami_what m cs key lang :
  what (snd (parse_what_keyword_whereami m cs key lang)) <> cwop_by_cwop_id.
Proof. parser_no_cwop_id parse_what_keyword_whereami. Qed.
Lemma parse_satpass_what m cs key :
  what (snd (parse_what_keyword_satpass m cs key)) <> cwop_by_cwop_id.
Proof. parser_no_cwop_id parse_what_keyword_satpass. Qed.
Lemma parse_repeater_what m cs key :
  what (snd (parse_what_keyword_repeater m cs key)) <> cwop_by_cwop_id.
Proof. parser_no_cwop_id parse_what_keyword_repeater. Qed.
Lemma parse_osm_category_what m cs key :
  what (snd (parse_what_keyword_osm_category m cs key)) <> cwop_by_cwop_id.
Proof. parser_no_cwop_id parse_what_keyword_osm_category. Qed.
Lemma parse_dapnet_what m cs :
  what (snd (parse_what_keyword_dapnet m cs)) <> cwop_by_cwop_id.
Proof. parser_no_cwop_id parse_what_keyword_dapnet. Qed.
Lemma parse_fortuneteller_what m :
  what (snd (parse_what_keyword_fortuneteller m)) <> cwop_by_cwop_id.
Proof. parser_no_cwop_id parse_what_keyword_fortuneteller. Qed.
Lemma parse_email_position_report_what m cs key lang :
  what (snd (parse_what_keyword_email_position_report m cs key lang))
  <> cwop_by_cwop_id.
Proof. parser_no_cwop_id parse_what_keyword_email_position_report. Qed.
Lemma parse_metar_what m cs key :
  what (snd (parse_what_keyword_metar m cs key)) <> cwop_by_cwop_id.
Proof.
  unfold parse_what_keyword_metar. cbn zeta. cbn [snd].
  rewrite what_set_message_callsign.
  apply no_cwop_id_then.
  { apply unless_settled_no_cwop_id, metar_nearest_no_cwop_id. discriminate. }
  apply no_cwop_id_then.
  { apply unless_settled_no_cwop_id, metar_nearest_no_cwop_id. discriminate. }
  apply no_cwop_id_then.
  { apply unless_settled_no_cwop_id, metar_guess_no_cwop_id. }
  apply no_cwop_id_then.
  { apply unless_settled_no_cwop_id, metar_guess_no_cwop_id. }
  apply no_cwop_id_then.
  { apply unless_settled_no_cwop_id, metar_iata_qualified_no_cwop_id. }
  apply no_cwop_id_then; [apply metar_icao_qualified_no_cwop_id |].
  vars_simpl. discriminate.
Qed.
Lemma parse_wx_what m cs lang :
  what (snd (parse_what_keyword_wx m cs lang)) <> cwop_by_cwop_id.
Proof. parser_no_cwop_id parse_what_keyword_wx. Qed.

(** A stage of [parse_input_message] takes [what] from the keyword
    parser it calls and leaves [cwop_id] alone. *)
Tactic Notation "stage_no_cwop_id" reference(f) uconstr(H) :=
  intros v Hv; unfold f;
  try (destruct (unclaimed v); [| exact Hv]);
  generalize H; cbn zeta;
  match goal with
  | |- context [let '(_, _) := ?p in _] =>
      destruct p as [[? ?] ?] || destruct p as [? ?]
  end;
  cbn [snd]; intros B;
  repeat split_case; unfold claim; vars_simpl; first [exact Hv | exact B].

Lemma stage_callsign_multi_no_cwop_id : no_cwop_id stage_callsign_multi.
Proof.
  stage_no_cwop_id stage_callsign_multi
    (parse_callsign_multi_what (aprs_message v) (users_callsign v)
                               (aprsdotfi_api_key v) (language v)).
Qed.
Lemma stage_whereami_no_cwop_id : no_cwop_id stage_whereami.
Proof.
  stage_no_cwop_id stage_whereami
    (parse_whereami_what (aprs_message v) (users_callsign v)
                         (aprsdotfi_api_key v) (language v)).
Qed.
Lemma stage_satpass_no_cwop_id : no_cwop_id stage_satpass.
Proof.
  stage_no_cwop_id stage_satpass
    (parse_satpass_what (aprs_message v) (users_callsign v)
                        (aprsdotfi_api_key v)).
Qed.
Lemma stage_repeater_no_cwop_id : no_cwop_id stage_repeater.
Proof.
  stage_no_cwop_id stage_repeater
    (parse_repeater_what (aprs_message v) (users_callsign v)
                         (aprsdotfi_api_key v)).
Qed.
Lemma stage_osm_category_no_cwop_id : no_cwop_id stage_osm_category.
Proof.
  stage_no_cwop_id stage_osm_category
    (parse_osm_category_what (aprs_message v) (users_callsign v)
                             (aprsdotfi_api_key v)).
Qed.
Lemma stage_dapnet_no_cwop_id : no_cwop_id stage_dapnet.
Proof.
  stage_no_cwop_id stage_dapnet
    (parse_dapnet_what (aprs_message v) (users_callsign v)).
Qed.
Lemma stage_fortuneteller_no_cwop_id : no_cwop_id stage_fortuneteller.
Proof.
  stage_no_cwop_id stage_fortuneteller
    (parse_fortuneteller_what (aprs_message v)).
Qed.
Lemma stage_email_position_report_no_cwop_id :
  no_cwop_id stage_email_position_report.
Proof.
  stage_no_cwop_id stage_email_position_report
    (parse_email_position_report_what (aprs_message v) (users_callsign v)
                                      (aprsdotfi_api_key v) (language v)).
Qed.
Lemma stage_metar_no_cwop_id : no_cwop_id stage_metar.
Proof.
  stage_no_cwop_id stage_metar
    (parse_metar_what (aprs_message v) (users_callsign v) (aprsdotfi_api_key v)).
Qed.
Lemma stage_wx_no_cwop_id : no_cwop_id stage_wx.
Proof.
  stage_no_cwop_id stage_wx
    (parse_wx_what (aprs_message v) (users_callsign v) (language v)).
Qed.

(** The other stages: [what] is [help], [wx] or what it was. *)
Ltac other_no_cwop_id :=
  intros v Hv;
  match goal with |- what (?f v) <> _ => let h := head_of f in unfold h end;
  helpers;
  repeat match goal with
         | |- context [parse_when ?m] => generalize (parse_when m); intro
         | |- context [parse_when_daytime ?m] =>
             generalize (parse_when_daytime m); intro
         | |- context [let '(_, _) := ?p in _] => destruct p as [? ?]
         end;
  cbn zeta; repeat split_case; vars_simpl;
  first [exact Hv | unfold cwop_by_cwop_id; discriminate].

Lemma stage_units_no_cwop_id : no_cwop_id stage_units.
Proof. other_no_cwop_id. Qed.
Lemma stage_unicode_no_cwop_id : no_cwop_id stage_unicode.
Proof. other_no_cwop_id. Qed.
Lemma stage_language_no_cwop_id : no_cwop_id stage_language.
Proof. other_no_cwop_id. Qed.
Lemma stage_number_of_results_no_cwop_id : no_cwop_id stage_number_of_results.
Proof. other_no_cwop_id. Qed.
Lemma stage_help_no_cwop_id : no_cwop_id stage_help.
Proof. other_no_cwop_id. Qed.
Lemma stage_when_no_cwop_id : no_cwop_id stage_when.
Proof. other_no_cwop_id. Qed.
Lemma stage_when_daytime_no_cwop_id : no_cwop_id stage_when_daytime.
Proof. other_no_cwop_id. Qed.
Lemma check_anything_no_cwop_id : no_cwop_id check_anything.
Proof. other_no_cwop_id. Qed.
Lemma check_garbage_no_cwop_id : no_cwop_id check_garbage.
Proof. other_no_cwop_id. Qed.
Lemma default_when_no_cwop_id : no_cwop_id default_when.
Proof. other_no_cwop_id. Qed.
Lemma default_when_daytime_no_cwop_id : no_cwop_id default_when_daytime.
Proof. other_no_cwop_id. Qed.
Lemma default_what_no_cwop_id : no_cwop_id default_what.
Proof. other_no_cwop_id. Qed.
Lemma sender_position_no_cwop_id : no_cwop_id sender_position.
Proof. other_no_cwop_id. Qed.

(** No stage but the one of the CWOP id parser assigns [cwop_id]. *)
Ltac stage_keeps_cwop_id :=
  intros v;
  match goal with |- cwop_id (?f v) = _ => let h := head_of f in unfold h end;
  helpers;
  repeat match goal with
         | |- context [parse_when ?m] => generalize (parse_when m); intro
         | |- context [parse_when_daytime ?m] =>
             generalize (parse_when_daytime m); intro
         | |- context [let '(_, _) := ?p in _] =>
             destruct p as [[? ?] ?] || destruct p as [? ?]
         end;
  cbn zeta; repeat split_case; vars_simpl; reflexivity.

Lemma stage_units_keeps_cwop_id : keeps_cwop_id stage_units.
Proof. stage_keeps_cwop_id. Qed.
Lemma stage_unicode_keeps_cwop_id : keeps_cwop_id stage_unicode.
Proof. stage_keeps_cwop_id. Qed.
Lemma stage_language_keeps_cwop_id : keeps_cwop_id stage_language.
Proof. stage_keeps_cwop_id. Qed.
Lemma stage_number_of_results_keeps_cwop_id : keeps_cwop_id stage_number_of_results.
Proof. stage_keeps_cwop_id. Qed.
Lemma stage_help_keeps_cwop_id : keeps_cwop_id stage_help.
Proof. stage_keeps_cwop_id. Qed.
Lemma stage_when_keeps_cwop_id : keeps_cwop_id stage_when.
Proof. stage_keeps_cwop_id. Qed.
Lemma stage_when_daytime_keeps_cwop_id : keeps_cwop_id stage_when_daytime.
Proof. stage_keeps_cwop_id. Qed.
Lemma stage_callsign_multi_keeps_cwop_id : keeps_cwop_id stage_callsign_multi.
Proof. stage_keeps_cwop_id. Qed.
Lemma stage_whereami_keeps_cwop_id : keeps_cwop_id stage_whereami.
Proof. stage_keeps_cwop_id. Qed.
Lemma stage_satpass_keeps_cwop_id : keeps_cwop_id stage_satpass.
Proof. stage_keeps_cwop_id. Qed.
Lemma stage_repeater_keeps_cwop_id : keeps_cwop_id stage_repeater.
Proof. stage_keeps_cwop_id. Qed.
Lemma stage_osm_category_keeps_cwop_id : keeps_cwop_id stage_osm_category.
Proof. stage_keeps_cwop_id. Qed.
Lemma stage_dapnet_keeps_cwop_id : keeps_cwop_id stage_dapnet.
Proof. stage_keeps_cwop_id. Qed.
Lemma stage_fortuneteller_keeps_cwop_id : keeps_cwop_id stage_fortuneteller.
Proof. stage_keeps_cwop_id. Qed.
Lemma stage_email_position_report_keeps_cwop_id :
  keeps_cwop_id stage_email_position_report.
Proof. stage_keeps_cwop_id. Qed.
Lemma stage_metar_keeps_cwop_id : keeps_cwop_id stage_metar.
Proof. stage_keeps_cwop_id. Qed.
Lemma stage_wx_keeps_cwop_id : keeps_cwop_id stage_wx.
Proof. stage_keeps_cwop_id. Qed.
Lemma check_anything_keeps_cwop_id : keeps_cwop_id check_anything.
Proof. stage_keeps_cwop_id. Qed.
Lemma check_garbage_keeps_cwop_id : keeps_cwop_id check_garbage.
Proof. stage_keeps_cwop_id. Qed.
Lemma default_when_keeps_cwop_id : keeps_cwop_id default_when.
Proof. stage_keeps_cwop_id. Qed.
Lemma default_when_daytime_keeps_cwop_id : keeps_cwop_id default_when_daytime.
Proof. stage_keeps_cwop_id. Qed.
Lemma default_what_keeps_cwop_id : keeps_cwop_id default_what.
Proof. stage_keeps_cwop_id. Qed.
Lemma sender_position_keeps_cwop_id : keeps_cwop_id sender_position.
Proof. stage_keeps_cwop_id. Qed.

End What.

(** *** The call sign parser takes every message with a CWOP id *)

Section Cwop.
Context {W : World}.

Lemma csm_with_ssid_not_found (v : Vars) :
  found_my_keyword (csm_with_ssid v) = false -> csm_with_ssid v = v.
Proof.
  unfold csm_with_ssid. destruct (search re_csm_ssid (aprs_message v));
    vars_simpl; [discriminate | reflexivity].
Qed.

Lemma csm_without_ssid_not_found (v : Vars) :
  found_my_keyword (csm_without_ssid v) = false -> csm_without_ssid v = v.
Proof.
  unfold csm_without_ssid. destruct (negb (found_my_keyword v)); [| reflexivity].
  destruct (search re_csm_callsign (aprs_message v));
    vars_simpl; [discriminate | reflexivity].
Qed.

Lemma csm_token_not_found (v : Vars) :
  found_my_keyword (csm_token v) = false ->
  csm_token v = v /\ search re_csm_token (aprs_message v) = None.
Proof.
  unfold csm_token. destruct (found_my_keyword v) eqn:Hf; cbn [negb].
  - congruence.
  - destruct (search re_csm_token (aprs_message v));
      vars_simpl; [discriminate | tauto].
Qed.

Lemma csm_bare_not_found (v : Vars) :
  found_my_keyword (csm_bare v) = false -> csm_bare v = v.
Proof.
  unfold csm_bare. destruct (negb (found_my_keyword v)); [| reflexivity].
  destruct (search re_csm_bare (aprs_message v));
    vars_simpl; [discriminate | reflexivity].
Qed.

Lemma csm_lookup_not_found (v : Vars) :
  found_my_keyword (csm_lookup v) = false -> found_my_keyword v = false.
Proof.
  unfold csm_lookup. destruct (found_my_keyword v) eqn:Hf; [| reflexivity].
  unfold csm_metar_taf, csm_users_position, assign_airport, assign_address,
    assign_position.
  repeat split_case; vars_simpl; congruence.
Qed.

(** A text with a keyword of the call sign parser and a token after
    it is taken by that parser. *)
Lemma callsign_multi_takes_token m cs key lang :
  fst (fst (parse_what_keyword_callsign_multi m cs key lang)) = false ->
  search re_csm_token m = None.
Proof.
  unfold parse_what_keyword_callsign_multi. cbn zeta. cbn [fst].
  set (v0 := set_language lang
               (set_aprsdotfi_api_key key
                  (set_users_callsign cs (set_aprs_message m blank)))).
  intros H.
  apply csm_lookup_not_found in H.
  pose proof (csm_bare_not_found _ H) as E1. rewrite E1 in H.
  destruct (csm_token_not_found _ H) as [E2 Hs]. rewrite E2 in H.
  pose proof (csm_without_ssid_not_found _ H) as E3. rewrite E3 in H, Hs.
  pose proof (csm_with_ssid_not_found _ H) as E4. rewrite E4 in Hs.
  exact Hs.
Qed.

Lemma callsign_multi_takes_cwop_id m cs key lang :
  search re_cwop_id m = None
  \/ fst (fst (parse_what_keyword_callsign_multi m cs key lang)) = true.
Proof.
  destruct (fst (fst (parse_what_keyword_callsign_multi m cs key lang))) eqn:E;
    [now right | left].
  apply search_cwop_id_none. eapply callsign_multi_takes_token, E.
Qed.

(** After the stage of the call sign parser the message is settled or
    has no keyword with a token. *)
Lemma stage_callsign_multi_no_keyword_token (v : Vars) :
  no_keyword_token (stage_callsign_multi v).
Proof.
  unfold no_keyword_token, stage_callsign_multi.
  destruct (unclaimed v) eqn:U; [| congruence].
  generalize (callsign_multi_takes_token (aprs_message v) (users_callsign v)
                (aprsdotfi_api_key v) (language v)).
  destruct (parse_what_keyword_callsign_multi (aprs_message v) (users_callsign v)
              (aprsdotfi_api_key v) (language v)) as [[f e] rd].
  cbn [fst]. intros F.
  destruct f, e; cbn [orb]; unfold unclaimed, claim; vars_simpl; cbn;
    try discriminate.
  intros _. now apply F.
Qed.

Lemma stage_whereami_no_keyword_token (v : Vars) :
  no_keyword_token v -> no_keyword_token (stage_whereami v).
Proof.
  unfold no_keyword_token, stage_whereami. intros Q.
  destruct (unclaimed v) eqn:U; [| congruence].
  destruct (parse_what_keyword_whereami (aprs_message v) (users_callsign v)
              (aprsdotfi_api_key v) (language v)) as [[f e] rd].
  destruct f, e; cbn [orb]; unfold unclaimed, claim; vars_simpl; cbn;
    try discriminate.
  intros _. now apply Q.
Qed.

Lemma parse_cwop_id_none (m cs : string) :
  search re_cwop_id m = None ->
  fst (parse_what_keyword_cwop_id m cs) = (false, false).
Proof.
  intros H. unfold parse_what_keyword_cwop_id, cwop_id_body. cbn zeta.
  vars_simpl. rewrite H. reflexivity.
Qed.

(** The stage of the CWOP id parser finds nothing to do. *)
Lemma stage_cwop_id_skips (v : Vars) :
  no_keyword_token v -> stage_cwop_id v = v.
Proof.
  unfold no_keyword_token, stage_cwop_id. intros Q.
  destruct (unclaimed v); [| reflexivity].
  specialize (Q eq_refl). apply search_cwop_id_none in Q.
  generalize (parse_cwop_id_none (aprs_message v) (users_callsign v) Q).
  destruct (parse_what_keyword_cwop_id (aprs_message v) (users_callsign v))
    as [[f e] rd].
  cbn [fst]. intros [= -> ->]. reflexivity.
Qed.

(** The keyword [cwop] of the call sign parser: an error, or [what]
    becomes [cwop_by_latlon]. *)
Lemma csm_blocks_what (v : Vars) :
  (found_my_keyword v = false -> what v = None) ->
  (found_my_keyword (csm_bare (csm_token (csm_without_ssid (csm_with_ssid v))))
   = false ->
   what (csm_bare (csm_token (csm_without_ssid (csm_with_ssid v)))) = None).
Proof.
  intros Hv H.
  pose proof (csm_bare_not_found _ H) as E1. rewrite E1 in *.
  destruct (csm_token_not_found _ H) as [E2 _]. rewrite E2 in *.
  pose proof (csm_without_ssid_not_found _ H) as E3. rewrite E3 in *.
  pose proof (csm_with_ssid_not_found _ H) as E4. rewrite E4 in *.
  now apply Hv.
Qed.

Lemma csm_lookup_cwop (v : Vars) :
  kw_err v = false ->
  (found_my_keyword v = false -> what v = None) ->
  kw_err (csm_lookup v) = true \/ what (csm_lookup v) <> Some "cwop".
Proof.
  intros He Hn. unfold csm_lookup.
  destruct (found_my_keyword v); [| right; rewrite Hn by reflexivity; discriminate].
  unfold csm_metar_taf, csm_users_position, assign_airport, assign_address,
    assign_position.
  destruct (what v) as [w |] eqn:Ew.
  - destruct (String.eqb_spec w "cwop") as [-> | Hw].
    + vars_simpl. rewrite Ew. cbn [is_str String.eqb Ascii.eqb Bool.eqb orb].
      destruct (p_success _); vars_simpl; [right; discriminate | now left].
    + repeat split_case; vars_simpl; rewrite ?Ew;
        first [ now left | right; congruence | right; discriminate ].
  - repeat split_case; vars_simpl; rewrite ?Ew;
      first [ now left | right; congruence | right; discriminate ].
Qed.

Lemma kw_err_csm_blocks (v : Vars) :
  kw_err (csm_bare (csm_token (csm_without_ssid (csm_with_ssid v)))) = kw_err v.
Proof.
  unfold csm_bare, csm_token, csm_without_ssid, csm_with_ssid.
  repeat split_case; vars_simpl; reflexivity.
Qed.

Lemma callsign_multi_cwop m cs key lang :
  snd (fst (parse_what_keyword_callsign_multi m cs key lang)) = true
  \/ what (snd (parse_what_keyword_callsign_multi m cs key lang)) <> Some "cwop".
Proof.
  unfold parse_what_keyword_callsign_multi. cbn zeta. cbn [fst snd].
  apply csm_lookup_cwop.
  - now rewrite kw_err_csm_blocks.
  - apply csm_blocks_what. reflexivity.
Qed.

(** *** The whole program *)

Lemma run_app (a b : list (Vars -> Vars)) (v : Vars) :
  run (a ++ b)%list v = run b (run a v).
Proof. unfold run. apply fold_left_app. Qed.

Lemma run_no_cwop_id (stages : list (Vars -> Vars)) :
  Forall no_cwop_id stages ->
  forall v, what v <> cwop_by_cwop_id -> what (run stages v) <> cwop_by_cwop_id.
Proof.
  induction 1 as [| stage stages Hs _ IH]; intros v Hv; [exact Hv |].
  apply IH, Hs, Hv.
Qed.

Lemma run_keeps_cwop_id (stages : list (Vars -> Vars)) :
  Forall keeps_cwop_id stages ->
  forall v, cwop_id (run stages v) = cwop_id v.
Proof.
  induction 1 as [| stage stages Hs _ IH]; intros v; [reflexivity |].
  cbn [run fold_left]. etransitivity; [apply IH | apply Hs].
Qed.

Lemma program_around_cwop_id :
  program = (before_cwop_id ++ [stage_cwop_id] ++ after_cwop_id)%list.
Proof. reflexivity. Qed.

Lemma before_cwop_id_no_cwop_id : Forall no_cwop_id before_cwop_id.
Proof.
  exact
    (Forall_cons _ stage_units_no_cwop_id
    (Forall_cons _ stage_unicode_no_cwop_id
    (Forall_cons _ stage_language_no_cwop_id
    (Forall_cons _ stage_number_of_results_no_cwop_id
    (Forall_cons _ stage_help_no_cwop_id
    (Forall_cons _ stage_when_no_cwop_id
    (Forall_cons _ stage_when_daytime_no_cwop_id
    (Forall_cons _ stage_callsign_multi_no_cwop_id
    (Forall_cons _ stage_whereami_no_cwop_id (Forall_nil _)))))))))).
Qed.

Lemma after_cwop_id_no_cwop_id : Forall no_cwop_id after_cwop_id.
Proof.
  exact
    (Forall_cons _ stage_satpass_no_cwop_id
    (Forall_cons _ stage_repeater_no_cwop_id
    (Forall_cons _ stage_osm_category_no_cwop_id
    (Forall_cons _ stage_dapnet_no_cwop_id
    (Forall_cons _ stage_fortuneteller_no_cwop_id
    (Forall_cons _ stage_email_position_report_no_cwop_id
    (Forall_cons _ stage_metar_no_cwop_id
    (Forall_cons _ stage_wx_no_cwop_id
    (Forall_cons _ check_anything_no_cwop_id
    (Forall_cons _ check_garbage_no_cwop_id
    (Forall_cons _ default_when_no_cwop_id
    (Forall_cons _ default_when_daytime_no_cwop_id
    (Forall_cons _ default_what_no_cwop_id
    (Forall_cons _ sender_position_no_cwop_id (Forall_nil _))))))))))))))).
Qed.

Lemma before_cwop_id_keeps_cwop_id : Forall keeps_cwop_id before_cwop_id.
Proof.
  exact
    (Forall_cons _ stage_units_keeps_cwop_id
    (Forall_cons _ stage_unicode_keeps_cwop_id
    (Forall_cons _ stage_language_keeps_cwop_id
    (Forall_cons _ stage_number_of_results_keeps_cwop_id
    (Forall_cons _ stage_help_keeps_cwop_id
    (Forall_cons _ stage_when_keeps_cwop_id
    (Forall_cons _ stage_when_daytime_keeps_cwop_id
    (Forall_cons _ stage_callsign_multi_keeps_cwop_id
    (Forall_cons _ stage_whereami_keeps_cwop_id (Forall_nil _)))))))))).
Qed.

Lemma after_cwop_id_keeps_cwop_id : Forall keeps_cwop_id after_cwop_id.
Proof.
  exact
    (Forall_cons _ stage_satpass_keeps_cwop_id
    (Forall_cons _ stage_repeater_keeps_cwop_id
    (Forall_cons _ stage_osm_category_keeps_cwop_id
    (Forall_cons _ stage_dapnet_keeps_cwop_id
    (Forall_cons _ stage_fortuneteller_keeps_cwop_id
    (Forall_cons _ stage_email_position_report_keeps_cwop_id
    (Forall_cons _ stage_metar_keeps_cwop_id
    (Forall_cons _ stage_wx_keeps_cwop_id
    (Forall_cons _ check_anything_keeps_cwop_id
    (Forall_cons _ check_garbage_keeps_cwop_id
    (Forall_cons _ default_when_keeps_cwop_id
    (Forall_cons _ default_when_daytime_keeps_cwop_id
    (Forall_cons _ default_what_keeps_cwop_id
    (Forall_cons _ sender_position_keeps_cwop_id (Forall_nil _))))))))))))))).
Qed.

Lemma before_cwop_id_no_keyword_token (v : Vars) :
  no_keyword_token (run before_cwop_id v).
Proof.
  change before_cwop_id
    with ((modifiers ++ [stage_help] ++ temporal_extractors)
          ++ [stage_callsign_multi; stage_whereami])%list.
  rewrite run_app. cbn [run fold_left].
  apply stage_whereami_no_keyword_token, stage_callsign_multi_no_keyword_token.
Qed.

Lemma run_program (v : Vars) :
  run program v = run after_cwop_id (run before_cwop_id v).
Proof.
  rewrite program_around_cwop_id, !run_app. cbn [run fold_left].
  now rewrite stage_cwop_id_skips by apply before_cwop_id_no_keyword_token.
Qed.

(** C10: the final [what] is never [cwop_by_cwop_id], and the parser
    of the CWOP station id never fires ([cwop_id] stays unset).  A
    text in which the pattern of the CWOP id parser matches is taken
    before by the call sign parser, which claims the message or
    raises its error; and where that parser ends without error, the
    keyword [cwop] has become [cwop_by_latlon]. *)
Theorem cwop_by_cwop_id_never
        (aprs_message users_callsign aprsdotfi_api_key : string) :
  what (snd (parse_input_message aprs_message users_callsign aprsdotfi_api_key))
  <> Some "cwop_by_cwop_id"
  /\ cwop_id (snd (parse_input_message aprs_message users_callsign
                                      aprsdotfi_api_key)) = None
  /\ (forall m cs key lang,
        search re_cwop_id m = None
        \/ fst (fst (parse_what_keyword_callsign_multi m cs key lang)) = true)
  /\ (forall m cs key lang,
        snd (fst (parse_what_keyword_callsign_multi m cs key lang)) = true
        \/ what (snd (parse_what_keyword_callsign_multi m cs key lang))
           <> Some "cwop").
Proof.
  unfold parse_input_message. cbn zeta. cbn [snd].
  rewrite run_program.
  split; [| split; [| split]].
  - apply (run_no_cwop_id _ after_cwop_id_no_cwop_id).
    apply (run_no_cwop_id _ before_cwop_id_no_cwop_id).
    discriminate.
  - rewrite (run_keeps_cwop_id _ after_cwop_id_keeps_cwop_id).
    rewrite (run_keeps_cwop_id _ before_cwop_id_keeps_cwop_id).
    reflexivity.
  - apply callsign_multi_takes_cwop_id.
  - apply callsign_multi_cwop.
Qed.

End Cwop.

(* ================================================================= *)
(** ** Messages and their results *)

Section Verdict.
Context {W : World}.

Lemma parse_after_chain (aprs_message users_callsign aprsdotfi_api_key : string) :
  snd (parse_input_message aprs_message users_callsign aprsdotfi_api_key)
  = run backfill (after_chain aprs_message users_callsign aprsdotfi_api_key).
Proof.
  unfold parse_input_message, after_chain, program. cbn zeta. cbn [snd].
  now rewrite app_assoc, run_app.
Qed.

Lemma parse_success (aprs_message users_callsign aprsdotfi_api_key : string) :
  fst (parse_input_message aprs_message users_callsign aprsdotfi_api_key)
  = negb (err (snd (parse_input_message aprs_message users_callsign
                                        aprsdotfi_api_key))).
Proof.
  unfold parse_input_message. cbn zeta. cbn [fst snd].
  now destruct (err _).
Qed.

(** What the checks and defaults do with garbage after a temporal
    word. *)
Lemma backfill_garbage (v : Vars) :
  truthy (what v) = false ->
  truthy (when v) || truthy (when_daytime v) = true ->
  aprs_message v <> "" ->
  err (run backfill v) = true
  /\ human_readable_message (run backfill v) = Some errmsg_invalid_command
  /\ what (run backfill v) = what v.
Proof.
  intros Hwhat Htemp Htext.
  assert (check_anything v = v) as E1.
  { unfold check_anything. rewrite Hwhat. cbn [negb andb].
    destruct (truthy (when v)), (truthy (when_daytime v));
      cbn in Htemp |- *; congruence. }
  assert (Nat.ltb 0 (String.length (aprs_message v)) = true) as Hlen.
  { destruct (aprs_message v); [congruence | reflexivity]. }
  set (g := v |> set_err true
              |> set_human_readable_message (Some errmsg_invalid_command)).
  assert (check_garbage v = g) as E2.
  { unfold check_garbage. now rewrite Hwhat, Htemp, Hlen. }
  assert (err g = true) as Herr by reflexivity.
  assert (default_when g = g) as E3.
  { unfold default_when. rewrite Herr.
    now destruct (negb (found_when g)). }
  assert (default_when_daytime g = g) as E4.
  { unfold default_when_daytime. rewrite Herr.
    now destruct (negb (found_when_daytime g)). }
  assert (default_what g = g) as E5.
  { unfold default_what. rewrite Herr.
    now destruct (negb (truthy (what g))). }
  assert (sender_position g = g) as E6.
  { unfold sender_position, unclaimed. rewrite Herr.
    now destruct (negb (found_my_duty_roster g)). }
  unfold backfill. cbn [run fold_left].
  rewrite E1, E2, E3, E4, E5, E6. repeat split; reflexivity.
Qed.

(** C6: if after the whole chain [what] is still unset, a [when] or
    [when_daytime] value was found and the remaining text is not
    empty, the result of the parse is the error [InvalidCommand] with
    [success = False]; [what] stays unset (no weather default). *)
Theorem garbage_after_temporal_word (message sender key : string) :
  let v := after_chain message sender key in
  let r := parse_input_message message sender key in
  truthy (what v) = false ->
  truthy (when v) || truthy (when_daytime v) = true ->
  aprs_message v <> "" ->
  fst r = false
  /\ human_readable_message (snd r) = Some errmsg_invalid_command
  /\ truthy (what (snd r)) = false.
Proof.
  intros v r Hwhat Htemp Htext. subst r.
  rewrite parse_success, parse_after_chain. fold v.
  destruct (backfill_garbage v Hwhat Htemp Htext) as [He [Hm Hw]].
  rewrite He, Hm, Hw. auto.
Qed.

(** *** The empty message *)

Lemma osm_loop_empty (categories : list string) (v : Vars) :
  aprs_message v = "" -> found_my_keyword v = false ->
  osm_loop categories v = v.
Proof.
  intros Hm Hf. induction categories as [| c categories IH]; [reflexivity |].
  cbn [osm_loop]. cbn zeta.
  assert (osm_qualified c v = v) as E1.
  { unfold osm_qualified. now rewrite Hm. }
  assert (osm_bare c v = v) as E2.
  { unfold osm_bare. rewrite Hf, Hm. reflexivity. }
  rewrite E1, E2, Hf. exact IH.
Qed.

Lemma parse_osm_category_empty (cs : string) (key : option string) :
  fst (parse_what_keyword_osm_category "" cs key) = (false, false).
Proof.
  unfold parse_what_keyword_osm_category. cbn zeta.
  rewrite osm_loop_empty by reflexivity. reflexivity.
Qed.

Lemma stage_osm_category_empty (v : Vars) :
  aprs_message v = "" -> stage_osm_category v = v.
Proof.
  intros Hm. unfold stage_osm_category. rewrite Hm.
  destruct (unclaimed v); [| reflexivity].
  generalize (parse_osm_category_empty (users_callsign v) (aprsdotfi_api_key v)).
  destruct (parse_what_keyword_osm_category "" (users_callsign v)
              (aprsdotfi_api_key v)) as [[f e] rd].
  cbn [fst]. intros [= -> ->]. reflexivity.
Qed.

Lemma program_around_osm :
  program = (before_osm ++ [stage_osm_category] ++ after_osm)%list.
Proof. reflexivity. Qed.

Lemma start_start_with (message sender key : string) :
  start message sender key
  = start_with message (upper sender) key
               (get_units_based_on_users_callsign (upper sender)).
Proof. reflexivity. Qed.

Lemma empty_message_run (sender key units : string) :
  run program (start_with "" sender key units)
  = start_with "" sender key units
      |> set_human_readable_message (Some errmsg_invalid_command)
      |> set_err true.
Proof.
  rewrite program_around_osm, !run_app.
  assert (run before_osm (start_with "" sender key units)
          = start_with "" sender key units) as E1 by (vm_compute; reflexivity).
  rewrite E1. cbn [run fold_left].
  rewrite stage_osm_category_empty by reflexivity.
  vm_compute. reflexivity.
Qed.

(** C2, as the program has it: the empty message is refused, whoever
    sends it and whether or not the position of the sender is known:
    [success = False] with the message of an invalid command; [what],
    [when] and [when_daytime] stay unset and no default applies. *)
Theorem empty_message_is_invalid (sender key : string) :
  let r := parse_input_message "" sender key in
  fst r = false
  /\ human_readable_message (snd r) = Some errmsg_invalid_command
  /\ what (snd r) = None
  /\ when (snd r) = None
  /\ date_offset (snd r) = (-1)%Z
  /\ when_daytime (snd r) = None.
Proof.
  cbv zeta. rewrite parse_success.
  unfold parse_input_message. cbn zeta. cbn [snd].
  rewrite start_start_with, empty_message_run.
  repeat split; reflexivity.
Qed.

(** *** The keyword [cwop] alone *)

Lemma program_around_callsign_multi :
  program = (before_callsign_multi ++ [stage_callsign_multi]
             ++ after_callsign_multi)%list.
Proof. reflexivity. Qed.

Lemma cwop_alone_run (sender key units : string) :
  let p := get_position_on_aprsfi sender (Some key) in
  let v := run program (start_with "cwop" sender key units) in
  err v = negb (p_success p)
  /\ what v = Some (if p_success p then "cwop_by_latlon" else "cwop")
  /\ human_readable_message v
     = Some (if p_success p
             then "CWOP for " ++ fmt (p_callsign p)
             else errmsg_cannot_find_coords_for_user ++ " " ++ fmt (p_callsign p))
  /\ cwop_id v = None.
Proof.
  cbv zeta.
  rewrite program_around_callsign_multi, !run_app.
  assert (run before_callsign_multi (start_with "cwop" sender key units)
          = start_with "cwop" sender key units) as E1 by (vm_compute; reflexivity).
  rewrite E1. clear E1. cbn [run fold_left].
  destruct (get_position_on_aprsfi sender (Some key))
    as [success latitude longitude altitude lasttime comment callsign] eqn:Ep.
  pose proof Ep as Ep'. vm_compute in Ep'.
  assert (stage_callsign_multi (start_with "cwop" sender key units)
          = if success
            then start_with "" sender key units
                 |> set_found_my_duty_roster true
                 |> set_latitude latitude |> set_longitude longitude
                 |> set_altitude altitude |> set_lasttime lasttime
                 |> set_comment comment |> set_message_callsign callsign
                 |> set_what (Some "cwop_by_latlon")
                 |> set_human_readable_message (Some ("CWOP for " ++ fmt callsign))
            else start_with "" sender key units
                 |> set_found_my_duty_roster true |> set_err true
                 |> set_latitude latitude |> set_longitude longitude
                 |> set_altitude altitude |> set_lasttime lasttime
                 |> set_comment comment |> set_message_callsign callsign
                 |> set_what (Some "cwop")
                 |> set_human_readable_message
                      (Some (errmsg_cannot_find_coords_for_user ++ " "
                             ++ fmt callsign))) as E2.
  { vm_compute. rewrite Ep'. destruct success; reflexivity. }
  rewrite E2. clear E2.
  destruct success; vm_compute; repeat split; reflexivity.
Qed.

(** C1, as the program has it: the message [cwop] is taken by the
    call sign parser for the sender's own call sign.  The parse
    succeeds exactly when the position of the sender is found, with
    [what = cwop_by_latlon]; otherwise the error is the one of the
    coordinates of the call sign.  It is never the error of a missing
    CWOP id, and the CWOP id parser does not fire. *)
Theorem cwop_alone_is_cwop_by_latlon (sender key : string) :
  let p := get_position_on_aprsfi (upper sender) (Some key) in
  let r := parse_input_message "cwop" sender key in
  fst r = p_success p
  /\ what (snd r) = Some (if p_success p then "cwop_by_latlon" else "cwop")
  /\ human_readable_message (snd r)
     = Some (if p_success p
             then "CWOP for " ++ fmt (p_callsign p)
             else errmsg_cannot_find_coords_for_user ++ " " ++ fmt (p_callsign p))
  /\ human_readable_message (snd r) <> Some errmsg_no_cwop_specified
  /\ cwop_id (snd r) = None.
Proof.
  cbv zeta. rewrite parse_success.
  unfold parse_input_message. cbn zeta. cbn [snd].
  rewrite start_start_with.
  destruct (cwop_alone_run (upper sender) key
              (get_units_based_on_users_callsign (upper sender)))
    as [He [Hw [Hm Hc]]].
  rewrite He, Hw, Hm, Hc, negb_involutive.
  repeat split; try reflexivity.
  destruct (p_success _); cbn; discriminate.
Qed.

(** *** The message [taf eddf] *)

Lemma taf_eddf_run (sender key units : string) :
  let p := get_position_on_aprsfi "EDDF" (Some key) in
  let nearest := get_nearest_icao (p_latitude p) (p_longitude p) in
  let a := validate_icao (str_val nearest) in
  let v := run program (start_with "taf eddf" sender key units) in
  err v = negb (p_success p)
  /\ what v = Some (if p_success p && truthy nearest && a_success a
                       && negb (a_metar_capable a)
                    then "wx" else "taf")
  /\ icao v = (if p_success p then
                 if truthy nearest then
                   if a_success a && a_metar_capable a then a_icao a else None
                 else nearest
               else None)
  /\ (p_success p = false ->
      human_readable_message v
      = Some (errmsg_cannot_find_coords_for_user ++ " " ++ fmt (p_callsign p))).
Proof.
  cbv zeta.
  rewrite program_around_callsign_multi, !run_app.
  assert (run before_callsign_multi (start_with "taf eddf" sender key units)
          = start_with "taf eddf" sender key units) as E1
    by (vm_compute; reflexivity).
  rewrite E1. clear E1. cbn [run fold_left].
  destruct (get_position_on_aprsfi "EDDF" (Some key))
    as [success latitude longitude altitude lasttime comment callsign] eqn:Ep.
  pose proof Ep as Ep'. vm_compute in Ep'.
  cbn [p_success p_latitude p_longitude p_callsign].
  destruct success.
  - destruct (get_nearest_icao latitude longitude) as [[| c n] |] eqn:En;
      pose proof En as En'; vm_compute in En'.
    + assert (stage_callsign_multi (start_with "taf eddf" sender key units)
              = start_with "" sender key units
                |> set_found_my_duty_roster true
                |> set_latitude latitude |> set_longitude longitude
                |> set_altitude altitude |> set_lasttime lasttime
                |> set_comment comment |> set_message_callsign callsign
                |> set_what (Some "taf") |> set_icao (Some "")) as E2.
      { vm_compute. rewrite Ep'. vm_compute. rewrite En'. reflexivity. }
      rewrite E2. clear E2. vm_compute. repeat split; try reflexivity.
      discriminate.
    + destruct (validate_icao (String c n))
        as [found airport_latitude airport_longitude capable code] eqn:Ea.
      pose proof Ea as Ea'. vm_compute in Ea'.
      assert (stage_callsign_multi (start_with "taf eddf" sender key units)
              = let v := start_with "" sender key units
                         |> set_found_my_duty_roster true
                         |> set_latitude airport_latitude
                         |> set_longitude airport_longitude
                         |> set_altitude altitude |> set_lasttime lasttime
                         |> set_comment comment
                         |> set_message_callsign callsign in
                if found then
                  if capable then
                    v |> set_what (Some "taf") |> set_icao code
                      |> set_human_readable_message
                           (Some ("TAF for '" ++ fmt code ++ "'"))
                  else
                    v |> set_what (Some "wx") |> set_icao None
                      |> set_human_readable_message (Some "Wx for 'None'")
                else v |> set_what (Some "taf") |> set_icao None) as E2.
      { vm_compute. rewrite Ep'. vm_compute. rewrite En'. vm_compute.
        rewrite Ea'. destruct found, capable; reflexivity. }
      rewrite E2. clear E2. cbn [str_val].
      rewrite Ea. cbn [a_success a_metar_capable a_icao].
      destruct found, capable; vm_compute; repeat split; try reflexivity;
        discriminate.
    + assert (stage_callsign_multi (start_with "taf eddf" sender key units)
              = start_with "" sender key units
                |> set_found_my_duty_roster true
                |> set_latitude latitude |> set_longitude longitude
                |> set_altitude altitude |> set_lasttime lasttime
                |> set_comment comment |> set_message_callsign callsign
                |> set_what (Some "taf")) as E2.
      { vm_compute. rewrite Ep'. vm_compute. rewrite En'. reflexivity. }
      rewrite E2. clear E2. vm_compute. repeat split; try reflexivity.
      discriminate.
  - assert (stage_callsign_multi (start_with "taf eddf" sender key units)
            = start_with "" sender key units
              |> set_found_my_duty_roster true |> set_err true
              |> set_latitude latitude |> set_longitude longitude
              |> set_altitude altitude |> set_lasttime lasttime
              |> set_comment comment |> set_message_callsign callsign
              |> set_what (Some "taf")
              |> set_human_readable_message
                   (Some (errmsg_cannot_find_coords_for_user ++ " "
                          ++ fmt callsign))) as E2.
    { vm_compute. rewrite Ep'. reflexivity. }
    rewrite E2. clear E2. vm_compute. repeat split; reflexivity.
Qed.

(** C3, as the program has it: in [taf eddf] the word [EDDF] is the
    call sign whose position is looked up, and the airport is the
    one next to that position.  Without that position the parse fails
    with the error of the coordinates of the call sign.  With it the
    parse succeeds; where the nearest airport validates, [what] is
    [taf] and [icao] the validated code of that airport when it is
    METAR-capable, and [what] is downgraded to [wx] with [icao] unset
    when it is not. *)
Theorem taf_eddf_is_taf_for_callsign (sender key : string) :
  let p := get_position_on_aprsfi "EDDF" (Some key) in
  let nearest := get_nearest_icao (p_latitude p) (p_longitude p) in
  let a := validate_icao (str_val nearest) in
  let r := parse_input_message "taf eddf" sender key in
  fst r = p_success p
  /\ what (snd r) = Some (if p_success p && truthy nearest && a_success a
                             && negb (a_metar_capable a)
                          then "wx" else "taf")
  /\ icao (snd r) = (if p_success p then
                       if truthy nearest then
                         if a_success a && a_metar_capable a
                         then a_icao a else None
                       else nearest
                     else None)
  /\ human_readable_message (snd r)
     = (if p_success p then human_readable_message (snd r)
        else Some (errmsg_cannot_find_coords_for_user ++ " "
                   ++ fmt (p_callsign p))).
Proof.
  cbv zeta. rewrite parse_success.
  unfold parse_input_message. cbn zeta. cbn [snd].
  rewrite start_start_with.
  destruct (taf_eddf_run (upper sender) key
              (get_units_based_on_users_callsign (upper sender)))
    as [He [Hw [Hi Hm]]].
  rewrite He, Hw, Hi, negb_involutive.
  repeat split; try reflexivity.
  destruct (p_success _); [reflexivity | now apply Hm].
Qed.

End Verdict.

Lemma garbage_after_temporal_word_witness :
  let v := @after_chain offline "tomorrow ??" "DF1JSL-1" "key" in
  let r := @parse_input_message offline "tomorrow ??" "DF1JSL-1" "key" in
  (truthy (what v) = false
   /\ truthy (when v) || truthy (when_daytime v) = true
   /\ aprs_message v <> "")
  /\ fst r = false
  /\ human_readable_message (snd r) = Some errmsg_invalid_command
  /\ truthy (what (snd r)) = false.
Proof.
  assert (truthy (what (@after_chain offline "tomorrow ??" "DF1JSL-1" "key"))
          = false) as H1 by (vm_compute; reflexivity).
  assert (truthy (when (@after_chain offline "tomorrow ??" "DF1JSL-1" "key"))
          || truthy (when_daytime
                       (@after_chain offline "tomorrow ??" "DF1JSL-1" "key"))
          = true) as H2 by (vm_compute; reflexivity).
  assert (aprs_message (@after_chain offline "tomorrow ??" "DF1JSL-1" "key")
          <> "") as H3 by (vm_compute; discriminate).
  split; [split; [exact H1 | split; [exact H2 | exact H3]] |].
  exact (@garbage_after_temporal_word offline "tomorrow ??" "DF1JSL-1" "key"
           H1 H2 H3).
Defined.

(** C2 as it is stated fails: the position of the sender is known
    and the empty message is refused all the same. *)
Lemma empty_message_counterexample :
  p_success (@get_position_on_aprsfi online "DF1JSL-1" (Some "key")) = true
  /\ ~ (let r := @parse_input_message online "" "df1jsl-1" "key" in
        fst r = true
        /\ what (snd r) = Some "wx"
        /\ when (snd r) = Some "today"
        /\ date_offset (snd r) = 0%Z
        /\ when_daytime (snd r) = Some "full").
Proof.
  split; [reflexivity |].
  vm_compute. intros [H _]. discriminate H.
Qed.

(** C1 as it is stated fails: the message [cwop] of a sender whose
    position is known succeeds. *)
Lemma cwop_alone_counterexample :
  p_success (@get_position_on_aprsfi online "DF1JSL-1" (Some "key")) = true
  /\ ~ (let r := @parse_input_message online "cwop" "df1jsl-1" "key" in
        fst r = false
        /\ human_readable_message (snd r) = Some errmsg_no_cwop_specified).
Proof.
  split; [reflexivity |].
  vm_compute. intros [H _]. discriminate H.
Qed.

(** And where the position is not known, the error is not the one of
    the missing CWOP id. *)
Example cwop_alone_offline :
  let r := @parse_input_message offline "cwop" "df1jsl-1" "key" in
  fst r = false
  /\ human_readable_message (snd r)
     = Some "Cannot find coordinates for callsign DF1JSL-1".
Proof. vm_compute. split; reflexivity. Qed.

(** C3 as it is stated fails: [EDDF] validates as a METAR-capable
    airport, and the parse fails because no station [EDDF] is heard. *)
Lemma taf_eddf_counterexample :
  (a_success (@validate_icao airports_only "EDDF") = true
   /\ a_metar_capable (@validate_icao airports_only "EDDF") = true)
  /\ ~ (let r := @parse_input_message airports_only "taf eddf" "df1jsl-1" "key" in
        fst r = true
        /\ what (snd r) = Some "taf"
        /\ icao (snd r) = Some "EDDF").
Proof.
  split; [split; reflexivity |].
  vm_compute. intros [H _]. discriminate H.
Qed.

(** Where the station [EDDF] is heard, the airport is the one next to
    it, here [KJFK]. *)
Example taf_eddf_online :
  let r := @parse_input_message online "taf eddf" "df1jsl-1" "key" in
  fst r = true /\ what (snd r) = Some "taf" /\ icao (snd r) = Some "KJFK"
  /\ message_callsign (snd r) = Some "EDDF".
Proof. vm_compute. repeat split; reflexivity. Qed.

(** C4: the failing input.  The sender has no SSID and no position:
    the parse ends with [success = True] and no error message. *)
Lemma sender_without_ssid_not_refused :
  let r := @parse_input_message offline "today" "DF1JSL" "key" in
  p_success (@get_position_on_aprsfi offline "DF1JSL" (Some "key")) = false
  /\ fst r = true
  /\ what (snd r) = Some "wx"
  /\ found_my_duty_roster (snd r) = false
  /\ human_readable_message (snd r) = None.
Proof. vm_compute. repeat split; reflexivity. Qed.

(** With an SSID the program does what C4 says. *)
Example sender_with_ssid_refused :
  let r := @parse_input_message offline "today" "DF1JSL-1" "key" in
  fst r = false
  /\ human_readable_message (snd r) = Some errmsg_cannot_find_coords_for_user.
Proof. vm_compute. repeat split; reflexivity. Qed.

(* ================================================================= *)
(** ** The settings of a request *)

(** A stage that leaves alone what a property reads. *)
Ltac by_stage :=
  intros v Hv;
  match goal with |- context [?f v] => let h := head_of f in unfold h end;
  repeat match goal with
         | |- context [parse_when ?m] => generalize (parse_when m); intro
         | |- context [parse_when_daytime ?m] =>
             generalize (parse_when_daytime m); intro
         | |- context [let '(_, _) := ?p in _] => destruct p as [? ?]
         end;
  cbn zeta; repeat split_case; vars_simpl; try exact Hv.

Section Frame.
Context {W : World}.

Ltac helpers :=
  unfold address_found, position_found, metar_or_wx, csm_metar_taf,
    csm_users_position, assign_airport, assign_address, assign_position, claim.

Ltac stage_keeps_settings :=
  intros v; unfold settings;
  match goal with |- context [users_callsign (?f v)] =>
    let h := head_of f in unfold h end;
  helpers;
  repeat match goal with
         | |- context [let '(_, _) := ?p in _] =>
             destruct p as [[? ?] ?] || destruct p as [? ?]
         end;
  cbn zeta; repeat split_case; vars_simpl; reflexivity.

Lemma stage_help_keeps_settings : keeps_settings stage_help.
Proof. stage_keeps_settings. Qed.
Lemma stage_callsign_multi_keeps_settings : keeps_settings stage_callsign_multi.
Proof. stage_keeps_settings. Qed.
Lemma stage_whereami_keeps_settings : keeps_settings stage_whereami.
Proof. stage_keeps_settings. Qed.
Lemma stage_cwop_id_keeps_settings : keeps_settings stage_cwop_id.
Proof. stage_keeps_settings. Qed.
Lemma stage_satpass_keeps_settings : keeps_settings stage_satpass.
Proof. stage_keeps_settings. Qed.
Lemma stage_repeater_keeps_settings : keeps_settings stage_repeater.
Proof. stage_keeps_settings. Qed.
Lemma stage_osm_category_keeps_settings : keeps_settings stage_osm_category.
Proof. stage_keeps_settings. Qed.
Lemma stage_dapnet_keeps_settings : keeps_settings stage_dapnet.
Proof. stage_keeps_settings. Qed.
Lemma stage_fortuneteller_keeps_settings : keeps_settings stage_fortuneteller.
Proof. stage_keeps_settings. Qed.
Lemma stage_email_position_report_keeps_settings :
  keeps_settings stage_email_position_report.
Proof. stage_keeps_settings. Qed.
Lemma stage_metar_keeps_settings : keeps_settings stage_metar.
Proof. stage_keeps_settings. Qed.
Lemma stage_wx_keeps_settings : keeps_settings stage_wx.
Proof. stage_keeps_settings. Qed.
Lemma check_anything_keeps_settings : keeps_settings check_anything.
Proof. stage_keeps_settings. Qed.
Lemma check_garbage_keeps_settings : keeps_settings check_garbage.
Proof. stage_keeps_settings. Qed.
Lemma default_what_keeps_settings : keeps_settings default_what.
Proof. stage_keeps_settings. Qed.
Lemma sender_position_keeps_settings : keeps_settings sender_position.
Proof. stage_keeps_settings. Qed.

End Frame.

(** *** What the numeric groups hold *)

Lemma matches_chr (p : ascii -> bool) (s e : cursor) :
  In e (matches (Chr p) s) -> exists c, rest s = c :: rest e /\ p c = true.
Proof.
  cbn [matches]. destruct (rest s) as [| c t] eqn:Hs; [intros [] |].
  destruct (p c) eqn:Hp; [| intros []]. intros [<- | []].
  exists c. split; [reflexivity | exact Hp].
Qed.

(** The first group of a pattern [A(g)B] holds what [g] has consumed. *)
Lemma group_1_between (A g B : regex) (s e : cursor) :
  ~ In 1 (groups B) ->
  In e (matches (Seq A (Seq (Grp 1 g) B)) s) ->
  exists s1 s2, In s1 (matches A s) /\ In s2 (matches g s1)
                /\ lookup 1 (caps e) = Some (consumed s1 s2).
Proof.
  intros HB H. cbn [matches] in H.
  apply in_flat_map in H. destruct H as [s1 [Hs1 H]].
  apply in_flat_map in H. destruct H as [k [Hk H]].
  apply in_map_iff in Hk. destruct Hk as [s2 [<- Hs2]].
  exists s1, s2. split; [exact Hs1 | split; [exact Hs2 |]].
  rewrite (matches_caps_other 1 B HB _ _ H).
  cbn [caps capture lookup Nat.eqb]. reflexivity.
Qed.

Lemma grp_lookup (h : hit) (t : list ascii) :
  lookup 1 (caps (h_end h)) = Some t -> grp 1 h = text t.
Proof. unfold grp, group. now intros ->. Qed.

Lemma word_boundary_here (s e : cursor) :
  In e (matches WordB s) -> e = s.
Proof.
  cbn [matches]. destruct (at_boundary s); [| intros []].
  now intros [<- | []].
Qed.

(** [top2] ... [top5]: the group is one of the four digits. *)
Lemma number_of_results_group (h : hit) :
  In (h_end h) (matches re_number_of_results (h_start h)) ->
  exists n, int_of_str (grp 1 h) = Some n /\ (2 <= n <= 5)%Z.
Proof.
  intros H.
  change re_number_of_results
    with (Seq WordB (Seq (word "top")
                         (Seq (Grp 1 (words ["2"; "3"; "4"; "5"])) WordB))) in H.
  cbn [matches] in H. apply in_flat_map in H. destruct H as [s0 [_ H]].
  apply (group_1_between (word "top") _ WordB) in H; [| intros []].
  destruct H as [s1 [s2 [_ [Hg Hc]]]].
  rewrite (grp_lookup _ _ Hc).
  apply matches_words in Hg; [| discriminate].
  destruct Hg as [w [Hw Hg]].
  assert (exists c, rest s1 = c :: rest s2 /\ In c ["2"; "3"; "4"; "5"]%char)
    as [c [Hr Hin]].
  { cbn [In] in Hw.
    destruct Hw as [<- | [<- | [<- | [<- | []]]]];
      apply matches_chr in Hg; destruct Hg as [c [Hr Hp]];
      apply Ascii.eqb_eq in Hp;
      exists c; (split; [exact Hr |]);
      revert Hp; destruct c as [[] [] [] [] [] [] [] []];
      vm_compute; intros Hp; try discriminate Hp; tauto. }
  rewrite (consumed_app s1 s2 [c]) by (now rewrite Hr).
  cbn [In] in Hin.
  destruct Hin as [<- | [<- | [<- | [<- | []]]]]; vm_compute;
    eexists; (split; [reflexivity |]); split; discriminate.
Qed.

(** [1d] ... [7d] *)
Lemma days_group (h : hit) :
  In (h_end h) (matches re_days (h_start h)) ->
  exists n, int_of_str (grp 1 h) = Some n /\ (1 <= n <= 7)%Z
            /\ str_of_int n ++ "d" <> "".
Proof.
  intros H.
  change re_days
    with (Seq WordB (Seq (Grp 1 (Chr (between 49 55)))
                         (Seq (lit_ci "d") WordB))) in H.
  apply group_1_between in H; [| intros []].
  destruct H as [s1 [s2 [_ [Hg Hc]]]].
  rewrite (grp_lookup _ _ Hc).
  apply matches_chr in Hg. destruct Hg as [c [Hr Hp]].
  rewrite (consumed_app s1 s2 [c]) by (now rewrite Hr).
  revert Hp. destruct c as [[] [] [] [] [] [] [] []];
    vm_compute; intros Hp; try discriminate Hp;
    eexists; (split; [reflexivity |]);
    (split; [split; discriminate | discriminate]).
Qed.

Lemma two_digits (a b : ascii) x y :
  In a x -> In b y ->
  In (text [a; b]) (map (fun p => text [fst p; snd p]) (list_prod x y)).
Proof.
  intros Ha Hb. apply in_map_iff. exists (a, b). split; [reflexivity |].
  now apply in_prod.
Qed.

(** [1h] ... [47h] *)
Lemma hours_group (h : hit) :
  In (h_end h) (matches re_hours (h_start h)) ->
  exists n, int_of_str (grp 1 h) = Some n /\ (1 <= n <= 47)%Z.
Proof.
  intros H.
  unfold re_hours in H.
  match type of H with
  | In _ (matches (seqs [WordB; Grp 1 ?g; ?l; WordB]) _) =>
      change (seqs [WordB; Grp 1 g; l; WordB])
        with (Seq WordB (Seq (Grp 1 g) (Seq l WordB))) in H
  end.
  apply group_1_between in H; [| intros []].
  destruct H as [s1 [s2 [_ [Hg Hc]]]].
  rewrite (grp_lookup _ _ Hc). clear Hc.
  apply matches_alts in Hg; [| discriminate].
  destruct Hg as [r [Hr Hg]]. cbn [In] in Hr.
  assert (forall (c : ascii) (lo hi : nat) (d : ascii),
             lo <= 9 -> hi <= 9 -> code c <= 4 + 48 -> 49 <= code c ->
             between (48 + lo) (48 + hi) d = true ->
             exists n, int_of_str (text [c; d]) = Some n
                       /\ n = (10 * Z.of_nat (code c - 48)
                               + Z.of_nat (code d - 48))%Z
                       /\ 48 + lo <= code d <= 48 + hi) as Two.
  { intros c lo hi d Hlo Hhi Hc1 Hc2 Hd.
    unfold between in Hd. apply andb_prop in Hd. destruct Hd as [Hd1 Hd2].
    apply Nat.leb_le in Hd1, Hd2.
    assert (is_digit c = true) as Dc.
    { unfold is_digit, between. apply andb_true_intro.
      split; apply Nat.leb_le; lia. }
    assert (is_digit d = true) as Dd.
    { unfold is_digit, between. apply andb_true_intro.
      split; apply Nat.leb_le; lia. }
    unfold int_of_str. rewrite chars_text. cbn [int_chars].
    rewrite Dc, Dd.
    eexists. split; [reflexivity |]. split; [ring | split; assumption]. }
  destruct Hr as [<- | [<- | [<- | [<- | [<- | []]]]]].
  - cbn [matches] in Hg. apply in_flat_map in Hg. destruct Hg as [m [Hm Hg]].
    apply (matches_chr (Ascii.eqb "4")) in Hm. destruct Hm as [c [Hr1 Hp1]].
    apply (matches_chr (between 48 55)) in Hg. destruct Hg as [d [Hr2 Hp2]].
    apply Ascii.eqb_eq in Hp1. subst c.
    rewrite (consumed_app s1 s2 ["4"%char; d]) by (now rewrite Hr1, Hr2).
    destruct (Two "4"%char 0 7 d) as [n [Hn [En Hd]]];
      [lia | lia | cbn; lia | cbn; lia | exact Hp2 |].
    exists n. split; [exact Hn |]. rewrite En.
    change (code "4") with 52 in *. lia.
  - cbn [matches] in Hg. apply in_flat_map in Hg. destruct Hg as [m [Hm Hg]].
    apply (matches_chr (Ascii.eqb "3")) in Hm. destruct Hm as [c [Hr1 Hp1]].
    apply (matches_chr is_digit) in Hg. destruct Hg as [d [Hr2 Hp2]].
    apply Ascii.eqb_eq in Hp1. subst c.
    rewrite (consumed_app s1 s2 ["3"%char; d]) by (now rewrite Hr1, Hr2).
    destruct (Two "3"%char 0 9 d) as [n [Hn [En Hd]]];
      [lia | lia | cbn; lia | cbn; lia | exact Hp2 |].
    exists n. split; [exact Hn |]. rewrite En.
    change (code "3") with 51 in *. lia.
  - cbn [matches] in Hg. apply in_flat_map in Hg. destruct Hg as [m [Hm Hg]].
    apply (matches_chr (Ascii.eqb "2")) in Hm. destruct Hm as [c [Hr1 Hp1]].
    apply (matches_chr is_digit) in Hg. destruct Hg as [d [Hr2 Hp2]].
    apply Ascii.eqb_eq in Hp1. subst c.
    rewrite (consumed_app s1 s2 ["2"%char; d]) by (now rewrite Hr1, Hr2).
    destruct (Two "2"%char 0 9 d) as [n [Hn [En Hd]]];
      [lia | lia | cbn; lia | cbn; lia | exact Hp2 |].
    exists n. split; [exact Hn |]. rewrite En.
    change (code "2") with 50 in *. lia.
  - cbn [matches] in Hg. apply in_flat_map in Hg. destruct Hg as [m [Hm Hg]].
    apply (matches_chr (Ascii.eqb "1")) in Hm. destruct Hm as [c [Hr1 Hp1]].
    apply (matches_chr is_digit) in Hg. destruct Hg as [d [Hr2 Hp2]].
    apply Ascii.eqb_eq in Hp1. subst c.
    rewrite (consumed_app s1 s2 ["1"%char; d]) by (now rewrite Hr1, Hr2).
    destruct (Two "1"%char 0 9 d) as [n [Hn [En Hd]]];
      [lia | lia | cbn; lia | cbn; lia | exact Hp2 |].
    exists n. split; [exact Hn |]. rewrite En.
    change (code "1") with 49 in *. lia.
  - apply matches_chr in Hg. destruct Hg as [c [Hr1 Hp]].
    rewrite (consumed_app s1 s2 [c]) by (now rewrite Hr1).
    revert Hp. destruct c as [[] [] [] [] [] [] [] []];
      vm_compute; intros Hp; try discriminate Hp;
      eexists; (split; [reflexivity |]); split; discriminate.
Qed.

(** *** The whole program and the settings *)

Section Ranges.
Context {W : World}.

Lemma run_preserves (P : Vars -> Prop) (stages : list (Vars -> Vars)) :
  Forall (preserves P) stages -> forall v, P v -> P (run stages v).
Proof.
  induction 1 as [| stage stages Hs _ IH]; intros v Hv; [exact Hv |].
  cbn [run fold_left]. apply IH, Hs, Hv.
Qed.

Lemma keeps_settings_preserves (P : Vars -> Prop) (stage : Vars -> Vars) :
  (forall v w, settings w = settings v -> P v -> P w) ->
  keeps_settings stage -> preserves P stage.
Proof. intros HP Hs v Hv. exact (HP v (stage v) (Hs v) Hv). Qed.

(** A property of the settings holds at the end if the modifiers,
    the temporal extractors and their defaults keep it. *)
Lemma after_units_preserves (P : Vars -> Prop) :
  (forall v w, settings w = settings v -> P v -> P w) ->
  preserves P stage_unicode ->
  preserves P stage_language -> preserves P stage_number_of_results ->
  preserves P stage_when -> preserves P stage_when_daytime ->
  preserves P default_when -> preserves P default_when_daytime ->
  Forall (preserves P) (tl program).
Proof.
  intros HP H2 H3 H4 H5 H6 H7 H8.
  pose proof (keeps_settings_preserves P) as K.
  exact
    (Forall_cons _ H2
    (Forall_cons _ H3
    (Forall_cons _ H4
    (Forall_cons _ (K _ HP stage_help_keeps_settings)
    (Forall_cons _ H5
    (Forall_cons _ H6
    (Forall_cons _ (K _ HP stage_callsign_multi_keeps_settings)
    (Forall_cons _ (K _ HP stage_whereami_keeps_settings)
    (Forall_cons _ (K _ HP stage_cwop_id_keeps_settings)
    (Forall_cons _ (K _ HP stage_satpass_keeps_settings)
    (Forall_cons _ (K _ HP stage_repeater_keeps_settings)
    (Forall_cons _ (K _ HP stage_osm_category_keeps_settings)
    (Forall_cons _ (K _ HP stage_dapnet_keeps_settings)
    (Forall_cons _ (K _ HP stage_fortuneteller_keeps_settings)
    (Forall_cons _ (K _ HP stage_email_position_report_keeps_settings)
    (Forall_cons _ (K _ HP stage_metar_keeps_settings)
    (Forall_cons _ (K _ HP stage_wx_keeps_settings)
    (Forall_cons _ (K _ HP check_anything_keeps_settings)
    (Forall_cons _ (K _ HP check_garbage_keeps_settings)
    (Forall_cons _ H7
    (Forall_cons _ H8
    (Forall_cons _ (K _ HP default_what_keeps_settings)
    (Forall_cons _ (K _ HP sender_position_keeps_settings)
    (Forall_nil _)))))))))))))))))))))))).
Qed.

Lemma program_preserves (P : Vars -> Prop) :
  (forall v w, settings w = settings v -> P v -> P w) ->
  preserves P stage_units -> preserves P stage_unicode ->
  preserves P stage_language -> preserves P stage_number_of_results ->
  preserves P stage_when -> preserves P stage_when_daytime ->
  preserves P default_when -> preserves P default_when_daytime ->
  Forall (preserves P) program.
Proof.
  intros HP H1 H2 H3 H4 H5 H6 H7 H8.
  exact (Forall_cons _ H1 (after_units_preserves P HP H2 H3 H4 H5 H6 H7 H8)).
Qed.

Ltac settings_eq H :=
  unfold settings in H;
  repeat match goal with
         | E : (_, _) = (_, _) |- _ => injection E as ? ?
         end;
  repeat match goal with
         | E : _ = _ |- _ => try rewrite E; clear E
         end.

(** **** Units *)

Lemma units_ok_settings (v w : Vars) :
  settings w = settings v -> units_ok v -> units_ok w.
Proof. intros H. unfold units_ok. settings_eq H. trivial. Qed.

Lemma parse_keyword_units_ok (m : string) :
  units_ok (snd (parse_keyword_units m)).
Proof.
  unfold parse_keyword_units, units_imperial, units_metric, units_ok.
  cbn zeta. cbn [snd]. repeat split_case; vars_simpl; auto.
Qed.

Lemma stage_units_units_ok : preserves units_ok stage_units.
Proof.
  intros v Hv. unfold stage_units.
  pose proof (parse_keyword_units_ok (aprs_message v)) as H.
  destruct (parse_keyword_units (aprs_message v)) as [f rd]. cbn [snd] in H.
  destruct f; [| exact Hv]. unfold units_ok in *. vars_simpl. exact H.
Qed.

Lemma get_units_ok (users_callsign : string) :
  get_units_based_on_users_callsign users_callsign = "metric"
  \/ get_units_based_on_users_callsign users_callsign = "imperial".
Proof.
  unfold get_units_based_on_users_callsign. cbn zeta.
  repeat split_case; auto.
Qed.

Lemma units_ok_program : Forall (preserves units_ok) program.
Proof.
  apply program_preserves;
    [exact units_ok_settings | exact stage_units_units_ok | by_stage ..].
Qed.

(** **** The number of results *)

Lemma number_of_results_ok_settings (v w : Vars) :
  settings w = settings v -> number_of_results_ok v -> number_of_results_ok w.
Proof. intros H. unfold number_of_results_ok. settings_eq H. trivial. Qed.

Lemma parse_keyword_number_of_results_ok (m : string) :
  number_of_results_ok (snd (parse_keyword_number_of_results m)).
Proof.
  unfold parse_keyword_number_of_results, number_of_results_body,
    number_of_results_ok.
  cbn zeta. cbn [snd]. vars_simpl.
  destruct (search re_number_of_results m) as [h |] eqn:Hs; vars_simpl; [| lia].
  apply search_In in Hs. apply number_of_results_group in Hs.
  destruct Hs as [n [-> Hn]]. lia.
Qed.

Lemma stage_number_of_results_ok :
  preserves number_of_results_ok stage_number_of_results.
Proof.
  intros v Hv. unfold stage_number_of_results.
  pose proof (parse_keyword_number_of_results_ok (aprs_message v)) as H.
  destruct (parse_keyword_number_of_results (aprs_message v)) as [f rd].
  cbn [snd] in H.
  destruct f; [| exact Hv]. unfold number_of_results_ok in *. vars_simpl.
  exact H.
Qed.

Lemma number_of_results_ok_program :
  Forall (preserves number_of_results_ok) program.
Proof.
  apply program_preserves;
    [exact number_of_results_ok_settings | by_stage | by_stage | by_stage
     | exact stage_number_of_results_ok | by_stage ..].
Qed.

End Ranges.

(** **** When *)

Section When.
Context {W : World}.

Lemma getdaysuntil_range (t w : Z) :
  (0 <= w <= 6)%Z -> (1 <= getdaysuntil t w <= 7)%Z.
Proof.
  intros Hw. unfold getdaysuntil.
  pose proof (Z.mod_pos_bound (w - weekday t) 7 ltac:(lia)) as Hm.
  destruct (Z.eqb_spec t (t + (w - weekday t) mod 7)) as [E | E]; cbn; lia.
Qed.

Lemma when_ok_fields (v w : Vars) :
  found_when w = found_when v -> when w = when v ->
  date_offset w = date_offset v -> hour_offset w = hour_offset v ->
  when_ok v -> when_ok w.
Proof. unfold when_ok. now intros -> -> -> ->. Qed.

Lemma when_ok_settings (v w : Vars) :
  settings w = settings v -> when_ok v -> when_ok w.
Proof.
  intros H. apply when_ok_fields; unfold settings in H; congruence.
Qed.

Lemma truthy_some (s : string) : s <> "" -> truthy (Some s) = true.
Proof. intros H. cbn. now destruct (String.eqb_spec s ""). Qed.

Lemma when_phrase_ok (r : regex) (w : string) (o : Z) (v : Vars) :
  w <> "" -> (0 <= o <= 7)%Z ->
  when_ok v -> found_when v = false -> when_ok (when_phrase r w o v).
Proof.
  intros Hw Ho Hv Hf. unfold when_phrase. cbn zeta. vars_simpl.
  destruct (findall r (aprs_message v)); [exact Hv |].
  destruct Hv as [_ [_ [_ [H4 _]]]]. destruct (H4 Hf) as [_ [_ Hh]].
  unfold when_ok. vars_simpl. rewrite Hh.
  repeat split; try lia; try discriminate; try congruence.
  intros _. now apply truthy_some.
Qed.

Lemma str_of_int_d (n : Z) : str_of_int n ++ "d" <> "".
Proof. destruct (str_of_int n); discriminate. Qed.

Lemma when_days_ok (v : Vars) :
  when_ok v -> found_when v = false -> when_ok (when_days v).
Proof.
  intros Hv Hf. unfold when_days. cbn zeta. vars_simpl.
  destruct (findall re_days (aprs_message v)) as [| h t] eqn:Hs; [exact Hv |].
  apply findall_In in Hs. apply days_group in Hs.
  destruct Hs as [n [-> [Hn _]]].
  destruct Hv as [_ [_ [_ [H4 _]]]]. destruct (H4 Hf) as [_ [_ Hh]].
  unfold when_ok. vars_simpl. rewrite Hh.
  repeat split; try lia; try discriminate; try congruence.
  intros _. apply truthy_some, str_of_int_d.
Qed.

Lemma when_hours_ok (v : Vars) :
  when_ok v -> found_when v = false -> when_ok (when_hours v).
Proof.
  intros Hv Hf. unfold when_hours. cbn zeta. vars_simpl.
  destruct (findall re_hours (aprs_message v)) as [| h t] eqn:Hs; [exact Hv |].
  apply findall_In in Hs. apply hours_group in Hs.
  destruct Hs as [n [-> Hn]].
  destruct Hv as [_ [_ [_ [H4 _]]]]. destruct (H4 Hf) as [_ [Hd _]].
  unfold when_ok. vars_simpl. rewrite Hd.
  repeat split; try lia; try discriminate; try congruence.
Qed.

Lemma unless_found_when_ok (step : Vars -> Vars) :
  (forall v, when_ok v -> found_when v = false -> when_ok (step v)) ->
  preserves when_ok (unless_found_when step).
Proof.
  intros H v Hv. unfold unless_found_when.
  destruct (found_when v) eqn:Hf; [exact Hv | now apply H].
Qed.

Lemma when_remove_ok : preserves when_ok when_remove.
Proof.
  intros v Hv. unfold when_remove.
  destruct (regex_match v); [| exact Hv].
  destruct (found_when v) eqn:Hf; [| exact Hv]. exact Hv.
Qed.

Lemma when_ok_blank (m : string) : when_ok (blank |> set_aprs_message m).
Proof.
  unfold when_ok. cbn.
  repeat split; try lia; try discriminate; congruence.
Qed.

Lemma parse_when_ok (m : string) : when_ok (parse_when m).
Proof.
  unfold parse_when. cbn zeta.
  apply when_remove_ok.
  apply unless_found_when_ok; [exact when_hours_ok |].
  apply unless_found_when_ok; [exact when_days_ok |].
  repeat (apply unless_found_when_ok;
          [intros v Hv Hf; apply when_phrase_ok;
           [discriminate
           | first [lia
                   | pose proof (getdaysuntil_range today MONDAY);
                     pose proof (getdaysuntil_range today TUESDAY);
                     pose proof (getdaysuntil_range today WEDNESDAY);
                     pose proof (getdaysuntil_range today THURSDAY);
                     pose proof (getdaysuntil_range today FRIDAY);
                     pose proof (getdaysuntil_range today SATURDAY);
                     pose proof (getdaysuntil_range today SUNDAY);
                     unfold MONDAY, TUESDAY, WEDNESDAY, THURSDAY, FRIDAY,
                       SATURDAY, SUNDAY in *; lia]
           | exact Hv | exact Hf] |]).
  apply when_phrase_ok;
    [discriminate | lia | apply when_ok_blank | reflexivity].
Qed.

Lemma stage_when_ok : preserves when_ok stage_when.
Proof.
  intros v Hv. unfold stage_when.
  destruct (negb (found_when v) && negb (err v)
            && negb (found_my_duty_roster v)); [| exact Hv].
  pose proof (parse_when_ok (aprs_message v)) as H.
  revert H. generalize (parse_when (aprs_message v)). intros r Hr.
  cbn zeta. vars_simpl.
  destruct (found_when r) eqn:E;
    (eapply when_ok_fields; [| | | | exact Hr]); vars_simpl;
    first [reflexivity | now rewrite E].
Qed.

Lemma default_when_ok : preserves when_ok default_when.
Proof.
  intros v Hv. unfold default_when.
  destruct (found_when v) eqn:Hf; [exact Hv |].
  destruct (err v); [exact Hv |]. cbn [negb andb].
  destruct Hv as [_ [_ [_ [H4 _]]]]. destruct (H4 Hf) as [_ [_ Hh]].
  unfold when_ok. vars_simpl. rewrite Hh.
  repeat split; try lia; try discriminate; congruence.
Qed.

Lemma when_ok_program : Forall (preserves when_ok) program.
Proof.
  apply program_preserves;
    [exact when_ok_settings | by_stage | by_stage | by_stage | by_stage
     | exact stage_when_ok | by_stage | exact default_when_ok | by_stage].
Qed.

(** **** The part of the day *)

Lemma when_daytime_ok_fields (v w : Vars) :
  found_when_daytime w = found_when_daytime v ->
  when_daytime w = when_daytime v ->
  when_daytime_ok v -> when_daytime_ok w.
Proof. unfold when_daytime_ok. now intros -> ->. Qed.

Lemma when_daytime_ok_settings (v w : Vars) :
  settings w = settings v -> when_daytime_ok v -> when_daytime_ok w.
Proof.
  intros H. apply when_daytime_ok_fields; unfold settings in H; congruence.
Qed.

Lemma daytime_phrase_ok (r : regex) (w : string) (v : Vars) :
  In w daytimes -> when_daytime_ok v ->
  when_daytime_ok (daytime_phrase r w v).
Proof.
  intros Hw Hv. unfold daytime_phrase. cbn zeta. vars_simpl.
  destruct (findall r (aprs_message v)); [exact Hv |].
  unfold when_daytime_ok. vars_simpl.
  split; [intros _; now exists w | discriminate].
Qed.

Lemma unless_when_daytime_ok (step : Vars -> Vars) :
  preserves when_daytime_ok step ->
  preserves when_daytime_ok (unless_when_daytime step).
Proof.
  intros H v Hv. unfold unless_when_daytime.
  destruct (truthy (when_daytime v)); [exact Hv | now apply H].
Qed.

Lemma parse_when_daytime_ok (m : string) :
  when_daytime_ok (parse_when_daytime m).
Proof.
  unfold parse_when_daytime. cbn zeta.
  assert (preserves when_daytime_ok daytime_remove) as Hr.
  { intros v Hv. unfold daytime_remove.
    destruct (regex_match v); [| exact Hv].
    destruct (found_when_daytime v); exact Hv. }
  apply Hr.
  repeat (apply unless_when_daytime_ok;
          [intros v Hv; apply daytime_phrase_ok;
           [unfold daytimes; cbn [In]; tauto | exact Hv] |]).
  apply daytime_phrase_ok; [unfold daytimes; cbn [In]; tauto |].
  unfold when_daytime_ok. cbn. split; [discriminate | reflexivity].
Qed.

Lemma stage_when_daytime_ok : preserves when_daytime_ok stage_when_daytime.
Proof.
  intros v Hv. unfold stage_when_daytime.
  destruct (negb (found_when_daytime v) && negb (err v)
            && negb (found_my_duty_roster v)); [| exact Hv].
  pose proof (parse_when_daytime_ok (aprs_message v)) as H.
  revert H. generalize (parse_when_daytime (aprs_message v)). intros r Hr.
  cbn zeta. vars_simpl.
  destruct (found_when_daytime r) eqn:E;
    (eapply when_daytime_ok_fields; [| | exact Hr]); vars_simpl;
    first [reflexivity | now rewrite E].
Qed.

Lemma default_when_daytime_ok : preserves when_daytime_ok default_when_daytime.
Proof.
  intros v Hv. unfold default_when_daytime.
  destruct (negb (found_when_daytime v) && negb (err v)); [| exact Hv].
  cbn zeta. unfold when_daytime_ok.
  destruct (is_str (what v) "metar" || is_str (what v) "taf"); vars_simpl;
    (split; [intros _ | discriminate]);
    eexists; (split; [reflexivity |]); unfold daytimes; cbn [In]; tauto.
Qed.

Lemma when_daytime_ok_program : Forall (preserves when_daytime_ok) program.
Proof.
  apply program_preserves;
    [exact when_daytime_ok_settings | by_stage | by_stage | by_stage
     | by_stage | by_stage | exact stage_when_daytime_ok | by_stage
     | exact default_when_daytime_ok].
Qed.

End When.

(** **** The end of the parse *)

Section Results.
Context {W : World}.

Ltac helpers :=
  unfold address_found, position_found, metar_or_wx, csm_metar_taf,
    csm_users_position, assign_airport, assign_address, assign_position, claim.

Ltac by_cases :=
  intros v;
  match goal with |- context [?f v] => let h := head_of f in unfold h end;
  helpers;
  repeat match goal with
         | |- context [let '(_, _) := ?p in _] => destruct p as [? ?]
         end;
  cbn zeta; repeat split_case; vars_simpl;
  try (let H := fresh in intros H; first [exact H | discriminate H]);
  try reflexivity.

Lemma start_settings (m s k : string) :
  units_ok (start m s k) /\ number_of_results_ok (start m s k)
  /\ when_ok (start m s k) /\ when_daytime_ok (start m s k).
Proof.
  unfold start, units_ok, number_of_results_ok, when_ok, when_daytime_ok.
  cbn zeta. vars_simpl. cbn [blank units number_of_results date_offset
    hour_offset found_when when found_when_daytime when_daytime].
  split; [apply get_units_ok |].
  repeat split; try lia; try discriminate; try congruence.
Qed.

Lemma check_anything_err (v : Vars) :
  err (check_anything v) = false -> err v = false.
Proof. revert v. by_cases. Qed.
Lemma check_garbage_err (v : Vars) :
  err (check_garbage v) = false -> err v = false.
Proof. revert v. by_cases. Qed.
Lemma default_when_err (v : Vars) : err (default_when v) = err v.
Proof. revert v. by_cases. Qed.
Lemma default_when_daytime_err (v : Vars) :
  err (default_when_daytime v) = err v.
Proof. revert v. by_cases. Qed.
Lemma default_what_err (v : Vars) : err (default_what v) = err v.
Proof. revert v. by_cases. Qed.
Lemma sender_position_err (v : Vars) :
  err (sender_position v) = false -> err v = false.
Proof. revert v. by_cases. Qed.
Lemma sender_position_what (v : Vars) : what (sender_position v) = what v.
Proof. revert v. by_cases. Qed.

Lemma default_when_found (v : Vars) :
  err v = false -> found_when (default_when v) = true.
Proof.
  intros He. unfold default_when. rewrite He.
  destruct (found_when v) eqn:Hf; cbn [negb andb]; [exact Hf | reflexivity].
Qed.

Lemma default_when_daytime_found (v : Vars) :
  err v = false -> found_when_daytime (default_when_daytime v) = true.
Proof.
  intros He. unfold default_when_daytime. rewrite He.
  destruct (found_when_daytime v) eqn:Hf; cbn [negb andb]; [exact Hf |].
  cbn zeta. reflexivity.
Qed.

Lemma default_what_truthy (v : Vars) :
  err v = false -> truthy (what (default_what v)) = true.
Proof.
  intros He. unfold default_what. rewrite He.
  destruct (truthy (what v)) eqn:Hw; cbn [negb andb]; [exact Hw | reflexivity].
Qed.

Lemma settings_found_when (v w : Vars) :
  settings w = settings v ->
  found_when w = found_when v /\ found_when_daytime w = found_when_daytime v.
Proof. unfold settings. intros H. split; congruence. Qed.

Lemma default_when_daytime_found_when (v : Vars) :
  found_when (default_when_daytime v) = found_when v.
Proof. revert v. by_cases. Qed.

(** What the checks and defaults at the end of the parser give when
    no error is left. *)
Lemma backfill_complete (v : Vars) :
  err (run backfill v) = false ->
  truthy (what (run backfill v)) = true
  /\ found_when (run backfill v) = true
  /\ found_when_daytime (run backfill v) = true.
Proof.
  unfold backfill. cbn [run fold_left].
  set (a := check_garbage (check_anything v)).
  set (c := default_when a).
  set (d := default_when_daytime c).
  set (e := default_what d).
  intros Hf.
  assert (err e = false) as He by now apply sender_position_err.
  assert (err d = false) as Hd by (unfold e in He; now rewrite default_what_err in He).
  assert (err c = false) as Hc
      by (unfold d in Hd; now rewrite default_when_daytime_err in Hd).
  assert (err a = false) as Ha
      by (unfold c in Hc; now rewrite default_when_err in Hc).
  destruct (settings_found_when e (sender_position e)
              (sender_position_keeps_settings e)) as [F1 F2].
  destruct (settings_found_when d e (default_what_keeps_settings d)) as [G1 G2].
  rewrite sender_position_what, F1, F2. fold e. rewrite G1, G2.
  split; [now apply default_what_truthy |].
  split.
  - unfold d. rewrite default_when_daytime_found_when.
    now apply default_when_found.
  - now apply default_when_daytime_found.
Qed.

Lemma program_settings (m s k : string) :
  let r := snd (parse_input_message m s k) in
  units_ok r /\ number_of_results_ok r /\ when_ok r /\ when_daytime_ok r.
Proof.
  cbv zeta. unfold parse_input_message. cbn zeta. cbn [snd].
  destruct (start_settings m s k) as [H1 [H2 [H3 H4]]].
  split; [| split; [| split]].
  - exact (run_preserves _ _ units_ok_program _ H1).
  - exact (run_preserves _ _ number_of_results_ok_program _ H2).
  - exact (run_preserves _ _ when_ok_program _ H3).
  - exact (run_preserves _ _ when_daytime_ok_program _ H4).
Qed.

Lemma parse_success_err (m s k : string) :
  fst (parse_input_message m s k) = negb (err (snd (parse_input_message m s k))).
Proof.
  unfold parse_input_message. cbn zeta. cbn [fst snd].
  now destruct (err _).
Qed.

Lemma run_app' (a b : list (Vars -> Vars)) (v : Vars) :
  run (a ++ b) v = run b (run a v).
Proof. unfold run. apply fold_left_app. Qed.

(** No keyword rule handler, check or default of [what] changes the
    settings of the request: the sender and the key, the units, the
    language, the number of results, the unicode flag, [when] with
    its offsets and [when_daytime]. *)
Theorem rule_handlers_keep_settings :
  Forall keeps_settings settings_readers.
Proof.
  exact
    (Forall_cons _ stage_help_keeps_settings
    (Forall_cons _ stage_callsign_multi_keeps_settings
    (Forall_cons _ stage_whereami_keeps_settings
    (Forall_cons _ stage_cwop_id_keeps_settings
    (Forall_cons _ stage_satpass_keeps_settings
    (Forall_cons _ stage_repeater_keeps_settings
    (Forall_cons _ stage_osm_category_keeps_settings
    (Forall_cons _ stage_dapnet_keeps_settings
    (Forall_cons _ stage_fortuneteller_keeps_settings
    (Forall_cons _ stage_email_position_report_keeps_settings
    (Forall_cons _ stage_metar_keeps_settings
    (Forall_cons _ stage_wx_keeps_settings
    (Forall_cons _ check_anything_keeps_settings
    (Forall_cons _ check_garbage_keeps_settings
    (Forall_cons _ default_what_keeps_settings
    (Forall_cons _ sender_position_keeps_settings
    (Forall_nil _))))))))))))))))).
Qed.

Lemma program_head : program = stage_units :: tl program.
Proof. reflexivity. Qed.

Lemma run_cons (stage : Vars -> Vars) (stages : list (Vars -> Vars)) (v : Vars) :
  run (stage :: stages) v = run stages (stage v).
Proof. reflexivity. Qed.

Lemma units_after_units (v0 : Vars) : units (run (tl program) v0) = units v0.
Proof.
  apply (run_preserves (fun w => units w = units v0)); [| reflexivity].
  apply after_units_preserves;
    [intros a b H; unfold settings in H; congruence | by_stage ..].
Qed.

(** The units of a result are the ones the message names with a
    units keyword, and the default of the sender's call sign where
    it names none; they are [metric] or [imperial]. *)
Theorem units_of_result (m s k : string) :
  let r := snd (parse_input_message m s k) in
  units r = (if fst (parse_keyword_units m)
             then units (snd (parse_keyword_units m))
             else get_units_based_on_users_callsign (upper s))
  /\ (units r = "metric" \/ units r = "imperial").
Proof.
  cbv zeta. split; [| apply program_settings].
  unfold parse_input_message. cbn zeta. cbn [snd].
  rewrite program_head at 1. rewrite run_cons, units_after_units.
  unfold stage_units, start. cbn zeta. vars_simpl.
  generalize (parse_keyword_units m). intros [f rd]. cbn [fst snd].
  destruct f; vars_simpl; reflexivity.
Qed.

(** The number of results is between 1 and 5. *)
Theorem number_of_results_of_result (m s k : string) :
  (1 <= number_of_results (snd (parse_input_message m s k)) <= 5)%Z.
Proof. apply program_settings. Qed.

(** The day offset of a result is between -1 and 7 and the hour
    offset between -1 and 47; an hour offset comes with
    [when = hour] only, and never with a day offset. *)
Theorem offsets_of_result (m s k : string) :
  let r := snd (parse_input_message m s k) in
  (-1 <= date_offset r <= 7)%Z
  /\ (-1 <= hour_offset r <= 47)%Z
  /\ (hour_offset r <> (-1)%Z ->
      when r = Some "hour" /\ date_offset r = (-1)%Z /\ (1 <= hour_offset r)%Z)
  /\ (found_when r = false ->
      when r = None /\ date_offset r = (-1)%Z /\ hour_offset r = (-1)%Z).
Proof.
  cbv zeta. destruct (program_settings m s k) as [_ [_ [H _]]].
  unfold when_ok in H. tauto.
Qed.

(** A parse that succeeds is complete: [what] and [when] are set,
    [when_daytime] is one of its values, and there is a day offset
    or an hour offset. *)
Theorem success_is_complete (m s k : string) :
  fst (parse_input_message m s k) = true ->
  let r := snd (parse_input_message m s k) in
  complete r /\ ((0 <= date_offset r)%Z \/ (1 <= hour_offset r)%Z).
Proof.
  intros Hs. cbv zeta.
  destruct (program_settings m s k) as [_ [_ [Hw Hd]]]. cbv zeta in Hw, Hd.
  rewrite parse_success_err in Hs. apply negb_true_iff in Hs.
  revert Hs Hw Hd. unfold parse_input_message. cbn zeta. cbn [snd].
  unfold program. rewrite !run_app'.
  generalize (run rule_chain (run modifiers (start m s k))). intros v He Hw Hd.
  destruct (backfill_complete v He) as [C1 [C2 C3]].
  destruct Hw as [_ [_ [W3 [_ [W5 W6]]]]]. destruct Hd as [D1 _].
  split.
  - unfold complete. repeat split; auto.
  - destruct (Z.eq_dec (hour_offset (run backfill v)) (-1)) as [E | E].
    + left. now apply W6.
    + right. now apply (W5 E).
Qed.

End Results.

Lemma success_is_complete_witness :
  fst (@parse_input_message online "tomorrow" "DF1JSL-1" "key") = true
  /\ (let r := snd (@parse_input_message online "tomorrow" "DF1JSL-1" "key") in
      @complete online r
      /\ ((0 <= date_offset r)%Z \/ (1 <= hour_offset r)%Z)).
Proof.
  assert (fst (@parse_input_message online "tomorrow" "DF1JSL-1" "key") = true)
    as H by (vm_compute; reflexivity).
  split; [exact H |].
  exact (@success_is_complete online "tomorrow" "DF1JSL-1" "key" H).
Defined.

(* ================================================================= *)
(** ** Errors and their messages *)

(** *** Every error has its message *)

Lemma truthy_append (a : string) (c : ascii) (b : string) :
  truthy (Some (a ++ String c b)) = true.
Proof. cbn. now destruct a. Qed.

(** One case analysis on a scrutinee that holds no other one. *)
Ltac split_inner :=
  match goal with
  | |- context [match ?x with _ => _ end] =>
      lazymatch x with
      | context [match _ with _ => _ end] => fail
      | _ => destruct x
      end
  end.

Section Reports.
Context {W : World}.

Ltac helpers :=
  unfold address_found, position_found, metar_or_wx, csm_metar_taf,
    csm_users_position, assign_airport, assign_address, assign_position, claim.

Ltac by_cases E :=
  helpers;
  repeat (vars_simpl; rewrite ?E; cbn [negb andb orb]; cbn zeta; split_inner);
  vars_simpl; rewrite ?E; cbn [negb andb orb]; cbn zeta;
  vars_simpl; rewrite ?E.

Ltac reports_by_cases :=
  intros v E; unfold reported; by_cases E;
  let H := fresh in
  intros H; first [discriminate H | reflexivity | apply truthy_append].

Ltac quiet_by_cases :=
  intros v E; by_cases E; reflexivity.

Lemma quiet_reports (step : Vars -> Vars) : quiet step -> reports step.
Proof. intros H v E K. rewrite (H v E) in K. discriminate K. Qed.

Lemma reports_unless_settled (step : Vars -> Vars) :
  reports step -> preserves reported (unless_settled step).
Proof.
  intros H v Hv. unfold unless_settled.
  destruct (kw_err v) eqn:E.
  - now rewrite andb_false_r.
  - destruct (negb (found_my_keyword v)); cbn [negb andb]; [now apply H | exact Hv].
Qed.

Lemma quiet_unless_settled (step : Vars -> Vars) :
  quiet step -> quiet (unless_settled step).
Proof.
  intros H v E. unfold unless_settled.
  destruct (negb (found_my_keyword v) && negb (kw_err v)); [now apply H | exact E].
Qed.

Lemma csm_with_ssid_quiet : quiet csm_with_ssid.
Proof. unfold csm_with_ssid. quiet_by_cases. Qed.
Lemma csm_without_ssid_quiet : quiet csm_without_ssid.
Proof. unfold csm_without_ssid. quiet_by_cases. Qed.
Lemma csm_token_quiet : quiet csm_token.
Proof. unfold csm_token. quiet_by_cases. Qed.
Lemma csm_bare_quiet : quiet csm_bare.
Proof. unfold csm_bare. quiet_by_cases. Qed.
Lemma csm_lookup_reports : reports csm_lookup.
Proof. unfold csm_lookup. reports_by_cases. Qed.
Lemma whereami_body_reports : reports whereami_body.
Proof. unfold whereami_body. reports_by_cases. Qed.
Lemma satpass_body_reports : reports satpass_body.
Proof. unfold satpass_body. reports_by_cases. Qed.
Lemma repeater_mode_band_quiet : quiet repeater_mode_band.
Proof. unfold repeater_mode_band. quiet_by_cases. Qed.
Lemma repeater_band_mode_quiet : quiet repeater_band_mode.
Proof. unfold repeater_band_mode. quiet_by_cases. Qed.
Lemma repeater_mode_only_quiet : quiet repeater_mode_only.
Proof. unfold repeater_mode_only. quiet_by_cases. Qed.
Lemma repeater_band_only_quiet : quiet repeater_band_only.
Proof. unfold repeater_band_only. quiet_by_cases. Qed.
Lemma repeater_bare_quiet : quiet repeater_bare.
Proof. unfold repeater_bare. quiet_by_cases. Qed.
Lemma repeater_lookup_reports : reports repeater_lookup.
Proof. unfold repeater_lookup. reports_by_cases. Qed.
Lemma osm_qualified_quiet c : quiet (osm_qualified c).
Proof. unfold osm_qualified. quiet_by_cases. Qed.
Lemma osm_bare_quiet c : quiet (osm_bare c).
Proof. unfold osm_bare. quiet_by_cases. Qed.
Lemma osm_lookup_reports : reports osm_lookup.
Proof. unfold osm_lookup. reports_by_cases. Qed.
Lemma email_position_report_body_reports : reports email_position_report_body.
Proof. unfold email_position_report_body. reports_by_cases. Qed.
Lemma metar_icao_qualified_reports : reports metar_icao_qualified.
Proof. unfold metar_icao_qualified. reports_by_cases. Qed.
Lemma metar_iata_qualified_reports : reports metar_iata_qualified.
Proof. unfold metar_iata_qualified. reports_by_cases. Qed.
Lemma metar_guess_reports r f : reports (metar_guess r f).
Proof. unfold metar_guess. reports_by_cases. Qed.
Lemma metar_nearest_reports r k t : reports (metar_nearest r k t).
Proof. unfold metar_nearest. reports_by_cases. Qed.
Lemma wx_city_state_country_quiet : quiet wx_city_state_country.
Proof. unfold wx_city_state_country. quiet_by_cases. Qed.
Lemma wx_city_state_quiet : quiet wx_city_state.
Proof. unfold wx_city_state. quiet_by_cases. Qed.
Lemma wx_city_country_quiet : quiet wx_city_country.
Proof. unfold wx_city_country. quiet_by_cases. Qed.
Lemma wx_address_lookup_reports : reports wx_address_lookup.
Proof. unfold wx_address_lookup. reports_by_cases. Qed.
Lemma wx_zip_country_quiet : quiet wx_zip_country.
Proof. unfold wx_zip_country. quiet_by_cases. Qed.
Lemma wx_zip_us_quiet : quiet wx_zip_us.
Proof. unfold wx_zip_us. quiet_by_cases. Qed.
Lemma wx_code_country_quiet : quiet wx_code_country.
Proof. unfold wx_code_country. quiet_by_cases. Qed.
Lemma wx_zip_lookup_reports : reports wx_zip_lookup.
Proof. unfold wx_zip_lookup. reports_by_cases. Qed.
Lemma wx_five_digits_reports : reports wx_five_digits.
Proof. unfold wx_five_digits. reports_by_cases. Qed.
Lemma wx_grid_qualified_reports : reports wx_grid_qualified.
Proof. unfold wx_grid_qualified. reports_by_cases. Qed.
Lemma wx_grid_reports : reports wx_grid.
Proof. unfold wx_grid. reports_by_cases. Qed.
Lemma wx_lat_lon_reports : reports wx_lat_lon.
Proof. unfold wx_lat_lon. reports_by_cases. Qed.
Lemma wx_callsign_reports : reports wx_callsign.
Proof. unfold wx_callsign. reports_by_cases. Qed.
Lemma fortuneteller_body_quiet : quiet fortuneteller_body.
Proof. unfold fortuneteller_body. quiet_by_cases. Qed.
Lemma dapnet_with_ssid_quiet : quiet dapnet_with_ssid.
Proof. unfold dapnet_with_ssid. quiet_by_cases. Qed.
Lemma dapnet_without_ssid_quiet : quiet dapnet_without_ssid.
Proof. unfold dapnet_without_ssid. quiet_by_cases. Qed.
Lemma cwop_id_body_reports : reports cwop_id_body.
Proof. unfold cwop_id_body. reports_by_cases. Qed.

Lemma osm_loop_reports (categories : list string) : reports (osm_loop categories).
Proof.
  induction categories as [| c categories IH]; intros v E.
  - intros K. cbn [osm_loop] in K. congruence.
  - cbn [osm_loop]. cbn zeta.
    assert (kw_err (osm_bare c (osm_qualified c v)) = false) as E'
        by (apply osm_bare_quiet, osm_qualified_quiet, E).
    destruct (found_my_keyword (osm_bare c (osm_qualified c v)));
      [now apply osm_lookup_reports | now apply IH].
Qed.

Lemma wx_address_reports : reports wx_address.
Proof.
  intros v E. unfold wx_address. cbn zeta.
  apply wx_address_lookup_reports.
  apply quiet_unless_settled; [exact wx_city_country_quiet |].
  apply quiet_unless_settled; [exact wx_city_state_quiet |].
  apply wx_city_state_country_quiet. exact E.
Qed.

Lemma wx_zip_reports : reports wx_zip.
Proof.
  intros v E. unfold wx_zip. cbn zeta.
  apply wx_zip_lookup_reports.
  apply wx_code_country_quiet, wx_zip_us_quiet, wx_zip_country_quiet. exact E.
Qed.

Lemma reported_set_message_callsign (c : option string) (v : Vars) :
  reported v -> reported (set_message_callsign c v).
Proof. intros H. exact H. Qed.

Lemma parse_callsign_multi_reported m cs key lang :
  with_message (parse_what_keyword_callsign_multi m cs key lang).
Proof.
  unfold with_message, parse_what_keyword_callsign_multi. cbn zeta. cbn [fst snd].
  apply csm_lookup_reports.
  apply csm_bare_quiet, csm_token_quiet, csm_without_ssid_quiet,
    csm_with_ssid_quiet.
  reflexivity.
Qed.

Lemma parse_whereami_reported m cs key lang :
  with_message (parse_what_keyword_whereami m cs key lang).
Proof.
  unfold with_message, parse_what_keyword_whereami. cbn zeta. cbn [fst snd].
  apply whereami_body_reports. reflexivity.
Qed.

Lemma parse_cwop_id_reported m cs :
  with_message (parse_what_keyword_cwop_id m cs).
Proof.
  unfold with_message, parse_what_keyword_cwop_id. cbn zeta. cbn [fst snd].
  apply reported_set_message_callsign.
  apply cwop_id_body_reports. reflexivity.
Qed.

Lemma parse_satpass_reported m cs key :
  with_message (parse_what_keyword_satpass m cs key).
Proof.
  unfold with_message, parse_what_keyword_satpass. cbn zeta. cbn [fst snd].
  apply satpass_body_reports. reflexivity.
Qed.

Lemma parse_repeater_reported m cs key :
  with_message (parse_what_keyword_repeater m cs key).
Proof.
  unfold with_message, parse_what_keyword_repeater. cbn zeta. cbn [fst snd].
  apply repeater_lookup_reports.
  apply repeater_bare_quiet, repeater_band_only_quiet, repeater_mode_only_quiet,
    repeater_band_mode_quiet, repeater_mode_band_quiet.
  reflexivity.
Qed.

Lemma parse_osm_category_reported m cs key :
  with_message (parse_what_keyword_osm_category m cs key).
Proof.
  unfold with_message, parse_what_keyword_osm_category. cbn zeta. cbn [fst snd].
  apply osm_loop_reports. reflexivity.
Qed.

Lemma parse_dapnet_reported m cs :
  with_message (parse_what_keyword_dapnet m cs).
Proof.
  unfold with_message, parse_what_keyword_dapnet. cbn zeta. cbn [fst snd].
  apply quiet_reports with (step := fun v => dapnet_without_ssid (dapnet_with_ssid v));
    [| reflexivity].
  intros v E. apply dapnet_without_ssid_quiet, dapnet_with_ssid_quiet, E.
Qed.

Lemma parse_fortuneteller_quiet m :
  snd (fst (parse_what_keyword_fortuneteller m)) = false.
Proof.
  unfold parse_what_keyword_fortuneteller. cbn zeta. cbn [fst snd].
  apply fortuneteller_body_quiet. reflexivity.
Qed.

Lemma parse_email_position_report_reported m cs key lang :
  with_message (parse_what_keyword_email_position_report m cs key lang).
Proof.
  unfold with_message, parse_what_keyword_email_position_report.
  cbn zeta. cbn [fst snd].
  apply email_position_report_body_reports. reflexivity.
Qed.

Lemma parse_metar_reported m cs key :
  with_message (parse_what_keyword_metar m cs key).
Proof.
  unfold with_message, parse_what_keyword_metar. cbn zeta. cbn [fst snd].
  apply reported_set_message_callsign.
  apply reports_unless_settled; [apply metar_nearest_reports |].
  apply reports_unless_settled; [apply metar_nearest_reports |].
  apply reports_unless_settled; [apply metar_guess_reports |].
  apply reports_unless_settled; [apply metar_guess_reports |].
  apply reports_unless_settled; [apply metar_iata_qualified_reports |].
  apply metar_icao_qualified_reports. reflexivity.
Qed.

Lemma parse_wx_reported m cs lang :
  with_message (parse_what_keyword_wx m cs lang).
Proof.
  unfold with_message, parse_what_keyword_wx. cbn zeta. cbn [fst snd].
  apply reports_unless_settled; [apply wx_callsign_reports |].
  apply reports_unless_settled; [apply wx_lat_lon_reports |].
  apply reports_unless_settled; [apply wx_grid_reports |].
  apply reports_unless_settled; [apply wx_grid_qualified_reports |].
  apply reports_unless_settled; [apply wx_five_digits_reports |].
  apply reports_unless_settled; [apply wx_zip_reports |].
  apply wx_address_reports. reflexivity.
Qed.

(** A stage of [parse_input_message] takes the error of the keyword
    parser it calls together with its message. *)
Tactic Notation "stage_reports" reference(f) uconstr(H) :=
  intros v Hv; unfold f;
  destruct (unclaimed v); [| exact Hv];
  let B := fresh "B" in
  pose proof H as B; cbn zeta;
  match goal with
  | |- context [let '(_, _) := ?p in _] =>
      match type of B with
      | context [p] => destruct p as [[? e] ?]
      end
  end;
  unfold with_message in B; cbn [fst snd] in B;
  split_inner; [| exact Hv];
  unfold err_reported, claim; vars_simpl; exact B.

Lemma stage_callsign_multi_reports : preserves err_reported stage_callsign_multi.
Proof.
  stage_reports stage_callsign_multi
    (parse_callsign_multi_reported (aprs_message v) (users_callsign v)
                                   (aprsdotfi_api_key v) (language v)).
Qed.
Lemma stage_whereami_reports : preserves err_reported stage_whereami.
Proof.
  stage_reports stage_whereami
    (parse_whereami_reported (aprs_message v) (users_callsign v)
                             (aprsdotfi_api_key v) (language v)).
Qed.
Lemma stage_cwop_id_reports : preserves err_reported stage_cwop_id.
Proof.
  stage_reports stage_cwop_id
    (parse_cwop_id_reported (aprs_message v) (users_callsign v)).
Qed.
Lemma stage_satpass_reports : preserves err_reported stage_satpass.
Proof.
  stage_reports stage_satpass
    (parse_satpass_reported (aprs_message v) (users_callsign v)
                            (aprsdotfi_api_key v)).
Qed.
Lemma stage_repeater_reports : preserves err_reported stage_repeater.
Proof.
  stage_reports stage_repeater
    (parse_repeater_reported (aprs_message v) (users_callsign v)
                             (aprsdotfi_api_key v)).
Qed.
Lemma stage_osm_category_reports : preserves err_reported stage_osm_category.
Proof.
  stage_reports stage_osm_category
    (parse_osm_category_reported (aprs_message v) (users_callsign v)
                                 (aprsdotfi_api_key v)).
Qed.
Lemma stage_dapnet_reports : preserves err_reported stage_dapnet.
Proof.
  stage_reports stage_dapnet
    (parse_dapnet_reported (aprs_message v) (users_callsign v)).
Qed.
Lemma stage_fortuneteller_reports : preserves err_reported stage_fortuneteller.
Proof.
  intros v Hv. unfold stage_fortuneteller.
  destruct (unclaimed v); [| exact Hv].
  pose proof (parse_fortuneteller_quiet (aprs_message v)) as B.
  destruct (parse_what_keyword_fortuneteller (aprs_message v)) as [[f e] rd].
  cbn [fst snd] in B. subst e.
  split_inner; [| exact Hv].
  unfold err_reported, claim. vars_simpl. discriminate.
Qed.
Lemma stage_email_position_report_reports :
  preserves err_reported stage_email_position_report.
Proof.
  stage_reports stage_email_position_report
    (parse_email_position_report_reported (aprs_message v) (users_callsign v)
                                          (aprsdotfi_api_key v) (language v)).
Qed.
Lemma stage_metar_reports : preserves err_reported stage_metar.
Proof.
  stage_reports stage_metar
    (parse_metar_reported (aprs_message v) (users_callsign v)
                          (aprsdotfi_api_key v)).
Qed.
Lemma stage_wx_reports : preserves err_reported stage_wx.
Proof.
  stage_reports stage_wx
    (parse_wx_reported (aprs_message v) (users_callsign v) (language v)).
Qed.

(** The other stages: the message is set with the error, or both are
    left alone. *)
Ltac plain_reports :=
  intros v Hv; unfold err_reported in *;
  match goal with |- context [?f v] => let h := head_of f in unfold h end;
  helpers;
  repeat match goal with
         | |- context [parse_when ?m] => generalize (parse_when m); intro
         | |- context [parse_when_daytime ?m] =>
             generalize (parse_when_daytime m); intro
         end;
  repeat (vars_simpl; cbn zeta; split_inner);
  vars_simpl;
  first [exact Hv | reflexivity
        | let H := fresh in intros H; first [discriminate H | reflexivity]].

Lemma stage_units_reports : preserves err_reported stage_units.
Proof. plain_reports. Qed.
Lemma stage_unicode_reports : preserves err_reported stage_unicode.
Proof. plain_reports. Qed.
Lemma stage_language_reports : preserves err_reported stage_language.
Proof. plain_reports. Qed.
Lemma stage_number_of_results_reports :
  preserves err_reported stage_number_of_results.
Proof. plain_reports. Qed.
Lemma stage_help_reports : preserves err_reported stage_help.
Proof. plain_reports. Qed.
Lemma stage_when_reports : preserves err_reported stage_when.
Proof. plain_reports. Qed.
Lemma stage_when_daytime_reports : preserves err_reported stage_when_daytime.
Proof. plain_reports. Qed.
Lemma check_garbage_reports : preserves err_reported check_garbage.
Proof. plain_reports. Qed.
Lemma default_when_reports : preserves err_reported default_when.
Proof. plain_reports. Qed.
Lemma default_when_daytime_reports : preserves err_reported default_when_daytime.
Proof. plain_reports. Qed.
Lemma default_what_reports : preserves err_reported default_what.
Proof. plain_reports. Qed.

Lemma check_anything_reports : preserves err_reported check_anything.
Proof.
  intros v Hv. unfold check_anything.
  split_inner; [| exact Hv]. cbn zeta.
  destruct (truthy (human_readable_message v)) eqn:T; cbn [negb];
    unfold err_reported; vars_simpl; intros _; [exact T | reflexivity].
Qed.

Lemma sender_position_reports : preserves err_reported sender_position.
Proof.
  intros v Hv. unfold sender_position, unclaimed.
  destruct (err v) eqn:E; [now rewrite andb_false_r |].
  destruct (found_my_duty_roster v); cbn [negb andb];
    [intros K; congruence |].
  destruct (truthy (when v)).
  - unfold err_reported. helpers. helpers. cbn zeta.
    repeat (vars_simpl; rewrite ?E; cbn zeta; split_inner);
      vars_simpl; rewrite ?E;
      intros K; first [discriminate K | reflexivity].
  - cbn zeta.
    destruct (truthy (human_readable_message v)) eqn:T; cbn [negb];
      unfold err_reported; vars_simpl; intros _; [exact T | reflexivity].
Qed.

Lemma program_reports : Forall (preserves err_reported) program.
Proof.
  exact
    (Forall_cons _ stage_units_reports
    (Forall_cons _ stage_unicode_reports
    (Forall_cons _ stage_language_reports
    (Forall_cons _ stage_number_of_results_reports
    (Forall_cons _ stage_help_reports
    (Forall_cons _ stage_when_reports
    (Forall_cons _ stage_when_daytime_reports
    (Forall_cons _ stage_callsign_multi_reports
    (Forall_cons _ stage_whereami_reports
    (Forall_cons _ stage_cwop_id_reports
    (Forall_cons _ stage_satpass_reports
    (Forall_cons _ stage_repeater_reports
    (Forall_cons _ stage_osm_category_reports
    (Forall_cons _ stage_dapnet_reports
    (Forall_cons _ stage_fortuneteller_reports
    (Forall_cons _ stage_email_position_report_reports
    (Forall_cons _ stage_metar_reports
    (Forall_cons _ stage_wx_reports
    (Forall_cons _ check_anything_reports
    (Forall_cons _ check_garbage_reports
    (Forall_cons _ default_when_reports
    (Forall_cons _ default_when_daytime_reports
    (Forall_cons _ default_what_reports
    (Forall_cons _ sender_position_reports
    (Forall_nil _))))))))))))))))))))))))).
Qed.

(** A parse that fails has a message for the user: whenever
    [success] is false, [human_readable_message] is a text that is
    not empty. *)
Theorem failure_has_message (m s k : string) :
  fst (parse_input_message m s k) = false ->
  truthy (human_readable_message (snd (parse_input_message m s k))) = true.
Proof.
  intros Hs. rewrite parse_success_err in Hs. apply negb_false_iff in Hs.
  revert Hs. unfold parse_input_message. cbn zeta. cbn [snd].
  apply (run_preserves err_reported program program_reports).
  intros K. discriminate K.
Qed.

End Reports.

Lemma failure_has_message_witness :
  fst (@parse_input_message offline "tomorrow ??" "DF1JSL-1" "key") = false
  /\ truthy (human_readable_message
               (snd (@parse_input_message offline "tomorrow ??" "DF1JSL-1" "key")))
     = true.
Proof.
  assert (fst (@parse_input_message offline "tomorrow ??" "DF1JSL-1" "key") = false)
    as H by (vm_compute; reflexivity).
  split; [exact H |].
  exact (@failure_has_message offline "tomorrow ??" "DF1JSL-1" "key" H).
Defined.

(* ================================================================= *)
(** ** The language of a request *)

(** The group of a pattern [(g)B] holds what [g] has consumed. *)
Lemma group_here (i : nat) (g B : regex) (s e : cursor) :
  ~ In i (groups B) ->
  In e (matches (Seq (Grp i g) B) s) ->
  exists s2, In s2 (matches g s) /\ lookup i (caps e) = Some (consumed s s2).
Proof.
  intros HB H. cbn [matches] in H.
  apply in_flat_map in H. destruct H as [k [Hk H]].
  apply in_map_iff in Hk. destruct Hk as [s2 [<- Hs2]].
  exists s2. split; [exact Hs2 |].
  rewrite (matches_caps_other i B HB _ _ H).
  cbn [caps capture lookup]. now rewrite Nat.eqb_refl.
Qed.

Lemma lower_letter (c : ascii) :
  is_alpha c = true ->
  is_lower (to_lower c) = true /\ is_space (to_lower c) = false.
Proof.
  destruct c as [[] [] [] [] [] [] [] []]; vm_compute; intros H;
    try discriminate H; split; reflexivity.
Qed.

(** [lang xx]: the second group is two letters. *)
Lemma language_group (h : hit) :
  In (h_end h) (matches re_language (h_start h)) ->
  exists a b, strip (lower (text (match lookup 2 (caps (h_end h)) with
                                  | Some t => t
                                  | None => []
                                  end))) = text [a; b]
              /\ is_lower a = true /\ is_lower b = true.
Proof.
  intros H.
  change re_language
    with (Seq WordB (Seq (Grp 1 (words ["lang"; "lng"]))
                         (Seq (Star s_) (Seq (Grp 2 (rep 2 2 alpha)) WordB))))
    in H.
  cbn [matches] in H.
  apply in_flat_map in H. destruct H as [s0 [_ H]].
  apply in_flat_map in H. destruct H as [s1 [_ H]].
  apply in_flat_map in H. destruct H as [s2 [_ H]].
  apply (group_here 2 (rep 2 2 alpha) WordB) in H; [| intros []].
  destruct H as [s3 [Hg ->]].
  unfold rep in Hg. cbn [times upto Nat.sub] in Hg.
  change alpha with (Chr is_alpha) in Hg.
  cbn [matches] in Hg.
  apply in_flat_map in Hg. destruct Hg as [x [Hx Hg]]. cbn [In] in Hg.
  destruct Hg as [<- | []].
  apply in_flat_map in Hx. destruct Hx as [y [Hy Hx]].
  apply in_flat_map in Hx. destruct Hx as [z [Hz Hx]]. cbn [In] in Hx.
  destruct Hx as [<- | []].
  apply (matches_chr is_alpha) in Hy. destruct Hy as [c [Hr1 Hc]].
  apply (matches_chr is_alpha) in Hz. destruct Hz as [d [Hr2 Hd]].
  rewrite (consumed_app s2 z [c; d]) by (now rewrite Hr1, Hr2).
  destruct (lower_letter c Hc) as [Lc Sc]. destruct (lower_letter d Hd) as [Ld Sd].
  exists (to_lower c), (to_lower d). split; [| split; assumption].
  unfold lower, strip. rewrite !chars_text. cbn [map].
  unfold strip_chars. cbn [lstrip_chars]. rewrite Sc. cbn [rev app].
  cbn [lstrip_chars]. rewrite Sd. reflexivity.
Qed.

Lemma grp_2_text (h : hit) :
  grp 2 h = text (match lookup 2 (caps (h_end h)) with
                  | Some t => t
                  | None => []
                  end).
Proof. unfold grp, group. now destruct (lookup 2 (caps (h_end h))). Qed.

Section Language.
Context {W : World}.

Lemma language_ok_settings (v w : Vars) :
  settings w = settings v -> language_ok v -> language_ok w.
Proof.
  intros H. unfold language_ok, settings in *.
  assert (language w = language v) as -> by congruence. trivial.
Qed.

Lemma parse_keyword_language_ok (m : string) :
  language_ok (snd (parse_keyword_language m)).
Proof.
  unfold parse_keyword_language, language_body, language_ok.
  cbn zeta. cbn [snd]. vars_simpl.
  destruct (search re_language m) as [h |] eqn:Hs; vars_simpl.
  - apply search_In in Hs. rewrite grp_2_text.
    exact (language_group h Hs).
  - exists "e"%char, "n"%char. repeat split.
Qed.

Lemma stage_language_ok : preserves language_ok stage_language.
Proof.
  intros v Hv. unfold stage_language.
  pose proof (parse_keyword_language_ok (aprs_message v)) as H.
  destruct (parse_keyword_language (aprs_message v)) as [f rd].
  cbn [snd] in H.
  destruct f; [| exact Hv]. unfold language_ok in *. vars_simpl.
  exact H.
Qed.

Lemma language_ok_program : Forall (preserves language_ok) program.
Proof.
  apply program_preserves;
    [exact language_ok_settings | by_stage | by_stage
     | exact stage_language_ok | by_stage ..].
Qed.


End Language.

(* ================================================================= *)
(** ** The values of [what] *)

Lemma one_of_In (names : list string) (w : string) :
  one_of names (Some w) = true -> In w names.
Proof.
  cbn [one_of]. intros H. apply existsb_exists in H.
  destruct H as [x [Hx E]]. apply String.eqb_eq in E. now subst.
Qed.

Lemma In_one_of (names : list string) (w : string) :
  In w names -> one_of names (Some w) = true.
Proof.
  intros H. cbn [one_of]. apply existsb_exists. exists w.
  split; [exact H | apply String.eqb_refl].
Qed.

Lemma assigned_named (o : option string) :
  one_of assigned o = true -> one_of named o = true.
Proof.
  destruct o as [w |]; [| reflexivity]. intros H.
  apply In_one_of. right. right. now apply one_of_In.
Qed.

Lemma keyword_one_of (names ws : list string) (w : string) :
  In w ws -> forallb (fun k => one_of names (Some k)) ws = true ->
  one_of names (Some w) = true.
Proof.
  intros Hw Hall. rewrite forallb_forall in Hall. exact (Hall _ Hw).
Qed.

Lemma names_what_then (f : Vars -> Vars) (v : Vars) :
  names_what f -> one_of assigned (what v) = true ->
  one_of assigned (what (f v)) = true.
Proof. intros Hf Hv. now apply Hf. Qed.

Section Vocabulary.
Context {W : World}.

Ltac helpers :=
  unfold address_found, position_found, metar_or_wx, csm_metar_taf,
    csm_users_position, assign_airport, assign_address, assign_position, claim.

(** A step that assigns constants to [what], or nothing. *)
Ltac plain_names :=
  intros v Hv;
  match goal with
  | |- one_of _ (what (?f v)) = _ => let h := head_of f in unfold h
  end;
  helpers; repeat split_case; vars_simpl;
  first [exact Hv | reflexivity].

(** A step that assigns the keyword it has found to [what]. *)
Ltac keyword_names lemma :=
  intros v Hv;
  match goal with
  | |- one_of _ (what (?f v)) = _ => let h := head_of f in unfold h
  end;
  helpers;
  match goal with
  | |- context [search ?r ?s] =>
      let E := fresh "E" in
      destruct (search r s) as [m |] eqn:E; [apply lemma in E |]
  end;
  repeat split_case; vars_simpl;
  first [ exact Hv
        | reflexivity
        | eapply keyword_one_of; [eassumption | reflexivity] ].

Lemma whereami_body_names : names_what whereami_body.
Proof. plain_names. Qed.
Lemma satpass_body_names : names_what satpass_body.
Proof. keyword_names satpass_keyword. Qed.
Lemma repeater_mode_band_names : names_what repeater_mode_band.
Proof. plain_names. Qed.
Lemma repeater_band_mode_names : names_what repeater_band_mode.
Proof. plain_names. Qed.
Lemma repeater_mode_only_names : names_what repeater_mode_only.
Proof. plain_names. Qed.
Lemma repeater_band_only_names : names_what repeater_band_only.
Proof. plain_names. Qed.
Lemma repeater_bare_names : names_what repeater_bare.
Proof. plain_names. Qed.
Lemma repeater_lookup_names : names_what repeater_lookup.
Proof. plain_names. Qed.
Lemma osm_qualified_names c : names_what (osm_qualified c).
Proof. plain_names. Qed.
Lemma osm_bare_names c : names_what (osm_bare c).
Proof. plain_names. Qed.
Lemma osm_lookup_names : names_what osm_lookup.
Proof. plain_names. Qed.
Lemma dapnet_with_ssid_names : names_what dapnet_with_ssid.
Proof. keyword_names dapnet_ssid_keyword. Qed.
Lemma dapnet_without_ssid_names : names_what dapnet_without_ssid.
Proof. keyword_names dapnet_keyword. Qed.
Lemma fortuneteller_body_names : names_what fortuneteller_body.
Proof. plain_names. Qed.
Lemma email_position_report_body_names : names_what email_position_report_body.
Proof. plain_names. Qed.
Lemma metar_icao_qualified_names : names_what metar_icao_qualified.
Proof. plain_names. Qed.
Lemma metar_iata_qualified_names : names_what metar_iata_qualified.
Proof. plain_names. Qed.
Lemma metar_guess_names r f : names_what (metar_guess r f).
Proof. plain_names. Qed.
Lemma wx_city_state_country_names : names_what wx_city_state_country.
Proof. plain_names. Qed.
Lemma wx_city_state_names : names_what wx_city_state.
Proof. plain_names. Qed.
Lemma wx_city_country_names : names_what wx_city_country.
Proof. plain_names. Qed.
Lemma wx_address_lookup_names : names_what wx_address_lookup.
Proof. plain_names. Qed.
Lemma wx_zip_country_names : names_what wx_zip_country.
Proof. plain_names. Qed.
Lemma wx_zip_us_names : names_what wx_zip_us.
Proof. plain_names. Qed.
Lemma wx_code_country_names : names_what wx_code_country.
Proof. plain_names. Qed.
Lemma wx_zip_lookup_names : names_what wx_zip_lookup.
Proof. plain_names. Qed.
Lemma wx_five_digits_names : names_what wx_five_digits.
Proof. plain_names. Qed.
Lemma wx_grid_qualified_names : names_what wx_grid_qualified.
Proof. plain_names. Qed.
Lemma wx_grid_names : names_what wx_grid.
Proof. plain_names. Qed.
Lemma wx_lat_lon_names : names_what wx_lat_lon.
Proof. plain_names. Qed.
Lemma wx_callsign_names : names_what wx_callsign.
Proof. plain_names. Qed.

Lemma cwop_id_body_names : names_what cwop_id_body.
Proof. plain_names. Qed.
Lemma osm_loop_names cats : names_what (osm_loop cats).
Proof.
  induction cats as [| c cats IH]; intros v Hv; cbn [osm_loop]; [exact Hv |].
  cbn zeta.
  assert (one_of assigned (what (osm_bare c (osm_qualified c v))) = true) as H.
  { now apply osm_bare_names, osm_qualified_names. }
  destruct (found_my_keyword (osm_bare c (osm_qualified c v))).
  - now apply osm_lookup_names.
  - now apply IH.
Qed.
Lemma metar_nearest_names r k t :
  one_of assigned (Some k) = true -> names_what (metar_nearest r k t).
Proof.
  intros Hk v Hv. unfold metar_nearest. helpers.
  repeat split_case; vars_simpl;
    first [exact Hv | exact Hk | reflexivity].
Qed.
Lemma unless_settled_names step :
  names_what step -> names_what (unless_settled step).
Proof.
  intros H v Hv. unfold unless_settled.
  destruct (negb (found_my_keyword v) && negb (kw_err v)); [now apply H | exact Hv].
Qed.

Create HintDb names_what.

#[local] Hint Resolve whereami_body_names satpass_body_names repeater_mode_band_names
  repeater_band_mode_names repeater_mode_only_names repeater_band_only_names
  repeater_bare_names repeater_lookup_names dapnet_with_ssid_names
  dapnet_without_ssid_names fortuneteller_body_names
  email_position_report_body_names metar_icao_qualified_names
  metar_iata_qualified_names metar_guess_names wx_city_state_country_names
  wx_city_state_names wx_city_country_names wx_address_lookup_names
  wx_zip_country_names wx_zip_us_names wx_code_country_names
  wx_zip_lookup_names wx_five_digits_names wx_grid_qualified_names
  wx_grid_names wx_lat_lon_names wx_callsign_names cwop_id_body_names
  osm_loop_names unless_settled_names : names_what.

Ltac names_chain :=
  rewrite ?what_set_message_callsign;
  repeat (apply names_what_then; [solve [auto 6 with names_what] |]);
  rewrite ?what_set_geopy_query;
  first [assumption | vars_simpl; reflexivity].

Lemma wx_address_names : names_what wx_address.
Proof. intros v Hv. unfold wx_address. cbn zeta. names_chain. Qed.
Lemma wx_zip_names : names_what wx_zip.
Proof. intros v Hv. unfold wx_zip. cbn zeta. names_chain. Qed.

#[local] Hint Resolve wx_address_names wx_zip_names : names_what.

Tactic Notation "parser_names" reference(f) :=
  intros; unfold f; cbn zeta; cbn [snd fst]; names_chain.

Lemma parse_whereami_names m cs key lang :
  one_of assigned (what (snd (parse_what_keyword_whereami m cs key lang))) = true.
Proof. parser_names parse_what_keyword_whereami. Qed.
Lemma parse_cwop_id_names m cs :
  one_of assigned (what (snd (parse_what_keyword_cwop_id m cs))) = true.
Proof. parser_names parse_what_keyword_cwop_id. Qed.
Lemma parse_satpass_names m cs key :
  one_of assigned (what (snd (parse_what_keyword_satpass m cs key))) = true.
Proof. parser_names parse_what_keyword_satpass. Qed.
Lemma parse_repeater_names m cs key :
  one_of assigned (what (snd (parse_what_keyword_repeater m cs key))) = true.
Proof. parser_names parse_what_keyword_repeater. Qed.
Lemma parse_osm_category_names m cs key :
  one_of assigned (what (snd (parse_what_keyword_osm_category m cs key))) = true.
Proof. parser_names parse_what_keyword_osm_category. Qed.
Lemma parse_dapnet_names m cs :
  one_of assigned (what (snd (parse_what_keyword_dapnet m cs))) = true.
Proof. parser_names parse_what_keyword_dapnet. Qed.
Lemma parse_fortuneteller_names m :
  one_of assigned (what (snd (parse_what_keyword_fortuneteller m))) = true.
Proof. parser_names parse_what_keyword_fortuneteller. Qed.
Lemma parse_email_position_report_names m cs key lang :
  one_of assigned
         (what (snd (parse_what_keyword_email_position_report m cs key lang)))
  = true.
Proof. parser_names parse_what_keyword_email_position_report. Qed.
Lemma parse_metar_names m cs key :
  one_of assigned (what (snd (parse_what_keyword_metar m cs key))) = true.
Proof.
  unfold parse_what_keyword_metar. cbn zeta. cbn [snd].
  rewrite what_set_message_callsign.
  apply names_what_then.
  { apply unless_settled_names, metar_nearest_names. reflexivity. }
  apply names_what_then.
  { apply unless_settled_names, metar_nearest_names. reflexivity. }
  apply names_what_then.
  { apply unless_settled_names, metar_guess_names. }
  apply names_what_then.
  { apply unless_settled_names, metar_guess_names. }
  apply names_what_then.
  { apply unless_settled_names, metar_iata_qualified_names. }
  apply names_what_then; [apply metar_icao_qualified_names |].
  vars_simpl. reflexivity.
Qed.
Lemma parse_wx_names m cs lang :
  one_of assigned (what (snd (parse_what_keyword_wx m cs lang))) = true.
Proof. parser_names parse_what_keyword_wx. Qed.

(** *** The call sign parser *)

Lemma csm_pending_found (k : string) (w : Vars) :
  In k csm_keywords -> kw_err w = false -> found_my_keyword w = true ->
  what w = Some k -> csm_pending w.
Proof.
  intros Hk E F Hw. split; [exact E |]. right. split; [exact F |].
  exists k. split; [exact Hw | exact Hk].
Qed.

Lemma csm_with_ssid_pending : preserves csm_pending csm_with_ssid.
Proof.
  intros v Hv. unfold csm_with_ssid.
  destruct (search re_csm_ssid (aprs_message v)) as [m |] eqn:E; [| exact Hv].
  apply csm_ssid_keyword in E. destruct Hv as [K _].
  eapply csm_pending_found; [exact E | exact K | reflexivity | reflexivity].
Qed.
Lemma csm_without_ssid_pending : preserves csm_pending csm_without_ssid.
Proof.
  intros v Hv. unfold csm_without_ssid.
  destruct (negb (found_my_keyword v)); [| exact Hv].
  destruct (search re_csm_callsign (aprs_message v)) as [m |] eqn:E; [| exact Hv].
  apply csm_callsign_keyword in E. destruct Hv as [K _].
  eapply csm_pending_found; [exact E | exact K | reflexivity | reflexivity].
Qed.
Lemma csm_token_pending : preserves csm_pending csm_token.
Proof.
  intros v Hv. unfold csm_token.
  destruct (negb (found_my_keyword v)); [| exact Hv].
  destruct (search re_csm_token (aprs_message v)) as [m |] eqn:E; [| exact Hv].
  apply csm_token_keyword in E. destruct Hv as [K _].
  eapply csm_pending_found; [exact E | exact K | reflexivity | reflexivity].
Qed.
Lemma csm_bare_pending : preserves csm_pending csm_bare.
Proof.
  intros v Hv. unfold csm_bare.
  destruct (negb (found_my_keyword v)); [| exact Hv].
  destruct (search re_csm_bare (aprs_message v)) as [m |] eqn:E; [| exact Hv].
  apply csm_bare_keyword in E. destruct Hv as [K _].
  eapply csm_pending_found; [exact E | exact K | reflexivity | reflexivity].
Qed.

(** The look-up turns [forecast] into [wx] and [cwop] into
    [cwop_by_latlon], or fails. *)
Lemma csm_lookup_vocabulary (v : Vars) :
  csm_pending v ->
  one_of named (what (csm_lookup v)) = true
  /\ (kw_err (csm_lookup v) = false ->
      one_of assigned (what (csm_lookup v)) = true).
Proof.
  intros [K [[Hw Hf] | [Hf [w [Hw Hin]]]]]; unfold csm_lookup; rewrite Hf.
  - rewrite Hw. split; reflexivity.
  - cbn zeta.
    set (r := get_position_on_aprsfi _ _).
    assert (what (assign_position r v) = Some w) as Ha
        by (unfold assign_position; vars_simpl; exact Hw).
    generalize dependent (assign_position r v). intros a Ha.
    destruct (p_success r).
    + rewrite Ha. cbn [In csm_keywords] in Hin.
      unfold csm_metar_taf, csm_users_position, assign_address.
      destruct Hin as [<- | [<- | [<- | [<- | [<- | [<- | [<- | [<- | []]]]]]]]];
        repeat (progress (vars_simpl; rewrite ?Ha;
                          cbn [is_str String.eqb Ascii.eqb Bool.eqb orb andb];
                          cbn zeta));
        repeat split_case; vars_simpl; rewrite ?Ha;
        (split; [reflexivity | intros _; reflexivity]).
    + vars_simpl. rewrite Ha. split; [| discriminate].
      eapply keyword_one_of; [exact Hin | reflexivity].
Qed.

Lemma parse_callsign_multi_vocabulary m cs key lang :
  parser_vocabulary (parse_what_keyword_callsign_multi m cs key lang).
Proof.
  unfold parser_vocabulary, parse_what_keyword_callsign_multi.
  cbn zeta. cbn [fst snd].
  apply csm_lookup_vocabulary.
  apply csm_bare_pending, csm_token_pending, csm_without_ssid_pending,
    csm_with_ssid_pending.
  split; [reflexivity | left; split; reflexivity].
Qed.

Lemma names_parser_vocabulary (p : bool * bool * Vars) :
  one_of assigned (what (snd p)) = true -> parser_vocabulary p.
Proof.
  intros H. split; [now apply assigned_named | intros _; exact H].
Qed.

(** *** The stages of [parse_input_message] *)

(** A stage takes [what] and the error from the keyword parser it
    calls. *)
Tactic Notation "stage_vocabulary" reference(f) uconstr(H) :=
  intros v Hv; unfold f;
  try (destruct (unclaimed v); [| exact Hv]);
  generalize H; cbn zeta;
  match goal with
  | |- context [let '(_, _) := ?p in _] =>
      destruct p as [[? ?] ?] || destruct p as [? ?]
  end;
  unfold parser_vocabulary; cbn [fst snd]; intros B;
  repeat split_case; unfold claim, vocabulary; vars_simpl;
  first [exact Hv | exact B].

Lemma stage_callsign_multi_vocabulary : preserves vocabulary stage_callsign_multi.
Proof.
  stage_vocabulary stage_callsign_multi
    (parse_callsign_multi_vocabulary (aprs_message v) (users_callsign v)
                                     (aprsdotfi_api_key v) (language v)).
Qed.
Lemma stage_whereami_vocabulary : preserves vocabulary stage_whereami.
Proof.
  stage_vocabulary stage_whereami
    (names_parser_vocabulary _
       (parse_whereami_names (aprs_message v) (users_callsign v)
                             (aprsdotfi_api_key v) (language v))).
Qed.
Lemma stage_cwop_id_vocabulary : preserves vocabulary stage_cwop_id.
Proof.
  stage_vocabulary stage_cwop_id
    (names_parser_vocabulary _
       (parse_cwop_id_names (aprs_message v) (users_callsign v))).
Qed.
Lemma stage_satpass_vocabulary : preserves vocabulary stage_satpass.
Proof.
  stage_vocabulary stage_satpass
    (names_parser_vocabulary _
       (parse_satpass_names (aprs_message v) (users_callsign v)
                            (aprsdotfi_api_key v))).
Qed.
Lemma stage_repeater_vocabulary : preserves vocabulary stage_repeater.
Proof.
  stage_vocabulary stage_repeater
    (names_parser_vocabulary _
       (parse_repeater_names (aprs_message v) (users_callsign v)
                             (aprsdotfi_api_key v))).
Qed.
Lemma stage_osm_category_vocabulary : preserves vocabulary stage_osm_category.
Proof.
  stage_vocabulary stage_osm_category
    (names_parser_vocabulary _
       (parse_osm_category_names (aprs_message v) (users_callsign v)
                                 (aprsdotfi_api_key v))).
Qed.
Lemma stage_dapnet_vocabulary : preserves vocabulary stage_dapnet.
Proof.
  stage_vocabulary stage_dapnet
    (names_parser_vocabulary _
       (parse_dapnet_names (aprs_message v) (users_callsign v))).
Qed.
Lemma stage_email_position_report_vocabulary :
  preserves vocabulary stage_email_position_report.
Proof.
  stage_vocabulary stage_email_position_report
    (names_parser_vocabulary _
       (parse_email_position_report_names (aprs_message v) (users_callsign v)
                                          (aprsdotfi_api_key v) (language v))).
Qed.
Lemma stage_metar_vocabulary : preserves vocabulary stage_metar.
Proof.
  stage_vocabulary stage_metar
    (names_parser_vocabulary _
       (parse_metar_names (aprs_message v) (users_callsign v)
                          (aprsdotfi_api_key v))).
Qed.
Lemma stage_wx_vocabulary : preserves vocabulary stage_wx.
Proof.
  stage_vocabulary stage_wx
    (names_parser_vocabulary _
       (parse_wx_names (aprs_message v) (users_callsign v) (language v))).
Qed.
Lemma stage_fortuneteller_vocabulary : preserves vocabulary stage_fortuneteller.
Proof.
  stage_vocabulary stage_fortuneteller
    (names_parser_vocabulary _
       (parse_fortuneteller_names (aprs_message v))).
Qed.

(** The other stages: [what] is [help], [wx] or what it was, and an
    error is raised, never taken back. *)
Ltac other_vocabulary :=
  intros v Hv;
  match goal with |- vocabulary (?f v) => let h := head_of f in unfold h end;
  helpers;
  repeat match goal with
         | |- context [parse_when ?m] => generalize (parse_when m); intro
         | |- context [parse_when_daytime ?m] =>
             generalize (parse_when_daytime m); intro
         | |- context [let '(_, _) := ?p in _] => destruct p as [? ?]
         end;
  cbn zeta; repeat split_case; unfold vocabulary in *; vars_simpl;
  first [ exact Hv
        | split; [reflexivity | intros _; reflexivity]
        | split; [exact (proj1 Hv) | discriminate] ].

Lemma stage_units_vocabulary : preserves vocabulary stage_units.
Proof. other_vocabulary. Qed.
Lemma stage_unicode_vocabulary : preserves vocabulary stage_unicode.
Proof. other_vocabulary. Qed.
Lemma stage_language_vocabulary : preserves vocabulary stage_language.
Proof. other_vocabulary. Qed.
Lemma stage_number_of_results_vocabulary :
  preserves vocabulary stage_number_of_results.
Proof. other_vocabulary. Qed.
Lemma stage_help_vocabulary : preserves vocabulary stage_help.
Proof. other_vocabulary. Qed.
Lemma stage_when_vocabulary : preserves vocabulary stage_when.
Proof. other_vocabulary. Qed.
Lemma stage_when_daytime_vocabulary : preserves vocabulary stage_when_daytime.
Proof. other_vocabulary. Qed.
Lemma check_anything_vocabulary : preserves vocabulary check_anything.
Proof. other_vocabulary. Qed.
Lemma check_garbage_vocabulary : preserves vocabulary check_garbage.
Proof. other_vocabulary. Qed.
Lemma default_when_vocabulary : preserves vocabulary default_when.
Proof. other_vocabulary. Qed.
Lemma default_when_daytime_vocabulary :
  preserves vocabulary default_when_daytime.
Proof. other_vocabulary. Qed.
Lemma default_what_vocabulary : preserves vocabulary default_what.
Proof. other_vocabulary. Qed.
Lemma sender_position_vocabulary : preserves vocabulary sender_position.
Proof. other_vocabulary. Qed.

Lemma program_vocabulary : Forall (preserves vocabulary) program.
Proof.
  exact
    (Forall_cons _ stage_units_vocabulary
    (Forall_cons _ stage_unicode_vocabulary
    (Forall_cons _ stage_language_vocabulary
    (Forall_cons _ stage_number_of_results_vocabulary
    (Forall_cons _ stage_help_vocabulary
    (Forall_cons _ stage_when_vocabulary
    (Forall_cons _ stage_when_daytime_vocabulary
    (Forall_cons _ stage_callsign_multi_vocabulary
    (Forall_cons _ stage_whereami_vocabulary
    (Forall_cons _ stage_cwop_id_vocabulary
    (Forall_cons _ stage_satpass_vocabulary
    (Forall_cons _ stage_repeater_vocabulary
    (Forall_cons _ stage_osm_category_vocabulary
    (Forall_cons _ stage_dapnet_vocabulary
    (Forall_cons _ stage_fortuneteller_vocabulary
    (Forall_cons _ stage_email_position_report_vocabulary
    (Forall_cons _ stage_metar_vocabulary
    (Forall_cons _ stage_wx_vocabulary
    (Forall_cons _ check_anything_vocabulary
    (Forall_cons _ check_garbage_vocabulary
    (Forall_cons _ default_when_vocabulary
    (Forall_cons _ default_when_daytime_vocabulary
    (Forall_cons _ default_what_vocabulary
    (Forall_cons _ sender_position_vocabulary
    (Forall_nil _))))))))))))))))))))))))).
Qed.

Lemma result_vocabulary (m s k : string) :
  vocabulary (snd (parse_input_message m s k)).
Proof.
  unfold parse_input_message. cbn zeta. cbn [snd].
  apply (run_preserves vocabulary program program_vocabulary).
  split; [reflexivity | intros _; reflexivity].
Qed.

Lemma result_not_cwop_id (m s k : string) :
  what (snd (parse_input_message m s k)) <> Some "cwop_by_cwop_id".
Proof.
  unfold parse_input_message. cbn zeta. cbn [snd].
  rewrite run_program.
  apply (run_no_cwop_id _ after_cwop_id_no_cwop_id).
  apply (run_no_cwop_id _ before_cwop_id_no_cwop_id).
  discriminate.
Qed.



End Vocabulary.


(* ================================================================= *)
(** ** [utility_modules.py] *)

(** ** Lists of lines *)

Lemma firstn_skipn_add {A : Type} (a b : nat) (l : list A) :
  (firstn a l ++ firstn b (skipn a l))%list = firstn (a + b) l.
Proof.
  revert l. induction a as [| a IH]; intros l; [reflexivity |].
  destruct l as [| x l]; cbn; [now rewrite firstn_nil | now rewrite IH].
Qed.

Lemma text_app (a b : list ascii) : text (a ++ b) = text a ++ text b.
Proof. induction a as [| x a IH]; cbn; [reflexivity | now rewrite IH]. Qed.

Lemma len_nat (s : string) : len s = Z.of_nat (List.length (chars s)).
Proof. unfold len. now rewrite length_chars. Qed.

(** A slice that starts inside the list. *)
Lemma py_slice_inside {A : Type} (i n : nat) (l : list A) :
  i <= List.length l ->
  py_slice (Z.of_nat i) (Z.of_nat i + Z.of_nat n) l = firstn n (skipn i l).
Proof.
  intros Hi. unfold py_slice. cbn zeta.
  destruct (Z.ltb_spec (Z.of_nat i) 0) as [H | _]; [lia |].
  destruct (Z.ltb_spec (Z.of_nat i + Z.of_nat n) 0) as [H | _]; [lia |].
  rewrite (Z.min_l (Z.of_nat i)) by lia. rewrite Nat2Z.id.
  destruct (Z.min_spec (Z.of_nat i + Z.of_nat n) (Z.of_nat (List.length l)))
    as [[_ ->] | [H ->]].
  - replace (Z.to_nat (Z.of_nat i + Z.of_nat n - Z.of_nat i)) with n by lia.
    reflexivity.
  - replace (Z.to_nat (Z.of_nat (List.length l) - Z.of_nat i))
      with (List.length (skipn i l)) by (rewrite length_skipn; lia).
    rewrite firstn_all. symmetry. apply firstn_all2.
    rewrite length_skipn. lia.
Qed.

(** The indices of the chunks. *)
Lemma py_range_chunks (stop step : Z) :
  (0 < step)%Z -> (0 <= stop)%Z ->
  py_range 0 stop step
  = Some (map (fun k => (Z.of_nat k * step)%Z)
              (seq 0 (Z.to_nat (ceil_div stop step)))).
Proof.
  intros Hs Hn. unfold py_range, ceil_div.
  destruct (Z.eqb_spec step 0) as [E | _]; [lia |].
  destruct (Z.ltb_spec 0 step) as [_ | H]; [| lia].
  destruct (Z.ltb_spec 0 stop) as [H | H].
  - rewrite Z.sub_0_r. reflexivity.
  - assert (stop = 0%Z) as -> by lia.
    rewrite Z.div_small by lia. reflexivity.
Qed.

Lemma ceil_div_bounds (a b : Z) :
  (0 < b)%Z -> (0 <= a)%Z ->
  (a <= ceil_div a b * b < a + b)%Z /\ (0 <= ceil_div a b)%Z.
Proof.
  intros Hb Ha. unfold ceil_div.
  pose proof (Z.div_mod (a + b - 1) b ltac:(lia)) as E.
  pose proof (Z.mod_pos_bound (a + b - 1) b Hb) as M.
  assert (0 <= (a + b - 1) / b)%Z by (apply Z.div_pos; lia).
  nia.
Qed.

Section Chunks.
Variable n : nat.
Hypothesis n_positive : 0 < n.

Lemma join_chunks (l : list ascii) (c : nat) :
  join (map (fun k => text (chunk n l k)) (seq 0 c)) = text (firstn (c * n) l).
Proof.
  induction c as [| c IH]; [reflexivity |].
  rewrite seq_S, map_app. cbn [map Nat.add].
  unfold join in *. rewrite fold_right_app. cbn [fold_right].
  rewrite append_empty_r.
  assert (forall (xs : list string) (t : string),
             fold_right append t xs = fold_right append "" xs ++ t) as F.
  { induction xs as [| x xs IHx]; intros t; cbn; [reflexivity |].
    now rewrite IHx, append_assoc. }
  rewrite F, IH, <- text_app. unfold chunk.
  rewrite firstn_skipn_add. f_equal. f_equal. lia.
Qed.

Lemma length_chunk (l : list ascii) (k : nat) :
  List.length (chunk n l k) = Nat.min n (List.length l - k * n).
Proof. unfold chunk. now rewrite length_firstn, length_skipn. Qed.

End Chunks.

Lemma split_chunks (s : string) (max_len : Z) :
  (0 < max_len)%Z ->
  split_string_to_string_list s max_len
  = Some (map (fun k => text (chunk (Z.to_nat max_len) (chars s) k))
              (seq 0 (Z.to_nat (ceil_div (len s) max_len)))).
Proof.
  intros Hm. unfold split_string_to_string_list.
  rewrite py_range_chunks by (unfold len; lia).
  f_equal. rewrite map_map. apply map_ext_in. intros k Hk.
  apply in_seq in Hk. unfold str_slice, chunk. f_equal.
  destruct (ceil_div_bounds (len s) max_len Hm ltac:(unfold len; lia)) as [B _].
  remember (Z.to_nat max_len) as n eqn:En.
  assert (max_len = Z.of_nat n) as -> by lia.
  rewrite <- Nat2Z.inj_mul.
  apply py_slice_inside. rewrite len_nat in B.
  assert (Z.of_nat k + 1 <= ceil_div (Z.of_nat (List.length (chars s)))
                                     (Z.of_nat n))%Z as Hk'
      by (rewrite <- len_nat; lia).
  apply Nat2Z.inj_le. rewrite Nat2Z.inj_mul. nia.
Qed.

(** Splitting loses nothing: for a positive [max_len] the function
    returns chunks whose concatenation is the string. *)
Theorem split_string_joins (message_string : string) (max_len : Z) :
  (0 < max_len)%Z ->
  exists split_strings,
    split_string_to_string_list message_string max_len = Some split_strings
    /\ join split_strings = message_string.
Proof.
  intros Hm. eexists. split; [now apply split_chunks |].
  rewrite join_chunks by lia.
  destruct (ceil_div_bounds (len message_string) max_len Hm
              ltac:(unfold len; lia)) as [B _].
  destruct (ceil_div_bounds (len message_string) max_len Hm
              ltac:(unfold len; lia)) as [_ B0].
  rewrite firstn_all2; [apply text_chars |].
  apply Nat2Z.inj_le. rewrite Nat2Z.inj_mul, !Z2Nat.id, <- len_nat by lia.
  lia.
Qed.

Lemma split_string_joins_witness :
  (0 < 3)%Z /\
  exists split_strings,
    split_string_to_string_list "abcdefghij" 3 = Some split_strings
    /\ join split_strings = "abcdefghij".
Proof. split; [lia | apply (split_string_joins "abcdefghij" 3); lia]. Defined.

(** The chunks: there are [ceil(len / max_len)] of them, none is
    empty, none is longer than [max_len], and all but the last one
    have [max_len] characters. *)
Theorem split_string_sizes (message_string : string) (max_len : Z) :
  (0 < max_len)%Z ->
  exists split_strings,
    split_string_to_string_list message_string max_len = Some split_strings
    /\ Z.of_nat (List.length split_strings)
       = ceil_div (len message_string) max_len
    /\ Forall (fun c => (1 <= len c <= max_len)%Z) split_strings
    /\ Forall (fun c => len c = max_len) (removelast split_strings).
Proof.
  intros Hm. eexists. split; [now apply split_chunks |].
  destruct (ceil_div_bounds (len message_string) max_len Hm
              ltac:(unfold len; lia)) as [B B0].
  rewrite len_nat in B.
  set (c := Z.to_nat (ceil_div (len message_string) max_len)) in *.
  assert (Z.of_nat c = ceil_div (len message_string) max_len) as Ec by lia.
  rewrite len_nat in Ec. rewrite <- Ec in B.
  split; [now rewrite length_map, length_seq, len_nat |].
  split.
  - apply Forall_forall. intros x Hx. apply in_map_iff in Hx.
    destruct Hx as [k [<- Hk]]. apply in_seq in Hk.
    unfold len. rewrite length_text, length_chunk. nia.
  - destruct c as [| c]; [constructor |].
    rewrite seq_S, map_app. cbn [map]. rewrite removelast_last.
    apply Forall_forall. intros x Hx. apply in_map_iff in Hx.
    destruct Hx as [k [<- Hk]]. apply in_seq in Hk.
    unfold len. rewrite length_text, length_chunk. nia.
Qed.

Lemma split_string_sizes_witness :
  (0 < 3)%Z /\
  exists split_strings,
    split_string_to_string_list "abcdefghij" 3 = Some split_strings
    /\ Z.of_nat (List.length split_strings) = ceil_div (len "abcdefghij") 3
    /\ Forall (fun c => (1 <= len c <= 3)%Z) split_strings
    /\ Forall (fun c => len c = 3%Z) (removelast split_strings).
Proof. split; [lia | apply (split_string_sizes "abcdefghij" 3); lia]. Defined.

Lemma split_string_negative (message_string : string) (max_len : Z) :
  (max_len < 0)%Z ->
  split_string_to_string_list message_string max_len = Some [].
Proof.
  intros Hm. unfold split_string_to_string_list, py_range.
  destruct (Z.eqb_spec max_len 0) as [E | _]; [lia |].
  destruct (Z.ltb_spec 0 max_len) as [H | _]; [lia |].
  destruct (Z.ltb_spec (len message_string) 0) as [H | _];
    [unfold len in H; lia |].
  reflexivity.
Qed.

(** The other values of [max_len]: 0 raises [ValueError], and a
    negative one gives no chunk at all, whatever the string. *)
Theorem split_string_not_positive (message_string : string) (max_len : Z) :
  (max_len <= 0)%Z ->
  split_string_to_string_list message_string max_len
  = if (max_len =? 0)%Z then None else Some [].
Proof.
  intros Hm. destruct (Z.eqb_spec max_len 0) as [-> | Hn]; [reflexivity |].
  apply split_string_negative. lia.
Qed.

Lemma split_string_not_positive_witness :
  (-2 <= 0)%Z
  /\ split_string_to_string_list "abcdefghij" (-2)
     = if (-2 =? 0)%Z then None else Some [].
Proof.
  split; [lia | apply (split_string_not_positive "abcdefghij" (-2)); lia].
Defined.

(** ** Removing the runs of a class of characters *)

Section Runs.
Variable p : ascii -> bool.

Local Abbreviation class_run := (plus (Chr p)).

(** A match of [[class]+] is a run of characters of the class that
    is not empty. *)
Lemma matches_run (s e : cursor) :
  In e (matches class_run s) ->
  exists pre, pre <> [] /\ rest s = (pre ++ rest e)%list
              /\ Forall (fun c => p c = true) pre.
Proof.
  unfold plus. cbn [matches]. intros H.
  apply in_flat_map in H. destruct H as [m [Hm H]].
  apply matches_chr in Hm. destruct Hm as [c [Hs Hc]].
  assert (exists pre, rest m = (pre ++ rest e)%list
                      /\ Forall (fun c => p c = true) pre) as [pre [Hp Hf]].
  { revert H.
    apply (star_loop_closed
             (fun a b => exists pre, rest a = (pre ++ rest b)%list
                                     /\ Forall (fun c => p c = true) pre)).
    - intros a. now exists [].
    - intros a b d [x [Hx Fx]] [y [Hy Fy]]. exists (x ++ y)%list.
      split; [now rewrite Hx, Hy, app_assoc | now apply Forall_app].
    - intros a b Hb. apply matches_chr in Hb. destruct Hb as [x [Hx Px]].
      exists [x]. split; [exact Hx | now constructor]. }
  exists (c :: pre). split; [discriminate |].
  split; [now rewrite Hs, Hp | now constructor].
Qed.

Lemma matches_run_nil (s : cursor) :
  match rest s with [] => True | c :: _ => p c = false end ->
  matches class_run s = [].
Proof.
  unfold plus. cbn [matches].
  destruct (rest s) as [| c t]; [reflexivity |]. now intros ->.
Qed.

Lemma star_loop_not_nil (body : cursor -> list cursor) (n : nat) (s : cursor) :
  star_loop body n s <> [].
Proof.
  destruct n; cbn; [discriminate |].
  now destruct (flat_map _ (body s)).
Qed.

Lemma filter_all_in {A : Type} (f : A -> bool) (l : list A) :
  (forall x, In x l -> f x = true) -> filter f l = l.
Proof.
  induction l as [| x l IH]; intros H; cbn; [reflexivity |].
  rewrite (H x) by now left. f_equal. apply IH. intros y Hy. apply H. now right.
Qed.

Lemma match_here_run (adv : bool) (s : cursor) (c : ascii) (t : list ascii) :
  rest s = c :: t -> p c = true ->
  exists e, match_here class_run adv s = Some e.
Proof.
  intros Hs Hc. unfold match_here.
  rewrite filter_all_in.
  - assert (matches class_run s <> []) as H.
    { unfold plus. cbn [matches]. rewrite Hs, Hc. cbn [flat_map].
      rewrite app_nil_r. apply star_loop_not_nil. }
    destruct (matches class_run s) as [| e l]; [congruence | now exists e].
  - intros e He.
    apply matches_run in He. destruct He as [pre [Hne [Hr _]]].
    unfold shorter. rewrite Hr, length_app.
    destruct pre; [congruence |]. cbn [List.length].
    rewrite orb_true_iff. right. apply Nat.ltb_lt. lia.
Qed.

(** The leftmost run: what is skipped before it has no character of
    the class. *)
Lemma search_at_run (l : list ascii) :
  forall adv q,
    match search_at class_run adv q l with
    | None => Forall (fun c => p c = false) l
    | Some h =>
        exists pre, pre <> []
          /\ l = (skipped h ++ pre ++ rest (h_end h))%list
          /\ Forall (fun c => p c = false) (skipped h)
          /\ Forall (fun c => p c = true) pre
    end.
Proof.
  induction l as [| c t IH]; intros adv q; cbn [search_at].
  - unfold match_here. rewrite matches_run_nil by exact I. cbn. constructor.
  - destruct (p c) eqn:Hc.
    + destruct (match_here_run adv (Cursor q (c :: t) []) c t eq_refl Hc)
        as [e He].
      rewrite He. cbn [skipped h_end].
      apply match_here_In, matches_run in He.
      destruct He as [pre [Hne [Hr Hf]]]. cbn [rest] in Hr.
      exists pre. repeat split; [exact Hne | exact Hr | constructor | exact Hf].
    + unfold match_here at 1. rewrite matches_run_nil by exact Hc. cbn [filter hd_error].
      specialize (IH false (Some c)).
      destruct (search_at class_run false (Some c) t) as [h |]; cbn [option_map].
      * destruct IH as [pre [Hne [Hl [Hs Hf]]]].
        exists pre. cbn [skip skipped h_end].
        repeat split; [exact Hne | now rewrite Hl at 1 | now constructor | exact Hf].
      * now constructor.
Qed.

Lemma filter_kept (l : list ascii) :
  Forall (fun c => p c = false) l -> filter (fun c => negb (p c)) l = l.
Proof.
  intros H. apply filter_all_in. intros x Hx.
  rewrite Forall_forall in H. now rewrite (H x Hx).
Qed.

Lemma filter_dropped (l : list ascii) :
  Forall (fun c => p c = true) l -> filter (fun c => negb (p c)) l = [].
Proof.
  induction 1 as [| x l Hx _ IH]; cbn; [reflexivity |]. now rewrite Hx.
Qed.

Lemma cut_run (fuel : nat) :
  forall adv q l, List.length l < fuel ->
    cut fuel class_run adv q l = filter (fun c => negb (p c)) l.
Proof.
  induction fuel as [| fuel IH]; intros adv q l Hl; [lia |].
  cbn [cut]. pose proof (search_at_run l adv q) as H.
  destruct (search_at class_run adv q l) as [h |].
  - destruct H as [pre [Hne [El [Hs Hf]]]].
    rewrite IH.
    + transitivity (filter (fun c => negb (p c))
                           (skipped h ++ pre ++ rest (h_end h))%list);
        [| now rewrite <- El].
      now rewrite !filter_app, (filter_kept _ Hs), (filter_dropped _ Hf).
    + apply (f_equal (@List.length ascii)) in El.
      rewrite !length_app in El. destruct pre; [congruence |]. cbn in El. lia.
  - symmetry. now apply filter_kept.
Qed.

(** [re.sub("[class]+", "", s)] keeps the characters that are not of
    the class, in their order. *)
Lemma sub_run (s : string) :
  sub class_run s = text (filter (fun c => negb (p c)) (chars s)).
Proof. unfold sub. f_equal. apply cut_run. unfold enough. lia. Qed.

End Runs.

(** ** Pretty lines *)

Lemma len_append (a b : string) : len (a ++ b) = (len a + len b)%Z.
Proof.
  unfold len. rewrite <- Nat2Z.inj_add. f_equal.
  induction a as [| x a IH]; cbn; [reflexivity | now rewrite IH].
Qed.

Lemma chars_append (a b : string) : chars (a ++ b) = (chars a ++ chars b)%list.
Proof. induction a as [| x a IH]; cbn; [reflexivity | now rewrite IH]. Qed.

Section Kept.

(** What [re.sub("[{}|~]+", "", s)] leaves. *)
Lemma sub_not_permitted (s : string) :
  sub re_not_permitted s = text (filter permitted (chars s)).
Proof. unfold re_not_permitted. apply sub_run. Qed.

Lemma permitted_text_kept (s : string) :
  permitted_text (text (filter permitted (chars s))) = true.
Proof.
  unfold permitted_text. rewrite chars_text. apply forallb_forall.
  intros c Hc. apply filter_In in Hc. tauto.
Qed.

Lemma kept_permitted (s : string) :
  permitted_text s = true -> text (filter permitted (chars s)) = s.
Proof.
  unfold permitted_text. intros H. rewrite filter_all_in; [apply text_chars |].
  now apply forallb_forall.
Qed.

Lemma plain_kept (s : string) :
  plain s = true -> plain (text (filter permitted (chars s))) = true.
Proof.
  unfold plain. rewrite chars_text, !forallb_forall. intros H c Hc.
  apply filter_In in Hc. now apply H.
Qed.

Lemma len_kept (s : string) : (len (text (filter permitted (chars s))) <= len s)%Z.
Proof.
  unfold len. rewrite length_text, <- (length_chars s).
  apply inj_le, filter_length_le.
Qed.

(** [str.replace] of a letter that is not in the text. *)
Lemma replace_chars_absent (c : ascii) (new l : list ascii) :
  ~ In c l -> replace_chars [c] new 0 l = l.
Proof.
  induction l as [| x l IH]; intros H; [reflexivity |].
  cbn [replace_chars starts_with].
  destruct (Ascii.eqb_spec c x) as [-> | _]; [exfalso; apply H; now left |].
  cbn [andb]. f_equal. apply IH. intros Hc. apply H. now right.
Qed.

Lemma str_replace_latin1 (n : nat) (new s : string) :
  128 <= n < 256 -> plain s = true -> str_replace (latin1 n) new s = s.
Proof.
  intros Hn Hs. unfold str_replace, latin1. rewrite chars_text.
  rewrite replace_chars_absent; [apply text_chars |].
  intros Hc. unfold plain in Hs. rewrite forallb_forall in Hs.
  specialize (Hs _ Hc). apply Nat.ltb_lt in Hs.
  unfold code in Hs. rewrite nat_ascii_embedding in Hs by lia. lia.
Qed.

Context {Out : Outgoing}.
Hypothesis unidecode_plain : keeps_ascii Out.

Lemma convert_plain (s : string) :
  plain s = true -> convert_text_to_plain_ascii s = s.
Proof.
  intros Hs. unfold convert_text_to_plain_ascii. cbn zeta.
  rewrite (str_replace_latin1 196 "Ae" s) by (lia || exact Hs).
  rewrite (str_replace_latin1 214 "Oe" s) by (lia || exact Hs).
  rewrite (str_replace_latin1 220 "Ue" s) by (lia || exact Hs).
  rewrite (str_replace_latin1 228 "ae" s) by (lia || exact Hs).
  rewrite (str_replace_latin1 246 "oe" s) by (lia || exact Hs).
  rewrite (str_replace_latin1 252 "ue" s) by (lia || exact Hs).
  rewrite (str_replace_latin1 223 "ss" s) by (lia || exact Hs).
  now apply unidecode_plain.
Qed.

(** The text the function works with when the message goes out as
    it is: the message without [{}|~]. *)
Lemma outgoing_text (force : bool) (m : string) :
  sent_as_is force m ->
  (if negb mpad_enforce_unicode_messages && negb force
   then convert_text_to_plain_ascii (sub re_not_permitted m)
   else sub re_not_permitted m)
  = text (filter permitted (chars m)).
Proof.
  intros [H | H]; rewrite sub_not_permitted.
  - destruct mpad_enforce_unicode_messages, force; cbn in *;
      try discriminate; reflexivity.
  - destruct (negb mpad_enforce_unicode_messages && negb force);
      [| reflexivity].
    now apply convert_plain, plain_kept.
Qed.

End Kept.

Section Lines.
Context {Out : Outgoing}.
Hypothesis unidecode_plain : keeps_ascii Out.
Variables (max_len : Z) (separator_char : string) (add_sep force : bool).

Lemma make_pretty_unfold (depth : nat) (m : string) (dl : list string) :
  make_pretty_aprs_messages (S depth) m dl max_len separator_char add_sep force
  = let message_to_add := sub re_not_permitted m in
    let message_to_add :=
      if negb mpad_enforce_unicode_messages && negb force
      then convert_text_to_plain_ascii message_to_add
      else message_to_add in
    if (max_len <? len message_to_add)%Z then
      fold_left
        (fun destination_list split =>
           match destination_list with
           | Some destination_list =>
               if (len split <? max_len)%Z then
                 make_pretty_aprs_messages
                   depth split destination_list max_len separator_char
                   add_sep force
               else
                 match split_string_to_string_list split max_len with
                 | Some string_list => Some (destination_list ++ string_list)%list
                 | None => None
                 end
           | None => None
           end)
        (str_split message_to_add) (Some dl)
    else
      Some (insert_message message_to_add dl max_len separator_char add_sep).
Proof. reflexivity. Qed.

(** The words of a text are made of its characters. *)
Lemma split_chars_forall (P : ascii -> Prop) (l cur : list ascii) :
  Forall P cur -> Forall P l -> Forall (Forall P) (split_chars cur l).
Proof.
  revert cur. induction l as [| c l IH]; intros cur Hc Hl; cbn [split_chars].
  - destruct cur; [constructor |]. constructor; [| constructor].
    now apply Forall_rev.
  - inversion_clear Hl as [| ? ? Hx Hl'].
    destruct (is_space c).
    + destruct cur; [now apply IH |].
      constructor; [now apply Forall_rev | now apply IH].
    + apply IH; [now constructor | exact Hl'].
Qed.

Lemma str_split_forallb (f : ascii -> bool) (s w : string) :
  forallb f (chars s) = true -> In w (str_split s) -> forallb f (chars w) = true.
Proof.
  intros Hs Hw. unfold str_split in Hw. apply in_map_iff in Hw.
  destruct Hw as [l [<- Hl]]. rewrite chars_text.
  pose proof (split_chars_forall (fun c => f c = true) (chars s) []
                (Forall_nil _)) as H.
  rewrite forallb_forall in Hs. rewrite <- Forall_forall in Hs.
  specialize (H Hs). rewrite Forall_forall in H. specialize (H l Hl).
  apply forallb_forall. now apply Forall_forall.
Qed.

Lemma word_of_kept (m w : string) :
  sent_as_is force m ->
  In w (str_split (text (filter permitted (chars m)))) ->
  permitted_text w = true /\ sent_as_is force w.
Proof.
  intros Hm Hw. split.
  - eapply str_split_forallb; [| exact Hw]. apply permitted_text_kept.
  - destruct Hm as [H | H]; [now left | right].
    eapply str_split_forallb; [| exact Hw]. now apply plain_kept.
Qed.

(** A text that fits a line is inserted. *)
Lemma make_pretty_short (depth : nat) (w : string) (dl : list string) :
  permitted_text w = true -> sent_as_is force w -> (len w <= max_len)%Z ->
  make_pretty_aprs_messages (S depth) w dl max_len separator_char add_sep force
  = Some (insert_message w dl max_len separator_char add_sep).
Proof.
  intros Hp Hs Hl. rewrite make_pretty_unfold. cbn zeta.
  rewrite (outgoing_text unidecode_plain force w Hs), (kept_permitted w Hp).
  destruct (Z.ltb_spec max_len (len w)) as [H | _]; [lia | reflexivity].
Qed.

(** What holds of the lines before and is kept by an insertion and by
    the chunks of a long word holds of the lines the function
    returns; and it does return them. *)
Lemma pretty_invariant (I : list string -> Prop) (depth : nat)
      (m : string) (dl : list string) :
  (0 < max_len)%Z -> sent_as_is force m ->
  (forall w l, permitted_text w = true -> (len w <= max_len)%Z -> I l ->
               I (insert_message w l max_len separator_char add_sep)) ->
  (forall w l chunks,
      permitted_text w = true ->
      split_string_to_string_list w max_len = Some chunks ->
      I l -> I (l ++ chunks)%list) ->
  I dl ->
  exists r,
    make_pretty_aprs_messages (S (S depth)) m dl max_len separator_char
                              add_sep force = Some r
    /\ I r.
Proof.
  intros Hmax Hm Hins Hchunks Hdl.
  rewrite make_pretty_unfold. cbn zeta.
  rewrite (outgoing_text unidecode_plain force m Hm).
  pose proof (word_of_kept m) as Hw. specialize (fun w => Hw w Hm).
  pose proof (permitted_text_kept m) as Hk.
  destruct (Z.ltb_spec max_len (len (text (filter permitted (chars m)))))
    as [_ | Hlen].
  - revert dl Hdl Hw.
    generalize (str_split (text (filter permitted (chars m)))) as ws.
    induction ws as [| w ws IH]; intros dl Hdl Hw.
    + exists dl. split; [reflexivity | exact Hdl].
    + cbn [fold_left].
      destruct (Hw w (or_introl eq_refl)) as [Hp Hs].
      destruct (Z.ltb_spec (len w) max_len) as [Hshort | Hlong].
      * rewrite (make_pretty_short depth w dl Hp Hs) by lia.
        apply IH; [apply Hins; [exact Hp | lia | exact Hdl] |].
        intros x Hx. apply Hw. now right.
      * pose proof (split_chunks w max_len Hmax) as Ec.
        rewrite Ec.
        apply IH; [exact (Hchunks w dl _ Hp Ec Hdl) |].
        intros x Hx. apply Hw. now right.
  - eexists. split; [reflexivity |]. now apply Hins.
Qed.

(** *** The parts of an insertion *)

Lemma rev_cons_eq {A : Type} (l b : list A) (x : A) :
  rev l = x :: b -> l = (rev b ++ [x])%list.
Proof.
  intros H. rewrite <- (rev_involutive l), H. reflexivity.
Qed.

Lemma insert_message_cases (w : string) (l : list string) :
  insert_message w l max_len separator_char add_sep = (l ++ [w])%list
  \/ exists before last delimiter,
       l = (before ++ [last])%list
       /\ (delimiter = separator_char \/ delimiter = "")
       /\ (len last + len w + 1 <= max_len)%Z
       /\ insert_message w l max_len separator_char add_sep
          = (before ++ [(last ++ delimiter ++ w)%string])%list.
Proof.
  unfold insert_message.
  destruct (rev l) as [| last before] eqn:E; [now left |].
  destruct (Z.leb_spec (len last + len w + 1) max_len) as [H | _]; [| now left].
  right. exists (rev before), last. cbn zeta.
  eexists. split; [now apply rev_cons_eq |].
  split; [| split; [exact H | reflexivity]].
  destruct ((0 <? len last)%Z && add_sep); auto.
Qed.

Lemma chunks_of (w : string) (chunks : list string) (c : string) :
  (0 < max_len)%Z ->
  split_string_to_string_list w max_len = Some chunks -> In c chunks ->
  (len c <= max_len)%Z
  /\ exists k, chars c = chunk (Z.to_nat max_len) (chars w) k.
Proof.
  intros Hmax Hs Hc. rewrite split_chunks in Hs by exact Hmax.
  injection Hs as <-. apply in_map_iff in Hc. destruct Hc as [k [<- _]].
  split; [| exists k; apply chars_text].
  unfold len. rewrite length_text, length_chunk. lia.
Qed.

End Lines.

Lemma in_place_refl (l : list string) : in_place l l.
Proof.
  split; [lia |]. intros i line H. exists line.
  split; [exact H | split; [exists ""; now rewrite append_empty_r | reflexivity]].
Qed.

Lemma prefix_of_trans (a b c : string) :
  prefix_of a b -> prefix_of b c -> prefix_of a c.
Proof.
  intros [x ->] [y ->]. exists (x ++ y). apply append_assoc.
Qed.

Lemma in_place_trans (a b c : list string) :
  in_place a b -> in_place b c -> in_place a c.
Proof.
  intros [Lab Hab] [Lbc Hbc]. split; [lia |].
  intros i line Hi.
  destruct (Hab i line Hi) as [line' [Hi' [P1 E1]]].
  destruct (Hbc i line' Hi') as [line'' [Hi'' [P2 E2]]].
  exists line''. split; [exact Hi'' |].
  split; [eapply prefix_of_trans; eassumption |].
  intros Hlt. rewrite E2 by lia. now apply E1.
Qed.

Lemma in_place_app (l more : list string) : in_place l (l ++ more).
Proof.
  split; [rewrite length_app; lia |]. intros i line H. exists line.
  split; [rewrite nth_error_app1; [exact H | now apply nth_error_Some; congruence] |].
  split; [exists ""; now rewrite append_empty_r | reflexivity].
Qed.

Lemma in_place_last (before : list string) (last suffix : string) :
  in_place (before ++ [last]) (before ++ [last ++ suffix]).
Proof.
  split; [rewrite !length_app; cbn; lia |]. intros i line H.
  destruct (Nat.lt_ge_cases i (List.length before)) as [Hi | Hi].
  - rewrite nth_error_app1 in H by exact Hi. exists line.
    split; [now rewrite nth_error_app1 |].
    split; [exists ""; now rewrite append_empty_r | reflexivity].
  - rewrite nth_error_app2 in H by exact Hi.
    destruct (i - List.length before) as [| k] eqn:Ek;
      [| destruct k; discriminate H].
    cbn in H. injection H as <-. exists (last ++ suffix).
    split; [rewrite nth_error_app2 by exact Hi; now rewrite Ek |].
    split; [now exists suffix |].
    rewrite length_app. cbn. lia.
Qed.

Lemma in_firstn {A : Type} (n : nat) (l : list A) (x : A) :
  In x (firstn n l) -> In x l.
Proof.
  revert l. induction n as [| n IH]; intros [| y l]; cbn; try tauto.
  intros [-> | H]; [now left | right; now apply IH].
Qed.

Lemma in_skipn {A : Type} (n : nat) (l : list A) (x : A) :
  In x (skipn n l) -> In x l.
Proof.
  revert l. induction n as [| n IH]; intros [| y l]; cbn; try tauto.
  intros H. right. now apply IH.
Qed.

Lemma forallb_chunk (f : ascii -> bool) (n k : nat) (l : list ascii) :
  forallb f l = true -> forallb f (chunk n l k) = true.
Proof.
  rewrite !forallb_forall. intros H c Hc. apply H. unfold chunk in Hc.
  eapply in_skipn, in_firstn, Hc.
Qed.

Lemma keeps_ascii_verbatim : keeps_ascii verbatim.
Proof. intros s _. reflexivity. Qed.

(** No line of the result is longer than [max_len], if none was
    before: for a positive [max_len], a separator of at most one
    character and a message that goes out as it is, the function
    returns its list, with a depth of recursion of two. *)
Theorem pretty_lines_fit {Out : Outgoing} (depth : nat)
        (message_to_add : string) (destination_list : list string)
        (max_len : Z) (separator_char : string) (add_sep force : bool) :
  keeps_ascii Out -> (0 < max_len)%Z -> sent_as_is force message_to_add ->
  (len separator_char <= 1)%Z ->
  Forall (fun line => (len line <= max_len)%Z) destination_list ->
  exists lines,
    make_pretty_aprs_messages (S (S depth)) message_to_add destination_list
                              max_len separator_char add_sep force
    = Some lines
    /\ Forall (fun line => (len line <= max_len)%Z) lines.
Proof.
  intros Hu Hmax Hm Hsep Hdl.
  apply (pretty_invariant Hu); try assumption.
  - intros w l Hp Hw Hl.
    destruct (insert_message_cases max_len separator_char add_sep w l)
      as [-> | [before [last [delimiter [-> [Hd [Hfit ->]]]]]]].
    + apply Forall_app. split; [exact Hl | now constructor].
    + apply Forall_app in Hl. destruct Hl as [Hb _].
      apply Forall_app. split; [exact Hb |]. constructor; [| constructor].
      rewrite !len_append.
      assert (len delimiter <= 1)%Z by (destruct Hd as [-> | ->]; [lia | cbn; lia]).
      lia.
  - intros w l chunks _ Hc Hl. apply Forall_app. split; [exact Hl |].
    apply Forall_forall. intros c Hin.
    now destruct (chunks_of max_len w chunks c Hmax Hc Hin).
Qed.

Lemma pretty_lines_fit_witness :
  keeps_ascii verbatim /\ (0 < 10)%Z
  /\ @sent_as_is verbatim false "aaa bbbbbbbbbbbbbbbbbb cc dd"
  /\ (len " " <= 1)%Z
  /\ Forall (fun line => (len line <= 10)%Z) ["11111"; "22"]
  /\ exists lines,
       @make_pretty_aprs_messages verbatim 2 "aaa bbbbbbbbbbbbbbbbbb cc dd"
                                  ["11111"; "22"] 10 " " true false
       = Some lines
       /\ Forall (fun line => (len line <= 10)%Z) lines.
Proof.
  assert (@sent_as_is verbatim false "aaa bbbbbbbbbbbbbbbbbb cc dd") as H1
      by (right; reflexivity).
  assert (len " " <= 1)%Z as H2 by (cbn; lia).
  assert (Forall (fun line => (len line <= 10)%Z) ["11111"; "22"]) as H3
      by (repeat constructor; cbn; lia).
  split; [exact keeps_ascii_verbatim |]. split; [lia |].
  split; [exact H1 |]. split; [exact H2 |]. split; [exact H3 |].
  exact (@pretty_lines_fit verbatim 0 "aaa bbbbbbbbbbbbbbbbbb cc dd"
           ["11111"; "22"] 10 " " true false keeps_ascii_verbatim
           ltac:(lia) H1 H2 H3).
Defined.

(** The lines that were there stay where they are: the function
    adds text after the last one and lines after it, and changes
    nothing else. *)
Theorem pretty_lines_in_place {Out : Outgoing} (depth : nat)
        (message_to_add : string) (destination_list : list string)
        (max_len : Z) (separator_char : string) (add_sep force : bool) :
  keeps_ascii Out -> (0 < max_len)%Z -> sent_as_is force message_to_add ->
  exists lines,
    make_pretty_aprs_messages (S (S depth)) message_to_add destination_list
                              max_len separator_char add_sep force
    = Some lines
    /\ in_place destination_list lines.
Proof.
  intros Hu Hmax Hm.
  apply (pretty_invariant Hu max_len separator_char add_sep force
           (in_place destination_list)); try assumption.
  - intros w l _ _ Hl. eapply in_place_trans; [exact Hl |].
    destruct (insert_message_cases max_len separator_char add_sep w l)
      as [-> | [before [last [delimiter [-> [_ [_ ->]]]]]]].
    + apply in_place_app.
    + apply in_place_last.
  - intros w l chunks _ _ Hl. eapply in_place_trans; [exact Hl |].
    apply in_place_app.
  - apply in_place_refl.
Qed.

Lemma pretty_lines_in_place_witness :
  keeps_ascii verbatim /\ (0 < 10)%Z
  /\ @sent_as_is verbatim false "aaa bbbbbbbbbbbbbbbbbb cc dd"
  /\ exists lines,
       @make_pretty_aprs_messages verbatim 2 "aaa bbbbbbbbbbbbbbbbbb cc dd"
                                  ["11111"; "22"] 10 " " true false
       = Some lines
       /\ in_place ["11111"; "22"] lines.
Proof.
  assert (@sent_as_is verbatim false "aaa bbbbbbbbbbbbbbbbbb cc dd") as H1
      by (right; reflexivity).
  split; [exact keeps_ascii_verbatim |]. split; [lia |]. split; [exact H1 |].
  exact (@pretty_lines_in_place verbatim 0 "aaa bbbbbbbbbbbbbbbbbb cc dd"
           ["11111"; "22"] 10 " " true false keeps_ascii_verbatim
           ltac:(lia) H1).
Defined.

(** The function adds none of the characters [{}|~]: where the
    lines before and the separator have none, the lines of the
    result have none. *)
Theorem pretty_lines_permitted {Out : Outgoing} (depth : nat)
        (message_to_add : string) (destination_list : list string)
        (max_len : Z) (separator_char : string) (add_sep force : bool) :
  keeps_ascii Out -> (0 < max_len)%Z -> sent_as_is force message_to_add ->
  permitted_text separator_char = true ->
  Forall (fun line => permitted_text line = true) destination_list ->
  exists lines,
    make_pretty_aprs_messages (S (S depth)) message_to_add destination_list
                              max_len separator_char add_sep force
    = Some lines
    /\ Forall (fun line => permitted_text line = true) lines.
Proof.
  intros Hu Hmax Hm Hsep Hdl.
  apply (pretty_invariant Hu); try assumption.
  - intros w l Hp _ Hl.
    destruct (insert_message_cases max_len separator_char add_sep w l)
      as [-> | [before [last [delimiter [-> [Hd [_ ->]]]]]]].
    + apply Forall_app. split; [exact Hl | now constructor].
    + apply Forall_app in Hl. destruct Hl as [Hb Hlast].
      inversion_clear Hlast as [| ? ? Hlast' _].
      apply Forall_app. split; [exact Hb |]. constructor; [| constructor].
      unfold permitted_text in *. rewrite !chars_append, !forallb_app.
      rewrite Hlast', Hp.
      destruct Hd as [-> | ->]; [now rewrite Hsep | reflexivity].
  - intros w l chunks Hp Hc Hl. apply Forall_app. split; [exact Hl |].
    apply Forall_forall. intros c Hin.
    destruct (chunks_of max_len w chunks c Hmax Hc Hin) as [_ [k Hk]].
    unfold permitted_text. rewrite Hk. now apply forallb_chunk.
Qed.

Lemma pretty_lines_permitted_witness :
  keeps_ascii verbatim /\ (0 < 67)%Z
  /\ @sent_as_is verbatim false "Hello{} World~ !!!!"
  /\ permitted_text " " = true
  /\ Forall (fun line => permitted_text line = true) ["11111"; "22"]
  /\ exists lines,
       @make_pretty_aprs_messages verbatim 2 "Hello{} World~ !!!!"
                                  ["11111"; "22"] 67 " " true false
       = Some lines
       /\ Forall (fun line => permitted_text line = true) lines.
Proof.
  assert (@sent_as_is verbatim false "Hello{} World~ !!!!") as H1
      by (right; reflexivity).
  assert (Forall (fun line => permitted_text line = true) ["11111"; "22"]) as H3
      by (repeat constructor).
  split; [exact keeps_ascii_verbatim |]. split; [lia |].
  split; [exact H1 |]. split; [reflexivity |]. split; [exact H3 |].
  exact (@pretty_lines_permitted verbatim 0 "Hello{} World~ !!!!"
           ["11111"; "22"] 67 " " true false keeps_ascii_verbatim
           ltac:(lia) H1 eq_refl H3).
Defined.

(** With a negative [max_len] the message is lost: the function
    returns the lines it was given, whatever the message and the
    settings. *)
Theorem pretty_negative_max_len {Out : Outgoing} (depth : nat)
        (message_to_add : string) (destination_list : list string)
        (max_len : Z) (separator_char : string) (add_sep force : bool) :
  (max_len < 0)%Z ->
  make_pretty_aprs_messages (S depth) message_to_add destination_list
                            max_len separator_char add_sep force
  = Some destination_list.
Proof.
  intros Hmax. rewrite make_pretty_unfold. cbn zeta.
  match goal with
  | |- context [str_split ?m] => generalize m
  end.
  intros m.
  destruct (Z.ltb_spec max_len (len m)) as [_ | H]; [| unfold len in H; lia].
  generalize (str_split m) as ws.
  induction ws as [| w ws IH]; [reflexivity |].
  cbn [fold_left].
  destruct (Z.ltb_spec (len w) max_len) as [H | _]; [unfold len in H; lia |].
  rewrite (split_string_negative w max_len Hmax), app_nil_r. exact IH.
Qed.

Lemma pretty_negative_max_len_witness :
  (-1 < 0)%Z
  /\ @make_pretty_aprs_messages verbatim 1 "aaaa bbbb" ["x"] (-1) " " true false
     = Some ["x"].
Proof.
  split; [lia |].
  exact (@pretty_negative_max_len verbatim 0 "aaaa bbbb" ["x"] (-1) " "
           true false ltac:(lia)).
Defined.

(** ** The best matching time *)

Section Best.
Variable target : datetime.
Variable element : string.

Lemma closest_entry_spec (l : list entry) :
  forall best d,
    Forall (stamped element) l ->
    exists best' d',
      closest_entry target l best d = Some (best', d')
      /\ ((Forall (fun e => (d <= distance target e)%Z) l
           /\ best' = best /\ d' = d)
          \/ (exists b, best' = Some b /\ d' = distance target b
                        /\ (d' < d)%Z /\ first_closest target l b)).
Proof.
  induction l as [| e l IH]; intros best d Hl.
  - exists best, d. split; [reflexivity |]. left. now repeat split.
  - inversion_clear Hl as [| ? ? He Hl'].
    destruct He as [[t [Ht _]] _].
    cbn [closest_entry]. rewrite Ht. cbn zeta.
    assert (distance target e = Z.abs (t - target)) as De
        by (unfold distance; now rewrite Ht).
    rewrite <- De.
    destruct (Z.ltb_spec (distance target e) d) as [Hlt | Hge].
    + destruct (IH (Some e) (distance target e) Hl')
        as [best' [d' [E [[Hall [-> ->]] | [b [-> [-> [Hb Hf]]]]]]]].
      * exists (Some e), (distance target e). split; [exact E |]. right.
        exists e. repeat split; [exact Hlt |].
        exists [], l. repeat split; [constructor | exact Hall].
      * exists (Some b), (distance target b). split; [exact E |]. right.
        exists b. repeat split; [lia |].
        destruct Hf as [pre [post [-> [Hpre Hpost]]]].
        exists (e :: pre), post.
        repeat split; [now constructor | exact Hpost].
    + destruct (IH best d Hl')
        as [best' [d' [E [[Hall [-> ->]] | [b [-> [-> [Hb Hf]]]]]]]].
      * exists best, d. split; [exact E |]. left.
        repeat split. now constructor.
      * exists (Some b), (distance target b). split; [exact E |]. right.
        exists b. repeat split; [exact Hb |].
        destruct Hf as [pre [post [-> [Hpre Hpost]]]].
        exists (e :: pre), post.
        repeat split; [constructor; [lia | exact Hpre] | exact Hpost].
Qed.

Lemma distance_valid (e : entry) :
  valid_datetime target -> stamped element e ->
  (0 <= distance target e < timedelta_max)%Z.
Proof.
  intros Ht [[t [E Hv]] _]. unfold distance. rewrite E.
  unfold valid_datetime, datetime_min, datetime_max, timedelta_max in *. lia.
Qed.

(** The entry next to the target, for a list that is not empty. *)
Lemma closest_entry_found (l : list entry) :
  valid_datetime target -> Forall (stamped element) l -> l <> [] ->
  exists b,
    closest_entry target l None timedelta_max = Some (Some b, distance target b)
    /\ first_closest target l b.
Proof.
  intros Ht Hl Hne.
  destruct (closest_entry_spec l None timedelta_max Hl)
    as [best' [d' [E [[Hall _] | [b [-> [-> [_ Hf]]]]]]]].
  - destruct l as [| e l]; [congruence |].
    inversion_clear Hall as [| ? ? He _]. inversion_clear Hl as [| ? ? Hs _].
    pose proof (distance_valid e Ht Hs). lia.
  - exists b. split; [exact E | exact Hf].
Qed.

Lemma first_closest_in (l : list entry) (b : entry) :
  first_closest target l b ->
  In b l /\ forall e, In e l -> (distance target b <= distance target e)%Z.
Proof.
  intros [pre [post [-> [Hpre Hpost]]]]. split; [apply in_elt |].
  intros e He. apply in_app_or in He.
  rewrite Forall_forall in Hpre, Hpost.
  destruct He as [He | [<- | He]]; [specialize (Hpre e He) | | specialize (Hpost e He)];
    lia.
Qed.

(** The second loop gives entries of the list, and one at least. *)
Lemma neighbours_spec (l : list entry) :
  forall smaller,
    Forall (stamped element) l ->
    (forall s, smaller = Some s -> stamped element s) ->
    exists g s,
      neighbours target l element smaller = Some (g, s)
      /\ (forall e, g = Some e -> In e l)
      /\ (forall e, s = Some e -> In e l \/ smaller = Some e)
      /\ (l <> [] -> g <> None \/ exists e, s = Some e /\ In e l).
Proof.
  induction l as [| e l IH]; intros smaller Hl Hs.
  - exists None, smaller. split; [reflexivity |].
    repeat split; [discriminate | intros e ->; now right | congruence].
  - inversion_clear Hl as [| ? ? He Hl'].
    destruct He as [Hts [u Hu]]. cbn [neighbours]. rewrite Hu.
    destruct (Z.leb_spec target u) as [_ | _].
    + exists (Some e), smaller. split; [reflexivity |].
      repeat split.
      * intros x [= <-]. now left.
      * intros x ->. now right.
      * intros _. left. discriminate.
    + destruct (IH (Some e) Hl') as [g [s [E [Hg [Hsm Hne]]]]].
      { intros x [= <-]. split; [exact Hts | now exists u]. }
      exists g, s. split; [exact E |]. repeat split.
      * intros x Hx. right. now apply Hg.
      * intros x Hx. destruct (Hsm x Hx) as [H | [= <-]];
          [left; now right | left; now left].
      * intros _. destruct l as [| e' l'].
        -- cbn in E. injection E as <- <-. right. exists e.
           split; [reflexivity | now left].
        -- destruct (Hne ltac:(discriminate)) as [H | [x [-> Hx]]];
             [now left | right]. exists x. split; [reflexivity | now right].
Qed.

Lemma stamped_is_entry (e : entry) :
  stamped element e -> is_entry (Some e) = true.
Proof.
  intros [[t [Ht _]] _]. destruct e; [discriminate Ht | reflexivity].
Qed.

End Best.


(** Where an entry lies within the gap, the function returns the
    first of the entries that are next to the target: no entry is
    nearer, and the entries before it are farther. *)
Theorem best_matching_time_is_closest
        (target_utc_time : datetime) (timestamp_data : list entry)
        (timestamp_data_element : string) (gap_half : Z) (near : entry) :
  valid_datetime target_utc_time ->
  Forall (stamped timestamp_data_element) timestamp_data ->
  (0 <= gap_half <= 23999999999)%Z ->
  In near timestamp_data ->
  (distance target_utc_time near <= gap_half * 3600000000)%Z ->
  exists e,
    find_best_matching_time target_utc_time timestamp_data
                            timestamp_data_element gap_half
    = Some (Some e)
    /\ first_closest target_utc_time timestamp_data e
    /\ (distance target_utc_time e <= gap_half * 3600000000)%Z.
Proof.
  intros Ht Hl Hgap Hin Hnear. unfold find_best_matching_time.
  assert (timedelta_hours gap_half = Some (gap_half * 3600000000)%Z) as ->.
  { unfold timedelta_hours. cbn zeta.
    destruct (Z.leb_spec (Z.abs (gap_half * 3600000000)) timedelta_max)
      as [_ | H]; [reflexivity |].
    unfold timedelta_max in H. lia. }
  assert (timestamp_data <> []) as Hne by (intros ->; destruct Hin).
  destruct (closest_entry_found target_utc_time timestamp_data_element
              timestamp_data Ht Hl Hne) as [b [-> Hb]].
  destruct (first_closest_in target_utc_time timestamp_data b Hb) as [_ Hmin].
  specialize (Hmin near Hin).
  destruct (Z.leb_spec (distance target_utc_time b) (gap_half * 3600000000))
    as [Hle | Hgt]; [| lia].
  exists b. repeat split; [exact Hb | exact Hle].
Qed.


Lemma best_matching_time_is_closest_witness :
  valid_datetime 10000000000%Z
  /\ Forall (stamped "timestamp")
            [[("timestamp", 7000000000%Z)]; [("timestamp", 13000000000%Z)]]
  /\ (0 <= 3 <= 23999999999%Z)%Z
  /\ In [("timestamp", 13000000000%Z)]
        [[("timestamp", 7000000000%Z)]; [("timestamp", 13000000000%Z)]]
  /\ (distance 10000000000%Z [("timestamp", 13000000000%Z)] <= 3 * 3600000000%Z)%Z
  /\ exists e,
       find_best_matching_time
         10000000000%Z
         [[("timestamp", 7000000000%Z)]; [("timestamp", 13000000000%Z)]]
         "timestamp" 3%Z
       = Some (Some e)
       /\ first_closest
            10000000000%Z
            [[("timestamp", 7000000000%Z)]; [("timestamp", 13000000000%Z)]] e
       /\ (distance 10000000000%Z e <= 3 * 3600000000%Z)%Z.
Proof.
  assert (valid_datetime 10000000000%Z) as H1
      by (unfold valid_datetime, datetime_min, datetime_max; lia).
  assert (Forall (stamped "timestamp")
                 [[("timestamp", 7000000000%Z)]; [("timestamp", 13000000000%Z)]])
    as H2.
  { repeat constructor;
      try (eexists; split; [reflexivity |];
           unfold valid_datetime, datetime_min, datetime_max; lia);
      eexists; reflexivity. }
  assert (0 <= 3 <= 23999999999%Z)%Z as H3 by lia.
  assert (In [("timestamp", 13000000000%Z)]
             [[("timestamp", 7000000000%Z)]; [("timestamp", 13000000000%Z)]])
    as H4 by (right; left; reflexivity).
  assert (distance 10000000000%Z [("timestamp", 13000000000%Z)]
          <= 3 * 3600000000%Z)%Z as H5 by (vm_compute; discriminate).
  split; [exact H1 |]. split; [exact H2 |]. split; [exact H3 |].
  split; [exact H4 |]. split; [exact H5 |].
  exact (best_matching_time_is_closest
           10000000000%Z
           [[("timestamp", 7000000000%Z)]; [("timestamp", 13000000000%Z)]]
           "timestamp" 3%Z [("timestamp", 13000000000%Z)] H1 H2 H3 H4 H5).
Defined.

(** The order of the list matters where no entry lies within the
    gap: the entry the function returns may be farther than
    another. *)
Example best_matching_time_unsorted :
  find_best_matching_time
    36000000000%Z
    [[("timestamp", 108000000000%Z)]; [("timestamp", 0%Z)]] "timestamp" 3%Z
  = Some (Some [("timestamp", 108000000000%Z)]).
Proof. reflexivity. Qed.

(** ** The text in hexadecimal *)

Lemma hex_digit_injective (a b : nat) :
  a < 16 -> b < 16 -> hex_digit a = hex_digit b -> a = b.
Proof.
  intros Ha Hb H. apply (f_equal nat_of_ascii) in H. unfold hex_digit in H.
  destruct (Nat.ltb_spec a 10), (Nat.ltb_spec b 10);
    rewrite !nat_ascii_embedding in H by lia; lia.
Qed.

Lemma code_bound (c : ascii) : code c < 256.
Proof. apply nat_ascii_bounded. Qed.

Lemma code_injective (a b : ascii) : code a = code b -> a = b.
Proof.
  unfold code. intros H. rewrite <- (ascii_nat_embedding a), <- (ascii_nat_embedding b).
  now rewrite H.
Qed.

(** Two digits for every character from code 16 on: the text can
    be read back, and texts without control characters below 16 that
    differ have dumps that differ. *)
Theorem dump_string_to_hex_injective (a b : string) :
  Forall (fun c => 16 <= code c) (chars a) ->
  Forall (fun c => 16 <= code c) (chars b) ->
  dump_string_to_hex a = dump_string_to_hex b -> a = b.
Proof.
  intros Ha Hb H. unfold dump_string_to_hex in H.
  apply (f_equal chars) in H. rewrite !chars_text in H.
  rewrite <- (text_chars a), <- (text_chars b). f_equal.
  revert Ha Hb H. generalize (chars a) (chars b). clear a b.
  induction l as [| x l IH]; intros [| y m] Ha Hb H.
  - reflexivity.
  - inversion_clear Hb as [| ? ? Hy _]. cbn [flat_map] in H.
    unfold hex_of_char in H. destruct (Nat.ltb_spec (code y) 16); [lia |].
    discriminate H.
  - inversion_clear Ha as [| ? ? Hx _]. cbn [flat_map] in H.
    unfold hex_of_char in H. destruct (Nat.ltb_spec (code x) 16); [lia |].
    discriminate H.
  - inversion_clear Ha as [| ? ? Hx Ha']. inversion_clear Hb as [| ? ? Hy Hb'].
    cbn [flat_map] in H. unfold hex_of_char in H.
    destruct (Nat.ltb_spec (code x) 16); [lia |].
    destruct (Nat.ltb_spec (code y) 16); [lia |].
    pose proof (code_bound x) as Bx. pose proof (code_bound y) as By.
    pose proof (Nat.div_mod_eq (code x) 16) as Dx.
    pose proof (Nat.div_mod_eq (code y) 16) as Dy.
    assert (code x / 16 < 16) as Qx by (apply Nat.Div0.div_lt_upper_bound; lia).
    assert (code y / 16 < 16) as Qy by (apply Nat.Div0.div_lt_upper_bound; lia).
    pose proof (Nat.mod_upper_bound (code x) 16 ltac:(lia)) as Rx.
    pose proof (Nat.mod_upper_bound (code y) 16 ltac:(lia)) as Ry.
    revert H Dx Dy Qx Qy Rx Ry.
    generalize (code x / 16) (code x mod 16) (code y / 16) (code y mod 16).
    intros qx rx qy ry H Dx Dy Qx Qy Rx Ry.
    cbn [app] in H. injection H as E1 E2 E3.
    apply hex_digit_injective in E1; [| exact Qx | exact Qy].
    apply hex_digit_injective in E2; [| exact Rx | exact Ry].
    f_equal; [| now apply IH].
    apply code_injective. lia.
Qed.

Lemma dump_string_to_hex_injective_witness :
  Forall (fun c => 16 <= code c) (chars "Hello")
  /\ Forall (fun c => 16 <= code c) (chars "Hello")
  /\ dump_string_to_hex "Hello" = dump_string_to_hex "Hello"
  /\ "Hello" = "Hello".
Proof.
  assert (Forall (fun c => 16 <= code c) (chars "Hello")) as H
      by (repeat constructor; cbn; lia).
  split; [exact H |]. split; [exact H |]. split; [reflexivity |].
  exact (dump_string_to_hex_injective "Hello" "Hello" H H eq_refl).
Defined.

(** Below 16 a character gives one digit, and dumps can coincide. *)
Example dump_string_to_hex_collision :
  dump_string_to_hex (text [ascii_of_nat 1; ascii_of_nat 17])
  = dump_string_to_hex (text [ascii_of_nat 17; ascii_of_nat 1]).
Proof. reflexivity. Qed.
